(** * Recurrent layers: a shallow embedding of [keras/layers/recurrent.py]

    The development follows the Python module top to bottom: the attention
    scorer [compute_attention], [StackedRNNCells], the [RNN] base layer, the
    plain cells ([SimpleRNNCell], [GRUCell], [LSTMCell]) with their wrappers,
    and the attentional variants.

    Tensors hold real numbers: floating point rounding is not modelled.
    Exceptions are values of [Py.result]; attributes mutated by a method are
    returned next to its result. *)

From Stdlib Require Import String DecimalString List Bool Arith Lia QArith Reals Lra.
Import ListNotations.

Close Scope Q_scope.
Close Scope R_scope.
Local Open Scope nat_scope.

(* ================================================================== *)
(** * Python values, exceptions and sequences *)
(* ================================================================== *)

Module Py.

Local Open Scope string_scope.

(** An exception is its class name and its message (or, for [NameError],
    the name that could not be resolved). *)
Inductive exception := Exception (cls : string) (msg : string).

Definition ValueError := Exception "ValueError".
Definition AttributeError := Exception "AttributeError".
Definition NotImplementedError := Exception "NotImplementedError".
Definition TypeError := Exception "TypeError".
Definition IndexError := Exception "IndexError".
Definition NameError := Exception "NameError".

(** The error class of the design notes' taxonomy.  No [raise] statement of
    recurrent.py names it. *)
Definition ConfigurationError := Exception "ConfigurationError".

Definition exn_class (e : exception) : string :=
  match e with Exception cls _ => cls end.

Inductive result (A : Type) :=
| Ok (a : A)
| Raise (e : exception).
Arguments Ok {A} a.
Arguments Raise {A} e.

Definition bind {A B} (r : result A) (k : A -> result B) : result B :=
  match r with
  | Ok a => k a
  | Raise e => Raise e
  end.

Definition fmap {A B} (f : A -> B) (r : result A) : result B :=
  bind r (fun a => Ok (f a)).

Definition is_ok {A} (r : result A) : bool :=
  match r with Ok _ => true | Raise _ => false end.

Fixpoint mapM {A B} (f : A -> result B) (l : list A) : result (list B) :=
  match l with
  | [] => Ok []
  | a :: l' =>
      bind (f a) (fun b => bind (mapM f l') (fun bs => Ok (b :: bs)))
  end.

(** [l[i]] for [i >= 0]. *)
Definition getitem {A} (l : list A) (i : nat) : result A :=
  match nth_error l i with
  | Some a => Ok a
  | None => Raise (IndexError "list index out of range")
  end.

(** [l[a:b]] and [l[a:]] for [0 <= a], [0 <= b]. *)
Definition slice {A} (a : nat) (b : option nat) (l : list A) : list A :=
  match b with
  | Some b => firstn (b - a) (skipn a l)
  | None => skipn a l
  end.

(** [0 < rate < 1] on Python floats, kept as rationals. *)
Definition in_open_unit (rate : Q) : bool :=
  negb (Qle_bool rate 0) && negb (Qle_bool 1 rate).

(** [str(n)] *)
Definition str (n : nat) : string := NilZero.string_of_uint (Nat.to_uint n).

(** An argument that is either one object or a Python list of them (the
    [isinstance(x, list)] tests). *)
Inductive arg (A : Type) :=
| One (a : A)
| Several (l : list A).
Arguments One {A} a.
Arguments Several {A} l.

(** ** Methods that mutate

    A computation that may raise and that reads and updates the objects in
    [S]; what was mutated before an exception stays mutated. *)
Definition M (S A : Type) : Type := S -> result A * S.

Definition ret {S A} (a : A) : M S A := fun s => (Ok a, s).

Definition lift {S A} (r : result A) : M S A := fun s => (r, s).

Definition bindM {S A B} (m : M S A) (k : A -> M S B) : M S B :=
  fun s =>
    match m s with
    | (Ok a, s') => k a s'
    | (Raise e, s') => (Raise e, s')
    end.

Definition get {S} : M S S := fun s => (Ok s, s).

Definition put {S} (s : S) : M S unit := fun _ => (Ok tt, s).

End Py.

Import Py.

Notation "'let*' x ':=' e 'in' k" := (Py.bind e (fun x => k))
  (at level 10, x pattern, e at level 100, k at level 200).

Notation "'let!' x ':=' e 'in' k" := (Py.bindM e (fun x => k))
  (at level 10, x pattern, e at level 100, k at level 200).

(* ================================================================== *)
(** * The tensor backend [K] *)
(* ================================================================== *)

(** recurrent.py imports the backend ([from .. import backend as K]) and
    the backend's source is not part of the module.  Each operation below is
    therefore modelled from its use in recurrent.py and from the contract of
    the design document, eagerly, on tensors of rank 0 to 3. *)

Module K.

Local Open Scope R_scope.

Inductive tensor :=
| Scal (x : R)
| Vec (v : list R)
| Mat (m : list (list R))
| Cube (c : list (list (list R))).

(** A weight created by [add_weight].  A 2-D weight of shape [(d, n)] is
    kept as its [n] columns, each of length [d], so that the column slices
    [kernel[:, a:b]] of [build] are slices of the list; a 1-D weight is its
    vector. *)
Inductive weight :=
| W1 (v : list R)
| W2 (cols : list (list R)).

(** Modelled from the spec: whatever the backend raises when the shapes of
    the operands do not fit the operation. *)
Definition BackendError : exception :=
  Exception "BackendError" "operands of incompatible shape".

Definition ndim (t : tensor) : nat :=
  match t with
  | Scal _ => 0
  | Vec _ => 1
  | Mat _ => 2
  | Cube _ => 3
  end%nat.

Fixpoint Rsum (l : list R) : R :=
  match l with
  | [] => 0
  | x :: l' => x + Rsum l'
  end.

Fixpoint dotp (r c : list R) : R :=
  match r, c with
  | a :: r', b :: c' => a * b + dotp r' c'
  | _, _ => 0
  end.

Fixpoint map2 {A B C} (f : A -> B -> C) (l1 : list A) (l2 : list B) : list C :=
  match l1, l2 with
  | a :: l1', b :: l2' => f a b :: map2 f l1' l2'
  | _, _ => []
  end.

(** ** Elementwise operations with broadcasting *)

(** One axis of a broadcast: equal lengths are zipped, an axis of length one
    is repeated, anything else is a shape error. *)
Definition zipB {A} (f : A -> A -> result A) (l1 l2 : list A)
  : result (list A) :=
  if (length l1 =? length l2)%nat
  then mapM (fun ab => f (fst ab) (snd ab)) (combine l1 l2)
  else match l1, l2 with
       | [a], _ => mapM (f a) l2
       | _, [b] => mapM (fun a => f a b) l1
       | _, _ => Raise BackendError
       end.

(** A tensor seen at a higher rank: leading axes of length one are added. *)
Definition as1 (t : tensor) : list R :=
  match t with Scal x => [x] | Vec v => v | _ => [] end.
Definition as2 (t : tensor) : list (list R) :=
  match t with Mat m => m | Cube _ => [] | _ => [as1 t] end.
Definition as3 (t : tensor) : list (list (list R)) :=
  match t with Cube c => c | _ => [as2 t] end.

Definition bop (f : R -> R -> R) (a b : tensor) : result tensor :=
  let f0 x y := Ok (f x y) in
  match Nat.max (ndim a) (ndim b) with
  | 0%nat => match a, b with
             | Scal x, Scal y => Ok (Scal (f x y))
             | _, _ => Raise BackendError
             end
  | 1%nat => fmap Vec (zipB f0 (as1 a) (as1 b))
  | 2%nat => fmap Mat (zipB (zipB f0) (as2 a) (as2 b))
  | _ => fmap Cube (zipB (zipB (zipB f0)) (as3 a) (as3 b))
  end.

Definition mul := bop Rmult.
Definition add := bop Rplus.
Definition sub := bop Rminus.

Definition map_elems (f : R -> R) (t : tensor) : tensor :=
  match t with
  | Scal x => Scal (f x)
  | Vec v => Vec (map f v)
  | Mat m => Mat (map (map f) m)
  | Cube c => Cube (map (map (map f)) c)
  end.

Definition tanh (t : tensor) : tensor := map_elems Rtrigo_def.tanh t.

(** [K.cast(t, floatx)]: the model has one number type. *)
Definition cast (t : tensor) : tensor := t.

(** ** Products *)

Definition vec_kernel (W : list (list R)) (r : list R) : result (list R) :=
  if forallb (fun c => (length c =? length r)%nat) W
  then Ok (map (dotp r) W)
  else Raise BackendError.

(** [K.dot(x, kernel)] with a 2-D weight: the last axis of [x] is
    contracted with the rows of the weight. *)
Definition dot (x : tensor) (W : list (list R)) : result tensor :=
  match x with
  | Scal _ => Raise BackendError
  | Vec r => fmap Vec (vec_kernel W r)
  | Mat m => fmap Mat (mapM (vec_kernel W) m)
  | Cube c => fmap Cube (mapM (mapM (vec_kernel W)) c)
  end.

(** The product [K.dot] computes when the shapes fit, bias addition
    likewise, and what fitting means: every row has the given length. *)
Definition matmul (x W : list (list R)) : list (list R) :=
  map (fun r => map (dotp r) W) x.
Definition add_to_rows (b : list R) (m : list (list R)) : list (list R) :=
  map (fun r => map2 Rplus r b) m.
Definition rows (m : list (list R)) (n : nat) : Prop :=
  Forall (fun r => length r = n) m.

Definition vec_vec (w r : list R) : result R :=
  if (length r =? length w)%nat then Ok (dotp r w) else Raise BackendError.

(** [K.dot_product(x, kernel)]: [K.dot] for a 2-D weight; for a 1-D weight
    the last axis of [x] is contracted with the vector. *)
Definition dot_product (x : tensor) (w : weight) : result tensor :=
  match w with
  | W2 cols => dot x cols
  | W1 v =>
      match x with
      | Scal _ => Raise BackendError
      | Vec r => fmap Scal (vec_vec v r)
      | Mat m => fmap Vec (mapM (vec_vec v) m)
      | Cube c => fmap Mat (mapM (mapM (vec_vec v)) c)
      end
  end.

Definition column (i : nat) (m : list (list R)) : list R :=
  map (fun r => nth i r 0) m.

(** [K.batch_dot(x, y, axes=[1, 2])] on two rank-3 tensors:
    [out[b, i, j] = sum_a x[b, a, i] * y[b, j, a]]. *)
Definition batch_dot_1_2 (x y : tensor) : result tensor :=
  match x, y with
  | Cube xs, Cube ys =>
      if (length xs =? length ys)%nat
      then fmap Cube
             (mapM (fun xy =>
                      let xb := fst xy in
                      let yb := snd xy in
                      mapM (fun i => mapM (vec_vec (column i xb)) yb)
                           (seq 0 (length (hd [] xb))))
                   (combine xs ys))
      else Raise BackendError
  | _, _ => Raise BackendError
  end.

(** [K.squeeze(t, 1)]: axis 1 must have length one. *)
Definition squeeze_1 (t : tensor) : result tensor :=
  match t with
  | Cube c =>
      fmap Mat (mapM (fun m => match m with
                               | [r] => Ok r
                               | _ => Raise BackendError
                               end) c)
  | Mat m =>
      fmap Vec (mapM (fun r => match r with
                               | [x] => Ok x
                               | _ => Raise BackendError
                               end) m)
  | _ => Raise BackendError
  end.

(** ** Indexing with a new axis *)

(** [t[:, None, :]] on a rank-2 tensor. *)
Definition expand_axis1 (t : tensor) : result tensor :=
  match t with
  | Mat m => Ok (Cube (map (fun r => [r]) m))
  | _ => Raise (IndexError "too many indices for array")
  end.

(** [t[:, :, None]] on a rank-2 tensor. *)
Definition expand_axis2 (t : tensor) : result tensor :=
  match t with
  | Mat m => Ok (Cube (map (map (fun x => [x])) m))
  | _ => Raise (IndexError "too many indices for array")
  end.

(** [t[:, a:b]] and [t[:, a:]]. *)
Definition cols (a : nat) (b : option nat) (t : tensor) : result tensor :=
  match t with
  | Mat m => Ok (Mat (map (slice a b) m))
  | Cube c => Ok (Cube (map (slice a b) c))
  | _ => Raise (IndexError "too many indices for array")
  end.

(** [t[:, a:b, :]]: three subscripts, which a tensor of rank 3 has. *)
Definition steps (a : nat) (b : option nat) (t : tensor) : result tensor :=
  match t with
  | Cube c => Ok (Cube (map (slice a b) c))
  | _ => Raise (IndexError "too many indices for array")
  end.

(** [t[:, 0]] *)
Definition index_axis1_0 (t : tensor) : result tensor :=
  match t with
  | Mat m => fmap Vec (mapM (fun r => getitem r 0) m)
  | Cube c => fmap Mat (mapM (fun m => getitem m 0) c)
  | _ => Raise (IndexError "too many indices for array")
  end.

(** ** Reductions, reshape and softmax *)

(** [K.reshape(e, [K.shape(e)[0], K.shape(e)[1]])]: a rank-2 tensor is
    unchanged and a trailing axis of length one is dropped. *)
Definition reshape_2d (e : tensor) : result tensor :=
  match e with
  | Mat m => Ok (Mat m)
  | Cube c => squeeze_1 (Cube (map (fun m => [concat m]) c))
  | _ => Raise (IndexError "tuple index out of range")
  end.

(** Modelled from the spec: the softmax of one row,
    [alpha_i = exp(e_i) / sum_j exp(e_j)], the formula of the docstring of
    [compute_attention]. *)
Definition softmax_row (e : list R) : list R :=
  map (fun x => exp x / Rsum (map exp e)) e.

(** Modelled from the spec: [K.softmax], the backend's softmax over the last
    axis, each row by [softmax_row]. *)
Definition softmax (t : tensor) : result tensor :=
  match t with
  | Scal _ => Raise BackendError
  | Vec v => Ok (Vec (softmax_row v))
  | Mat m => Ok (Mat (map softmax_row m))
  | Cube c => Ok (Cube (map (map softmax_row) c))
  end.

Definition vadd (a b : list R) : list R := map2 Rplus a b.

(** The sum of the rows of a matrix.  An empty matrix has lost the length
    of its rows and sums to the empty vector. *)
Definition sum_rows (m : list (list R)) : list R :=
  match m with
  | [] => []
  | r :: m' => fold_left vadd m' r
  end.

(** [K.sum(t, axis=1)] *)
Definition sum_axis1 (t : tensor) : result tensor :=
  match t with
  | Mat m => Ok (Vec (map Rsum m))
  | Cube c => Ok (Mat (map sum_rows c))
  | _ => Raise BackendError
  end.

(** [K.sum(t, axis=2)] *)
Definition sum_axis2 (t : tensor) : result tensor :=
  match t with
  | Cube c => Ok (Mat (map (map Rsum) c))
  | _ => Raise BackendError
  end.

(** [K.not_equal(t, v)] followed by the cast to floats: 1 where the entry
    differs from [v], else 0. *)
Definition not_equal (t : tensor) (v : R) : tensor :=
  map_elems (fun x => if Req_dec_T x v then 0 else 1) t.

(** [K.bias_add(x, bias)] with a 1-D bias as long as the last axis. *)
Definition add_bias_row (b r : list R) : result (list R) :=
  if (length r =? length b)%nat then Ok (vadd r b) else Raise BackendError.

Definition bias_add (x : tensor) (b : list R) : result tensor :=
  match x with
  | Scal _ => Raise BackendError
  | Vec r => fmap Vec (add_bias_row b r)
  | Mat m => fmap Mat (mapM (add_bias_row b) m)
  | Cube c => fmap Cube (mapM (mapM (add_bias_row b)) c)
  end.

(** [K.concatenate(ws)] along the last axis, on weights: 1-D weights are
    joined end to end, 2-D weights of equal height column after column. *)
Definition concatenate (ws : list weight) : result weight :=
  match ws with
  | [] => Raise BackendError
  | W1 _ :: _ =>
      fmap (fun vs => W1 (concat vs))
           (mapM (fun w => match w with
                           | W1 v => Ok v
                           | W2 _ => Raise BackendError
                           end) ws)
  | W2 first :: _ =>
      fmap (fun cs => W2 (concat cs))
           (mapM (fun w => match w with
                           | W2 c =>
                               if forallb (fun col =>
                                             (length col
                                              =? length (hd [] first))%nat) c
                               then Ok c else Raise BackendError
                           | W1 _ => Raise BackendError
                           end) ws)
  end.

(** [w[a:b]] on a 1-D weight and [w[:, a:b]] on a 2-D weight: the slice
    along the last axis. *)
Definition slice_last (a : nat) (b : option nat) (w : weight) : weight :=
  match w with
  | W1 v => W1 (slice a b v)
  | W2 c => W2 (slice a b c)
  end.

(** The blocks of [n] consecutive elements of a list. *)
Fixpoint chunks {A} (n fuel : nat) (l : list A) : list (list A) :=
  match fuel, l with
  | S fuel', _ :: _ => firstn n l :: chunks n fuel' (skipn n l)
  | _, _ => []
  end.

(** [K.reshape(t, (-1, n, 1))] on a rank-2 tensor: its entries in row-major
    order, [n] to a sample. *)
Definition reshape_steps (t : tensor) (n : nat) : result tensor :=
  match t with
  | Mat m =>
      let flat := concat m in
      if (n =? 0)%nat then Raise BackendError
      else if (length flat mod n =? 0)%nat
           then Ok (Cube (map (map (fun x => [x]))
                              (chunks n (length flat) flat)))
           else Raise BackendError
  | _ => Raise BackendError
  end.

(** ** Shapes and constant tensors *)

(** [K.shape(t)] of a rectangular tensor. *)
Definition shape (t : tensor) : list nat :=
  match t with
  | Scal _ => []
  | Vec v => [length v]
  | Mat m => [length m; length (hd [] m)]
  | Cube c => [length c; length (hd [] c); length (hd [] (hd [] c))]
  end.

(** [K.shape(t)[-1]] *)
Definition last_dim (t : tensor) : result nat :=
  match rev (shape t) with
  | d :: _ => Ok d
  | [] => Raise (IndexError "tuple index out of range")
  end.

Definition full (x : R) (rows cols : nat) : tensor :=
  Mat (repeat (repeat x cols) rows).

(** [K.ones((rows, cols))] and [K.zeros((rows, cols))] *)
Definition ones : nat -> nat -> tensor := full 1.
Definition zeros : nat -> nat -> tensor := full 0.

Definition zeros_like (t : tensor) : tensor := map_elems (fun _ => 0) t.

(** [K.sum(t, axis=(1, 2))] *)
Definition sum_axes_1_2 (t : tensor) : result tensor :=
  match t with
  | Cube c => Ok (Vec (map (fun m => Rsum (map Rsum m)) c))
  | _ => Raise BackendError
  end.

(** [K.expand_dims(t)]: a new last axis. *)
Definition expand_dims (t : tensor) : result tensor :=
  match t with
  | Scal x => Ok (Vec [x])
  | Vec v => Ok (Mat (map (fun x => [x]) v))
  | Mat m => Ok (Cube (map (map (fun x => [x])) m))
  | Cube _ => Raise BackendError
  end.

(** [K.tile(t, [1, n])] on a rank-2 tensor. *)
Definition tile_1 (t : tensor) (n : nat) : result tensor :=
  match t with
  | Mat m => Ok (Mat (map (fun r => concat (repeat r n)) m))
  | _ => Raise BackendError
  end.

Definition ones_like (t : tensor) : tensor := map_elems (fun _ => 1) t.

(** [t[:, 0, 0]] on a rank-3 tensor. *)
Definition index_0_0 (t : tensor) : result tensor :=
  match t with
  | Cube c =>
      fmap Vec (mapM (fun m => let* r := getitem m 0 in getitem r 0) c)
  | _ => Raise (IndexError "too many indices for array")
  end.

(** [t[:, :, 0]] on a rank-3 tensor. *)
Definition index_last_0 (t : tensor) : result tensor :=
  match t with
  | Cube c => fmap Mat (mapM (mapM (fun r => getitem r 0)) c)
  | _ => Raise (IndexError "too many indices for array")
  end.

(** [K.reshape(t, (-1, 1))] on a vector. *)
Definition reshape_column (t : tensor) : result tensor :=
  match t with
  | Vec v => Ok (Mat (map (fun x => [x]) v))
  | _ => Raise BackendError
  end.

(** [K.concatenate([t] * n, axis)] for the last axis of [t]. *)
Definition concatenate_copies (t : tensor) (n : nat) : result tensor :=
  match t with
  | Mat m => Ok (Mat (map (fun r => concat (repeat r n)) m))
  | Cube c => Ok (Cube (map (map (fun r => concat (repeat r n))) c))
  | _ => Raise BackendError
  end.

(** [K.cast_to_floatx(1.)] *)
Definition one : tensor := Scal 1.

(** ** Randomness and the learning phase *)

(** The state of the backend that a layer can observe: [noise d pos] is the
    Bernoulli sample the generator gives to the entry at index [pos] of its
    [d]-th draw, [draws] counts the draws made so far, [learning_phase] is
    the value of [K.learning_phase()] when the graph is run. *)
Record backend := {
  noise : nat -> list nat -> bool;
  draws : nat;
  learning_phase : bool
}.

Definition mapi {A B} (f : nat -> A -> B) (l : list A) : list B :=
  map (fun p => f (fst p) (snd p)) (combine (seq 0 (length l)) l).

(** Modelled from the spec: [K.dropout(x, level)], one draw of the
    generator; a kept entry is scaled by [1 / (1 - level)], a dropped one is
    0. *)
Definition dropout (x : tensor) (level : Q) (g : backend)
  : tensor * backend :=
  let keep pos v :=
    if noise g (draws g) pos then v / (1 - Q2R level) else 0 in
  (match x with
   | Scal v => Scal (keep [] v)
   | Vec v => Vec (mapi (fun i => keep [i]) v)
   | Mat m => Mat (mapi (fun i => mapi (fun j => keep [i; j])) m)
   | Cube c =>
       Cube (mapi (fun i => mapi (fun j => mapi (fun k => keep [i; j; k]))) c)
   end,
   {| noise := noise g; draws := S (draws g);
      learning_phase := learning_phase g |}).

(** Modelled from the spec: [K.in_train_phase(x, alt, training=training)]
    with a callable [x].  [training=None] selects by the learning phase, and
    the graph of [x()] is built, so the draw is made, either way. *)
Definition in_train_phase (x : backend -> tensor * backend) (alt : tensor)
    (training : option bool) (g : backend) : tensor * backend :=
  match training with
  | Some true => x g
  | Some false => (alt, g)
  | None =>
      let r := x g in
      ((if learning_phase g then fst r else alt), snd r)
  end.

(** Modelled from the spec: [K.in_train_phase(x, alt)] with a tensor [x]
    and no [training] argument: the learning phase selects. *)
Definition in_train_phase_tensor (x alt : tensor) (g : backend) : tensor :=
  if learning_phase g then x else alt.

(** ** The temporal scan driver [K.rnn] *)

(** (batch, time, features) to (time, batch, features) and back. *)
Definition swap_0_1 (c : list (list (list R))) : list (list (list R)) :=
  map (fun t => map (fun b => nth t b []) c) (seq 0 (length (hd [] c))).

(** Rows of [new] where the mask entry is not 0, rows of [old] elsewhere. *)
Definition where_rows (mk : list R) (new old : tensor) : result tensor :=
  match new, old with
  | Mat n, Mat o =>
      if ((length n =? length mk) && (length o =? length mk))%nat
      then Ok (Mat (map2 (fun (m : R) (no : list R * list R) =>
                            if Req_dec_T m 0 then snd no else fst no)
                         mk (combine n o)))
      else Raise BackendError
  | _, _ => Raise BackendError
  end.

Definition masked (mk : option (list R)) (new old : tensor)
  : result tensor :=
  match mk with
  | None => Ok new
  | Some mk => where_rows mk new old
  end.

(** Before the loop: the states, and one tick per timestep (the input of
    the timestep and its mask column), last timestep first when
    [go_backwards] is set. *)
Definition rnn_prepare (inputs : tensor) (initial_states : list (option tensor))
    (go_backwards : bool) (mask : option tensor) (unroll : bool)
    (input_length : option nat)
  : result (list (tensor * option (list R)) * list tensor) :=
  match inputs with
  | Cube c =>
      let* states :=
        mapM (fun s => match s with
                       | Some t => Ok t
                       | None => Raise (TypeError "state is None")
                       end) initial_states in
      let xs := map Mat (swap_0_1 c) in
      let* mks :=
        match mask with
        | None => Ok (map (fun _ => None) xs)
        | Some (Mat m) =>
            if (length (hd [] m) =? length xs)%nat
            then Ok (map (fun t => Some (column t m)) (seq 0 (length xs)))
            else Raise BackendError
        | Some _ => Raise BackendError
        end in
      let ticks := combine xs mks in
      let ticks := if go_backwards then rev ticks else ticks in
      if unroll && (match input_length with None => true | Some _ => false end)
      then Raise (ValueError "Unrolling requires a fixed number of timesteps.")
      else Ok (ticks, states)
  | _ => Raise BackendError
  end.

(** After the loop: the last output, the outputs stacked along the time
    axis, and the final states.  A scan of no timestep has no last
    output. *)
Definition rnn_finish (r : list tensor * list tensor)
  : result (tensor * tensor * list tensor) :=
  let* outs :=
    mapM (fun o => match o with
                   | Mat m => Ok m
                   | _ => Raise BackendError
                   end) (fst r) in
  match rev (fst r) with
  | last_output :: _ => Ok (last_output, Cube (swap_0_1 outs), snd r)
  | [] => Raise BackendError
  end.

Section Scan.

Variable S : Type.

(** The step function, as the layer hands it over. *)
Variable step : tensor -> list tensor -> M S (tensor * list tensor).

(** One tick per element of [xs] (the input and the mask column of that
    timestep): [step] sees the states followed by the constants; a masked
    sample keeps its previous states and repeats its previous output (zeros
    when there is none). *)
Fixpoint rnn_loop (xs : list (tensor * option (list R)))
    (states constants : list tensor) (prev_output : option tensor)
    (outputs : list tensor) : M S (list tensor * list tensor) :=
  match xs with
  | [] => ret (outputs, states)
  | (x, mk) :: xs' =>
      let! r := step x (states ++ constants) in
      let! output :=
        lift (masked mk (fst r)
                (match prev_output with
                 | Some o => o
                 | None => zeros_like (fst r)
                 end)) in
      let! new_states :=
        lift (mapM (fun no => masked mk (fst no) (snd no))
                   (combine (snd r) states)) in
      rnn_loop xs' new_states constants (Some output) (outputs ++ [output])
  end.

(** Modelled from the spec: [K.rnn(step, inputs, initial_states, constants,
    go_backwards, mask, unroll, input_length)], returning
    [(last_output, outputs, new_states)]. *)
Definition rnn (inputs : tensor) (initial_states : list (option tensor))
    (constants : option (list tensor)) (go_backwards : bool)
    (mask : option tensor) (unroll : bool) (input_length : option nat)
  : M S (tensor * tensor * list tensor) :=
  let! p := lift (rnn_prepare inputs initial_states go_backwards mask
                              unroll input_length) in
  let! r := rnn_loop (fst p) (snd p)
              (match constants with Some cs => cs | None => [] end)
              None [] in
  lift (rnn_finish r).

End Scan.

Arguments rnn {S} step inputs initial_states constants go_backwards mask
  unroll input_length.
Arguments rnn_loop {S} step xs states constants prev_output outputs.

End K.

(* ================================================================== *)
(** * [compute_attention] *)
(* ================================================================== *)

Module Attention.

Local Open Scope string_scope.

(** What the [attention_mode] argument can be: a string, a callable taking
    the other eight arguments, or any other object (such as [None] or a
    number). *)
Inductive attention_mode :=
| ModeStr (s : string)
| ModeCallable
    (f : K.tensor -> K.tensor -> K.tensor -> list K.tensor -> K.weight ->
         K.weight -> option K.weight -> K.tensor -> result K.tensor)
| ModeOther.

(** [e + bias_ca]; [bias_ca] is [None] on a layer built with
    [use_bias=False]. *)
Definition add_weight_vector (e : K.tensor) (b : option K.weight)
  : result K.tensor :=
  match b with
  | Some (K.W1 v) => K.add e (K.Vec v)
  | Some (K.W2 _) => Raise K.BackendError
  | None => Raise (TypeError "unsupported operand type(s) for +")
  end.

Definition compute_attention
    (h_tm1 pctx_ context : K.tensor) (att_dp_mask : list K.tensor)
    (attention_recurrent_kernel attention_context_wa : K.weight)
    (bias_ca : option K.weight) (mask_context : K.tensor)
    (mode : attention_mode) : result (K.tensor * K.tensor) :=
  let* m0 := getitem att_dp_mask 0 in
  let* hm := K.mul h_tm1 m0 in
  let* p_state_ := K.dot_product hm attention_recurrent_kernel in
  let* e :=
    match mode with
    | ModeStr s =>
        if (s =? "add") || (s =? "bahdanau") then
          let* p := K.expand_axis1 p_state_ in
          let* q := K.add pctx_ p in
          let pctx_ := K.tanh q in
          let* d := K.dot_product pctx_ attention_context_wa in
          add_weight_vector d bias_ca
        else if (s =? "dot") || (s =? "luong") then
          let* p := K.expand_axis2 p_state_ in
          let* pctx_ := K.batch_dot_1_2 p pctx_ in
          K.squeeze_1 pctx_
        else
          Raise (NotImplementedError
                   ("The attention mode " ++ s ++ " is not implemented."))
    | ModeCallable f =>
        f h_tm1 pctx_ context att_dp_mask attention_recurrent_kernel
          attention_context_wa bias_ca mask_context
    | ModeOther =>
        Raise (TypeError "cannot concatenate 'str' and non-str objects")
    end in
  let* e :=
    if (1 <? K.ndim mask_context)%nat then K.mul (K.cast mask_context) e else Ok e in
  let* e2 := K.reshape_2d e in
  let* alphas := K.softmax e2 in
  let* a3 := K.expand_axis2 alphas in
  let* weighted := K.mul context a3 in
  let* ctx_ := K.sum_axis1 weighted in
  Ok (ctx_, alphas).

(** The part of the weights that lies on the valid positions of one row of
    the context mask (a position is valid when its mask entry is not 0). *)
Definition valid_sum (mask alphas : list R) : R :=
  K.Rsum (K.map2 (fun m a => if Req_dec_T m 0 then 0%R else a) mask alphas).

(** A batch of one query of one unit against a context of two timesteps of
    one feature, every weight of the attention model set to 0. *)
Module Example.
Local Open Scope R_scope.
Definition h_tm1 := K.Mat [[0]].
Definition pctx_ := K.Cube [[[0]; [0]]].
Definition context := K.Cube [[[1]; [1]]].
Definition att_dp_mask := [K.Scal 1].
Definition attention_recurrent_kernel := K.W2 [[0]].
Definition attention_context_wa := K.W1 [0].
Definition bias_ca := Some (K.W1 [0; 0]).
(** second timestep masked *)
Definition mask_context := K.Mat [[1; 0]].
End Example.

End Attention.

(* ================================================================== *)
(** * [StackedRNNCells] *)
(* ================================================================== *)

(** The [state_size] attribute of a cell: one integer, or a sequence of
    integers (the case [hasattr(cell.state_size, '__len__')]). *)
Inductive state_size_t :=
| SizeInt (n : nat)
| SizeSeq (dims : list nat).

Module StackedRNNCells.

Section Stack.

(** The tensors and the keyword arguments handed through to the cells are
    opaque to the stack. *)
Variables T KW : Type.

(** A cell of the stack: its [state_size], whether its [call] accepts a
    [constants] argument ([has_arg(cell.call, 'constants')]), and its [call].
    The third argument of [cell_call] is the [constants] keyword when it is
    passed. *)
Record Cell := {
  cell_state_size : state_size_t;
  has_arg_constants : bool;
  cell_call : T -> list T -> option (option (list T)) -> KW ->
              result (T * list T)
}.

(** The loop of the [state_size] property over [self.cells[::-1]]. *)
Fixpoint state_size_loop (cells : list Cell) (state_size : list nat)
  : list nat :=
  match cells with
  | [] => state_size
  | cell :: cells' =>
      match cell_state_size cell with
      | SizeSeq dims => state_size_loop cells' (state_size ++ dims)
      | SizeInt n => state_size_loop cells' (state_size ++ [n])
      end
  end.

Definition state_size (cells : list Cell) : list nat :=
  state_size_loop (rev cells) [].

(** First loop of [call], over [self.cells[::-1]]: recover per-cell
    states. *)
Fixpoint recover_states (cells : list Cell) (states : list T)
    (nested_states : list (list T)) : result (list (list T)) :=
  match cells with
  | [] => Ok nested_states
  | cell :: cells' =>
      match cell_state_size cell with
      | SizeSeq dims =>
          recover_states cells'
            (slice (length dims) None states)
            (nested_states ++ [slice 0 (Some (length dims)) states])
      | SizeInt _ =>
          let* s0 := getitem states 0 in
          recover_states cells' (slice 1 None states)
                         (nested_states ++ [[s0]])
      end
  end.

(** Second loop of [call], over [zip(self.cells, nested_states)]. *)
Fixpoint call_cells (pairs : list (Cell * list T)) (inputs : T)
    (new_nested_states : list (list T))
    (constants : option (list T)) (kwargs : KW)
  : result (T * list (list T)) :=
  match pairs with
  | [] => Ok (inputs, new_nested_states)
  | (cell, states) :: pairs' =>
      let* r :=
        if has_arg_constants cell
        then cell_call cell inputs states (Some constants) kwargs
        else cell_call cell inputs states None kwargs in
      call_cells pairs' (fst r) (new_nested_states ++ [snd r])
                 constants kwargs
  end.

Definition call (cells : list Cell) (inputs : T) (states : list T)
    (constants : option (list T)) (kwargs : KW) : result (T * list T) :=
  let* nested_states := recover_states (rev cells) states [] in
  let nested_states := rev nested_states in
  let* r := call_cells (combine cells nested_states) inputs []
                       constants kwargs in
  let states :=
    fold_left (fun states cell_states => states ++ cell_states)
              (rev (snd r)) [] in
  Ok (fst r, states).

(** ** The stacking contract as the design document words it *)

(** The state sizes of one cell, as a list. *)
Definition sizes_of (cell : Cell) : list nat :=
  match cell_state_size cell with
  | SizeSeq dims => dims
  | SizeInt n => [n]
  end.

(** How many state tensors a cell owns. *)
Definition num_states (cell : Cell) : nat :=
  match cell_state_size cell with
  | SizeSeq dims => length dims
  | SizeInt _ => 1
  end.

(** One cell's step inside the stack. *)
Definition cell_step (constants : option (list T)) (kwargs : KW)
    (cell : Cell) (inputs : T) (states : list T) : result (T * list T) :=
  cell_call cell inputs states
            (if has_arg_constants cell then Some constants else None) kwargs.

(** The cells stepped in forward order, cell 0 first on the external input
    and each later cell on the output of the one before; [chunks] holds the
    states of cell 0, cell 1, ... in that order. *)
Fixpoint forward_steps (constants : option (list T)) (kwargs : KW)
    (cells : list Cell) (chunks : list (list T)) (inputs : T)
  : result (T * list (list T)) :=
  match cells, chunks with
  | cell :: cells', chunk :: chunks' =>
      let* r := cell_step constants kwargs cell inputs chunk in
      let* r' := forward_steps constants kwargs cells' chunks' (fst r) in
      Ok (fst r', snd r :: snd r')
  | _, _ => Ok (inputs, [])
  end.

(** A flat state list in reversed cell order: the last cell's states
    first. *)
Definition reversed_layout (chunks : list (list T)) : list T :=
  concat (rev chunks).

End Stack.

Arguments cell_state_size {T KW} c.
Arguments has_arg_constants {T KW} c.
Arguments cell_call {T KW} c.
Arguments state_size {T KW} cells.
Arguments call {T KW} cells inputs states constants kwargs.
Arguments sizes_of {T KW} cell.
Arguments num_states {T KW} cell.
Arguments forward_steps {T KW} constants kwargs cells chunks inputs.
Arguments reversed_layout {T} chunks.

(** ** Weights and [build]

    What the stack reads of a cell besides its [call]: whether it is a
    [Layer], its weight lists, and its [build], of which the model keeps
    whether it raises.  [V] are the backend variables, [W] the arrays
    assigned to them, a shape is a tuple of dimensions. *)
Section Layers.
Variables T KW V W : Type.

Record LayerCell := {
  base : Cell T KW;
  isinstance_Layer : bool;
  cell_trainable_weights : list V;
  cell_non_trainable_weights : list V;
  cell_weights : list V;
  cell_build : arg (list (option nat)) -> result unit
}.

(** [for cell in self.cells: if isinstance(cell, Layer): weights += f(cell)] *)
Definition collect (f : LayerCell -> list V) (cells : list LayerCell)
  : list V :=
  fold_left (fun weights cell =>
               if isinstance_Layer cell then weights ++ f cell else weights)
            cells [].

Definition trainable_weights (trainable : bool) (cells : list LayerCell)
  : list V :=
  if negb trainable then []
  else collect cell_trainable_weights cells.

Definition non_trainable_weights (trainable : bool)
    (cells : list LayerCell) : list V :=
  let weights := collect cell_non_trainable_weights cells in
  if negb trainable then
    let trainable_weights := collect cell_trainable_weights cells in
    trainable_weights ++ weights
  else weights.

(** [get_weights]; [batch_get_value] reads the variables. *)
Definition get_weights (batch_get_value : list V -> list W)
    (cells : list LayerCell) : list W :=
  batch_get_value (collect cell_weights cells).

(** One round of the loop of [set_weights], on the list [tuples] and what
    is left of [weights]. *)
Definition set_weights_step (acc : list (V * W) * list W)
    (cell : LayerCell) : list (V * W) * list W :=
  let tuples := fst acc in
  let weights := snd acc in
  if isinstance_Layer cell then
    let num_param := length (cell_weights cell) in
    let weights := slice 0 (Some num_param) weights in
    let tuples := tuples ++ combine (cell_weights cell) weights in
    let weights := slice num_param None weights in
    (tuples, weights)
  else (tuples, weights).

Definition set_weights_loop (cells : list LayerCell) (weights : list W)
  : list (V * W) * list W :=
  fold_left set_weights_step cells ([], weights).

(** [set_weights]: the tuples it hands to [K.batch_set_value]. *)
Definition set_weights (cells : list LayerCell) (weights : list W)
  : list (V * W) :=
  fst (set_weights_loop cells weights).

(** [t[i]] on a tuple. *)
Definition tuple_getitem {A} (l : list A) (i : nat) : result A :=
  match nth_error l i with
  | Some a => Ok a
  | None => Raise (IndexError "tuple index out of range")
  end.

(** The loop of [build].  The state is the list of the arguments with which
    the cells' [build] has been called so far; [constants_shape] is [None]
    while the local variable is unbound. *)
Fixpoint build_loop (cells : list LayerCell)
    (constants_shape : option (list (list (option nat))))
    (input_shape : list (option nat))
  : M (list (arg (list (option nat)))) unit :=
  match cells with
  | [] => ret tt
  | cell :: cells' =>
      let! _ :=
        if isinstance_Layer cell then
          let! shape :=
            if has_arg_constants (base cell) then
              match constants_shape with
              | Some cs => ret (Several (input_shape :: cs))
              | None =>
                  lift (Raise (Exception "UnboundLocalError"
                                 "local variable 'constants_shape' referenced before assignment"))
              end
            else ret (One input_shape) in
          let! _ := lift (cell_build cell shape) in
          fun built => (Ok tt, built ++ [shape])
        else ret tt in
      let! output_dim :=
        lift (match cell_state_size (base cell) with
              | SizeSeq dims => getitem dims 0
              | SizeInt n => Ok n
              end) in
      let! batch := lift (tuple_getitem input_shape 0) in
      build_loop cells' constants_shape [batch; Some output_dim]
  end.

(** [build(input_shape)] *)
Definition build (cells : list LayerCell)
    (input_shape : arg (list (option nat)))
  : M (list (arg (list (option nat)))) unit :=
  match input_shape with
  | Several l =>
      let constants_shape := slice 1 None l in
      let! input_shape := lift (getitem l 0) in
      build_loop cells (Some constants_shape) input_shape
  | One input_shape => build_loop cells None input_shape
  end.

(** ** What [build] is expected to do *)

(** The first state size of a cell, [cell.state_size[0]] or
    [cell.state_size]. *)
Definition output_dim (cell : LayerCell) : nat :=
  hd 0 (sizes_of (base cell)).

(** The shape the stack works out as the input shape of every cell, from
    the batch dimension and the first state size of the cell before. *)
Definition input_shapes (input_shape : list (option nat))
    (cells : list LayerCell) : list (list (option nat)) :=
  input_shape :: map (fun c => [hd None input_shape; Some (output_dim c)])
                     cells.

(** The arguments of the [build] calls of the [Layer] cells among [cells],
    when no cell takes constants: every [Layer] cell with the input shape
    worked out for it. *)
Definition build_calls (input_shape : list (option nat))
    (cells : list LayerCell) : list (arg (list (option nat))) :=
  map (fun p => One (snd p))
      (filter (fun p => isinstance_Layer (fst p))
              (combine cells (input_shapes input_shape cells))).

(** A cell the loop of [build] gets past: it has a first state size, and if
    it is a [Layer], its [call] takes no constants and its [build] does not
    raise. *)
Definition builds_without_constants (cell : LayerCell) : Prop :=
  sizes_of (base cell) <> [] /\
  (isinstance_Layer cell = true ->
   has_arg_constants (base cell) = false /\
   forall shape, cell_build cell shape = Ok tt).

End Layers.

Arguments base {T KW V} l.
Arguments isinstance_Layer {T KW V} l.
Arguments cell_trainable_weights {T KW V} l.
Arguments cell_non_trainable_weights {T KW V} l.
Arguments cell_weights {T KW V} l.
Arguments cell_build {T KW V} l.
Arguments collect {T KW V} f cells.
Arguments trainable_weights {T KW V} trainable cells.
Arguments non_trainable_weights {T KW V} trainable cells.
Arguments get_weights {T KW V W} batch_get_value cells.
Arguments set_weights_loop {T KW V W} cells weights.
Arguments set_weights {T KW V W} cells weights.
Arguments build_loop {T KW V} cells constants_shape input_shape.
Arguments build {T KW V} cells input_shape.
Arguments set_weights_step {T KW V W} acc cell.
Arguments output_dim {T KW V} cell.
Arguments input_shapes {T KW V} input_shape cells.
Arguments build_calls {T KW V} input_shape cells.
Arguments builds_without_constants {T KW V} cell.

(** Two cells over integer "tensors" with state sizes [2] and [3]: cell 0
    adds the input to its state, cell 1 multiplies its state by it. *)
Module Example.
Local Open Scope Z_scope.
Definition cell0 : Cell Z unit :=
  {| cell_state_size := SizeSeq [2%nat];
     has_arg_constants := false;
     cell_call := fun x st _ _ => Ok (x + 1, map (Z.add x) st) |}.
Definition cell1 : Cell Z unit :=
  {| cell_state_size := SizeInt 3;
     has_arg_constants := true;
     cell_call := fun x st _ _ => Ok (x * 2, map (Z.mul x) st) |}.
End Example.

(** The two cells as layers, with variables numbered 1, 2 and 3; the [call]
    of cell 1 accepts [constants]. *)
Module LayerExample.
Definition layer0 : LayerCell Z unit nat :=
  {| base := Example.cell0; isinstance_Layer := true;
     cell_trainable_weights := [1; 2]; cell_non_trainable_weights := [];
     cell_weights := [1; 2]; cell_build := fun _ => Ok tt |}.
Definition layer1 : LayerCell Z unit nat :=
  {| base := Example.cell1; isinstance_Layer := true;
     cell_trainable_weights := [3]; cell_non_trainable_weights := [];
     cell_weights := [3]; cell_build := fun _ => Ok tt |}.
End LayerExample.

End StackedRNNCells.

(* ================================================================== *)
(** * The base layer [RNN] *)
(* ================================================================== *)

(** A tensor as a layer receives it: its value and its static shape
    [K.int_shape], in which a dimension is [None] when it is not known
    before the graph runs. *)
Record ktensor := {
  int_shape : list (option nat);
  value : K.tensor
}.

Module RNN.

Local Open Scope string_scope.

Section Layer.

(** The class of the cell object. *)
Variable C : Type.

(** What the layer uses of its cell: [state_size], the keyword arguments
    that [cell.call] accepts ([has_arg]), and [cell.call] itself, which may
    mutate the cell and draw from the backend.  The last two arguments of
    [cell_call] are the keywords [constants] and [training] when they are
    passed. *)
Record CellClass := {
  state_size : C -> state_size_t;
  has_arg_training : bool;
  has_arg_constants : bool;
  cell_call : K.tensor -> list K.tensor -> option (list K.tensor) ->
              option (option bool) ->
              M (C * K.backend) (K.tensor * list K.tensor)
}.

Variable cls : CellClass.

(** The attributes of the layer object that the methods below read or
    write.  [input_spec_shape] is [self.input_spec[0].shape]; [_states]
    holds the current values of the state variables; [updates] collects the
    arguments of [add_update]. *)
Record t := {
  name : string;
  cell : C;
  return_sequences : bool;
  return_state : bool;
  go_backwards : bool;
  stateful : bool;
  unroll : bool;
  input_spec_shape : option (list (option nat));
  _states : option (list (option K.tensor));
  _num_constants : option nat;
  updates : list (list (option K.tensor * K.tensor))
}.

Definition set_cell (self : t) (c : C) : t :=
  {| name := name self; cell := c;
     return_sequences := return_sequences self;
     return_state := return_state self; go_backwards := go_backwards self;
     stateful := stateful self; unroll := unroll self;
     input_spec_shape := input_spec_shape self; _states := _states self;
     _num_constants := _num_constants self; updates := updates self |}.

Definition set_states (self : t) (s : list (option K.tensor)) : t :=
  {| name := name self; cell := cell self;
     return_sequences := return_sequences self;
     return_state := return_state self; go_backwards := go_backwards self;
     stateful := stateful self; unroll := unroll self;
     input_spec_shape := input_spec_shape self; _states := Some s;
     _num_constants := _num_constants self; updates := updates self |}.

Definition add_update (self : t) (u : list (option K.tensor * K.tensor))
  : t :=
  {| name := name self; cell := cell self;
     return_sequences := return_sequences self;
     return_state := return_state self; go_backwards := go_backwards self;
     stateful := stateful self; unroll := unroll self;
     input_spec_shape := input_spec_shape self; _states := _states self;
     _num_constants := _num_constants self;
     updates := updates self ++ [u] |}.

(** The [states] property. *)
Definition states (self : t) : list (option K.tensor) :=
  match _states self with
  | None =>
      let num_states :=
        match state_size cls (cell self) with
        | SizeInt _ => 1
        | SizeSeq dims => length dims
        end in
      repeat None num_states
  | Some s => s
  end.

Definition get_initial_state (self : t) (inputs : K.tensor)
  : result (list K.tensor) :=
  let initial_state := K.zeros_like inputs in
  let* initial_state := K.sum_axes_1_2 initial_state in
  let* initial_state := K.expand_dims initial_state in
  match state_size cls (cell self) with
  | SizeSeq dims => mapM (fun dim => K.tile_1 initial_state dim) dims
  | SizeInt n =>
      let* s := K.tile_1 initial_state n in Ok [s]
  end.

(** The scan driver, which [call] invokes as [K.rnn]. *)
Definition driver : Type :=
  (K.tensor -> list K.tensor -> M (C * K.backend) (K.tensor * list K.tensor))
  -> K.tensor -> list (option K.tensor) -> option (list K.tensor) -> bool ->
  option K.tensor -> bool -> option nat ->
  M (C * K.backend) (K.tensor * K.tensor * list K.tensor).

(** [timesteps in [None, 1]] *)
Definition in_None_1 (timesteps : option nat) : bool :=
  match timesteps with
  | None => true
  | Some 1 => true
  | Some _ => false
  end.

(** [call] up to and including the [unroll] check: the input, the initial
    state, the mask and the static number of timesteps with which the scan
    driver is about to be invoked. *)
Definition call_checks (self : t) (inputs : arg ktensor)
    (mask : option (arg K.tensor)) (initial_state : option (list K.tensor))
  : result (ktensor * list (option K.tensor) * option K.tensor * option nat) :=
  let* inputs :=
    match inputs with
    | Several l => getitem l 0
    | One x => Ok x
    end in
  let* initial_state :=
    match initial_state with
    | Some st => Ok (map Some st)
    | None =>
        if stateful self then Ok (states self)
        else fmap (map Some) (get_initial_state self (value inputs))
    end in
  let* mask :=
    match mask with
    | Some (Several l) => fmap Some (getitem l 0)
    | Some (One m) => Ok (Some m)
    | None => Ok None
    end in
  if negb (length initial_state =? length (states self))%nat then
    Raise (ValueError ("Layer has " ++ str (length (states self)) ++
                       " states but was passed " ++
                       str (length initial_state) ++ " initial states."))
  else
    let input_shape := int_shape inputs in
    let* timesteps := getitem input_shape 1 in
    if unroll self && in_None_1 timesteps then
      Raise (ValueError
               "Cannot unroll a RNN if the time dimension is undefined or equal to 1.")
    else Ok (inputs, initial_state, mask, timesteps).

(** [states[-n:]] and [states[:-n]] *)
Definition last_n {A} (n : nat) (l : list A) : list A :=
  if (n =? 0)%nat then l else skipn (length l - n) l.
Definition but_last_n {A} (n : nat) (l : list A) : list A :=
  if (n =? 0)%nat then [] else firstn (length l - n) l.

(** The two [step] closures of [call]. *)
Definition step_with_constants (self : t) (kw_training : option (option bool))
    (inputs : K.tensor) (states : list K.tensor)
  : M (C * K.backend) (K.tensor * list K.tensor) :=
  match _num_constants self with
  | None => lift (Raise (TypeError "bad operand type for unary -: 'NoneType'"))
  | Some n =>
      let constants := last_n n states in
      let states := but_last_n n states in
      cell_call cls inputs states (Some constants) kw_training
  end.

Definition step_plain (kw_training : option (option bool))
    (inputs : K.tensor) (states : list K.tensor)
  : M (C * K.backend) (K.tensor * list K.tensor) :=
  cell_call cls inputs states None kw_training.

(** [if constants:] *)
Definition truthy {A} (constants : option (list A)) : bool :=
  match constants with
  | Some (_ :: _) => true
  | _ => false
  end.

(** [call] after the scan driver has returned: the state updates of a
    stateful layer are registered with [add_update], and the result is
    shaped by [return_sequences] and [return_state].  The
    [_uses_learning_phase] marks set on the results are not modelled. *)
Definition call_outputs (self : t) (r : K.tensor * K.tensor * list K.tensor)
  : result (arg K.tensor) * t :=
  let last_output := fst (fst r) in
  let outputs := snd (fst r) in
  let new_states := snd r in
  match (if stateful self then
           fmap Some
             (mapM (fun i =>
                      let* s := getitem (states self) i in
                      let* s' := getitem new_states i in
                      Ok (s, s'))
                   (seq 0 (length new_states)))
         else Ok None) with
  | Raise e => (Raise e, self)
  | Ok upd =>
      let self :=
        match upd with
        | Some u => add_update self u
        | None => self
        end in
      let output := if return_sequences self then outputs else last_output in
      (Ok (if return_state self
           then Several (output :: new_states)
           else One output), self)
  end.

(** [call]; the scan driver [rnn] stands for [K.rnn]. *)
Definition call (rnn : driver) (inputs : arg ktensor)
    (mask : option (arg K.tensor)) (training : option bool)
    (initial_state : option (list K.tensor))
    (constants : option (list K.tensor))
  : M (t * K.backend) (arg K.tensor) :=
  fun w =>
    let self := fst w in
    let g := snd w in
    match call_checks self inputs mask initial_state with
    | Raise e => (Raise e, w)
    | Ok (inputs, initial_state, mask, timesteps) =>
        let kw_training :=
          if has_arg_training cls then Some training else None in
        match (if truthy constants then
                 if negb (has_arg_constants cls)
                 then Raise (ValueError "RNN cell does not support constants")
                 else Ok (step_with_constants self kw_training)
               else Ok (step_plain kw_training)) with
        | Raise e => (Raise e, w)
        | Ok step =>
            let r := rnn step (value inputs) initial_state constants
                         (go_backwards self) mask (unroll self) timesteps
                         (cell self, g) in
            let self := set_cell self (fst (snd r)) in
            let g := snd (snd r) in
            match fst r with
            | Raise e => (Raise e, (self, g))
            | Ok res =>
                let o := call_outputs self res in
                (fst o, (snd o, g))
            end
        end
    end.

(** [K.set_value(state, value)] on one entry of [self.states]. *)
Definition set_value (state : option K.tensor) (value : K.tensor)
  : result (option K.tensor) :=
  match state with
  | Some _ => Ok (Some value)
  | None =>
      Raise (AttributeError "'NoneType' object has no attribute 'set_value'")
  end.

(** [for state, dim in zip(self.states, dims): K.set_value(state, zeros)];
    the variables set before an exception stay set. *)
Fixpoint zero_states (batch_size : nat) (sts : list (option K.tensor))
    (dims : list nat) : result unit * list (option K.tensor) :=
  match sts, dims with
  | state :: sts', dim :: dims' =>
      match set_value state (K.zeros batch_size dim) with
      | Raise e => (Raise e, sts)
      | Ok state' =>
          let r := zero_states batch_size sts' dims' in
          (fst r, state' :: snd r)
      end
  | _, _ => (Ok tt, sts)
  end.

(** [str] of a shape tuple. *)
Definition str_shape (s : list nat) : string :=
  match s with
  | [] => "()"
  | [a] => "(" ++ str a ++ ",)"
  | a :: s' =>
      "(" ++ str a ++ String.concat "" (map (fun d => ", " ++ str d) s') ++ ")"
  end.

Definition shape_eqb (a b : list nat) : bool :=
  if list_eq_dec Nat.eq_dec a b then true else false.

(** [for index, (value, state) in enumerate(zip(states, self.states))] *)
Fixpoint assign_states (self : t) (batch_size index : nat)
    (values : list K.tensor) (sts : list (option K.tensor))
  : result unit * list (option K.tensor) :=
  match values, sts with
  | value :: values', state :: sts' =>
      match (match state_size cls (cell self) with
             | SizeSeq dims => getitem dims index
             | SizeInt n => Ok n
             end) with
      | Raise e => (Raise e, sts)
      | Ok dim =>
          if negb (shape_eqb (K.shape value) [batch_size; dim]) then
            (Raise (ValueError
                      ("State " ++ str index ++
                       " is incompatible with layer " ++ name self ++
                       ": expected shape=" ++ str_shape [batch_size; dim] ++
                       ", found shape=" ++ str_shape (K.shape value))),
             sts)
          else
            match set_value state value with
            | Raise e => (Raise e, sts)
            | Ok state' =>
                let r := assign_states self batch_size (S index) values' sts' in
                (fst r, state' :: snd r)
            end
      end
  | _, _ => (Ok tt, sts)
  end.

(** [reset_states(states=None)].  In the message of the state-count error
    the rendering of the received values is left out. *)
Definition reset_states (states_arg : option (arg K.tensor))
  : M t unit :=
  fun self =>
    if negb (stateful self) then
      (Raise (AttributeError "Layer must be stateful."), self)
    else
      match (match input_spec_shape self with
             | None => Raise (TypeError "'NoneType' object is not subscriptable")
             | Some shape => getitem shape 0
             end) with
      | Raise e => (Raise e, self)
      | Ok batch_size =>
          match batch_size with
          | None | Some 0 =>
              (Raise (ValueError
                        "If a RNN is stateful, it needs to know its batch size."),
               self)
          | Some batch_size =>
              match getitem (states self) 0 with
              | Raise e => (Raise e, self)
              | Ok None =>
                  match state_size cls (cell self) with
                  | SizeSeq dims =>
                      (Ok tt,
                       set_states self
                         (map (fun dim => Some (K.zeros batch_size dim)) dims))
                  | SizeInt n =>
                      (Ok tt, set_states self [Some (K.zeros batch_size n)])
                  end
              | Ok (Some _) =>
                  match states_arg with
                  | None =>
                      match state_size cls (cell self) with
                      | SizeSeq dims =>
                          let r := zero_states batch_size (states self) dims in
                          (fst r, set_states self (snd r))
                      | SizeInt n =>
                          let r := zero_states batch_size (states self) [n] in
                          (fst r, set_states self (snd r))
                      end
                  | Some a =>
                      let values :=
                        match a with
                        | Several l => l
                        | One v => [v]
                        end in
                      if negb (length values =? length (states self))%nat then
                        (Raise (ValueError
                                  ("Layer " ++ name self ++ " expects " ++
                                   str (length (states self)) ++
                                   " states, but it received " ++
                                   str (length values) ++ " state values.")),
                         self)
                      else
                        let r := assign_states self batch_size 0 values
                                               (states self) in
                        (fst r, set_states self (snd r))
                  end
              end
          end
      end.

End Layer.

(** A layer around a stateless cell with one state of size 4 that returns
    its input; [stateful=False], [unroll=True]. *)
Module Example.
Definition cls : CellClass unit :=
  {| state_size := fun _ => SizeInt 4;
     has_arg_training := false;
     has_arg_constants := false;
     cell_call := fun inputs states _ _ => ret (inputs, states) |}.
Definition layer : t unit :=
  {| name := "rnn_1"; cell := tt;
     return_sequences := false; return_state := false;
     go_backwards := false; stateful := false; unroll := true;
     input_spec_shape := Some [None; None; Some 3];
     _states := None; _num_constants := None; updates := [] |}.
Definition backend : K.backend :=
  {| K.noise := fun _ _ => true; K.draws := 0; K.learning_phase := true |}.
(** Two samples of one timestep of three features, the time dimension
    statically known to be 1. *)
Definition one_timestep : ktensor :=
  {| int_shape := [None; Some 1; Some 3];
     value := K.Cube [[[1; 2; 3]]; [[4; 5; 6]]]%R |}.
(** The same values with a time dimension that is not known statically. *)
Definition unknown_timesteps : ktensor :=
  {| int_shape := [None; None; Some 3];
     value := K.Cube [[[1; 2; 3]]; [[4; 5; 6]]]%R |}.
End Example.

Arguments state_size {C} c.
Arguments has_arg_training {C} c.
Arguments has_arg_constants {C} c.
Arguments cell_call {C} c.
Arguments name {C} t.
Arguments cell {C} t.
Arguments return_sequences {C} t.
Arguments return_state {C} t.
Arguments go_backwards {C} t.
Arguments stateful {C} t.
Arguments unroll {C} t.
Arguments input_spec_shape {C} t.
Arguments _states {C} t.
Arguments _num_constants {C} t.
Arguments updates {C} t.
Arguments set_cell {C} self c.
Arguments states {C} cls self.
Arguments get_initial_state {C} cls self inputs.
Arguments call_checks {C} cls self inputs mask initial_state.
Arguments call {C} cls rnn inputs mask training initial_state constants.
Arguments reset_states {C} cls states_arg.

(** The character that delimits a string literal. *)
Definition double_quote : string :=
  String (Ascii.ascii_of_nat 34) EmptyString.

(** ** [compute_output_shape] and [compute_mask]

    A shape is a tuple of dimensions, [None] where a dimension is not
    known. *)
Section OutputShape.
Context {C : Type} (cls : CellClass C).

Definition tuple_getitem {A} (l : list A) (i : nat) : result A :=
  match nth_error l i with
  | Some a => Ok a
  | None => Raise (IndexError "tuple index out of range")
  end.

Definition compute_output_shape (self : t C)
    (input_shape : arg (list (option nat)))
  : result (arg (list (option nat))) :=
  let* input_shape :=
    match input_shape with
    | Several l => getitem l 0
    | One s => Ok s
    end in
  let state_size :=
    match state_size cls (cell self) with
    | SizeSeq dims => dims
    | SizeInt n => [n]
    end in
  let* output_dim := getitem state_size 0 in
  let* output_shape :=
    if return_sequences self then
      let* d0 := tuple_getitem input_shape 0 in
      let* d1 := tuple_getitem input_shape 1 in
      Ok [d0; d1; Some output_dim]
    else
      let* d0 := tuple_getitem input_shape 0 in
      Ok [d0; Some output_dim] in
  if return_state self then
    let* state_shape :=
      mapM (fun dim =>
              let* d0 := tuple_getitem input_shape 0 in
              Ok [d0; Some dim])
           state_size in
    Ok (Several (output_shape :: state_shape))
  else Ok (One output_shape).

Definition compute_mask {T : Type} (self : t C) (mask : option (arg T))
  : result (arg (option T)) :=
  let* mask :=
    match mask with
    | Some (Several l) => fmap Some (getitem l 0)
    | Some (One m) => Ok (Some m)
    | None => Ok None
    end in
  let output_mask := if return_sequences self then mask else None in
  if return_state self then
    let state_mask := map (fun _ => None) (states cls self) in
    Ok (Several (output_mask :: state_mask))
  else Ok (One output_mask).

End OutputShape.

(** ** [build]

    [build] reads and sets, besides the attributes of the layer kept in
    [t], the attribute [state_spec]: the shapes of its [InputSpec]s, or
    [None].  Of the cell it needs to know whether it is a [Layer] and, if
    so, its [build], which may raise and may change the cell. *)
Section Build.
Context {C : Type} (cls : CellClass C).
Variable isinstance_Layer : bool.
Variable cell_build : arg (list (option nat)) -> M C unit.

Definition set_input_spec_shape (self : t C)
    (shape : option (list (option nat))) : t C :=
  {| name := name self; cell := cell self;
     return_sequences := return_sequences self;
     return_state := return_state self; go_backwards := go_backwards self;
     stateful := stateful self; unroll := unroll self;
     input_spec_shape := shape; _states := _states self;
     _num_constants := _num_constants self; updates := updates self |}.

(** [input_shape[-n:]] is a list of shapes when [input_shape] is a list,
    and a tuple of dimensions when it is one shape. *)
Inductive shape_slice :=
| ListOfShapes (l : list (list (option nat)))
| TupleOfDims (d : list (option nat)).

(** [t[-1]] on a tuple. *)
Definition tuple_last {A} (l : list A) : result A :=
  match rev l with
  | a :: _ => Ok a
  | [] => Raise (IndexError "tuple index out of range")
  end.

(** The block [if isinstance(self.cell, Layer): ...]. *)
Definition build_cell (constants_shape : option shape_slice)
    (input_shape : list (option nat)) : M C unit :=
  if isinstance_Layer then
    let! d0 := lift (tuple_getitem input_shape 0) in
    let step_input_shape := d0 :: slice 2 None input_shape in
    match constants_shape with
    | Some (ListOfShapes cs) => cell_build (Several (step_input_shape :: cs))
    | Some (TupleOfDims _) =>
        lift (Raise (TypeError
                       ("can only concatenate list (not " ++ double_quote
                        ++ "tuple" ++ double_quote ++ ") to list")))
    | None => cell_build (One step_input_shape)
    end
  else ret tt.

(** [dims == state_size] for a list of dimensions that may be [None]. *)
Definition dims_eqb (dims : list (option nat)) (state_size : list nat)
  : bool :=
  (length dims =? length state_size)%nat
  && forallb (fun p => match fst p with
                       | Some d => (d =? snd p)%nat
                       | None => false
                       end)
             (combine dims state_size).

(** The block that sets or validates [state_spec].  The message of its
    error, which prints the specs, is cut short. *)
Definition check_state_spec (state_spec : option (list (list (option nat))))
    (state_size : list nat) : result (list (list (option nat))) :=
  match state_spec with
  | Some specs =>
      let* dims := mapM tuple_last specs in
      if negb (dims_eqb dims state_size) then
        Raise (ValueError
                 "An `initial_state` was passed that is not compatible with `cell.state_size`.")
      else Ok specs
  | None => Ok (map (fun dim => [None; Some dim]) state_size)
  end.

Definition build (input_shape : arg (list (option nat)))
  : M (t C * option (list (list (option nat)))) unit :=
  fun w =>
    let self := fst w in
    let state_spec := snd w in
    let constants_shape :=
      match _num_constants self with
      | Some n =>
          Some (match input_shape with
                | Several l => ListOfShapes (last_n n l)
                | One s => TupleOfDims (last_n n s)
                end)
      | None => None
      end in
    match (let* input_shape :=
             match input_shape with
             | Several l => getitem l 0
             | One s => Ok s
             end in
           let* batch_size :=
             if stateful self then tuple_getitem input_shape 0
             else Ok None in
           let* input_dim := tuple_last input_shape in
           Ok (input_shape, batch_size, input_dim)) with
    | Raise e => (Raise e, w)
    | Ok (input_shape, batch_size, input_dim) =>
        let self :=
          set_input_spec_shape self (Some [batch_size; None; input_dim]) in
        let r := build_cell constants_shape input_shape (cell self) in
        let self := set_cell self (snd r) in
        match fst r with
        | Raise e => (Raise e, (self, state_spec))
        | Ok _ =>
            let state_size :=
              match state_size cls (cell self) with
              | SizeSeq dims => dims
              | SizeInt n => [n]
              end in
            match check_state_spec state_spec state_size with
            | Raise e => (Raise e, (self, state_spec))
            | Ok specs =>
                if stateful self then
                  let r := reset_states cls None self in
                  (fst r, (snd r, Some specs))
                else (Ok tt, (self, Some specs))
            end
        end
    end.

End Build.

(** ** [__call__] and [_standardize_args]

    The tensors [T] are opaque here: backend tensors, on which
    [K.is_keras_tensor] is a boolean.  As [inputs], [Several] is a Python
    list (only a list is taken apart); as [initial_state] or [constants] it
    is a list or a tuple, which [to_list_or_none] turns into a list. *)
Section Standardize.
Context {C T : Type}.

Definition set_num_constants (self : t C) (n : option nat) : t C :=
  {| name := name self; cell := cell self;
     return_sequences := return_sequences self;
     return_state := return_state self; go_backwards := go_backwards self;
     stateful := stateful self; unroll := unroll self;
     input_spec_shape := input_spec_shape self; _states := _states self;
     _num_constants := n; updates := updates self |}.

(** The local function [to_list_or_none]. *)
Definition to_list_or_none (x : option (arg T)) : option (list T) :=
  match x with
  | None => None
  | Some (Several l) => Some l
  | Some (One a) => Some [a]
  end.

Definition is_none {A} (x : option A) : bool :=
  match x with None => true | Some _ => false end.

Definition _standardize_args (self : t C) (inputs : arg T)
    (initial_state constants : option (arg T))
  : result (T * option (list T) * option (list T)) :=
  match inputs with
  | Several inputs =>
      if negb (is_none initial_state && is_none constants) then
        Raise (Exception "AssertionError" EmptyString)
      else
        let constants_inputs :=
          match _num_constants self with
          | Some n => (Some (Several (last_n n inputs)), but_last_n n inputs)
          | None => (constants, inputs)
          end in
        let constants := fst constants_inputs in
        let inputs := snd constants_inputs in
        let initial_state :=
          if (1 <? length inputs)%nat then Some (Several (skipn 1 inputs))
          else initial_state in
        let* inputs := getitem inputs 0 in
        Ok (inputs, to_list_or_none initial_state, to_list_or_none constants)
  | One inputs =>
      Ok (inputs, to_list_or_none initial_state, to_list_or_none constants)
  end.

(** [x if x is not None else []], the [additional_inputs += x] under
    [if x is not None]. *)
Definition or_empty (x : option (list T)) : list T :=
  match x with
  | Some l => l
  | None => []
  end.

(** [__call__] up to its call of [Layer.__call__], which is not part of
    recurrent.py: the result is the argument list [Layer.__call__] is
    invoked with, that is the inputs and the [initial_state] and
    [constants] keywords.  Of the attributes it sets, [_num_constants] is
    kept; the input specs are not modelled. *)
Definition __call__ (is_keras_tensor : T -> bool) (inputs : arg T)
    (initial_state constants : option (arg T))
  : M (t C) (arg T * option (list T) * option (list T)) :=
  fun self =>
    match _standardize_args self inputs initial_state constants with
    | Raise e => (Raise e, self)
    | Ok (inputs, initial_state, constants) =>
        if is_none initial_state && is_none constants then
          (Ok (One inputs, None, None), self)
        else
          let additional_inputs :=
            (or_empty initial_state ++ or_empty constants)%list in
          let self :=
            match constants with
            | Some l => set_num_constants self (Some (length l))
            | None => self
            end in
          match getitem additional_inputs 0 with
          | Raise e => (Raise e, self)
          | Ok first =>
              let is_keras_tensor_0 := is_keras_tensor first in
              if existsb (fun tensor =>
                            negb (Bool.eqb (is_keras_tensor tensor)
                                           is_keras_tensor_0))
                         additional_inputs then
                (Raise (ValueError
                          ("The initial state or constants of an RNN layer cannot be specified with a mix of Keras tensors and non-Keras tensors (a "
                           ++ double_quote ++ "Keras tensor" ++ double_quote
                           ++ " is a tensor that was returned by a Keras layer, or by `Input`)")),
                 self)
              else if is_keras_tensor_0 then
                (Ok (Several (inputs :: additional_inputs),
                     initial_state, constants), self)
              else
                (Ok (One inputs, initial_state, constants), self)
          end
    end.

End Standardize.

(** A stateful layer with a batch size of 2 around a cell with two states,
    of sizes 4 and 3, that returns its input; its state variables do not
    exist yet. *)
Module Stateful.
Definition cls : CellClass unit :=
  {| state_size := fun _ => SizeSeq [4; 3];
     has_arg_training := false;
     has_arg_constants := false;
     cell_call := fun inputs states _ _ => ret (inputs, states) |}.
Definition layer : t unit :=
  {| name := "rnn_2"; cell := tt;
     return_sequences := false; return_state := false;
     go_backwards := false; stateful := true; unroll := false;
     input_spec_shape := Some [Some 2; None; Some 3];
     _states := None; _num_constants := None; updates := [] |}.
(** The same layer once its state variables exist, holding ones. *)
Definition initialised : t unit :=
  {| name := "rnn_2"; cell := tt;
     return_sequences := false; return_state := false;
     go_backwards := false; stateful := true; unroll := false;
     input_spec_shape := Some [Some 2; None; Some 3];
     _states := Some [Some (K.ones 2 4); Some (K.ones 2 3)];
     _num_constants := None; updates := [] |}.
(** The same layer with an input spec that has no batch size. *)
Definition no_batch_size : t unit :=
  {| name := "rnn_2"; cell := tt;
     return_sequences := false; return_state := false;
     go_backwards := false; stateful := true; unroll := false;
     input_spec_shape := Some [None; None; Some 3];
     _states := None; _num_constants := None; updates := [] |}.
End Stateful.

End RNN.

(** ** An [RNN] layer around a stack of cells

    [RNN.__init__] wraps a list of cells in [StackedRNNCells]; the layer then
    reads [state_size] and [call] of the stack.  The signature of
    [StackedRNNCells.call] names [constants] and has no [training]
    parameter. *)
Module RNNOverStack.
Definition cls
  : RNN.CellClass
      (list (StackedRNNCells.Cell K.tensor (option (option bool)))) :=
  {| RNN.state_size := fun cells => SizeSeq (StackedRNNCells.state_size cells);
     RNN.has_arg_training := false;
     RNN.has_arg_constants := true;
     RNN.cell_call := fun inputs states constants kwargs w =>
       (StackedRNNCells.call (fst w) inputs states constants kwargs, w) |}.

(** A layer around two cells that return their input, with state sizes
    [(2,)] and [3]. *)
Module Example.
Definition cell2 : StackedRNNCells.Cell K.tensor (option (option bool)) :=
  {| StackedRNNCells.cell_state_size := SizeSeq [2];
     StackedRNNCells.has_arg_constants := false;
     StackedRNNCells.cell_call := fun x st _ _ => Ok (x, st) |}.
Definition cell3 : StackedRNNCells.Cell K.tensor (option (option bool)) :=
  {| StackedRNNCells.cell_state_size := SizeInt 3;
     StackedRNNCells.has_arg_constants := false;
     StackedRNNCells.cell_call := fun x st _ _ => Ok (x, st) |}.
Definition layer
  : RNN.t (list (StackedRNNCells.Cell K.tensor (option (option bool)))) :=
  {| RNN.name := "rnn_3"; RNN.cell := [cell2; cell3];
     RNN.return_sequences := false; RNN.return_state := false;
     RNN.go_backwards := false; RNN.stateful := false; RNN.unroll := false;
     RNN.input_spec_shape := Some [None; None; Some 5];
     RNN._states := None; RNN._num_constants := None; RNN.updates := [] |}.
End Example.
End RNNOverStack.

(* ================================================================== *)
(** * Dropout masks *)
(* ================================================================== *)

(** [_generate_dropout_ones(inputs, dims)], the branch of the backends other
    than CNTK. *)
Definition _generate_dropout_ones (inputs : K.tensor) (dims : nat)
  : result K.tensor :=
  let* samples := getitem (K.shape inputs) 0 in
  Ok (K.ones samples dims).

(** [_generate_dropout_mask(ones, rate, training, count=1)]: one tensor. *)
Definition _generate_dropout_mask (ones : K.tensor) (rate : Q)
    (training : option bool) (g : K.backend) : K.tensor * K.backend :=
  K.in_train_phase (K.dropout ones rate) ones training g.

(** [_generate_dropout_mask(ones, rate, training, count)] for [count > 1]:
    the list comprehension, one draw per element. *)
Fixpoint _generate_dropout_masks (ones : K.tensor) (rate : Q)
    (training : option bool) (count : nat) (g : K.backend)
  : list K.tensor * K.backend :=
  match count with
  | 0 => ([], g)
  | S count' =>
      let r := K.in_train_phase (K.dropout ones rate) ones training g in
      let rs := _generate_dropout_masks ones rate training count' (snd r) in
      (fst r :: fst rs, snd rs)
  end.

(** There is a state [states[0]]. *)
Definition has_state (states : list K.tensor) : bool :=
  match states with
  | [] => false
  | _ :: _ => true
  end.

(* ================================================================== *)
(** * [SimpleRNNCell] and [SimpleRNN] *)
(* ================================================================== *)

Module SimpleRNNCell.

Record t := {
  units : nat;
  activation : option (K.tensor -> K.tensor);
  kernel : list (list R);
  recurrent_kernel : list (list R);
  bias : option (list R);
  dropout : Q;
  recurrent_dropout : Q;
  _dropout_mask : option K.tensor;
  _recurrent_dropout_mask : option K.tensor
}.

Definition set_masks (self : t) (dp rec_dp : option K.tensor) : t :=
  {| units := units self; activation := activation self;
     kernel := kernel self; recurrent_kernel := recurrent_kernel self;
     bias := bias self; dropout := dropout self;
     recurrent_dropout := recurrent_dropout self;
     _dropout_mask := dp; _recurrent_dropout_mask := rec_dp |}.

Definition is_None {A} (o : option A) : bool :=
  match o with None => true | Some _ => false end.

(** The first [if] of [call]: the lazy generation of [_dropout_mask]. *)
Definition generate_dropout_mask (inputs : K.tensor)
    (training : option bool) : M (t * K.backend) unit :=
  fun w =>
    let self := fst w in
    if in_open_unit (dropout self) && is_None (_dropout_mask self) then
      match (let* d := K.last_dim inputs in _generate_dropout_ones inputs d)
      with
      | Raise e => (Raise e, w)
      | Ok ones =>
          let r := _generate_dropout_mask ones (dropout self) training (snd w) in
          (Ok tt,
           (set_masks self (Some (fst r)) (_recurrent_dropout_mask self),
            snd r))
      end
    else (Ok tt, w).

(** The second [if] of [call]. *)
Definition generate_recurrent_dropout_mask (inputs : K.tensor)
    (training : option bool) : M (t * K.backend) unit :=
  fun w =>
    let self := fst w in
    if in_open_unit (recurrent_dropout self)
       && is_None (_recurrent_dropout_mask self) then
      match _generate_dropout_ones inputs (units self) with
      | Raise e => (Raise e, w)
      | Ok ones =>
          let r := _generate_dropout_mask ones (recurrent_dropout self)
                                          training (snd w) in
          (Ok tt, (set_masks self (_dropout_mask self) (Some (fst r)), snd r))
      end
    else (Ok tt, w).

(** The rest of [call], which only reads the cell. *)
Definition output_of (self : t) (inputs prev_output : K.tensor)
  : result (K.tensor * list K.tensor) :=
  let dp_mask := _dropout_mask self in
  let rec_dp_mask := _recurrent_dropout_mask self in
  let* h :=
    match dp_mask with
    | Some dp_mask =>
        let* x := K.mul inputs dp_mask in K.dot x (kernel self)
    | None => K.dot inputs (kernel self)
    end in
  let* h :=
    match bias self with
    | Some b => K.bias_add h b
    | None => Ok h
    end in
  let* prev_output :=
    match rec_dp_mask with
    | Some rec_dp_mask => K.mul prev_output rec_dp_mask
    | None => Ok prev_output
    end in
  let* r := K.dot prev_output (recurrent_kernel self) in
  let* output := K.add h r in
  let output :=
    match activation self with
    | Some f => f output
    | None => output
    end in
  Ok (output, [output]).

Definition call (inputs : K.tensor) (states : list K.tensor)
    (training : option bool)
  : M (t * K.backend) (K.tensor * list K.tensor) :=
  let! prev_output := lift (getitem states 0) in
  let! _ := generate_dropout_mask inputs training in
  let! _ := generate_recurrent_dropout_mask inputs training in
  let! w := get in
  lift (output_of (fst w) inputs prev_output).

(** Every mask that [call] would generate is already there. *)
Definition masks_in_place (self : t) : bool :=
  negb (in_open_unit (dropout self) && is_None (_dropout_mask self)) &&
  negb (in_open_unit (recurrent_dropout self)
        && is_None (_recurrent_dropout_mask self)).

(** The cell and the backend once the two [if]s of [call] have run on the
    input [inputs]. *)
Definition after_mask_generation (inputs : K.tensor) (training : option bool)
    (w : t * K.backend) : t * K.backend :=
  snd ((let! _ := generate_dropout_mask inputs training in
        generate_recurrent_dropout_mask inputs training) w).

(** [call] without its two [if]s. *)
Definition reading (self : t) (inputs : K.tensor) (states : list K.tensor)
  : result (K.tensor * list K.tensor) :=
  let* prev_output := getitem states 0 in output_of self inputs prev_output.

(** The cell as [RNN] sees it: [state_size = units]; [call] takes
    [training] and no [constants]. *)
Definition cls : RNN.CellClass t :=
  {| RNN.state_size := fun self => SizeInt (units self);
     RNN.has_arg_training := true;
     RNN.has_arg_constants := false;
     RNN.cell_call := fun inputs states constants training =>
       match constants with
       | Some _ =>
           lift (Raise (TypeError
                   "call() got an unexpected keyword argument 'constants'"))
       | None =>
           call inputs states
                (match training with Some tr => tr | None => None end)
       end |}.

End SimpleRNNCell.

Module SimpleRNN.

(** [SimpleRNN.call]: both masks of the cell are set to [None], then the
    call goes to [RNN.call]. *)
Definition call (rnn : RNN.driver SimpleRNNCell.t) (inputs : arg ktensor)
    (mask : option (arg K.tensor)) (training : option bool)
    (initial_state : option (list K.tensor))
  : M (RNN.t SimpleRNNCell.t * K.backend) (arg K.tensor) :=
  fun w =>
    let self := fst w in
    let self :=
      RNN.set_cell self (SimpleRNNCell.set_masks (RNN.cell self) None None) in
    RNN.call SimpleRNNCell.cls rnn inputs mask training initial_state None
             (self, snd w).

(** A layer of one unit on inputs of one feature, without bias and
    activation, both kernels the 1x1 identity; [rate] is the input dropout,
    the recurrent dropout is 0. *)
Module Example.
Definition cell (rate : Q) : SimpleRNNCell.t :=
  {| SimpleRNNCell.units := 1;
     SimpleRNNCell.activation := None;
     SimpleRNNCell.kernel := [[1%R]];
     SimpleRNNCell.recurrent_kernel := [[1%R]];
     SimpleRNNCell.bias := None;
     SimpleRNNCell.dropout := rate;
     SimpleRNNCell.recurrent_dropout := 0;
     SimpleRNNCell._dropout_mask := None;
     SimpleRNNCell._recurrent_dropout_mask := None |}.
Definition layer (rate : Q) : RNN.t SimpleRNNCell.t :=
  {| RNN.name := "simple_rnn_1"; RNN.cell := cell rate;
     RNN.return_sequences := false; RNN.return_state := false;
     RNN.go_backwards := false; RNN.stateful := false; RNN.unroll := false;
     RNN.input_spec_shape := Some [None; None; Some 1];
     RNN._states := None; RNN._num_constants := None; RNN.updates := [] |}.
(** One sample of two timesteps. *)
Definition inputs : ktensor :=
  {| int_shape := [None; Some 2; Some 1];
     value := K.Cube [[[1]; [2]]]%R |}.
Definition backend : K.backend :=
  {| K.noise := fun _ _ => true; K.draws := 0; K.learning_phase := true |}.
(** The same layer with [unroll=True], its cell holding the input dropout
    mask of an earlier call. *)
Definition unrolled : RNN.t SimpleRNNCell.t :=
  {| RNN.name := "simple_rnn_1";
     RNN.cell := SimpleRNNCell.set_masks (cell (1 # 2))
                   (Some (K.Mat [[2%R]])) None;
     RNN.return_sequences := false; RNN.return_state := false;
     RNN.go_backwards := false; RNN.stateful := false; RNN.unroll := true;
     RNN.input_spec_shape := Some [None; None; Some 1];
     RNN._states := None; RNN._num_constants := None; RNN.updates := [] |}.
(** One sample of one timestep. *)
Definition one_timestep : ktensor :=
  {| int_shape := [None; Some 1; Some 1];
     value := K.Cube [[[1]]]%R |}.
End Example.

End SimpleRNN.

(* ================================================================== *)
(** * [GRUCell] *)
(* ================================================================== *)

Module GRUCell.

(** The attributes of a cell.  [bias] is split by [build] into
    [input_bias] and [recurrent_bias]; the latter is [None] unless
    [reset_after]; both are [None] without [use_bias]. *)
Record t := {
  units : nat;
  activation : K.tensor -> K.tensor;
  recurrent_activation : K.tensor -> K.tensor;
  use_bias : bool;
  kernel : list (list R);
  recurrent_kernel : list (list R);
  input_bias : option (list R);
  recurrent_bias : option (list R);
  dropout : Q;
  recurrent_dropout : Q;
  implementation : nat;
  reset_after : bool;
  _dropout_mask : option (list K.tensor);
  _recurrent_dropout_mask : option (list K.tensor)
}.

Definition set_implementation (self : t) (n : nat) : t :=
  {| units := units self; activation := activation self;
     recurrent_activation := recurrent_activation self;
     use_bias := use_bias self; kernel := kernel self;
     recurrent_kernel := recurrent_kernel self;
     input_bias := input_bias self; recurrent_bias := recurrent_bias self;
     dropout := dropout self; recurrent_dropout := recurrent_dropout self;
     implementation := n; reset_after := reset_after self;
     _dropout_mask := _dropout_mask self;
     _recurrent_dropout_mask := _recurrent_dropout_mask self |}.

Definition set_masks (self : t) (dp rec_dp : option (list K.tensor)) : t :=
  {| units := units self; activation := activation self;
     recurrent_activation := recurrent_activation self;
     use_bias := use_bias self; kernel := kernel self;
     recurrent_kernel := recurrent_kernel self;
     input_bias := input_bias self; recurrent_bias := recurrent_bias self;
     dropout := dropout self; recurrent_dropout := recurrent_dropout self;
     implementation := implementation self; reset_after := reset_after self;
     _dropout_mask := dp; _recurrent_dropout_mask := rec_dp |}.

(** ** The slices that [build] takes of the weights *)

(** update gate *)
Definition kernel_z (self : t) := slice 0 (Some (units self)) (kernel self).
Definition recurrent_kernel_z (self : t) :=
  slice 0 (Some (units self)) (recurrent_kernel self).
(** reset gate *)
Definition kernel_r (self : t) :=
  slice (units self) (Some (units self * 2)) (kernel self).
Definition recurrent_kernel_r (self : t) :=
  slice (units self) (Some (units self * 2)) (recurrent_kernel self).
(** new gate *)
Definition kernel_h (self : t) := slice (units self * 2) None (kernel self).
Definition recurrent_kernel_h (self : t) :=
  slice (units self * 2) None (recurrent_kernel self).

(** bias for inputs *)
Definition input_bias_z (self : t) :=
  option_map (slice 0 (Some (units self))) (input_bias self).
Definition input_bias_r (self : t) :=
  option_map (slice (units self) (Some (units self * 2))) (input_bias self).
Definition input_bias_h (self : t) :=
  option_map (slice (units self * 2) None) (input_bias self).
(** bias for hidden state *)
Definition recurrent_bias_z (self : t) :=
  option_map (slice 0 (Some (units self))) (recurrent_bias self).
Definition recurrent_bias_r (self : t) :=
  option_map (slice (units self) (Some (units self * 2)))
             (recurrent_bias self).
Definition recurrent_bias_h (self : t) :=
  option_map (slice (units self * 2) None) (recurrent_bias self).

(** The shapes that [build] gives the weights for inputs of [input_dim]
    features. *)
Definition built (self : t) (input_dim : nat) : Prop :=
  length (kernel self) = units self * 3 /\
  Forall (fun c => length c = input_dim) (kernel self) /\
  length (recurrent_kernel self) = units self * 3 /\
  Forall (fun c => length c = units self) (recurrent_kernel self) /\
  (use_bias self = true ->
   exists b, input_bias self = Some b /\ length b = 3 * units self) /\
  (use_bias self = true -> reset_after self = true ->
   exists b, recurrent_bias self = Some b /\ length b = 3 * units self).

(** ** [call] *)

(** [K.bias_add(x, b)] with an attribute [b] that may be [None]. *)
Definition bias_add (x : K.tensor) (b : option (list R)) : result K.tensor :=
  match b with
  | Some b => K.bias_add x b
  | None => Raise (TypeError "'NoneType' object has no attribute 'shape'")
  end.

(** [mask[i]] on a mask attribute. *)
Definition mask_at (mask : option (list K.tensor)) (i : nat)
  : result K.tensor :=
  match mask with
  | Some l => getitem l i
  | None => Raise (TypeError "'NoneType' object is not subscriptable")
  end.

Definition is_None {A} (o : option A) : bool :=
  match o with None => true | Some _ => false end.

(** The two [if]s at the top of [call] ([count=3]). *)
Definition generate_dropout_mask (inputs : K.tensor)
    (training : option bool) : M (t * K.backend) unit :=
  fun w =>
    let self := fst w in
    if in_open_unit (dropout self) && is_None (_dropout_mask self) then
      match (let* d := K.last_dim inputs in _generate_dropout_ones inputs d)
      with
      | Raise e => (Raise e, w)
      | Ok ones =>
          let r := _generate_dropout_masks ones (dropout self) training 3
                                           (snd w) in
          (Ok tt,
           (set_masks self (Some (fst r)) (_recurrent_dropout_mask self),
            snd r))
      end
    else (Ok tt, w).

Definition generate_recurrent_dropout_mask (inputs : K.tensor)
    (training : option bool) : M (t * K.backend) unit :=
  fun w =>
    let self := fst w in
    if in_open_unit (recurrent_dropout self)
       && is_None (_recurrent_dropout_mask self) then
      match _generate_dropout_ones inputs (units self) with
      | Raise e => (Raise e, w)
      | Ok ones =>
          let r := _generate_dropout_masks ones (recurrent_dropout self)
                                           training 3 (snd w) in
          (Ok tt, (set_masks self (_dropout_mask self) (Some (fst r)), snd r))
      end
    else (Ok tt, w).

(** The branch [if self.implementation == 1]: the gates [z] and the
    candidate [hh], with the [h_tm1] that the last line of [call] mixes in. *)
Definition gates_1 (self : t) (inputs h_tm1 : K.tensor)
  : result (K.tensor * K.tensor * K.tensor) :=
  let dp_mask := _dropout_mask self in
  let rec_dp_mask := _recurrent_dropout_mask self in
  let drop := in_open_unit (dropout self) in
  let rec_drop := in_open_unit (recurrent_dropout self) in
  let* inputs_z :=
    if drop then let* m := mask_at dp_mask 0 in K.mul inputs m
    else Ok inputs in
  let* inputs_r :=
    if drop then let* m := mask_at dp_mask 1 in K.mul inputs m
    else Ok inputs in
  let* inputs_h :=
    if drop then let* m := mask_at dp_mask 2 in K.mul inputs m
    else Ok inputs in
  let* x_z := K.dot inputs_z (kernel_z self) in
  let* x_r := K.dot inputs_r (kernel_r self) in
  let* x_h := K.dot inputs_h (kernel_h self) in
  let* x_z :=
    if use_bias self then bias_add x_z (input_bias_z self) else Ok x_z in
  let* x_r :=
    if use_bias self then bias_add x_r (input_bias_r self) else Ok x_r in
  let* x_h :=
    if use_bias self then bias_add x_h (input_bias_h self) else Ok x_h in
  let* h_tm1_z :=
    if rec_drop then let* m := mask_at rec_dp_mask 0 in K.mul h_tm1 m
    else Ok h_tm1 in
  let* h_tm1_r :=
    if rec_drop then let* m := mask_at rec_dp_mask 1 in K.mul h_tm1 m
    else Ok h_tm1 in
  let* h_tm1_h :=
    if rec_drop then let* m := mask_at rec_dp_mask 2 in K.mul h_tm1 m
    else Ok h_tm1 in
  let* recurrent_z := K.dot h_tm1_z (recurrent_kernel_z self) in
  let* recurrent_r := K.dot h_tm1_r (recurrent_kernel_r self) in
  let* recurrent_z :=
    if reset_after self && use_bias self
    then bias_add recurrent_z (recurrent_bias_z self) else Ok recurrent_z in
  let* recurrent_r :=
    if reset_after self && use_bias self
    then bias_add recurrent_r (recurrent_bias_r self) else Ok recurrent_r in
  let* sz := K.add x_z recurrent_z in
  let z := recurrent_activation self sz in
  let* sr := K.add x_r recurrent_r in
  let r := recurrent_activation self sr in
  let* recurrent_h :=
    if reset_after self then
      let* recurrent_h := K.dot h_tm1_h (recurrent_kernel_h self) in
      let* recurrent_h :=
        if use_bias self
        then bias_add recurrent_h (recurrent_bias_h self)
        else Ok recurrent_h in
      K.mul r recurrent_h
    else
      let* rh := K.mul r h_tm1_h in
      K.dot rh (recurrent_kernel_h self) in
  let* sh := K.add x_h recurrent_h in
  let hh := activation self sh in
  Ok (z, h_tm1, hh).

(** The [else] branch, taken by every other [implementation]. *)
Definition gates_2 (self : t) (inputs h_tm1 : K.tensor)
  : result (K.tensor * K.tensor * K.tensor) :=
  let dp_mask := _dropout_mask self in
  let rec_dp_mask := _recurrent_dropout_mask self in
  let u := units self in
  let* inputs :=
    if in_open_unit (dropout self)
    then let* m := mask_at dp_mask 0 in K.mul inputs m
    else Ok inputs in
  let* matrix_x := K.dot inputs (kernel self) in
  let* matrix_x :=
    if use_bias self then bias_add matrix_x (input_bias self)
    else Ok matrix_x in
  let* x_z := K.cols 0 (Some u) matrix_x in
  let* x_r := K.cols u (Some (2 * u)) matrix_x in
  let* x_h := K.cols (2 * u) None matrix_x in
  let* h_tm1 :=
    if in_open_unit (recurrent_dropout self)
    then let* m := mask_at rec_dp_mask 0 in K.mul h_tm1 m
    else Ok h_tm1 in
  let* matrix_inner :=
    if reset_after self then
      let* matrix_inner := K.dot h_tm1 (recurrent_kernel self) in
      if use_bias self then bias_add matrix_inner (recurrent_bias self)
      else Ok matrix_inner
    else
      K.dot h_tm1 (slice 0 (Some (2 * u)) (recurrent_kernel self)) in
  let* recurrent_z := K.cols 0 (Some u) matrix_inner in
  let* recurrent_r := K.cols u (Some (2 * u)) matrix_inner in
  let* sz := K.add x_z recurrent_z in
  let z := recurrent_activation self sz in
  let* sr := K.add x_r recurrent_r in
  let r := recurrent_activation self sr in
  let* recurrent_h :=
    if reset_after self then
      let* mh := K.cols (2 * u) None matrix_inner in
      K.mul r mh
    else
      let* rh := K.mul r h_tm1 in
      K.dot rh (slice (2 * u) None (recurrent_kernel self)) in
  let* sh := K.add x_h recurrent_h in
  let hh := activation self sh in
  Ok (z, h_tm1, hh).

(** [call] once the masks are there; it only reads the cell. *)
Definition output_of (self : t) (inputs h_tm1 : K.tensor)
  : result (K.tensor * list K.tensor) :=
  let* g :=
    if (implementation self =? 1)%nat
    then gates_1 self inputs h_tm1
    else gates_2 self inputs h_tm1 in
  let z := fst (fst g) in
  let h_tm1 := snd (fst g) in
  let hh := snd g in
  (* previous and candidate state mixed by update gate *)
  let* a := K.mul z h_tm1 in
  let* one_minus_z := K.sub (K.Scal 1) z in
  let* b := K.mul one_minus_z hh in
  let* h := K.add a b in
  Ok (h, [h]).

Definition call (inputs : K.tensor) (states : list K.tensor)
    (training : option bool)
  : M (t * K.backend) (K.tensor * list K.tensor) :=
  let! h_tm1 := lift (getitem states 0) in
  let! _ := generate_dropout_mask inputs training in
  let! _ := generate_recurrent_dropout_mask inputs training in
  let! w := get in
  lift (output_of (fst w) inputs h_tm1).

(** Every mask that [call] would generate is already there. *)
Definition masks_in_place (self : t) : bool :=
  negb (in_open_unit (dropout self) && is_None (_dropout_mask self)) &&
  negb (in_open_unit (recurrent_dropout self)
        && is_None (_recurrent_dropout_mask self)).

(** The cell and the backend once the two [if]s of [call] have run on the
    input [inputs]. *)
Definition after_mask_generation (inputs : K.tensor) (training : option bool)
    (w : t * K.backend) : t * K.backend :=
  snd ((let! _ := generate_dropout_mask inputs training in
        generate_recurrent_dropout_mask inputs training) w).

(** [call] without its two [if]s. *)
Definition reading (self : t) (inputs : K.tensor) (states : list K.tensor)
  : result (K.tensor * list K.tensor) :=
  let* h_tm1 := getitem states 0 in output_of self inputs h_tm1.

(** The cell as [RNN] sees it: [state_size = units]; [call] takes
    [training] and no [constants]. *)
Definition cls : RNN.CellClass t :=
  {| RNN.state_size := fun self => SizeInt (units self);
     RNN.has_arg_training := true;
     RNN.has_arg_constants := false;
     RNN.cell_call := fun inputs states constants training =>
       match constants with
       | Some _ =>
           lift (Raise (TypeError
                   "call() got an unexpected keyword argument 'constants'"))
       | None =>
           call inputs states
                (match training with Some tr => tr | None => None end)
       end |}.

(** A cell of one unit on inputs of one feature, without bias, all weights
    0; the candidate activation is linear and the recurrent activation is
    saturated at 1; the recurrent dropout rate is 1/2. *)
Module Example.
Definition cell (implementation : nat) : t :=
  {| units := 1;
     activation := fun x => x;
     recurrent_activation := K.map_elems (fun _ => 1%R);
     use_bias := false;
     kernel := [[0]; [0]; [0]]%R;
     recurrent_kernel := [[0]; [0]; [0]]%R;
     input_bias := None;
     recurrent_bias := None;
     dropout := 0;
     recurrent_dropout := 1 # 2;
     implementation := implementation;
     reset_after := false;
     _dropout_mask := None;
     _recurrent_dropout_mask := None |}.
(** The same cell without dropout. *)
Definition plain_cell (implementation : nat) : t :=
  {| units := 1;
     activation := fun x => x;
     recurrent_activation := K.map_elems (fun _ => 1%R);
     use_bias := false;
     kernel := [[0]; [0]; [0]]%R;
     recurrent_kernel := [[0]; [0]; [0]]%R;
     input_bias := None;
     recurrent_bias := None;
     dropout := 0;
     recurrent_dropout := 0;
     implementation := implementation;
     reset_after := false;
     _dropout_mask := None;
     _recurrent_dropout_mask := None |}.
(** A cell of one unit whose kernel is all ones, with an input dropout
    rate of 1/2: the candidate activation is linear, the recurrent
    activation is constantly 0, so the new state is the candidate. *)
Definition input_dropout_cell (implementation : nat) : t :=
  {| units := 1;
     activation := fun x => x;
     recurrent_activation := K.map_elems (fun _ => 0%R);
     use_bias := false;
     kernel := [[1]; [1]; [1]]%R;
     recurrent_kernel := [[0]; [0]; [0]]%R;
     input_bias := None;
     recurrent_bias := None;
     dropout := 1 # 2;
     recurrent_dropout := 0;
     implementation := implementation;
     reset_after := false;
     _dropout_mask := None;
     _recurrent_dropout_mask := None |}.
(** The cell of recurrent dropout 1/2 with the masks that a call in
    training has left on it. *)
Definition cell_after_training (implementation : nat) : t :=
  set_masks (cell implementation) None
            (Some [K.Mat [[2%R]]; K.Mat [[2%R]]; K.Mat [[2%R]]]).
Definition inputs := K.Mat [[1%R]].
Definition states := [K.Mat [[1%R]]].
(** Every entry is kept by dropout. *)
Definition backend : K.backend :=
  {| K.noise := fun _ _ => true; K.draws := 0; K.learning_phase := true |}.
(** The first draw keeps every entry, the later ones drop every entry. *)
Definition first_draw_kept : K.backend :=
  {| K.noise := fun d _ => (d =? 0)%nat; K.draws := 0;
     K.learning_phase := true |}.
End Example.

End GRUCell.

Module GRU.

(** [GRU.call]: both masks of the cell are set to [None], then the call
    goes to [RNN.call]. *)
Definition call (rnn : RNN.driver GRUCell.t) (inputs : arg ktensor)
    (mask : option (arg K.tensor)) (training : option bool)
    (initial_state : option (list K.tensor))
  : M (RNN.t GRUCell.t * K.backend) (arg K.tensor) :=
  fun w =>
    let self := fst w in
    let self :=
      RNN.set_cell self (GRUCell.set_masks (RNN.cell self) None None) in
    RNN.call GRUCell.cls rnn inputs mask training initial_state None
             (self, snd w).

(** A layer of one unit on inputs of one feature, all weights 0, with an
    input dropout of 1/2 and no recurrent dropout. *)
Module Example.
Definition cell : GRUCell.t :=
  {| GRUCell.units := 1;
     GRUCell.activation := fun x => x;
     GRUCell.recurrent_activation := fun x => x;
     GRUCell.use_bias := false;
     GRUCell.kernel := [[0]; [0]; [0]]%R;
     GRUCell.recurrent_kernel := [[0]; [0]; [0]]%R;
     GRUCell.input_bias := None;
     GRUCell.recurrent_bias := None;
     GRUCell.dropout := 1 # 2;
     GRUCell.recurrent_dropout := 0;
     GRUCell.implementation := 1;
     GRUCell.reset_after := false;
     GRUCell._dropout_mask := None;
     GRUCell._recurrent_dropout_mask := None |}.
Definition layer : RNN.t GRUCell.t :=
  {| RNN.name := "gru_1"; RNN.cell := cell;
     RNN.return_sequences := false; RNN.return_state := false;
     RNN.go_backwards := false; RNN.stateful := false; RNN.unroll := false;
     RNN.input_spec_shape := Some [None; None; Some 1];
     RNN._states := None; RNN._num_constants := None; RNN.updates := [] |}.
End Example.

End GRU.

(* ================================================================== *)
(** * [LSTMCell.build] *)
(* ================================================================== *)

Module LSTMCell.

(** An initializer is called with a shape and returns the initial value of
    a weight; it may draw from the backend. *)
Definition initializer : Type := list nat -> M K.backend K.weight.

(** [initializers.Ones()] *)
Definition Ones : initializer :=
  fun shape =>
    match shape with
    | [n] => ret (K.W1 (repeat 1%R n))
    | [d; n] => ret (K.W2 (repeat (repeat 1%R d) n))
    | _ => lift (Raise K.BackendError)
    end.

(** [initializers.Zeros()], the default [bias_initializer]. *)
Definition Zeros : initializer :=
  fun shape =>
    match shape with
    | [n] => ret (K.W1 (repeat 0%R n))
    | [d; n] => ret (K.W2 (repeat (repeat 0%R d) n))
    | _ => lift (Raise K.BackendError)
    end.

(** The attributes that [build] and [call] read and set; the three weights
    are [None] until [build] has run. *)
Record t := {
  units : nat;
  activation : K.tensor -> K.tensor;
  recurrent_activation : K.tensor -> K.tensor;
  use_bias : bool;
  unit_forget_bias : bool;
  kernel_initializer : initializer;
  recurrent_initializer : initializer;
  bias_initializer : initializer;
  dropout : Q;
  recurrent_dropout : Q;
  implementation : nat;
  kernel : option K.weight;
  recurrent_kernel : option K.weight;
  bias : option K.weight;
  built : bool;
  _dropout_mask : option (list K.tensor);
  _recurrent_dropout_mask : option (list K.tensor)
}.

Definition set_weights (self : t) (k rk b : option K.weight) : t :=
  {| units := units self; activation := activation self;
     recurrent_activation := recurrent_activation self;
     use_bias := use_bias self;
     unit_forget_bias := unit_forget_bias self;
     kernel_initializer := kernel_initializer self;
     recurrent_initializer := recurrent_initializer self;
     bias_initializer := bias_initializer self;
     dropout := dropout self; recurrent_dropout := recurrent_dropout self;
     implementation := implementation self;
     kernel := k; recurrent_kernel := rk; bias := b; built := true;
     _dropout_mask := _dropout_mask self;
     _recurrent_dropout_mask := _recurrent_dropout_mask self |}.

Definition set_masks (self : t) (dp rec_dp : option (list K.tensor)) : t :=
  {| units := units self; activation := activation self;
     recurrent_activation := recurrent_activation self;
     use_bias := use_bias self;
     unit_forget_bias := unit_forget_bias self;
     kernel_initializer := kernel_initializer self;
     recurrent_initializer := recurrent_initializer self;
     bias_initializer := bias_initializer self;
     dropout := dropout self; recurrent_dropout := recurrent_dropout self;
     implementation := implementation self;
     kernel := kernel self; recurrent_kernel := recurrent_kernel self;
     bias := bias self; built := built self;
     _dropout_mask := dp; _recurrent_dropout_mask := rec_dp |}.

(** Modelled from the spec: [Layer.add_weight(shape, initializer, ...)]
    creates the weight with the value [initializer(shape)]; the regularizer
    and the constraint it registers do not touch that value. *)
Definition add_weight (shape : list nat) (init : initializer)
  : M K.backend K.weight :=
  init shape.

(** The local function [bias_initializer] that [build] defines under
    [unit_forget_bias]: its shape argument is ignored. *)
Definition forget_bias_initializer (self : t) : initializer :=
  fun _ =>
    let! a := bias_initializer self [units self] in
    let! b := Ones [units self] in
    let! c := bias_initializer self [units self * 2] in
    lift (K.concatenate [a; b; c]).

(** [input_shape[-1]] *)
Definition last_of (input_shape : list nat) : result nat :=
  match rev input_shape with
  | d :: _ => Ok d
  | [] => Raise (IndexError "tuple index out of range")
  end.

Definition build (input_shape : list nat) : M (t * K.backend) unit :=
  fun w =>
    let self := fst w in
    match last_of input_shape with
    | Raise e => (Raise e, w)
    | Ok input_dim =>
        let r := (let! kernel :=
                    add_weight [input_dim; units self * 4]
                               (kernel_initializer self) in
                  let! recurrent_kernel :=
                    add_weight [units self; units self * 4]
                               (recurrent_initializer self) in
                  let! bias :=
                    if use_bias self then
                      let bias_initializer :=
                        if unit_forget_bias self
                        then forget_bias_initializer self
                        else bias_initializer self in
                      let! b := add_weight [units self * 4] bias_initializer in
                      ret (Some b)
                    else ret None in
                  ret (kernel, recurrent_kernel, bias)) (snd w) in
        match fst r with
        | Raise e => (Raise e, (self, snd r))
        | Ok (kernel, recurrent_kernel, bias) =>
            (Ok tt,
             (set_weights self (Some kernel) (Some recurrent_kernel) bias,
              snd r))
        end
    end.

(** The slices of the weights that [build] stores, one per gate in the
    order input, forget, candidate, output. *)
Definition kernel_i (self : t) :=
  option_map (K.slice_last 0 (Some (units self))) (kernel self).
Definition kernel_f (self : t) :=
  option_map (K.slice_last (units self) (Some (units self * 2)))
             (kernel self).
Definition kernel_c (self : t) :=
  option_map (K.slice_last (units self * 2) (Some (units self * 3)))
             (kernel self).
Definition kernel_o (self : t) :=
  option_map (K.slice_last (units self * 3) None) (kernel self).

Definition recurrent_kernel_i (self : t) :=
  option_map (K.slice_last 0 (Some (units self))) (recurrent_kernel self).
Definition recurrent_kernel_f (self : t) :=
  option_map (K.slice_last (units self) (Some (units self * 2)))
             (recurrent_kernel self).
Definition recurrent_kernel_c (self : t) :=
  option_map (K.slice_last (units self * 2) (Some (units self * 3)))
             (recurrent_kernel self).
Definition recurrent_kernel_o (self : t) :=
  option_map (K.slice_last (units self * 3) None) (recurrent_kernel self).

Definition bias_i (self : t) :=
  option_map (K.slice_last 0 (Some (units self))) (bias self).
Definition bias_f (self : t) :=
  option_map (K.slice_last (units self) (Some (units self * 2))) (bias self).
Definition bias_c (self : t) :=
  option_map (K.slice_last (units self * 2) (Some (units self * 3)))
             (bias self).
Definition bias_o (self : t) :=
  option_map (K.slice_last (units self * 3) None) (bias self).

Definition respects_shape (init : initializer) : Prop :=
  forall n g, exists v g',
    init [n] g = (Ok (K.W1 v), g') /\ length v = n.

(** An initializer that returns, for a 2-D shape [(d, n)], a matrix of
    [n] columns of length [d]. *)
Definition respects_shape_2d (init : initializer) : Prop :=
  forall d n g, exists cols g',
    init [d; n] g = (Ok (K.W2 cols), g') /\
    length cols = n /\ K.rows cols d.

(** ** [call] *)

(** A weight attribute where the backend expects a 2-D kernel or a 1-D
    bias; the attribute does not exist before [build]. *)
Definition no_attribute (name : string) : exception :=
  AttributeError ("'LSTMCell' object has no attribute '" ++ name ++ "'")%string.

Definition dot (x : K.tensor) (name : string) (w : option K.weight)
  : result K.tensor :=
  match w with
  | Some (K.W2 cols) => K.dot x cols
  | Some (K.W1 _) => Raise K.BackendError
  | None => Raise (no_attribute name)
  end.

Definition bias_add (x : K.tensor) (name : string) (b : option K.weight)
  : result K.tensor :=
  match b with
  | Some (K.W1 v) => K.bias_add x v
  | Some (K.W2 _) => Raise K.BackendError
  | None => Raise (no_attribute name)
  end.

(** [mask[i]] on a mask attribute. *)
Definition mask_at (mask : option (list K.tensor)) (i : nat)
  : result K.tensor :=
  match mask with
  | Some l => getitem l i
  | None => Raise (TypeError "'NoneType' object is not subscriptable")
  end.

Definition is_None {A} (o : option A) : bool :=
  match o with None => true | Some _ => false end.

(** The two [if]s at the top of [call] ([count=4]). *)
Definition generate_dropout_mask (inputs : K.tensor)
    (training : option bool) : M (t * K.backend) unit :=
  fun w =>
    let self := fst w in
    if in_open_unit (dropout self) && is_None (_dropout_mask self) then
      match (let* d := K.last_dim inputs in _generate_dropout_ones inputs d)
      with
      | Raise e => (Raise e, w)
      | Ok ones =>
          let r := _generate_dropout_masks ones (dropout self) training 4
                                           (snd w) in
          (Ok tt,
           (set_masks self (Some (fst r)) (_recurrent_dropout_mask self),
            snd r))
      end
    else (Ok tt, w).

Definition generate_recurrent_dropout_mask (inputs : K.tensor)
    (training : option bool) : M (t * K.backend) unit :=
  fun w =>
    let self := fst w in
    if in_open_unit (recurrent_dropout self)
       && is_None (_recurrent_dropout_mask self) then
      match _generate_dropout_ones inputs (units self) with
      | Raise e => (Raise e, w)
      | Ok ones =>
          let r := _generate_dropout_masks ones (recurrent_dropout self)
                                           training 4 (snd w) in
          (Ok tt, (set_masks self (_dropout_mask self) (Some (fst r)), snd r))
      end
    else (Ok tt, w).

(** The branch [if self.implementation == 1]: the carry [c] and the output
    gate [o]. *)
Definition gates_1 (self : t) (inputs h_tm1 c_tm1 : K.tensor)
  : result (K.tensor * K.tensor) :=
  let dp_mask := _dropout_mask self in
  let rec_dp_mask := _recurrent_dropout_mask self in
  let drop := in_open_unit (dropout self) in
  let rec_drop := in_open_unit (recurrent_dropout self) in
  let* inputs_i :=
    if drop then let* m := mask_at dp_mask 0 in K.mul inputs m
    else Ok inputs in
  let* inputs_f :=
    if drop then let* m := mask_at dp_mask 1 in K.mul inputs m
    else Ok inputs in
  let* inputs_c :=
    if drop then let* m := mask_at dp_mask 2 in K.mul inputs m
    else Ok inputs in
  let* inputs_o :=
    if drop then let* m := mask_at dp_mask 3 in K.mul inputs m
    else Ok inputs in
  let* x_i := dot inputs_i "kernel_i" (kernel_i self) in
  let* x_f := dot inputs_f "kernel_f" (kernel_f self) in
  let* x_c := dot inputs_c "kernel_c" (kernel_c self) in
  let* x_o := dot inputs_o "kernel_o" (kernel_o self) in
  let* x_i :=
    if use_bias self then bias_add x_i "bias_i" (bias_i self) else Ok x_i in
  let* x_f :=
    if use_bias self then bias_add x_f "bias_f" (bias_f self) else Ok x_f in
  let* x_c :=
    if use_bias self then bias_add x_c "bias_c" (bias_c self) else Ok x_c in
  let* x_o :=
    if use_bias self then bias_add x_o "bias_o" (bias_o self) else Ok x_o in
  let* h_tm1_i :=
    if rec_drop then let* m := mask_at rec_dp_mask 0 in K.mul h_tm1 m
    else Ok h_tm1 in
  let* h_tm1_f :=
    if rec_drop then let* m := mask_at rec_dp_mask 1 in K.mul h_tm1 m
    else Ok h_tm1 in
  let* h_tm1_c :=
    if rec_drop then let* m := mask_at rec_dp_mask 2 in K.mul h_tm1 m
    else Ok h_tm1 in
  let* h_tm1_o :=
    if rec_drop then let* m := mask_at rec_dp_mask 3 in K.mul h_tm1 m
    else Ok h_tm1 in
  let* ri := dot h_tm1_i "recurrent_kernel_i" (recurrent_kernel_i self) in
  let* si := K.add x_i ri in
  let i := recurrent_activation self si in
  let* rf := dot h_tm1_f "recurrent_kernel_f" (recurrent_kernel_f self) in
  let* sf := K.add x_f rf in
  let f := recurrent_activation self sf in
  let* fc := K.mul f c_tm1 in
  let* rc := dot h_tm1_c "recurrent_kernel_c" (recurrent_kernel_c self) in
  let* sc := K.add x_c rc in
  let* ic := K.mul i (activation self sc) in
  let* c := K.add fc ic in
  let* ro := dot h_tm1_o "recurrent_kernel_o" (recurrent_kernel_o self) in
  let* so := K.add x_o ro in
  let o := recurrent_activation self so in
  Ok (c, o).

(** The [else] branch, taken by every other [implementation]. *)
Definition gates_2 (self : t) (inputs h_tm1 c_tm1 : K.tensor)
  : result (K.tensor * K.tensor) :=
  let dp_mask := _dropout_mask self in
  let rec_dp_mask := _recurrent_dropout_mask self in
  let u := units self in
  let* inputs :=
    if in_open_unit (dropout self)
    then let* m := mask_at dp_mask 0 in K.mul inputs m
    else Ok inputs in
  let* z := dot inputs "kernel" (kernel self) in
  let* h_tm1 :=
    if in_open_unit (recurrent_dropout self)
    then let* m := mask_at rec_dp_mask 0 in K.mul h_tm1 m
    else Ok h_tm1 in
  let* r := dot h_tm1 "recurrent_kernel" (recurrent_kernel self) in
  let* z := K.add z r in
  let* z :=
    if use_bias self then bias_add z "bias" (bias self) else Ok z in
  let* z0 := K.cols 0 (Some u) z in
  let* z1 := K.cols u (Some (2 * u)) z in
  let* z2 := K.cols (2 * u) (Some (3 * u)) z in
  let* z3 := K.cols (3 * u) None z in
  let i := recurrent_activation self z0 in
  let f := recurrent_activation self z1 in
  let* fc := K.mul f c_tm1 in
  let* ic := K.mul i (activation self z2) in
  let* c := K.add fc ic in
  let o := recurrent_activation self z3 in
  Ok (c, o).

(** [call] once the masks are there; it only reads the cell.  The mark
    [_uses_learning_phase] set on [h] is not modelled. *)
Definition output_of (self : t) (inputs : K.tensor) (states : list K.tensor)
  : result (K.tensor * list K.tensor) :=
  let* h_tm1 := getitem states 0 in  (* previous memory state *)
  let* c_tm1 := getitem states 1 in  (* previous carry state *)
  let* g :=
    if (implementation self =? 1)%nat
    then gates_1 self inputs h_tm1 c_tm1
    else gates_2 self inputs h_tm1 c_tm1 in
  let c := fst g in
  let o := snd g in
  let* h := K.mul o (activation self c) in
  Ok (h, [h; c]).

Definition call (inputs : K.tensor) (states : list K.tensor)
    (training : option bool)
  : M (t * K.backend) (K.tensor * list K.tensor) :=
  let! _ := generate_dropout_mask inputs training in
  let! _ := generate_recurrent_dropout_mask inputs training in
  let! w := get in
  lift (output_of (fst w) inputs states).

(** Every mask that [call] would generate is already there. *)
Definition masks_in_place (self : t) : bool :=
  negb (in_open_unit (dropout self) && is_None (_dropout_mask self)) &&
  negb (in_open_unit (recurrent_dropout self)
        && is_None (_recurrent_dropout_mask self)).

(** The cell and the backend once the two [if]s of [call] have run on the
    input [inputs]. *)
Definition after_mask_generation (inputs : K.tensor) (training : option bool)
    (w : t * K.backend) : t * K.backend :=
  snd ((let! _ := generate_dropout_mask inputs training in
        generate_recurrent_dropout_mask inputs training) w).

Definition set_implementation (self : t) (n : nat) : t :=
  {| units := units self; activation := activation self;
     recurrent_activation := recurrent_activation self;
     use_bias := use_bias self;
     unit_forget_bias := unit_forget_bias self;
     kernel_initializer := kernel_initializer self;
     recurrent_initializer := recurrent_initializer self;
     bias_initializer := bias_initializer self;
     dropout := dropout self; recurrent_dropout := recurrent_dropout self;
     implementation := n;
     kernel := kernel self; recurrent_kernel := recurrent_kernel self;
     bias := bias self; built := built self;
     _dropout_mask := _dropout_mask self;
     _recurrent_dropout_mask := _recurrent_dropout_mask self |}.

(** The shapes that [build] asks of the initializers for inputs of
    [input_dim] features: a kernel of shape [(input_dim, units * 4)], a
    recurrent kernel of shape [(units, units * 4)] and, with [use_bias], a
    bias of length [units * 4]. *)
Definition weights_shaped (self : t) (input_dim : nat) : Prop :=
  (exists k, kernel self = Some (K.W2 k) /\
             length k = units self * 4 /\ K.rows k input_dim) /\
  (exists r, recurrent_kernel self = Some (K.W2 r) /\
             length r = units self * 4 /\ K.rows r (units self)) /\
  (use_bias self = true ->
   exists b, bias self = Some (K.W1 b) /\ length b = units self * 4).

(** The cell as [RNN] sees it: [state_size = (units, units)]; [call] takes
    [training] and no [constants]. *)
Definition cls : RNN.CellClass t :=
  {| RNN.state_size := fun self => SizeSeq [units self; units self];
     RNN.has_arg_training := true;
     RNN.has_arg_constants := false;
     RNN.cell_call := fun inputs states constants training =>
       match constants with
       | Some _ =>
           lift (Raise (TypeError
                   "call() got an unexpected keyword argument 'constants'"))
       | None =>
           call inputs states
                (match training with Some tr => tr | None => None end)
       end |}.

(** A cell of two units with the default zero bias initializer, not yet
    built. *)
Module Example.
Definition cell : t :=
  {| units := 2; activation := K.tanh; recurrent_activation := K.tanh;
     use_bias := true; unit_forget_bias := true;
     kernel_initializer := Zeros; recurrent_initializer := Zeros;
     bias_initializer := Zeros;
     dropout := 0; recurrent_dropout := 0; implementation := 2;
     kernel := None; recurrent_kernel := None; bias := None;
     built := false;
     _dropout_mask := None; _recurrent_dropout_mask := None |}.
Definition backend : K.backend :=
  {| K.noise := fun _ _ => true; K.draws := 0; K.learning_phase := false |}.
(** A cell of one unit without dropout, with the weights of a cell built
    for inputs of one feature. *)
Definition plain_cell (implementation : nat) : t :=
  {| units := 1; activation := K.tanh; recurrent_activation := K.tanh;
     use_bias := true; unit_forget_bias := true;
     kernel_initializer := Zeros; recurrent_initializer := Zeros;
     bias_initializer := Zeros;
     dropout := 0; recurrent_dropout := 0; implementation := implementation;
     kernel := Some (K.W2 [[1]; [2]; [3]; [4]]%R);
     recurrent_kernel := Some (K.W2 [[1]; [0]; [2]; [1]]%R);
     bias := Some (K.W1 [0; 1; 0; 0]%R);
     built := true;
     _dropout_mask := None; _recurrent_dropout_mask := None |}.
End Example.

End LSTMCell.

Module LSTM.

(** [LSTM.call]: both masks of the cell are set to [None], then the call
    goes to [RNN.call]. *)
Definition call (rnn : RNN.driver LSTMCell.t) (inputs : arg ktensor)
    (mask : option (arg K.tensor)) (training : option bool)
    (initial_state : option (list K.tensor))
  : M (RNN.t LSTMCell.t * K.backend) (arg K.tensor) :=
  fun w =>
    let self := fst w in
    let self :=
      RNN.set_cell self (LSTMCell.set_masks (RNN.cell self) None None) in
    RNN.call LSTMCell.cls rnn inputs mask training initial_state None
             (self, snd w).

(** A built layer of one unit on inputs of one feature, all weights 0 and
    no bias, with an input dropout of 1/2 and no recurrent dropout. *)
Module Example.
Definition cell : LSTMCell.t :=
  {| LSTMCell.units := 1;
     LSTMCell.activation := fun x => x;
     LSTMCell.recurrent_activation := fun x => x;
     LSTMCell.use_bias := false; LSTMCell.unit_forget_bias := true;
     LSTMCell.kernel_initializer := LSTMCell.Zeros;
     LSTMCell.recurrent_initializer := LSTMCell.Zeros;
     LSTMCell.bias_initializer := LSTMCell.Zeros;
     LSTMCell.dropout := 1 # 2; LSTMCell.recurrent_dropout := 0;
     LSTMCell.implementation := 1;
     LSTMCell.kernel := Some (K.W2 [[0]; [0]; [0]; [0]]%R);
     LSTMCell.recurrent_kernel := Some (K.W2 [[0]; [0]; [0]; [0]]%R);
     LSTMCell.bias := None;
     LSTMCell.built := true;
     LSTMCell._dropout_mask := None;
     LSTMCell._recurrent_dropout_mask := None |}.
Definition layer : RNN.t LSTMCell.t :=
  {| RNN.name := "lstm_1"; RNN.cell := cell;
     RNN.return_sequences := false; RNN.return_state := false;
     RNN.go_backwards := false; RNN.stateful := false; RNN.unroll := false;
     RNN.input_spec_shape := Some [None; None; Some 1];
     RNN._states := None; RNN._num_constants := None; RNN.updates := [] |}.
End Example.

End LSTM.

(* ================================================================== *)
(** * The plain wrappers side by side *)
(* ================================================================== *)

Module DropoutMasks.

(** What [SimpleRNN], [GRU] and [LSTM] have in common as far as their
    dropout masks go: the class of the cell and its [call], the rate
    [dropout], the [count] of masks that one generation makes, the two mask
    attributes of the cell (a single mask as a list of one), and the [call]
    of the wrapper. *)
Record wrapper (T : Type) := {
  cls : RNN.CellClass T;
  cell_call : K.tensor -> list K.tensor -> option bool ->
              M (T * K.backend) (K.tensor * list K.tensor);
  dropout : T -> Q;
  count : nat;
  _dropout_mask : T -> option (list K.tensor);
  _recurrent_dropout_mask : T -> option (list K.tensor);
  call : RNN.driver T -> arg ktensor -> option (arg K.tensor) ->
         option bool -> option (list K.tensor) ->
         M (RNN.t T * K.backend) (arg K.tensor)
}.

Arguments cls {T} w.
Arguments cell_call {T} w.
Arguments dropout {T} w.
Arguments count {T} w.
Arguments _dropout_mask {T} w.
Arguments _recurrent_dropout_mask {T} w.
Arguments call {T} w.

Definition simple_rnn : wrapper SimpleRNNCell.t :=
  {| cls := SimpleRNNCell.cls;
     cell_call := SimpleRNNCell.call;
     dropout := SimpleRNNCell.dropout;
     count := 1;
     _dropout_mask := fun c =>
       option_map (fun m => [m]) (SimpleRNNCell._dropout_mask c);
     _recurrent_dropout_mask := fun c =>
       option_map (fun m => [m]) (SimpleRNNCell._recurrent_dropout_mask c);
     call := SimpleRNN.call |}.

Definition gru : wrapper GRUCell.t :=
  {| cls := GRUCell.cls;
     cell_call := GRUCell.call;
     dropout := GRUCell.dropout;
     count := 3;
     _dropout_mask := GRUCell._dropout_mask;
     _recurrent_dropout_mask := GRUCell._recurrent_dropout_mask;
     call := GRU.call |}.

Definition lstm : wrapper LSTMCell.t :=
  {| cls := LSTMCell.cls;
     cell_call := LSTMCell.call;
     dropout := LSTMCell.dropout;
     count := 4;
     _dropout_mask := LSTMCell._dropout_mask;
     _recurrent_dropout_mask := LSTMCell._recurrent_dropout_mask;
     call := LSTM.call |}.

(** One outer call of the wrapper [W] on the layer [L] with the backend
    [g].  Either the call raises before any timestep has got as far as the
    masks: the masks of the cell are [None] and nothing was drawn.  Or the
    first timestep, on an input [x1], generated the masks: the input masks
    are the [count] masks that [_generate_dropout_mask] draws from the
    backend as it was when the call started, at most [2 * count] draws were
    made in all and at least one unless [training] is false, every further
    [call] of the cell leaves cell and backend as they are, and the outer
    call returns what [RNN.call] returns when it starts with these masks in
    place. *)
Definition drawn_once_per_call {T} (W : wrapper T) (L : RNN.t T)
    (g : K.backend) (inputs : arg ktensor) (mask : option (arg K.tensor))
    (training : option bool) (initial_state : option (list K.tensor))
  : Prop :=
  let run := call W K.rnn inputs mask training initial_state (L, g) in
  let c' := RNN.cell (fst (snd run)) in
  let g' := snd (snd run) in
  (is_ok (fst run) = false /\
   _dropout_mask W c' = None /\ _recurrent_dropout_mask W c' = None /\
   g' = g) \/
  (exists x1 : list (list R),
      _dropout_mask W c'
      = Some (fst (_generate_dropout_masks
                     (K.ones (length x1) (length (hd [] x1)))
                     (dropout W (RNN.cell L)) training (count W) g)) /\
      K.draws g <= K.draws g' <= K.draws g + 2 * count W /\
      (training <> Some false -> K.draws g < K.draws g') /\
      (forall x s tr, snd (cell_call W x s tr (c', g')) = (c', g')) /\
      RNN.call (cls W) K.rnn inputs mask training initial_state None
               (RNN.set_cell L c', g')
      = run).

End DropoutMasks.

(* ================================================================== *)
(** * Constants of the conditional and attentional variants *)
(* ================================================================== *)

(** An element of the [constants] and [states] lists that a variant hands
    to the scan driver: a tensor, or a Python list of tensors (the dropout
    masks). *)
Inductive entry :=
| Tns (t : K.tensor)
| Lst (l : list K.tensor).

(** [[K.in_train_phase(dropped_inputs, ones, training=training)
      for _ in range(count)]] with
    [dropped_inputs = lambda: K.dropout(ones, rate)]. *)
Definition dropout_masks (ones : K.tensor) (rate : Q)
    (training : option bool) (count : nat) : M K.backend (list K.tensor) :=
  fun g =>
    let r := _generate_dropout_masks ones rate training count g in
    (Ok (fst r), snd r).

(** The mask of a 3D context that was given none:
    [K.cast(K.not_equal(K.sum(context, axis=2), mask_value), K.floatx())]. *)
Definition derived_mask (context : K.tensor) (mask_value : R)
  : result K.tensor :=
  let* s := K.sum_axis2 context in
  Ok (K.cast (K.not_equal s mask_value)).

Module GRUCond.

(** The attributes that [get_constants] reads; [context] is set by
    [call]. *)
Record t := {
  units : nat;
  dropout : Q;
  recurrent_dropout : Q;
  static_ctx : bool;
  mask_value : R;
  context : K.tensor
}.

Definition get_constants (self : t) (inputs : K.tensor)
    (mask_context : option K.tensor) (training : option bool)
  : M K.backend (list entry) :=
  let constants := [] in
  (* States[2] - Dropout_U *)
  let! constants :=
    if in_open_unit (recurrent_dropout self) then
      let! ones :=
        lift (let* x := K.index_0_0 inputs in
              let* x := K.reshape_column x in
              K.tile_1 (K.ones_like x) (units self)) in
      let! rec_dp_mask :=
        dropout_masks ones (recurrent_dropout self) training 3 in
      ret (constants ++ [Lst rec_dp_mask])
    else ret (constants ++ [Lst (repeat K.one 3)]) in
  (* States[3] - Dropout_W *)
  let! dp_mask :=
    if in_open_unit (dropout self) then
      let! ones :=
        lift (let* x := K.steps 0 (Some 1) (context self) in
              let* x := K.squeeze_1 x in
              Ok (K.ones_like x)) in
      dropout_masks ones (dropout self) training 3
    else ret (repeat K.one 3) in
  let constants :=
    if static_ctx self then constants ++ [Lst dp_mask] else constants in
  (* States[4] - context *)
  let constants := constants ++ [Tns (context self)] in
  (* States[5] - mask_context *)
  let! mask_context :=
    match mask_context with
    | None => lift (derived_mask (context self) (mask_value self))
    | Some m => ret m
    end in
  ret (constants ++ [Tns mask_context]).

Definition set_static_ctx (self : t) (b : bool) : t :=
  {| units := units self; dropout := dropout self;
     recurrent_dropout := recurrent_dropout self; static_ctx := b;
     mask_value := mask_value self; context := context self |}.

End GRUCond.

Module AttLSTMCond.

Record t := {
  units : nat;
  context_dim : nat;
  use_bias : bool;
  dropout : Q;
  recurrent_dropout : Q;
  attention_dropout : Q;
  mask_value : R;
  attention_context_kernel : list (list R);
  bias_ba : option (list R);
  context : K.tensor
}.

(** [K.bias_add(pctx, self.bias_ba)] *)
Definition bias_add (x : K.tensor) (b : option (list R)) : result K.tensor :=
  match b with
  | Some b => K.bias_add x b
  | None => Raise (TypeError "'NoneType' object has no attribute 'shape'")
  end.

Definition get_constants (self : t) (inputs : K.tensor)
    (mask_context : option K.tensor) (training : option bool)
  : M K.backend (list entry) :=
  let constants := [] in
  (* States[4] - Dropout_W *)
  let! constants :=
    if in_open_unit (dropout self) then
      let! ones :=
        lift (let* x := K.steps 0 (Some 1) (context self) in
              let* x := K.squeeze_1 x in
              Ok (K.ones_like x)) in
      let! dp_mask := dropout_masks ones (dropout self) training 4 in
      ret (constants ++ [Lst dp_mask])
    else ret (constants ++ [Lst (repeat K.one 4)]) in
  (* States[5] - Dropout_U *)
  let! constants :=
    if in_open_unit (recurrent_dropout self) then
      let! ones :=
        lift (let* x := K.index_0_0 inputs in
              let* x := K.reshape_column x in
              K.tile_1 (K.ones_like x) (units self)) in
      let! rec_dp_mask :=
        dropout_masks ones (recurrent_dropout self) training 4 in
      ret (constants ++ [Lst rec_dp_mask])
    else ret (constants ++ [Lst (repeat K.one 4)]) in
  (* States[6] - Dropout_Wa; the rate handed to K.dropout is
     self.recurrent_dropout *)
  let! constants :=
    if in_open_unit (attention_dropout self) then
      let input_dim := units self in
      let! ones :=
        lift (let* x := K.index_0_0 inputs in
              let* x := K.reshape_column x in
              K.concatenate_copies (K.ones_like x) input_dim) in
      let! att_dp_mask :=
        dropout_masks ones (recurrent_dropout self) training 1 in
      ret (constants ++ [Lst att_dp_mask])
    else ret (constants ++ [Lst [K.one]]) in
  let! pctx :=
    if in_open_unit (attention_dropout self) then
      let input_dim := context_dim self in
      let! ones :=
        lift (let* x := K.index_last_0 (context self) in
              let* x := K.expand_dims (K.ones_like x) in
              K.concatenate_copies x input_dim) in
      let! g := get in
      let d := K.dropout ones (attention_dropout self) g in
      let! _ := put (snd d) in
      let B_Ua := [K.in_train_phase_tensor (fst d) ones g] in
      lift (let* m := getitem B_Ua 0 in
            let* x := K.mul (context self) m in
            K.dot x (attention_context_kernel self))
    else lift (K.dot (context self) (attention_context_kernel self)) in
  let! pctx :=
    if use_bias self then lift (bias_add pctx (bias_ba self)) else ret pctx in
  (* States[7] - pctx_ *)
  let constants := constants ++ [Tns pctx] in
  (* States[8] - context *)
  let constants := constants ++ [Tns (context self)] in
  (* States[9] - mask_context *)
  let! mask_context :=
    match mask_context with
    | None => lift (derived_mask (context self) (mask_value self))
    | Some m => ret m
    end in
  ret (constants ++ [Tns mask_context]).

Definition set_attention_dropout (self : t) (rate : Q) : t :=
  {| units := units self; context_dim := context_dim self;
     use_bias := use_bias self; dropout := dropout self;
     recurrent_dropout := recurrent_dropout self;
     attention_dropout := rate; mask_value := mask_value self;
     attention_context_kernel := attention_context_kernel self;
     bias_ba := bias_ba self; context := context self |}.

End AttLSTMCond.

(** A context of one sample and two timesteps of two features: the first
    feature vector is (1, -1), the second is all zero. *)
Module MaskExample.
Definition context : K.tensor := K.Cube [[[1; -1]; [0; 0]]]%R.
Definition inputs : K.tensor := K.Cube [[[1]]]%R.
Definition backend : K.backend :=
  {| K.noise := fun _ _ => true; K.draws := 0; K.learning_phase := false |}.
Definition gru_cond : GRUCond.t :=
  {| GRUCond.units := 1; GRUCond.dropout := 0;
     GRUCond.recurrent_dropout := 0; GRUCond.static_ctx := false;
     GRUCond.mask_value := 0%R; GRUCond.context := context |}.
(** A layer built with [static_ctx]: its context has rank 2. *)
Definition static_context : K.tensor := K.Mat [[1; -1]]%R.
Definition gru_cond_static : GRUCond.t :=
  {| GRUCond.units := 1; GRUCond.dropout := 0;
     GRUCond.recurrent_dropout := 0; GRUCond.static_ctx := true;
     GRUCond.mask_value := 0%R; GRUCond.context := static_context |}.
(** A layer without [static_ctx] and with an input dropout of 1/2. *)
Definition gru_cond_dropout : GRUCond.t :=
  {| GRUCond.units := 1; GRUCond.dropout := 1 # 2;
     GRUCond.recurrent_dropout := 0; GRUCond.static_ctx := false;
     GRUCond.mask_value := 0%R; GRUCond.context := context |}.
Definition att_lstm_cond : AttLSTMCond.t :=
  {| AttLSTMCond.units := 1; AttLSTMCond.context_dim := 2;
     AttLSTMCond.use_bias := false; AttLSTMCond.dropout := 0;
     AttLSTMCond.recurrent_dropout := 0; AttLSTMCond.attention_dropout := 0;
     AttLSTMCond.mask_value := 0%R;
     AttLSTMCond.attention_context_kernel := [[0; 0]]%R;
     AttLSTMCond.bias_ba := None; AttLSTMCond.context := context |}.
End MaskExample.

(* ================================================================== *)
(** * [AttLSTMCond2Inputs.step] *)
(* ================================================================== *)

Module AttLSTMCond2Inputs.

Local Open Scope string_scope.

(** ** Names that [step] does not bind

    A name that a function never assigns is looked up in the namespace of
    the module when the function runs.  An object found there is an element
    of a state list, or a module, class or function. *)
Inductive pyobj :=
| Val (e : entry)
| Obj (name : string).

(** The names recurrent.py binds at module level: its imports, its three
    functions and its classes.  (No builtin is called [context] or [z_];
    builtins are left out.) *)
Definition module_names : list string :=
  [ "absolute_import"; "division"; "print_function"; "np"; "warnings"; "K";
    "activations"; "initializers"; "regularizers"; "constraints"; "Layer";
    "InputSpec"; "has_arg"; "Recurrent"; "interfaces";
    "compute_attention"; "StackedRNNCells"; "RNN"; "SimpleRNNCell";
    "SimpleRNN"; "GRUCell"; "GRU"; "GRUCond"; "AttGRU"; "AttGRUCond";
    "AttConditionalGRUCond"; "LSTMCell"; "LSTM"; "_generate_dropout_ones";
    "_generate_dropout_mask"; "LSTMCond"; "AttLSTM"; "AttLSTMCond";
    "AttConditionalLSTMCond"; "AttLSTMCond2Inputs";
    "AttConditionalLSTMCond2Inputs"; "AttLSTMCond3Inputs" ].

Definition namespace : Type := list (string * pyobj).

Definition module_namespace : namespace :=
  map (fun n => (n, Obj n)) module_names.

Definition load_global (ns : namespace) (name : string) : result pyobj :=
  match find (fun b => String.eqb (fst b) name) ns with
  | Some b => Ok (snd b)
  | None => Raise (NameError ("name '" ++ name ++ "' is not defined"))
  end.

(** ** State entries where a tensor or a list is expected *)

(** A list of tensors made a tensor, as the backend does for an operand. *)
Definition stack (l : list K.tensor) : result K.tensor :=
  match l with
  | [] => Ok (K.Vec [])
  | K.Scal _ :: _ =>
      fmap K.Vec (mapM (fun t => match t with
                                 | K.Scal x => Ok x
                                 | _ => Raise K.BackendError
                                 end) l)
  | K.Vec _ :: _ =>
      fmap K.Mat (mapM (fun t => match t with
                                 | K.Vec v => Ok v
                                 | _ => Raise K.BackendError
                                 end) l)
  | K.Mat _ :: _ =>
      fmap K.Cube (mapM (fun t => match t with
                                  | K.Mat m => Ok m
                                  | _ => Raise K.BackendError
                                  end) l)
  | K.Cube _ :: _ => Raise K.BackendError
  end.

Definition as_tensor (e : entry) : result K.tensor :=
  match e with
  | Tns t => Ok t
  | Lst l => stack l
  end.

Definition obj_tensor (o : pyobj) : result K.tensor :=
  match o with
  | Val e => as_tensor e
  | Obj _ => Raise (TypeError "unsupported operand type(s) for *")
  end.

(** What [e[0]], [e[1]], ... index. *)
Definition as_list (e : entry) : result (list K.tensor) :=
  match e with
  | Lst l => Ok l
  | Tns (K.Vec v) => Ok (map K.Scal v)
  | Tns (K.Mat m) => Ok (map K.Vec m)
  | Tns (K.Cube c) => Ok (map K.Mat c)
  | Tns (K.Scal _) => Raise (IndexError "too many indices for array")
  end.

(** [e[0]] *)
Definition index0 (e : entry) : result K.tensor :=
  let* l := as_list e in getitem l 0.

(** [K.ndim(e)] *)
Definition ndim (e : entry) : result nat :=
  match e with
  | Tns t => Ok (K.ndim t)
  | Lst _ => Raise (AttributeError "'list' object has no attribute 'ndim'")
  end.

(** [mask[:, :, None] * t] *)
Definition masked_by (mask t : entry) : result entry :=
  let* m := as_tensor mask in
  let* m := K.expand_axis2 m in
  let* t := as_tensor t in
  fmap Tns (K.mul m t).

(** [t * mask[0]] *)
Definition times_first (t mask : entry) : result K.tensor :=
  let* t := as_tensor t in
  let* m := index0 mask in
  K.mul t m.

(** The call [compute_attention(h_tm1, pctx_, context, att_dp_mask, ...)]
    once its argument expressions have been evaluated. *)
Definition attend (h_tm1 pctx_ : entry) (context : pyobj)
    (att_dp_mask : entry)
    (attention_recurrent_kernel attention_context_wa : K.weight)
    (bias_ca : option K.weight) (mask_context : entry)
    (mode : Attention.attention_mode) : result (K.tensor * K.tensor) :=
  let* h := as_tensor h_tm1 in
  let* p := as_tensor pctx_ in
  let* c := obj_tensor context in
  let* d := as_list att_dp_mask in
  let* m := as_tensor mask_context in
  Attention.compute_attention h p c d attention_recurrent_kernel
    attention_context_wa bias_ca m mode.

(** ** The layer *)

(** The attributes that [step] reads; those of the second attention model
    exist on a layer built with [attend_on_both]. *)
Record t := {
  units : nat;
  attend_on_both : bool;
  use_bias : bool;
  attention_mode : Attention.attention_mode;
  activation : K.tensor -> K.tensor;
  recurrent_activation : K.tensor -> K.tensor;
  kernel : list (list R);
  kernel2 : list (list R);
  recurrent_kernel : list (list R);
  bias : option (list R);
  bias2 : option (list R);
  attention_recurrent_kernel : K.weight;
  attention_context_wa : K.weight;
  bias_ca : option K.weight;
  attention_recurrent_kernel2 : K.weight;
  attention_context_wa2 : K.weight;
  bias_ca2 : option K.weight
}.

(** The local variables that the two branches on [attend_on_both] bind from
    the tail of [states]; [att_dp_mask2] and [pctx_2] are bound in the first
    branch only. *)
Record slots := {
  att_dp_mask2 : option entry;
  context1 : entry;
  mask_context1 : entry;
  pctx_1 : entry;
  context2 : entry;
  mask_context2 : entry;
  pctx_2 : option entry
}.

(** The slots with another second context and another projection of it. *)
Definition with_second_context (s : slots) (c2 p2 : entry) : slots :=
  {| att_dp_mask2 := att_dp_mask2 s; context1 := context1 s;
     mask_context1 := mask_context1 s; pctx_1 := pctx_1 s;
     context2 := c2; mask_context2 := mask_context2 s;
     pctx_2 := Some p2 |}.

Definition unbound (name : string) : exception :=
  Exception "UnboundLocalError"
            ("local variable '" ++ name ++ "' referenced before assignment").

Definition local {A} (name : string) (o : option A) : result A :=
  match o with
  | Some a => Ok a
  | None => Raise (unbound name)
  end.

(** [l] with its element at index [i], if there is one, replaced. *)
Fixpoint replace_at {A} (i : nat) (a : A) (l : list A) : list A :=
  match l, i with
  | [], _ => []
  | _ :: l', 0 => a :: l'
  | b :: l', S i' => b :: replace_at i' a l'
  end.

Definition load_slots (self : t) (states : list entry) : result slots :=
  let pos_states := 10 in
  if attend_on_both self then
    let* a := getitem states pos_states in
    let* c1 := getitem states (pos_states + 1) in
    let* m1 := getitem states (pos_states + 2) in
    let* p1 := getitem states (pos_states + 3) in
    let* c2 := getitem states (pos_states + 4) in
    let* m2 := getitem states (pos_states + 5) in
    let* p2 := getitem states (pos_states + 6) in
    Ok {| att_dp_mask2 := Some a; context1 := c1; mask_context1 := m1;
          pctx_1 := p1; context2 := c2; mask_context2 := m2;
          pctx_2 := Some p2 |}
  else
    let* c1 := getitem states pos_states in
    let* m1 := getitem states (pos_states + 1) in
    let* p1 := getitem states (pos_states + 2) in
    let* c2 := getitem states (pos_states + 3) in
    let* m2 := getitem states (pos_states + 4) in
    Ok {| att_dp_mask2 := None; context1 := c1; mask_context1 := m1;
          pctx_1 := p1; context2 := c2; mask_context2 := m2;
          pctx_2 := None |}.

(** [K.bias_add(z, b)] with an attribute that may be [None]. *)
Definition bias_add (z : K.tensor) (b : option (list R)) : result K.tensor :=
  match b with
  | Some b => K.bias_add z b
  | None => Raise (TypeError "'NoneType' object has no attribute 'shape'")
  end.

(** The second attention model: the branch [if self.attend_on_both] after
    the first call of [compute_attention], with the [pctx_1] that the first
    masking has left.  It yields [ctx_2] and [alphas2]. *)
Definition second_attention (ns : namespace) (self : t) (h_tm1 : entry)
    (pctx_1 : entry) (s : slots) : result (entry * entry) :=
  if attend_on_both self then
    let* n := ndim (mask_context2 s) in
    let* masked :=
      if (1 <? n)%nat then
        (* Mask the context2 (only if necessary) *)
        let* p2 := local "pctx_2" (pctx_2 s) in
        let* p2 := masked_by (mask_context2 s) p2 in
        let* c2 := masked_by (mask_context2 s) (context2 s) in
        Ok (Some p2, c2)
      else Ok (pctx_2 s, context2 s) in
    (* Attention model 2 (see Formulation in class header) *)
    let* context := load_global ns "context" in
    let* dp2 := local "att_dp_mask2" (att_dp_mask2 s) in
    let* r := attend h_tm1 pctx_1 context dp2
                     (attention_recurrent_kernel2 self)
                     (attention_context_wa2 self) (bias_ca2 self)
                     (mask_context2 s) (attention_mode self) in
    Ok (Tns (fst r), Tns (snd r))
  else
    Ok (context2 s, mask_context2 s).

Definition step (ns : namespace) (self : t) (x : K.tensor)
    (states : list entry) : result (K.tensor * list entry) :=
  let* h_tm1 := getitem states 0 in      (* State *)
  let* c_tm1 := getitem states 1 in      (* Memory *)
  let* non_used_x_att := getitem states 2 in
  let* non_used_alphas_att := getitem states 3 in
  let* non_used_x_att2 := getitem states 4 in
  let* non_used_alphas_att2 := getitem states 5 in
  let* rec_dp_mask := getitem states 6 in  (* Dropout U *)
  let* dp_mask2 := getitem states 7 in     (* Dropout T *)
  let* dp_mask := getitem states 8 in      (* Dropout W *)
  let* att_dp_mask := getitem states 9 in  (* Dropout Wa *)
  let* s := load_slots self states in
  let* n := ndim (mask_context1 s) in
  let* masked :=
    if (1 <? n)%nat then
      (* Mask the context (only if necessary) *)
      let* p1 := masked_by (mask_context1 s) (pctx_1 s) in
      let* c1 := masked_by (mask_context1 s) (context1 s) in
      Ok (p1, c1)
    else Ok (pctx_1 s, context1 s) in
  let pctx_1 := fst masked in
  let* context := load_global ns "context" in
  let* r1 := attend h_tm1 pctx_1 context att_dp_mask
                    (attention_recurrent_kernel self)
                    (attention_context_wa self) (bias_ca self)
                    (mask_context1 s) (attention_mode self) in
  let ctx_1 := fst r1 in
  let alphas1 := snd r1 in
  let* r2 := second_attention ns self h_tm1 pctx_1 s in
  let ctx_2 := fst r2 in
  let alphas2 := snd r2 in
  let* hm := times_first h_tm1 rec_dp_mask in
  let* a := K.dot hm (recurrent_kernel self) in
  let* z := K.add x a in
  let* cm2 := times_first ctx_2 dp_mask2 in
  let* b := K.dot cm2 (kernel2 self) in
  let* z := K.add z b in
  let* cm1 := times_first (Tns ctx_1) dp_mask in
  let* c := K.dot cm1 (kernel self) in
  let* z := K.add z c in
  let* z :=
    if use_bias self then
      let* z := bias_add z (bias self) in
      if attend_on_both self then
        let* z_ := load_global ns "z_" in
        let* z_ := obj_tensor z_ in
        bias_add z_ (bias2 self)
      else Ok z
    else Ok z in
  let* z0 := K.cols 0 (Some (units self)) z in
  let* z1 := K.cols (units self) (Some (2 * units self)) z in
  let* z2 := K.cols (2 * units self) (Some (3 * units self)) z in
  let* z3 := K.cols (3 * units self) None z in
  let i := recurrent_activation self z0 in
  let f := recurrent_activation self z1 in
  let* c_tm1 := as_tensor c_tm1 in
  let* fc := K.mul f c_tm1 in
  let* ia := K.mul i (activation self z2) in
  let* c := K.add fc ia in
  let o := recurrent_activation self z3 in
  let* h := K.mul o (activation self c) in
  Ok (h, [Tns h; Tns c; Tns ctx_1; Tns alphas1; ctx_2; alphas2]).

(** A layer of one unit with [attend_on_both], every weight 0, and the 17
    states and constants of one step on a batch of one sample: two contexts
    of two timesteps of one feature, all dropout masks 1. *)
Module Example.
Local Open Scope R_scope.
Definition layer : t :=
  {| units := 1; attend_on_both := true; use_bias := true;
     attention_mode := Attention.ModeStr "add";
     activation := fun x => x; recurrent_activation := fun x => x;
     kernel := [[0]; [0]; [0]; [0]];
     kernel2 := [[0]; [0]; [0]; [0]];
     recurrent_kernel := [[0]; [0]; [0]; [0]];
     bias := Some [0; 0; 0; 0]; bias2 := Some [0; 0; 0; 0];
     attention_recurrent_kernel := K.W2 [[0]];
     attention_context_wa := K.W1 [0];
     bias_ca := Some (K.W1 [0; 0]);
     attention_recurrent_kernel2 := K.W2 [[0]];
     attention_context_wa2 := K.W1 [0];
     bias_ca2 := Some (K.W1 [0; 0]) |}.
Definition x : K.tensor := K.Mat [[0; 0; 0; 0]].
(** The second context and its projection, and another pair. *)
Definition context2 : K.tensor := K.Cube [[[5]; [6]]].
Definition pctx_2 : K.tensor := K.Cube [[[7]; [8]]].
Definition states_with (context2 pctx_2 : K.tensor) : list entry :=
  [ Tns (K.Mat [[0]]);            (* h_tm1 *)
    Tns (K.Mat [[0]]);            (* c_tm1 *)
    Tns (K.Mat [[0]]); Tns (K.Mat [[0; 0]]);
    Tns (K.Mat [[0]]); Tns (K.Mat [[0; 0]]);
    Lst (repeat K.one 4);         (* rec_dp_mask *)
    Lst (repeat K.one 4);         (* dp_mask2 *)
    Lst (repeat K.one 4);         (* dp_mask *)
    Lst [K.one];                  (* att_dp_mask *)
    Lst [K.one];                  (* att_dp_mask2 *)
    Tns (K.Cube [[[1]; [2]]]);    (* context1 *)
    Tns (K.Mat [[1; 1]]);         (* mask_context1 *)
    Tns (K.Cube [[[3]; [4]]]);    (* pctx_1 *)
    Tns context2;
    Tns (K.Mat [[1; 1]]);         (* mask_context2 *)
    Tns pctx_2 ].
Definition states : list entry := states_with context2 pctx_2.
(** A namespace in which, unlike in recurrent.py, the names [context] and
    [z_] are bound. *)
Definition patched_namespace : namespace :=
  ("context", Val (Tns (K.Cube [[[1]; [2]]]))) ::
  ("z_", Val (Tns (K.Mat [[0; 0; 0; 0]]))) :: module_namespace.
End Example.

End AttLSTMCond2Inputs.

(* ================================================================== *)
(** * [get_constants] of the other variants with a side context *)
(* ================================================================== *)

Module Constants.

(** ** [AttGRUCond] *)
Module AttGRUCond.

(** The attributes that [get_constants] reads; [context] is set by
    [call]. *)
Record t := {
  units : nat;
  context_dim : nat;
  use_bias : bool;
  dropout : Q;
  recurrent_dropout : Q;
  attention_dropout : Q;
  mask_value : R;
  attention_context_kernel : list (list R);
  bias_ba : option (list R);
  context : K.tensor
}.

(** [K.bias_add(pctx, self.bias_ba)] *)
Definition bias_add (x : K.tensor) (b : option (list R)) : result K.tensor :=
  match b with
  | Some b => K.bias_add x b
  | None => Raise (TypeError "'NoneType' object has no attribute 'shape'")
  end.

Definition get_constants (self : t) (inputs : K.tensor)
    (mask_context : option K.tensor) (training : option bool)
  : M K.backend (list entry) :=
  let constants := [] in
  (* States[4] - Dropout_W *)
  let! constants :=
    if in_open_unit (dropout self) then
      let! ones :=
        lift (let* x := K.steps 0 (Some 1) (context self) in
              let* x := K.squeeze_1 x in
              Ok (K.ones_like x)) in
      let! dp_mask := dropout_masks ones (dropout self) training 3 in
      ret (constants ++ [Lst dp_mask])
    else ret (constants ++ [Lst (repeat K.one 3)]) in
  (* States[5] - Dropout_U *)
  let! constants :=
    if in_open_unit (recurrent_dropout self) then
      let! ones :=
        lift (let* x := K.index_0_0 inputs in
              let* x := K.reshape_column x in
              K.tile_1 (K.ones_like x) (units self)) in
      let! rec_dp_mask :=
        dropout_masks ones (recurrent_dropout self) training 3 in
      ret (constants ++ [Lst rec_dp_mask])
    else ret (constants ++ [Lst (repeat K.one 3)]) in
  (* States[6] - Dropout_Wa; the rate handed to K.dropout is
     self.recurrent_dropout *)
  let! constants :=
    if in_open_unit (attention_dropout self) then
      let input_dim := units self in
      let! ones :=
        lift (let* x := K.index_0_0 inputs in
              let* x := K.reshape_column x in
              K.concatenate_copies (K.ones_like x) input_dim) in
      let! att_dp_mask :=
        dropout_masks ones (recurrent_dropout self) training 1 in
      ret (constants ++ [Lst att_dp_mask])
    else ret (constants ++ [Lst [K.one]]) in
  let! pctx :=
    if in_open_unit (attention_dropout self) then
      let input_dim := context_dim self in
      let! ones :=
        lift (let* x := K.index_last_0 (context self) in
              let* x := K.expand_dims (K.ones_like x) in
              K.concatenate_copies x input_dim) in
      let! g := get in
      let d := K.dropout ones (attention_dropout self) g in
      let! _ := put (snd d) in
      let B_Ua := [K.in_train_phase_tensor (fst d) ones g] in
      lift (let* m := getitem B_Ua 0 in
            let* x := K.mul (context self) m in
            K.dot x (attention_context_kernel self))
    else lift (K.dot (context self) (attention_context_kernel self)) in
  let! pctx :=
    if use_bias self then lift (bias_add pctx (bias_ba self)) else ret pctx in
  (* States[7] - pctx_ *)
  let constants := constants ++ [Tns pctx] in
  (* States[8] - context *)
  let constants := constants ++ [Tns (context self)] in
  (* States[9] - mask_context *)
  let! mask_context :=
    match mask_context with
    | None => lift (derived_mask (context self) (mask_value self))
    | Some m => ret m
    end in
  ret (constants ++ [Tns mask_context]).

End AttGRUCond.

(** ** [AttConditionalGRUCond] *)
Module AttConditionalGRUCond.

(** The attributes that [get_constants] reads; [context] is set by
    [call]. *)
Record t := {
  units : nat;
  context_dim : nat;
  use_bias : bool;
  dropout : Q;
  recurrent_dropout : Q;
  attention_dropout : Q;
  mask_value : R;
  attention_context_kernel : list (list R);
  bias_ba : option (list R);
  context : K.tensor
}.

(** [K.bias_add(pctx, self.bias_ba)] *)
Definition bias_add (x : K.tensor) (b : option (list R)) : result K.tensor :=
  match b with
  | Some b => K.bias_add x b
  | None => Raise (TypeError "'NoneType' object has no attribute 'shape'")
  end.

Definition get_constants (self : t) (inputs : K.tensor)
    (mask_context : option K.tensor) (training : option bool)
  : M K.backend (list entry) :=
  let constants := [] in
  (* States[4] - Dropout_W *)
  let! constants :=
    if in_open_unit (dropout self) then
      let! ones :=
        lift (let* x := K.steps 0 (Some 1) (context self) in
              let* x := K.squeeze_1 x in
              Ok (K.ones_like x)) in
      let! dp_mask := dropout_masks ones (dropout self) training 3 in
      ret (constants ++ [Lst dp_mask])
    else ret (constants ++ [Lst (repeat K.one 3)]) in
  (* States[5] - Dropout_U *)
  let! constants :=
    if in_open_unit (recurrent_dropout self) then
      let! ones :=
        lift (let* x := K.index_0_0 inputs in
              let* x := K.reshape_column x in
              K.tile_1 (K.ones_like x) (units self)) in
      let! rec_dp_mask :=
        dropout_masks ones (recurrent_dropout self) training 3 in
      ret (constants ++ [Lst rec_dp_mask])
    else ret (constants ++ [Lst (repeat K.one 3)]) in
  (* States[6] - Dropout_Wa; the rate handed to K.dropout is
     self.recurrent_dropout *)
  let! constants :=
    if in_open_unit (attention_dropout self) then
      let input_dim := units self in
      let! ones :=
        lift (let* x := K.index_0_0 inputs in
              let* x := K.reshape_column x in
              K.concatenate_copies (K.ones_like x) input_dim) in
      let! att_dp_mask :=
        dropout_masks ones (recurrent_dropout self) training 1 in
      ret (constants ++ [Lst att_dp_mask])
    else ret (constants ++ [Lst [K.one]]) in
  let! pctx :=
    if in_open_unit (attention_dropout self) then
      let input_dim := context_dim self in
      let! ones :=
        lift (let* x := K.index_last_0 (context self) in
              let* x := K.expand_dims (K.ones_like x) in
              K.concatenate_copies x input_dim) in
      let! g := get in
      let d := K.dropout ones (attention_dropout self) g in
      let! _ := put (snd d) in
      let B_Ua := [K.in_train_phase_tensor (fst d) ones g] in
      lift (let* m := getitem B_Ua 0 in
            let* x := K.mul (context self) m in
            K.dot x (attention_context_kernel self))
    else lift (K.dot (context self) (attention_context_kernel self)) in
  let! pctx :=
    if use_bias self then lift (bias_add pctx (bias_ba self)) else ret pctx in
  (* States[7] - pctx_ *)
  let constants := constants ++ [Tns pctx] in
  (* States[8] - context *)
  let constants := constants ++ [Tns (context self)] in
  (* States[9] - mask_context *)
  let! mask_context :=
    match mask_context with
    | None => lift (derived_mask (context self) (mask_value self))
    | Some m => ret m
    end in
  ret (constants ++ [Tns mask_context]).

End AttConditionalGRUCond.

(** ** [AttConditionalLSTMCond] *)
Module AttConditionalLSTMCond.

(** The attributes that [get_constants] reads; [context] is set by
    [call]. *)
Record t := {
  units : nat;
  context_dim : nat;
  use_bias : bool;
  dropout : Q;
  recurrent_dropout : Q;
  attention_dropout : Q;
  mask_value : R;
  attention_context_kernel : list (list R);
  bias_ba : option (list R);
  context : K.tensor
}.

(** [K.bias_add(pctx, self.bias_ba)] *)
Definition bias_add (x : K.tensor) (b : option (list R)) : result K.tensor :=
  match b with
  | Some b => K.bias_add x b
  | None => Raise (TypeError "'NoneType' object has no attribute 'shape'")
  end.

Definition get_constants (self : t) (inputs : K.tensor)
    (mask_context : option K.tensor) (training : option bool)
  : M K.backend (list entry) :=
  let constants := [] in
  (* States[4] - Dropout_W *)
  let! constants :=
    if in_open_unit (dropout self) then
      let! ones :=
        lift (let* x := K.steps 0 (Some 1) (context self) in
              let* x := K.squeeze_1 x in
              Ok (K.ones_like x)) in
      let! dp_mask := dropout_masks ones (dropout self) training 4 in
      ret (constants ++ [Lst dp_mask])
    else ret (constants ++ [Lst (repeat K.one 4)]) in
  (* States[5] - Dropout_U *)
  let! constants :=
    if in_open_unit (recurrent_dropout self) then
      let! ones :=
        lift (let* x := K.index_0_0 inputs in
              let* x := K.reshape_column x in
              K.tile_1 (K.ones_like x) (units self)) in
      let! rec_dp_mask :=
        dropout_masks ones (recurrent_dropout self) training 4 in
      ret (constants ++ [Lst rec_dp_mask])
    else ret (constants ++ [Lst (repeat K.one 4)]) in
  (* States[6] - Dropout_Wa; the rate handed to K.dropout is
     self.recurrent_dropout *)
  let! constants :=
    if in_open_unit (attention_dropout self) then
      let input_dim := units self in
      let! ones :=
        lift (let* x := K.index_0_0 inputs in
              let* x := K.reshape_column x in
              K.concatenate_copies (K.ones_like x) input_dim) in
      let! att_dp_mask :=
        dropout_masks ones (recurrent_dropout self) training 1 in
      ret (constants ++ [Lst att_dp_mask])
    else ret (constants ++ [Lst [K.one]]) in
  let! pctx :=
    if in_open_unit (attention_dropout self) then
      let input_dim := context_dim self in
      let! ones :=
        lift (let* x := K.index_last_0 (context self) in
              let* x := K.expand_dims (K.ones_like x) in
              K.concatenate_copies x input_dim) in
      let! g := get in
      let d := K.dropout ones (attention_dropout self) g in
      let! _ := put (snd d) in
      let B_Ua := [K.in_train_phase_tensor (fst d) ones g] in
      lift (let* m := getitem B_Ua 0 in
            let* x := K.mul (context self) m in
            K.dot x (attention_context_kernel self))
    else lift (K.dot (context self) (attention_context_kernel self)) in
  let! pctx :=
    if use_bias self then lift (bias_add pctx (bias_ba self)) else ret pctx in
  (* States[7] - pctx_ *)
  let constants := constants ++ [Tns pctx] in
  (* States[8] - context *)
  let constants := constants ++ [Tns (context self)] in
  (* States[9] - mask_context *)
  let! mask_context :=
    match mask_context with
    | None => lift (derived_mask (context self) (mask_value self))
    | Some m => ret m
    end in
  ret (constants ++ [Tns mask_context]).

End AttConditionalLSTMCond.

(** ** [LSTMCond]

    Its [get_constants] takes [mask_context] and reads neither it nor
    [mask_value]. *)
Module LSTMCond.

Record t := {
  units : nat;
  dropout : Q;
  recurrent_dropout : Q;
  static_ctx : bool;
  mask_value : R;
  context : K.tensor
}.

Definition get_constants (self : t) (inputs : K.tensor)
    (mask_context : option K.tensor) (training : option bool)
  : M K.backend (list entry) :=
  let constants := [] in
  (* States[3] - Dropout_W *)
  let! constants :=
    if in_open_unit (dropout self) then
      let! ones :=
        lift (let* x := K.steps 0 (Some 1) (context self) in
              let* x := K.squeeze_1 x in
              Ok (K.ones_like x)) in
      let! dp_mask := dropout_masks ones (dropout self) training 4 in
      ret (constants ++ [Lst dp_mask])
    else ret (constants ++ [Lst (repeat K.one 4)]) in
  (* States[4] - Dropout_U *)
  let! constants :=
    if in_open_unit (recurrent_dropout self) then
      let! ones :=
        lift (let* x := K.index_0_0 inputs in
              let* x := K.reshape_column x in
              K.tile_1 (K.ones_like x) (units self)) in
      let! rec_dp_mask :=
        dropout_masks ones (recurrent_dropout self) training 4 in
      ret (constants ++ [Lst rec_dp_mask])
    else ret (constants ++ [Lst (repeat K.one 4)]) in
  (* States[4] - context *)
  let constants :=
    if static_ctx self then constants ++ [Tns (context self)]
    else constants in
  ret constants.

End LSTMCond.

(** ** [AttLSTMCond2Inputs] *)
Module AttLSTMCond2Inputs.

(** The attributes that [get_constants] reads; [context1] and [context2]
    are set by [call].  [attention_dropout2], [attention_context_kernel2]
    and [bias_ba2] exist on a layer made with [attend_on_both], and are read
    on such a layer only. *)
Record t := {
  units : nat;
  context1_dim : nat;
  context2_dim : nat;
  attend_on_both : bool;
  use_bias : bool;
  dropout : Q;
  dropout2 : Q;
  recurrent_dropout : Q;
  attention_dropout : Q;
  attention_dropout2 : Q;
  mask_value : R;
  attention_context_kernel : list (list R);
  attention_context_kernel2 : list (list R);
  bias_ba : option (list R);
  bias_ba2 : option (list R);
  context1 : K.tensor;
  context2 : K.tensor
}.

(** [K.bias_add(pctx, bias)] on a bias attribute, which is [None] on a
    layer without [use_bias]. *)
Definition bias_add (x : K.tensor) (b : option (list R)) : result K.tensor :=
  match b with
  | Some b => K.bias_add x b
  | None => Raise (TypeError "'NoneType' object has no attribute 'shape'")
  end.

Definition get_constants (self : t) (inputs : K.tensor)
    (mask_context1 mask_context2 : option K.tensor) (training : option bool)
  : M K.backend (list entry) :=
  let constants := [] in
  (* States[6] - Dropout_U *)
  let! constants :=
    if in_open_unit (recurrent_dropout self) then
      let! ones :=
        lift (let* x := K.index_0_0 inputs in
              let* x := K.reshape_column x in
              K.tile_1 (K.ones_like x) (units self)) in
      let! rec_dp_mask :=
        dropout_masks ones (recurrent_dropout self) training 4 in
      ret (constants ++ [Lst rec_dp_mask])
    else ret (constants ++ [Lst (repeat K.one 4)]) in
  (* States[7] - Dropout_T *)
  let! constants :=
    if in_open_unit (dropout2 self) then
      let! ones :=
        lift (let* x := K.steps 0 (Some 1) (context2 self) in
              let* x := K.squeeze_1 x in
              Ok (K.ones_like x)) in
      let! dp_mask2 := dropout_masks ones (dropout2 self) training 4 in
      ret (constants ++ [Lst dp_mask2])
    else ret (constants ++ [Lst (repeat K.one 4)]) in
  (* States[8] - Dropout_W *)
  let! constants :=
    if in_open_unit (dropout self) then
      let! ones :=
        lift (let* x := K.steps 0 (Some 1) (context1 self) in
              let* x := K.squeeze_1 x in
              Ok (K.ones_like x)) in
      let! dp_mask := dropout_masks ones (dropout self) training 4 in
      ret (constants ++ [Lst dp_mask])
    else ret (constants ++ [Lst (repeat K.one 4)]) in
  (* AttModel *)
  (* States[9] - Dropout_Wa; the rate handed to K.dropout is
     self.recurrent_dropout *)
  let! constants :=
    if in_open_unit (attention_dropout self) then
      let input_dim := units self in
      let! ones :=
        lift (let* x := K.index_0_0 inputs in
              let* x := K.reshape_column x in
              K.concatenate_copies (K.ones_like x) input_dim) in
      let! att_dp_mask :=
        dropout_masks ones (recurrent_dropout self) training 1 in
      ret (constants ++ [Lst att_dp_mask])
    else ret (constants ++ [Lst [K.one]]) in
  let! constants :=
    if attend_on_both self then
      (* AttModel2 *)
      (* States[10] *)
      if in_open_unit (attention_dropout2 self) then
        let input_dim := units self in
        let! ones :=
          lift (let* x := K.index_0_0 inputs in
                let* x := K.reshape_column x in
                K.concatenate_copies (K.ones_like x) input_dim) in
        let! att_dp_mask2 :=
          dropout_masks ones (recurrent_dropout self) training 1 in
        ret (constants ++ [Lst att_dp_mask2])
      else ret (constants ++ [Lst [K.one]])
    else ret constants in
  (* States[11] - Context1 *)
  let constants := constants ++ [Tns (context1 self)] in
  (* States[12] - MaskContext1 *)
  let! mask_context1 :=
    match mask_context1 with
    | None => lift (derived_mask (context1 self) (mask_value self))
    | Some m => ret m
    end in
  let constants := constants ++ [Tns mask_context1] in
  (* States[13] - pctx_1 *)
  let! pctx_1 :=
    if in_open_unit (attention_dropout self) then
      let input_dim := context1_dim self in
      let! ones :=
        lift (let* x := K.index_last_0 (context1 self) in
              let* x := K.expand_dims (K.ones_like x) in
              K.concatenate_copies x input_dim) in
      let! g := get in
      let d := K.dropout ones (attention_dropout self) g in
      let! _ := put (snd d) in
      let B_Ua := [K.in_train_phase_tensor (fst d) ones g] in
      lift (let* m := getitem B_Ua 0 in
            let* x := K.mul (context1 self) m in
            K.dot x (attention_context_kernel self))
    else lift (K.dot (context1 self) (attention_context_kernel self)) in
  let! pctx_1 :=
    if use_bias self then lift (bias_add pctx_1 (bias_ba self))
    else ret pctx_1 in
  let constants := constants ++ [Tns pctx_1] in
  if attend_on_both self then
    (* States[14] - Context2 *)
    let constants := constants ++ [Tns (context2 self)] in
    (* States[15] - MaskContext2; the test of attend_on_both is repeated
       here, and its else branch is not reached *)
    let! mask_context2 :=
      if attend_on_both self then
        match mask_context2 with
        | None => lift (derived_mask (context2 self) (mask_value self))
        | Some m => ret m
        end
      else
        lift (let* x := K.index_axis1_0 (context2 self) in
              Ok (K.ones_like x)) in
    let constants := constants ++ [Tns mask_context2] in
    (* States[16] - pctx_2 *)
    let! pctx_2 :=
      if in_open_unit (attention_dropout2 self) then
        let input_dim := context2_dim self in
        let! ones :=
          lift (let* x := K.index_last_0 (context2 self) in
                let* x := K.expand_dims (K.ones_like x) in
                K.concatenate_copies x input_dim) in
        let! g := get in
        let d := K.dropout ones (attention_dropout2 self) g in
        let! _ := put (snd d) in
        let B_Ua2 := [K.in_train_phase_tensor (fst d) ones g] in
        lift (let* m := getitem B_Ua2 0 in
              let* x := K.mul (context2 self) m in
              K.dot x (attention_context_kernel2 self))
      else lift (K.dot (context2 self) (attention_context_kernel2 self)) in
    let! pctx_2 :=
      if use_bias self then lift (bias_add pctx_2 (bias_ba2 self))
      else ret pctx_2 in
    ret (constants ++ [Tns pctx_2])
  else ret constants.

End AttLSTMCond2Inputs.

(** ** [AttConditionalLSTMCond2Inputs] *)
Module AttConditionalLSTMCond2Inputs.

(** The attributes that [get_constants] reads, as in [AttLSTMCond2Inputs]. *)
Record t := {
  units : nat;
  context1_dim : nat;
  context2_dim : nat;
  attend_on_both : bool;
  use_bias : bool;
  dropout : Q;
  dropout2 : Q;
  recurrent_dropout : Q;
  attention_dropout : Q;
  attention_dropout2 : Q;
  mask_value : R;
  attention_context_kernel : list (list R);
  attention_context_kernel2 : list (list R);
  bias_ba : option (list R);
  bias_ba2 : option (list R);
  context1 : K.tensor;
  context2 : K.tensor
}.

Definition bias_add (x : K.tensor) (b : option (list R)) : result K.tensor :=
  match b with
  | Some b => K.bias_add x b
  | None => Raise (TypeError "'NoneType' object has no attribute 'shape'")
  end.

Definition get_constants (self : t) (inputs : K.tensor)
    (mask_context1 mask_context2 : option K.tensor) (training : option bool)
  : M K.backend (list entry) :=
  let constants := [] in
  (* States[6] - Dropout_U *)
  let! constants :=
    if in_open_unit (recurrent_dropout self) then
      let! ones :=
        lift (let* x := K.index_0_0 inputs in
              let* x := K.reshape_column x in
              K.tile_1 (K.ones_like x) (units self)) in
      let! rec_dp_mask :=
        dropout_masks ones (recurrent_dropout self) training 4 in
      ret (constants ++ [Lst rec_dp_mask])
    else ret (constants ++ [Lst (repeat K.one 4)]) in
  (* States[7] - Dropout_T *)
  let! constants :=
    if in_open_unit (dropout2 self) then
      let! ones :=
        lift (let* x := K.steps 0 (Some 1) (context2 self) in
              let* x := K.squeeze_1 x in
              Ok (K.ones_like x)) in
      let! dp_mask2 := dropout_masks ones (dropout2 self) training 4 in
      ret (constants ++ [Lst dp_mask2])
    else ret (constants ++ [Lst (repeat K.one 4)]) in
  (* States[8] - Dropout_W *)
  let! constants :=
    if in_open_unit (dropout self) then
      let! ones :=
        lift (let* x := K.steps 0 (Some 1) (context1 self) in
              let* x := K.squeeze_1 x in
              Ok (K.ones_like x)) in
      let! dp_mask := dropout_masks ones (dropout self) training 4 in
      ret (constants ++ [Lst dp_mask])
    else ret (constants ++ [Lst (repeat K.one 4)]) in
  (* AttModel *)
  (* States[9] - Dropout_Wa; the rate handed to K.dropout is
     self.recurrent_dropout *)
  let! constants :=
    if in_open_unit (attention_dropout self) then
      let input_dim := units self in
      let! ones :=
        lift (let* x := K.index_0_0 inputs in
              let* x := K.reshape_column x in
              K.concatenate_copies (K.ones_like x) input_dim) in
      let! att_dp_mask :=
        dropout_masks ones (recurrent_dropout self) training 1 in
      ret (constants ++ [Lst att_dp_mask])
    else ret (constants ++ [Lst [K.one]]) in
  let! constants :=
    if attend_on_both self then
      (* AttModel2 *)
      (* States[10] *)
      if in_open_unit (attention_dropout2 self) then
        let input_dim := units self in
        let! ones :=
          lift (let* x := K.index_0_0 inputs in
                let* x := K.reshape_column x in
                K.concatenate_copies (K.ones_like x) input_dim) in
        let! att_dp_mask2 :=
          dropout_masks ones (recurrent_dropout self) training 1 in
        ret (constants ++ [Lst att_dp_mask2])
      else ret (constants ++ [Lst [K.one]])
    else ret constants in
  (* States[11] - Context1 *)
  let constants := constants ++ [Tns (context1 self)] in
  (* States[12] - MaskContext1 *)
  let! mask_context1 :=
    match mask_context1 with
    | None => lift (derived_mask (context1 self) (mask_value self))
    | Some m => ret m
    end in
  let constants := constants ++ [Tns mask_context1] in
  (* States[13] - pctx_1 *)
  let! pctx_1 :=
    if in_open_unit (attention_dropout self) then
      let input_dim := context1_dim self in
      let! ones :=
        lift (let* x := K.index_last_0 (context1 self) in
              let* x := K.expand_dims (K.ones_like x) in
              K.concatenate_copies x input_dim) in
      let! g := get in
      let d := K.dropout ones (attention_dropout self) g in
      let! _ := put (snd d) in
      let B_Ua := [K.in_train_phase_tensor (fst d) ones g] in
      lift (let* m := getitem B_Ua 0 in
            let* x := K.mul (context1 self) m in
            K.dot x (attention_context_kernel self))
    else lift (K.dot (context1 self) (attention_context_kernel self)) in
  let! pctx_1 :=
    if use_bias self then lift (bias_add pctx_1 (bias_ba self))
    else ret pctx_1 in
  let constants := constants ++ [Tns pctx_1] in
  (* States[14] - Context2 *)
  let constants := constants ++ [Tns (context2 self)] in
  (* States[15] - MaskContext2 *)
  let! mask_context2 :=
    if attend_on_both self then
      match mask_context2 with
      | None => lift (derived_mask (context2 self) (mask_value self))
      | Some m => ret m
      end
    else
      lift (let* x := K.index_axis1_0 (context2 self) in
            Ok (K.ones_like x)) in
  let constants := constants ++ [Tns mask_context2] in
  if attend_on_both self then
    (* States[16] - pctx_2 *)
    let! pctx_2 :=
      if in_open_unit (attention_dropout2 self) then
        let input_dim := context2_dim self in
        let! ones :=
          lift (let* x := K.index_last_0 (context2 self) in
                let* x := K.expand_dims (K.ones_like x) in
                K.concatenate_copies x input_dim) in
        let! g := get in
        let d := K.dropout ones (attention_dropout2 self) g in
        let! _ := put (snd d) in
        let B_Ua2 := [K.in_train_phase_tensor (fst d) ones g] in
        lift (let* m := getitem B_Ua2 0 in
              let* x := K.mul (context2 self) m in
              K.dot x (attention_context_kernel2 self))
      else lift (K.dot (context2 self) (attention_context_kernel2 self)) in
    let! pctx_2 :=
      if use_bias self then lift (bias_add pctx_2 (bias_ba2 self))
      else ret pctx_2 in
    ret (constants ++ [Tns pctx_2])
  else ret constants.

End AttConditionalLSTMCond2Inputs.

(** ** [AttLSTMCond3Inputs] *)
Module AttLSTMCond3Inputs.

(** The attributes that [get_constants] reads.  Those of the first group
    are assigned by [__init__], [build] and [call]; [Ua2], [ba2], [Ua3] and
    [ba3] on a layer made with [attend_on_both], where alone they are read.
    Those of the second group are assigned by no method of the class: each
    is [None], the attribute does not exist, unless it was set from outside
    the class (the base classes [Recurrent] and [Layer] are not part of
    recurrent.py). *)
Record t := {
  units : nat;
  input_dim : nat;
  context1_dim : nat;
  context2_dim : nat;
  context3_dim : nat;
  attend_on_both : bool;
  mask_value : R;
  Ua2 : list (list R);
  ba2 : list R;
  Ua3 : list (list R);
  ba3 : list R;
  context1 : K.tensor;
  context2 : K.tensor;
  context3 : K.tensor;
  (* never assigned *)
  dropout_U : option Q;
  dropout_T : option Q;
  dropout_W : option Q;
  dropout_S : option Q;
  dropout_wa : option Q;
  dropout_Wa : option Q;
  dropout_wa2 : option Q;
  dropout_Wa2 : option Q;
  dropout_wa3 : option Q;
  dropout_Wa3 : option Q;
  dropout_Ua : option Q;
  dropout_Ua2 : option Q;
  dropout_Ua3 : option Q;
  dropout_V : option Q;
  Ua : option (list (list R));
  ba : option (list R)
}.

(** [self.name] for an attribute of the second group. *)
Definition attribute {A} (name : string) (o : option A) : result A :=
  match o with
  | Some a => Ok a
  | None =>
      Raise (AttributeError
               ("'AttLSTMCond3Inputs' object has no attribute '" ++ name
                ++ "'")%string)
  end.

(** [[K.in_train_phase(K.dropout(ones, rate), ones) for _ in range(count)]]:
    [K.in_train_phase] is given a tensor and no [training], so every element
    is one draw and the learning phase selects. *)
Fixpoint learning_phase_masks (ones : K.tensor) (rate : Q) (count : nat)
  : M K.backend (list K.tensor) :=
  match count with
  | 0 => ret []
  | S count' =>
      let! g := get in
      let d := K.dropout ones rate g in
      let! _ := put (snd d) in
      let! rest := learning_phase_masks ones rate count' in
      ret (K.in_train_phase_tensor (fst d) ones g :: rest)
  end.

(** [K.ones_like(K.reshape(x[:, 0, 0], (-1, 1)))] repeated [n] times along
    axis 1. *)
Definition ones_of_samples (x : K.tensor) (n : nat) : result K.tensor :=
  let* o := K.index_0_0 x in
  let* o := K.reshape_column o in
  K.concatenate_copies (K.ones_like o) n.

(** [K.ones_like(K.reshape(c[:, :, 0], (-1, K.shape(c)[1], 1)))] *)
Definition ones_of_steps (c : K.tensor) : result K.tensor :=
  let* o := K.index_last_0 c in
  K.expand_dims (K.ones_like o).

(** Modelled from the spec: [self.input_spec[k][0]].  The elements of
    [input_spec] are the [InputSpec] objects that [__init__] puts there;
    the class comes from the engine, which is not part of recurrent.py, and
    its objects hold attributes and cannot be indexed. *)
Definition input_spec_item {A} : result A :=
  Raise (TypeError "'InputSpec' object is not subscriptable").

(** The mask of a context that was given none; there is no cast here. *)
Definition compared (context : K.tensor) (mask_value : R) : result K.tensor :=
  let* s := K.sum_axis2 context in
  Ok (K.not_equal s mask_value).

Definition get_constants (self : t) (x : K.tensor)
    (mask_context1 mask_context2 mask_context3 : option K.tensor)
  : M K.backend (list entry * list K.tensor) :=
  let constants := [] in
  (* States[8] *)
  let! rate := lift (attribute "dropout_U" (dropout_U self)) in
  let! constants :=
    if in_open_unit rate then
      let! ones := lift (ones_of_samples x (units self)) in
      let! B_U := learning_phase_masks ones rate 4 in
      ret (constants ++ [Lst B_U])
    else ret (constants ++ [Lst (repeat K.one 4)]) in
  (* States[9]; the branch of a rate in (0, 1) stops at
     K.shape(self.input_spec[1][0]) *)
  let! rate := lift (attribute "dropout_T" (dropout_T self)) in
  let! B_T :=
    if in_open_unit rate then lift input_spec_item
    else ret (repeat K.one 4) in
  let constants := constants ++ [Lst B_T] in
  (* States[10] *)
  let! rate := lift (attribute "dropout_W" (dropout_W self)) in
  let! B_W :=
    if in_open_unit rate then lift input_spec_item
    else ret (repeat K.one 4) in
  let constants := constants ++ [Lst B_W] in
  (* States[11] *)
  let! rate := lift (attribute "dropout_S" (dropout_S self)) in
  let! B_S :=
    if in_open_unit rate then lift input_spec_item
    else ret (repeat K.one 4) in
  let constants := constants ++ [Lst B_S] in
  (* AttModel *)
  (* States[12] *)
  let! rate := lift (attribute "dropout_wa" (dropout_wa self)) in
  let! constants :=
    if in_open_unit rate then
      let! ones := lift (ones_of_steps (context1 self)) in
      let! B_wa := learning_phase_masks ones rate 1 in
      ret (constants ++ [Lst B_wa])
    else ret (constants ++ [Lst [K.one]]) in
  (* States[13] *)
  let! rate := lift (attribute "dropout_Wa" (dropout_Wa self)) in
  let! constants :=
    if in_open_unit rate then
      let input_dim := units self in
      let! ones := lift (ones_of_samples x input_dim) in
      let! B_Wa := learning_phase_masks ones rate 1 in
      ret (constants ++ [Lst B_Wa])
    else ret (constants ++ [Lst [K.one]]) in
  let! constants :=
    if attend_on_both self then
      (* AttModel2 *)
      (* States[14] *)
      let! rate := lift (attribute "dropout_wa2" (dropout_wa2 self)) in
      let! constants :=
        if in_open_unit rate then
          let! ones := lift (ones_of_steps (context2 self)) in
          let! B_wa2 := learning_phase_masks ones rate 1 in
          ret (constants ++ [Lst B_wa2])
        else ret (constants ++ [Lst [K.one]]) in
      (* States[15] *)
      let! rate := lift (attribute "dropout_Wa2" (dropout_Wa2 self)) in
      let! constants :=
        if in_open_unit rate then
          let input_dim := units self in
          let! ones := lift (ones_of_samples x input_dim) in
          let! B_Wa2 := learning_phase_masks ones rate 1 in
          ret (constants ++ [Lst B_Wa2])
        else ret (constants ++ [Lst [K.one]]) in
      (* States[16]; context2 is reshaped to the steps of context3 *)
      let! rate := lift (attribute "dropout_wa3" (dropout_wa3 self)) in
      let! constants :=
        if in_open_unit rate then
          let! ones :=
            lift (let* o := K.index_last_0 (context2 self) in
                  let* n := getitem (K.shape (context3 self)) 1 in
                  let* o := K.reshape_steps o n in
                  Ok (K.ones_like o)) in
          let! B_wa3 := learning_phase_masks ones rate 1 in
          ret (constants ++ [Lst B_wa3])
        else ret (constants ++ [Lst [K.one]]) in
      (* States[17] *)
      let! rate := lift (attribute "dropout_Wa3" (dropout_Wa3 self)) in
      if in_open_unit rate then
        let input_dim := units self in
        let! ones := lift (ones_of_samples x input_dim) in
        let! B_Wa3 := learning_phase_masks ones rate 1 in
        ret (constants ++ [Lst B_Wa3])
      else ret (constants ++ [Lst [K.one]])
    else ret constants in
  (* States[18] - [14] *)
  let constants := constants ++ [Tns (context1 self)] in
  (* States [19] - [15] *)
  let! mask_context1 :=
    match mask_context1 with
    | None => lift (compared (context1 self) (mask_value self))
    | Some m => ret m
    end in
  let constants := constants ++ [Tns mask_context1] in
  (* States [20] - [15] *)
  let! rate := lift (attribute "dropout_Ua" (dropout_Ua self)) in
  let! pctx1 :=
    if in_open_unit rate then
      let input_dim := context1_dim self in
      let! ones :=
        lift (let* o := ones_of_steps (context1 self) in
              K.concatenate_copies o input_dim) in
      let! B_Ua := learning_phase_masks ones rate 1 in
      lift (let* m := getitem B_Ua 0 in
            let* c := K.mul (context1 self) m in
            let* Ua := attribute "Ua" (Ua self) in
            let* p := K.dot c Ua in
            let* ba := attribute "ba" (ba self) in
            K.add p (K.Vec ba))
    else
      lift (let* Ua := attribute "Ua" (Ua self) in
            let* p := K.dot (context1 self) Ua in
            let* ba := attribute "ba" (ba self) in
            K.add p (K.Vec ba)) in
  let constants := constants ++ [Tns pctx1] in
  (* States[21] - [16] *)
  let constants := constants ++ [Tns (context2 self)] in
  (* States [22] - [17] *)
  let! mask_context2 :=
    if attend_on_both self then
      match mask_context2 with
      | None => lift (compared (context2 self) (mask_value self))
      | Some m => ret m
      end
    else
      lift (let* c := K.index_axis1_0 (context2 self) in Ok (K.ones_like c)) in
  let constants := constants ++ [Tns mask_context2] in
  (* States [23] - [18] *)
  let! constants :=
    if attend_on_both self then
      let! rate := lift (attribute "dropout_Ua2" (dropout_Ua2 self)) in
      let! pctx2 :=
        if in_open_unit rate then
          let input_dim := context2_dim self in
          let! ones :=
            lift (let* o := ones_of_steps (context2 self) in
                  K.concatenate_copies o input_dim) in
          let! B_Ua2 := learning_phase_masks ones rate 1 in
          lift (let* m := getitem B_Ua2 0 in
                let* c := K.mul (context2 self) m in
                let* p := K.dot c (Ua2 self) in
                K.add p (K.Vec (ba2 self)))
        else
          lift (let* p := K.dot (context2 self) (Ua2 self) in
                K.add p (K.Vec (ba2 self))) in
      ret (constants ++ [Tns pctx2])
    else ret constants in
  (* States[24] - [19] *)
  let constants := constants ++ [Tns (context3 self)] in
  (* States [25] - [20] *)
  let! mask_context3 :=
    if attend_on_both self then
      match mask_context3 with
      | None => lift (compared (context3 self) (mask_value self))
      | Some m => ret m
      end
    else
      lift (let* c := K.index_axis1_0 (context3 self) in Ok (K.ones_like c)) in
  let constants := constants ++ [Tns mask_context3] in
  (* States [26] - [21] *)
  let! constants :=
    if attend_on_both self then
      let! rate := lift (attribute "dropout_Ua3" (dropout_Ua3 self)) in
      let! pctx3 :=
        if in_open_unit rate then
          let input_dim := context3_dim self in
          let! ones :=
            lift (let* o := ones_of_steps (context3 self) in
                  K.concatenate_copies o input_dim) in
          let! B_Ua3 := learning_phase_masks ones rate 1 in
          lift (let* m := getitem B_Ua3 0 in
                let* c := K.mul (context3 self) m in
                let* p := K.dot c (Ua3 self) in
                K.add p (K.Vec (ba3 self)))
        else
          lift (let* p := K.dot (context3 self) (Ua3 self) in
                K.add p (K.Vec (ba3 self))) in
      ret (constants ++ [Tns pctx3])
    else ret constants in
  let! rate := lift (attribute "dropout_V" (dropout_V self)) in
  let! B_V :=
    if in_open_unit rate then
      let input_dim := input_dim self in
      let! ones :=
        lift (let* o := ones_of_steps x in
              K.concatenate_copies o input_dim) in
      learning_phase_masks ones rate 4
    else ret (repeat K.one 4) in
  ret (constants, B_V).

End AttLSTMCond3Inputs.

(** Layers of one unit around [MaskExample.context], without bias and with
    all rates 0. *)
Module Example.
(** A second context of one sample and two timesteps, the first feature
    vector all zero. *)
Definition context2 : K.tensor := K.Cube [[[0; 0]; [2; 3]]]%R.
(** A layer as the class makes it: none of the attributes that no method
    assigns. *)
Definition three_inputs : AttLSTMCond3Inputs.t :=
  {| AttLSTMCond3Inputs.units := 1;
     AttLSTMCond3Inputs.input_dim := 1;
     AttLSTMCond3Inputs.context1_dim := 2;
     AttLSTMCond3Inputs.context2_dim := 2;
     AttLSTMCond3Inputs.context3_dim := 2;
     AttLSTMCond3Inputs.attend_on_both := false;
     AttLSTMCond3Inputs.mask_value := 0%R;
     AttLSTMCond3Inputs.Ua2 := []; AttLSTMCond3Inputs.ba2 := [];
     AttLSTMCond3Inputs.Ua3 := []; AttLSTMCond3Inputs.ba3 := [];
     AttLSTMCond3Inputs.context1 := MaskExample.context;
     AttLSTMCond3Inputs.context2 := context2;
     AttLSTMCond3Inputs.context3 := context2;
     AttLSTMCond3Inputs.dropout_U := None;
     AttLSTMCond3Inputs.dropout_T := None;
     AttLSTMCond3Inputs.dropout_W := None;
     AttLSTMCond3Inputs.dropout_S := None;
     AttLSTMCond3Inputs.dropout_wa := None;
     AttLSTMCond3Inputs.dropout_Wa := None;
     AttLSTMCond3Inputs.dropout_wa2 := None;
     AttLSTMCond3Inputs.dropout_Wa2 := None;
     AttLSTMCond3Inputs.dropout_wa3 := None;
     AttLSTMCond3Inputs.dropout_Wa3 := None;
     AttLSTMCond3Inputs.dropout_Ua := None;
     AttLSTMCond3Inputs.dropout_Ua2 := None;
     AttLSTMCond3Inputs.dropout_Ua3 := None;
     AttLSTMCond3Inputs.dropout_V := None;
     AttLSTMCond3Inputs.Ua := None;
     AttLSTMCond3Inputs.ba := None |}.
End Example.

End Constants.


(* ================================================================== *)
(** * Properties of the layer: vocabulary *)
(* ================================================================== *)

(** How many states a cell announces with its [state_size]. *)
Definition announced_states {C : Type} (cls : RNN.CellClass C) (cell : C)
  : nat :=
  match RNN.state_size cls cell with
  | SizeInt _ => 1
  | SizeSeq dims => length dims
  end.

(** The shapes [RNN.reset_states] asks of explicit state values. *)
Module ResetStates.
Import Py.
Section Shapes.
Context {C : Type} (cls : RNN.CellClass C).

(** [self.cell.state_size[index]], or [self.cell.state_size] of a cell with
    one state. *)
Definition dim_at (L : RNN.t C) (index : nat) : result nat :=
  match RNN.state_size cls (RNN.cell L) with
  | SizeSeq dims => getitem dims index
  | SizeInt n => Ok n
  end.

(** Every value has the shape [(batch_size, dim)] of its state. *)
Definition well_shaped (L : RNN.t C) (batch_size : nat)
    (values : list K.tensor) : Prop :=
  match RNN.state_size cls (RNN.cell L) with
  | SizeSeq dims =>
      Forall2 (fun v dim => K.shape v = [batch_size; dim]) values dims
  | SizeInt n => Forall (fun v => K.shape v = [batch_size; n]) values
  end.

(** The variables the first [reset_states] of a layer creates:
    [K.zeros((batch_size, dim))] for every state. *)
Definition initial_zeros (L : RNN.t C) (batch_size : nat)
  : list (option K.tensor) :=
  match RNN.state_size cls (RNN.cell L) with
  | SizeSeq dims => map (fun dim => Some (K.zeros batch_size dim)) dims
  | SizeInt n => [Some (K.zeros batch_size n)]
  end.

End Shapes.
End ResetStates.

(* ================================================================== *)
(** * Properties *)
(* ================================================================== *)

(** Stepping through a sequence of [let*]: the computation [e] bound in a
    hypothesis [let* x := e in k = Ok r] has to have succeeded. *)
Ltac bind_ok H :=
  match type of H with
  | Py.bind ?e _ = Ok _ =>
      let x := fresh "x" in
      let E := fresh "E" in
      destruct e as [x | ?] eqn:E; cbn [Py.bind] in H; [ | discriminate H ]
  end.

Module PyFacts.

Lemma mapM_ok {A B} (f : A -> result B) (g : A -> B) (l : list A) :
  Forall (fun a => f a = Ok (g a)) l -> mapM f l = Ok (map g l).
Proof.
  induction 1 as [ | a l Ha _ IH ]; cbn; [ reflexivity | ].
  rewrite Ha; cbn. rewrite IH; reflexivity.
Qed.

Lemma fold_left_app_concat {A} (l : list (list A)) (acc : list A) :
  fold_left (fun a c => a ++ c) l acc = acc ++ concat l.
Proof.
  revert acc; induction l as [ | c l IH ]; intros acc; cbn.
  - now rewrite app_nil_r.
  - rewrite IH. now rewrite app_assoc.
Qed.

Lemma Forall2_rev {A B} (P : A -> B -> Prop) (l1 : list A) (l2 : list B) :
  Forall2 P l1 l2 -> Forall2 P (rev l1) (rev l2).
Proof.
  induction 1 as [ | a b l1 l2 Hab _ IH ]; cbn; [ constructor | ].
  apply Forall2_app; [ assumption | repeat constructor; assumption ].
Qed.

Lemma bindM_lift_ok {S A B} (a : A) (k : A -> M S B) (s : S) :
  Py.bindM (Py.lift (Ok a)) k s = k a s.
Proof. reflexivity. Qed.

Lemma bindM_lift_raise {S A B} (e : exception) (k : A -> M S B) (s : S) :
  Py.bindM (Py.lift (Raise e)) k s = (Raise e, s).
Proof. reflexivity. Qed.

Lemma bindM_assoc {S A B D} (m : M S A) (f : A -> M S B) (k : B -> M S D)
    (s : S) :
  Py.bindM (Py.bindM m f) k s = Py.bindM m (fun a => Py.bindM (f a) k) s.
Proof.
  unfold Py.bindM. destruct (m s) as [[a | e] s']; reflexivity.
Qed.

End PyFacts.

(* ------------------------------------------------------------------ *)
(** ** The attention scorer *)
(* ------------------------------------------------------------------ *)

Module AttentionFacts.

Import Attention.
Local Open Scope R_scope.

Lemma Rsum_map_div (f : R -> R) (c : R) (l : list R) :
  K.Rsum (map (fun x => f x / c) l) = K.Rsum (map f l) / c.
Proof.
  induction l as [ | x l IH ]; cbn.
  - unfold Rdiv; ring.
  - rewrite IH. unfold Rdiv; ring.
Qed.

Lemma Rsum_exp_pos (l : list R) : l <> [] -> 0 < K.Rsum (map exp l).
Proof.
  assert (Hnn : forall l', 0 <= K.Rsum (map exp l')).
  { induction l' as [ | y l' IH ]; cbn; [ lra | ].
    pose proof (exp_pos y); lra. }
  destruct l as [ | x l ]; [ congruence | intros _; cbn ].
  pose proof (exp_pos x). pose proof (Hnn l). lra.
Qed.

Lemma softmax_row_sum (e : list R) :
  e <> [] -> K.Rsum (K.softmax_row e) = 1.
Proof.
  intros He. unfold K.softmax_row.
  rewrite (Rsum_map_div exp).
  pose proof (Rsum_exp_pos e He). field. lra.
Qed.

Lemma softmax_row_pos (e : list R) :
  Forall (fun a => 0 < a) (K.softmax_row e).
Proof.
  unfold K.softmax_row. apply Forall_forall. intros a Ha.
  apply in_map_iff in Ha. destruct Ha as [x [<- Hx]].
  assert (He : e <> []) by (intros ->; inversion Hx).
  pose proof (Rsum_exp_pos e He). pose proof (exp_pos x).
  apply Rdiv_lt_0_compat; assumption.
Qed.

Lemma reshape_2d_is_matrix (e e2 : K.tensor) :
  K.reshape_2d e = Ok e2 -> exists m, e2 = K.Mat m.
Proof.
  destruct e as [ x | v | m | c ]; cbn; try discriminate.
  - intros [= <-]; eauto.
  - unfold Py.fmap. intros H. bind_ok H. injection H as <-; eauto.
Qed.

(** C4, as the code has it: whenever [compute_attention] returns, [alphas]
    is a (batch, time) matrix; every weight in it is strictly positive, at
    masked positions too, and each row over a non-empty time axis sums to 1
    over the whole axis. *)
Theorem alphas_sum_to_one_over_time_axis :
  forall h_tm1 pctx_ context att_dp_mask kernel wa bias_ca mask_context mode
         ctx_ alphas,
    compute_attention h_tm1 pctx_ context att_dp_mask kernel wa bias_ca
                      mask_context mode = Ok (ctx_, alphas) ->
    exists rows,
      alphas = K.Mat rows /\
      Forall (fun row => Forall (fun a => 0 < a) row /\
                         (row <> [] -> K.Rsum row = 1)) rows.
Proof.
  intros h_tm1 pctx_ context att_dp_mask kernel wa bias_ca mask_context mode
         ctx_ alphas H.
  unfold compute_attention in H.
  do 6 bind_ok H.
  destruct (reshape_2d_is_matrix _ _ E4) as [m ->].
  bind_ok H. cbn in E5. injection E5 as <-.
  do 3 bind_ok H. injection H as _ <-.
  exists (map K.softmax_row m). split; [ reflexivity | ].
  apply Forall_forall. intros row Hrow.
  apply in_map_iff in Hrow. destruct Hrow as [e [<- _]].
  split; [ apply softmax_row_pos | ].
  intros Hne. apply softmax_row_sum. intros ->. now apply Hne.
Qed.

(** A run of the scorer on a fully specified input, to which C4 applies. *)
Lemma alphas_sum_to_one_over_time_axis_witness :
  exists ctx_ alphas rows,
    compute_attention Example.h_tm1 Example.pctx_ Example.context
      Example.att_dp_mask Example.attention_recurrent_kernel
      Example.attention_context_wa Example.bias_ca Example.mask_context
      (ModeStr "add") = Ok (ctx_, alphas) /\
    alphas = K.Mat rows /\
    Forall (fun row => Forall (fun a => 0 < a) row /\
                       (row <> [] -> K.Rsum row = 1)) rows.
Proof.
  eexists. eexists.
  destruct (alphas_sum_to_one_over_time_axis
              Example.h_tm1 Example.pctx_ Example.context
              Example.att_dp_mask Example.attention_recurrent_kernel
              Example.attention_context_wa Example.bias_ca
              Example.mask_context (ModeStr "add") _ _ eq_refl)
    as [rows [Ha Hrows]].
  exists rows. split; [ reflexivity | ]. split; assumption.
Defined.

(** C4 as stated fails: with the second of two timesteps masked, the
    weights on the valid positions sum to less than 1. *)
Lemma masked_alphas_do_not_sum_to_one_on_valid_positions :
  exists ctx_ row,
    compute_attention Example.h_tm1 Example.pctx_ Example.context
      Example.att_dp_mask Example.attention_recurrent_kernel
      Example.attention_context_wa Example.bias_ca Example.mask_context
      (ModeStr "add") = Ok (ctx_, K.Mat [row]) /\
    valid_sum [1; 0] row <> 1.
Proof.
  eexists. eexists. split; [ reflexivity | ].
  unfold valid_sum; cbn.
  destruct (Req_dec_T 1 0) as [H10 | _]; [ lra | ].
  destruct (Req_dec_T 0 0) as [_ | H00]; [ | lra ].
  match goal with
  | |- exp ?a / (exp ?a + (exp ?b + 0)) + (0 + 0) <> 1 =>
      pose proof (exp_pos a); pose proof (exp_pos b);
      set (ea := exp a) in *; set (eb := exp b) in *
  end.
  intros Heq.
  assert (Hs : ea / (ea + (eb + 0)) * (ea + (eb + 0)) = ea) by (field; lra).
  assert (Hd : ea / (ea + (eb + 0)) = 1) by lra.
  rewrite Hd in Hs. lra.
Qed.

(** C6, as the code has it: a string that is none of 'add', 'bahdanau',
    'dot', 'luong' makes [compute_attention] fail on every input, and the
    exception is [NotImplementedError] with the mode in its message as soon
    as the query projection [p_state_] has been computed. *)
Theorem unsupported_attention_mode_raises_NotImplementedError :
  forall h_tm1 pctx_ context att_dp_mask kernel wa bias_ca mask_context s,
    String.eqb s "add" = false -> String.eqb s "bahdanau" = false ->
    String.eqb s "dot" = false -> String.eqb s "luong" = false ->
    (exists e,
        compute_attention h_tm1 pctx_ context att_dp_mask kernel wa bias_ca
                          mask_context (ModeStr s) = Raise e) /\
    (forall m0 hm p_state_,
        getitem att_dp_mask 0 = Ok m0 ->
        K.mul h_tm1 m0 = Ok hm ->
        K.dot_product hm kernel = Ok p_state_ ->
        compute_attention h_tm1 pctx_ context att_dp_mask kernel wa bias_ca
                          mask_context (ModeStr s)
        = Raise (NotImplementedError
                   ("The attention mode " ++ s ++ " is not implemented."))).
Proof.
  intros h_tm1 pctx_ context att_dp_mask kernel wa bias_ca mask_context s
         Ha Hb Hd Hl.
  unfold compute_attention. rewrite Ha, Hb, Hd, Hl. cbn [orb].
  split.
  - destruct (getitem att_dp_mask 0) as [m0 | e]; cbn [Py.bind]; [ | eauto ].
    destruct (K.mul h_tm1 m0) as [hm | e]; cbn [Py.bind]; [ | eauto ].
    destruct (K.dot_product hm kernel) as [p | e]; cbn [Py.bind]; eauto.
  - intros m0 hm p E0 E1 E2.
    rewrite E0; cbn [Py.bind]. rewrite E1; cbn [Py.bind].
    rewrite E2; reflexivity.
Qed.

Lemma unsupported_attention_mode_raises_NotImplementedError_witness :
  compute_attention Example.h_tm1 Example.pctx_ Example.context
    Example.att_dp_mask Example.attention_recurrent_kernel
    Example.attention_context_wa Example.bias_ca Example.mask_context
    (ModeStr "general")
  = Raise (NotImplementedError
             "The attention mode general is not implemented.").
Proof.
  refine (proj2 (unsupported_attention_mode_raises_NotImplementedError
                   Example.h_tm1 Example.pctx_ Example.context
                   Example.att_dp_mask Example.attention_recurrent_kernel
                   Example.attention_context_wa Example.bias_ca
                   Example.mask_context "general"
                   eq_refl eq_refl eq_refl eq_refl) _ _ _ _ _ _);
    reflexivity.
Defined.

(** C6 as stated fails: the exception raised for the unsupported mode
    'general' is not of class ConfigurationError. *)
Lemma unsupported_attention_mode_is_not_ConfigurationError :
  exists e,
    compute_attention Example.h_tm1 Example.pctx_ Example.context
      Example.att_dp_mask Example.attention_recurrent_kernel
      Example.attention_context_wa Example.bias_ca Example.mask_context
      (ModeStr "general") = Raise e /\
    exn_class e = "NotImplementedError"%string /\
    forall msg, e <> ConfigurationError msg.
Proof.
  eexists. split; [ reflexivity | ]. split; [ reflexivity | ].
  intros msg. discriminate.
Qed.

End AttentionFacts.

(* ------------------------------------------------------------------ *)
(** ** Cell stacking *)
(* ------------------------------------------------------------------ *)

Module StackedRNNCellsFacts.

Import StackedRNNCells.

Section Stack.

Context {T KW : Type}.

Lemma state_size_loop_concat (cells : list (Cell T KW)) (acc : list nat) :
  state_size_loop T KW cells acc = acc ++ concat (map sizes_of cells).
Proof.
  revert acc; induction cells as [ | cell cells IH ]; intros acc; cbn.
  - now rewrite app_nil_r.
  - unfold sizes_of at 1.
    destruct (cell_state_size cell); rewrite IH, <- app_assoc; reflexivity.
Qed.

Lemma recover_states_chunks (cells : list (Cell T KW)) :
  forall (chunks : list (list T)) (rest : list T) (nested : list (list T)),
    Forall2 (fun cell chunk => length chunk = num_states cell) cells chunks ->
    recover_states T KW cells (concat chunks ++ rest) nested
    = Ok (nested ++ chunks).
Proof.
  induction cells as [ | cell cells IH ]; intros chunks rest nested HF;
    inversion HF as [ | c chunk cs chunks' Hlen HF' ]; subst; cbn.
  - now rewrite app_nil_r.
  - unfold num_states in Hlen.
    destruct (cell_state_size cell) as [ n | dims ].
    + destruct chunk as [ | s0 [ | ? ? ] ]; cbn in Hlen; try discriminate.
      cbn. rewrite IH by assumption. now rewrite <- app_assoc.
    + cbn [slice]. rewrite Nat.sub_0_r, <- Hlen, <- app_assoc.
      rewrite skipn_app, skipn_all, Nat.sub_diag, firstn_app, firstn_all,
        Nat.sub_diag. cbn [skipn firstn app]. rewrite app_nil_r.
      rewrite IH by assumption. now rewrite <- app_assoc.
Qed.

Lemma call_cells_forward (constants : option (list T)) (kwargs : KW)
    (cells : list (Cell T KW)) :
  forall (chunks : list (list T)) (inputs : T) (acc : list (list T)),
    call_cells T KW (combine cells chunks) inputs acc constants kwargs
    = let* r := forward_steps constants kwargs cells chunks inputs in
      Ok (fst r, acc ++ snd r).
Proof.
  induction cells as [ | cell cells IH ]; intros chunks inputs acc; cbn.
  - now rewrite app_nil_r.
  - destruct chunks as [ | chunk chunks ]; cbn.
    + now rewrite app_nil_r.
    + unfold cell_step.
      destruct (has_arg_constants cell);
        (destruct (cell_call cell inputs chunk _ kwargs) as [ r | e ];
         cbn; [ | reflexivity ]);
        rewrite IH;
        (destruct (forward_steps constants kwargs cells chunks (fst r));
         cbn; [ now rewrite <- app_assoc | reflexivity ]).
Qed.

End Stack.

(** C2: [state_size] lists the cells' state sizes last cell first (for two
    cells with state sizes [2] and [3] it is (3, 2)); on a flat state list
    laid out in that reversed order, [call] hands every cell its own chunk,
    steps the cells in forward order, cell 0 first and each later cell on the
    output of the one before, and returns the new states flattened in
    reversed cell order again. *)
Theorem stack_state_layout_is_reversed :
  forall (T KW : Type) (cells : list (Cell T KW)),
    state_size cells = concat (map sizes_of (rev cells)) /\
    (forall c0 c1 : Cell T KW,
        sizes_of c0 = [2] -> sizes_of c1 = [3] ->
        state_size [c0; c1] = [3; 2]) /\
    (forall (chunks : list (list T)) (inputs : T)
            (constants : option (list T)) (kwargs : KW),
        Forall2 (fun cell chunk => length chunk = num_states cell)
                cells chunks ->
        call cells inputs (reversed_layout chunks) constants kwargs
        = let* r := forward_steps constants kwargs cells chunks inputs in
          Ok (fst r, reversed_layout (snd r))).
Proof.
  intros T KW cells. split; [ | split ].
  - unfold state_size. now rewrite state_size_loop_concat.
  - intros c0 c1 H0 H1. unfold state_size.
    rewrite state_size_loop_concat. cbn. now rewrite H0, H1.
  - intros chunks inputs constants kwargs HF.
    unfold call, reversed_layout.
    rewrite <- (app_nil_r (concat (rev chunks))).
    rewrite recover_states_chunks by (now apply PyFacts.Forall2_rev).
    cbn [Py.bind app]. rewrite rev_involutive, call_cells_forward.
    destruct (forward_steps constants kwargs cells chunks inputs)
      as [ r | e ]; cbn; [ | reflexivity ].
    now rewrite PyFacts.fold_left_app_concat.
Qed.

Lemma stack_state_layout_is_reversed_witness :
  state_size [Example.cell0; Example.cell1] = [3; 2] /\
  call [Example.cell0; Example.cell1] 10%Z [7; 1]%Z None tt
  = Ok (22, [77; 11])%Z.
Proof.
  destruct (stack_state_layout_is_reversed
              Z unit [Example.cell0; Example.cell1]) as [_ [Hsz Hcall]].
  split.
  - apply Hsz; reflexivity.
  - apply (Hcall [[1]; [7]]%Z 10%Z None tt).
    repeat constructor.
Defined.

End StackedRNNCellsFacts.

(* ------------------------------------------------------------------ *)
(** ** The base layer *)
(* ------------------------------------------------------------------ *)

Module RNNFacts.

Local Open Scope string_scope.

Section Layer.

Context {C : Type} (cls : RNN.CellClass C).

Lemma get_initial_state_rank3 (self : RNN.t C) (x : K.tensor) :
  K.ndim x = 3 -> exists st, RNN.get_initial_state cls self x = Ok st.
Proof.
  destruct x as [ ? | ? | ? | c ]; cbn; try discriminate. intros _.
  unfold RNN.get_initial_state; cbn.
  destruct (RNN.state_size cls (RNN.cell self)) as [ n | dims ]; cbn.
  - eauto.
  - exists (map (fun dim =>
                   K.Mat (map (fun r => concat (repeat r dim))
                              (map (fun x => [x])
                                   (map (fun m => K.Rsum (map K.Rsum m))
                                        (map (map (map (fun _ => 0%R))) c)))))
                dims).
    apply PyFacts.mapM_ok. apply Forall_forall. intros dim _. reflexivity.
Qed.

(** With [unroll] set and a static time dimension that is [None] or 1,
    [call_checks] ends in one of its two [ValueError]s. *)
Lemma call_checks_unroll (self : RNN.t C) (inputs : arg ktensor)
    (x : ktensor) (mask : option (arg K.tensor))
    (initial_state : option (list K.tensor)) (timesteps : option nat) :
  RNN.unroll self = true ->
  inputs = One x \/ (exists l, inputs = Several (x :: l)) ->
  mask <> Some (Several []) ->
  K.ndim (value x) = 3 ->
  nth_error (int_shape x) 1 = Some timesteps ->
  RNN.in_None_1 timesteps = true ->
  exists msg,
    RNN.call_checks cls self inputs mask initial_state
    = Raise (ValueError msg).
Proof.
  intros Hu Hin Hmask Hrank Hts Hin1.
  unfold RNN.call_checks.
  assert (E1 : match inputs with
               | Several l => getitem l 0
               | One x0 => Ok x0
               end = Ok x).
  { destruct Hin as [-> | [l ->]]; reflexivity. }
  rewrite E1; cbn [Py.bind].
  destruct (get_initial_state_rank3 self (value x) Hrank) as [st0 Hst0].
  assert (E2 : exists st,
             match initial_state with
             | Some st => Ok (map Some st)
             | None =>
                 if RNN.stateful self then Ok (RNN.states cls self)
                 else fmap (map Some)
                           (RNN.get_initial_state cls self (value x))
             end = Ok st).
  { destruct initial_state; [ eauto | ].
    destruct (RNN.stateful self); [ eauto | ].
    rewrite Hst0; cbn; eauto. }
  destruct E2 as [st ->]; cbn [Py.bind].
  assert (E3 : exists mk,
             match mask with
             | Some (Several l) => fmap Some (getitem l 0)
             | Some (One m) => Ok (Some m)
             | None => Ok None
             end = Ok mk).
  { destruct mask as [ [ m | [ | m l ] ] | ]; cbn; eauto. congruence. }
  destruct E3 as [mk ->]; cbn [Py.bind].
  destruct (negb (length st =? length (RNN.states cls self))%nat);
    [ eauto | ].
  unfold getitem. rewrite Hts; cbn [Py.bind]. rewrite Hu, Hin1; cbn.
  eauto.
Qed.

End Layer.

(** C5, as the code has it.  Take a call on a rank-3 input whose static
    number of timesteps is [None] or 1, with a mask that is not an empty
    list.  On every layer with [unroll=True] it raises [ValueError], and the
    exception does not depend on the scan driver, which is not invoked: so
    for [RNN.call] on a layer around any cell, which leaves the layer and
    the backend as they were, and so for the [call] of [SimpleRNN], [GRU]
    and [LSTM], which by then has set the two dropout masks of the cell to
    [None] and has changed nothing else. *)
Theorem unroll_without_static_timesteps_raises_ValueError :
  forall (g : K.backend) (inputs : arg ktensor) (x : ktensor)
         (mask : option (arg K.tensor)) (training : option bool)
         (initial_state : option (list K.tensor)) (timesteps : option nat),
    inputs = One x \/ (exists l, inputs = Several (x :: l)) ->
    mask <> Some (Several []) ->
    K.ndim (value x) = 3 ->
    nth_error (int_shape x) 1 = Some timesteps ->
    timesteps = None \/ timesteps = Some 1 ->
    (forall (C : Type) (cls : RNN.CellClass C) (self : RNN.t C)
            (constants : option (list K.tensor)),
        RNN.unroll self = true ->
        exists msg,
          forall rnn : RNN.driver C,
            RNN.call cls rnn inputs mask training initial_state constants
                     (self, g)
            = (Raise (ValueError msg), (self, g))) /\
    (forall L : RNN.t SimpleRNNCell.t,
        RNN.unroll L = true ->
        exists msg,
          forall rnn : RNN.driver SimpleRNNCell.t,
            SimpleRNN.call rnn inputs mask training initial_state (L, g)
            = (Raise (ValueError msg),
               (RNN.set_cell
                  L (SimpleRNNCell.set_masks (RNN.cell L) None None), g))) /\
    (forall L : RNN.t GRUCell.t,
        RNN.unroll L = true ->
        exists msg,
          forall rnn : RNN.driver GRUCell.t,
            GRU.call rnn inputs mask training initial_state (L, g)
            = (Raise (ValueError msg),
               (RNN.set_cell L (GRUCell.set_masks (RNN.cell L) None None),
                g))) /\
    (forall L : RNN.t LSTMCell.t,
        RNN.unroll L = true ->
        exists msg,
          forall rnn : RNN.driver LSTMCell.t,
            LSTM.call rnn inputs mask training initial_state (L, g)
            = (Raise (ValueError msg),
               (RNN.set_cell L (LSTMCell.set_masks (RNN.cell L) None None),
                g))).
Proof.
  intros g inputs x mask training initial_state timesteps
         Hin Hmask Hrank Hts Hin1.
  assert (Hbase :
            forall (C : Type) (cls : RNN.CellClass C) (self : RNN.t C)
                   (constants : option (list K.tensor)),
              RNN.unroll self = true ->
              exists msg,
                forall rnn : RNN.driver C,
                  RNN.call cls rnn inputs mask training initial_state
                           constants (self, g)
                  = (Raise (ValueError msg), (self, g))).
  { intros C cls self constants Hu.
    destruct (call_checks_unroll cls self inputs x mask initial_state
                timesteps Hu Hin Hmask Hrank Hts) as [msg Hmsg].
    { destruct Hin1 as [-> | ->]; reflexivity. }
    exists msg. intros rnn. unfold RNN.call. cbn [fst snd].
    rewrite Hmsg. reflexivity. }
  split; [ exact Hbase | ].
  split; [ | split ]; intros L Hu.
  - destruct (Hbase _ SimpleRNNCell.cls
                (RNN.set_cell
                   L (SimpleRNNCell.set_masks (RNN.cell L) None None))
                None Hu) as [msg Hmsg].
    exists msg. intros rnn. unfold SimpleRNN.call. cbn [fst snd].
    apply Hmsg.
  - destruct (Hbase _ GRUCell.cls
                (RNN.set_cell L (GRUCell.set_masks (RNN.cell L) None None))
                None Hu) as [msg Hmsg].
    exists msg. intros rnn. unfold GRU.call. cbn [fst snd]. apply Hmsg.
  - destruct (Hbase _ LSTMCell.cls
                (RNN.set_cell L (LSTMCell.set_masks (RNN.cell L) None None))
                None Hu) as [msg Hmsg].
    exists msg. intros rnn. unfold LSTM.call. cbn [fst snd]. apply Hmsg.
Qed.

Lemma unroll_without_static_timesteps_raises_ValueError_witness :
  (forall rnn : RNN.driver unit,
     exists msg,
       RNN.call RNN.Example.cls rnn (One RNN.Example.unknown_timesteps)
                None None None None (RNN.Example.layer, RNN.Example.backend)
       = (Raise (ValueError msg), (RNN.Example.layer, RNN.Example.backend))) /\
  (forall rnn : RNN.driver unit,
     exists msg,
       RNN.call RNN.Example.cls rnn (One RNN.Example.one_timestep)
                None None None None (RNN.Example.layer, RNN.Example.backend)
       = (Raise (ValueError msg), (RNN.Example.layer, RNN.Example.backend))) /\
  (forall rnn : RNN.driver SimpleRNNCell.t,
     exists msg,
       SimpleRNN.call rnn (One SimpleRNN.Example.one_timestep) None None None
                      (SimpleRNN.Example.unrolled, SimpleRNN.Example.backend)
       = (Raise (ValueError msg),
          (RNN.set_cell SimpleRNN.Example.unrolled
                        (SimpleRNN.Example.cell (1 # 2)),
           SimpleRNN.Example.backend))).
Proof.
  split; [ | split ]; intros rnn.
  - destruct (unroll_without_static_timesteps_raises_ValueError
                RNN.Example.backend (One RNN.Example.unknown_timesteps)
                RNN.Example.unknown_timesteps None None None None)
      as [Hbase _];
      [ left; reflexivity | discriminate | reflexivity | reflexivity
      | left; reflexivity | ].
    destruct (Hbase unit RNN.Example.cls RNN.Example.layer None eq_refl)
      as [msg Hmsg].
    exists msg. apply Hmsg.
  - destruct (unroll_without_static_timesteps_raises_ValueError
                RNN.Example.backend (One RNN.Example.one_timestep)
                RNN.Example.one_timestep None None None (Some 1))
      as [Hbase _];
      [ left; reflexivity | discriminate | reflexivity | reflexivity
      | right; reflexivity | ].
    destruct (Hbase unit RNN.Example.cls RNN.Example.layer None eq_refl)
      as [msg Hmsg].
    exists msg. apply Hmsg.
  - destruct (unroll_without_static_timesteps_raises_ValueError
                SimpleRNN.Example.backend
                (One SimpleRNN.Example.one_timestep)
                SimpleRNN.Example.one_timestep None None None (Some 1))
      as [_ [Hsimple _]];
      [ left; reflexivity | discriminate | reflexivity | reflexivity
      | right; reflexivity | ].
    destruct (Hsimple SimpleRNN.Example.unrolled eq_refl) as [msg Hmsg].
    exists msg. apply Hmsg.
Defined.

(** C5 as stated fails: the exception raised for an input with an unknown
    number of timesteps is a [ValueError], not a ConfigurationError.  And
    the mask must not be an empty list: on such a mask the same call fails
    earlier, at [mask[0]], with an [IndexError]. *)
Lemma unroll_error_is_not_ConfigurationError :
  (RNN.call RNN.Example.cls K.rnn (One RNN.Example.unknown_timesteps)
            None None None None (RNN.Example.layer, RNN.Example.backend)
   = (Raise (ValueError
        "Cannot unroll a RNN if the time dimension is undefined or equal to 1."),
      (RNN.Example.layer, RNN.Example.backend)) /\
   forall msg msg', ValueError msg <> ConfigurationError msg') /\
  (RNN.call RNN.Example.cls K.rnn (One RNN.Example.unknown_timesteps)
            (Some (Several [])) None None None
            (RNN.Example.layer, RNN.Example.backend)
   = (Raise (IndexError "list index out of range"),
      (RNN.Example.layer, RNN.Example.backend)) /\
   forall msg msg', IndexError msg <> ValueError msg').
Proof.
  split; (split; [ reflexivity | intros msg msg'; discriminate ]).
Qed.

(** C10: on a layer that is not stateful, [reset_states], with or without
    state values, raises [AttributeError] and leaves the layer, its states
    included, as it was. *)
Theorem reset_states_requires_stateful :
  forall (C : Type) (cls : RNN.CellClass C) (self : RNN.t C)
         (states : option (arg K.tensor)),
    RNN.stateful self = false ->
    RNN.reset_states cls states self
    = (Raise (AttributeError "Layer must be stateful."), self).
Proof.
  intros C cls self states Hs. unfold RNN.reset_states.
  rewrite Hs. reflexivity.
Qed.

Lemma reset_states_requires_stateful_witness :
  RNN.reset_states RNN.Example.cls None RNN.Example.layer
  = (Raise (AttributeError "Layer must be stateful."), RNN.Example.layer) /\
  RNN.reset_states RNN.Example.cls (Some (One (K.zeros 2 4)))
                   RNN.Example.layer
  = (Raise (AttributeError "Layer must be stateful."), RNN.Example.layer).
Proof.
  split;
    apply (reset_states_requires_stateful unit RNN.Example.cls
             RNN.Example.layer); reflexivity.
Defined.

End RNNFacts.

(* ------------------------------------------------------------------ *)
(** ** Dropout masks of the plain wrappers *)
(* ------------------------------------------------------------------ *)

Module DropoutMasksFacts.

Import DropoutMasks.

Lemma ticks_are_matrices (inputs : K.tensor)
    (init : list (option K.tensor)) (gb : bool) (mask : option K.tensor)
    (unroll : bool) (il : option nat)
    (ticks : list (K.tensor * option (list R))) (states : list K.tensor) :
  K.rnn_prepare inputs init gb mask unroll il = Ok (ticks, states) ->
  Forall (fun tick => exists m, fst tick = K.Mat m) ticks.
Proof.
  unfold K.rnn_prepare.
  destruct inputs as [ ? | ? | ? | c ]; try discriminate.
  intros H. do 2 bind_ok H.
  destruct (unroll && _); [ discriminate | ].
  injection H as <- _.
  assert (Hc : Forall (fun tick : K.tensor * option (list R) =>
                         exists m, fst tick = K.Mat m)
                      (combine (map K.Mat (K.swap_0_1 c)) x0)).
  { apply Forall_forall. intros [xt mk] Hin.
    apply in_combine_l in Hin. apply in_map_iff in Hin.
    destruct Hin as [m [<- _]]. exists m. reflexivity. }
  destruct gb; [ | exact Hc ].
  apply Forall_forall. intros tick Hin. apply in_rev in Hin.
  revert tick Hin. now apply Forall_forall.
Qed.

Lemma draws_generate (ones : K.tensor) (rate : Q) (tr : option bool)
    (g : K.backend) :
  K.draws (snd (_generate_dropout_mask ones rate tr g))
  = match tr with Some false => K.draws g | _ => S (K.draws g) end.
Proof. destruct tr as [ [ | ] | ]; reflexivity. Qed.

Lemma draws_generate_masks (ones : K.tensor) (rate : Q) (tr : option bool)
    (count : nat) :
  forall g : K.backend,
    K.draws (snd (_generate_dropout_masks ones rate tr count g))
    = match tr with
      | Some false => K.draws g
      | _ => count + K.draws g
      end.
Proof.
  induction count as [ | n IH ]; intros g; cbn [_generate_dropout_masks snd].
  - destruct tr as [ [ | ] | ]; reflexivity.
  - rewrite IH. fold (_generate_dropout_mask ones rate tr g).
    rewrite draws_generate.
    destruct tr as [ [ | ] | ]; lia.
Qed.

(** *** A cell that generates its masks lazily, under the scan

    The three cells differ in their arithmetic and in the number of masks;
    what the scan needs of them is the same. *)
Section Lazy.

Context {T : Type}.

Variable W : wrapper T.

(** Every mask that [call] would generate is there. *)
Variable in_place : T -> bool.
(** Cell and backend after the two [if]s of [call]. *)
Variable after : K.tensor -> option bool -> T * K.backend -> T * K.backend.
(** The part of [call] that only reads the cell. *)
Variable out : T -> K.tensor -> list K.tensor ->
               result (K.tensor * list K.tensor).
(** The states with which [call] gets as far as the masks. *)
Variable reaches : list K.tensor -> bool.
(** The two assignments of the wrapper's [call]. *)
Variable clear : T -> T.

Hypothesis has_training : RNN.has_arg_training (cls W) = true.

Hypothesis step_is_call :
  forall tr, RNN.step_plain T (cls W) (Some tr)
             = (fun x s => cell_call W x s tr).

Hypothesis call_in_place :
  forall c g x s tr,
    in_place c = true -> cell_call W x s tr (c, g) = (out c x s, (c, g)).

Hypothesis call_first :
  forall c g m s tr,
    reaches s = true ->
    cell_call W (K.Mat m) s tr (c, g)
    = (out (fst (after (K.Mat m) tr (c, g))) (K.Mat m) s,
       after (K.Mat m) tr (c, g)).

Hypothesis call_short :
  forall c g x s tr,
    reaches s = false ->
    exists e, cell_call W x s tr (c, g) = (Raise e, (c, g)).

Hypothesis after_in_place :
  forall c g m tr, in_place (fst (after (K.Mat m) tr (c, g))) = true.

Hypothesis wrapper_call :
  forall rnn inputs mask training init L g,
    call W rnn inputs mask training init (L, g)
    = RNN.call (cls W) rnn inputs mask training init None
               (RNN.set_cell L (clear (RNN.cell L)), g).

Hypothesis clear_masks :
  forall c, _dropout_mask W (clear c) = None /\
            _recurrent_dropout_mask W (clear c) = None.

Hypothesis after_facts :
  forall c g m tr,
    in_open_unit (dropout W c) = true ->
    let w1 := after (K.Mat m) tr (clear c, g) in
    RNN.state_size (cls W) (fst w1) = RNN.state_size (cls W) (clear c) /\
    _dropout_mask W (fst w1)
    = Some (fst (_generate_dropout_masks
                   (K.ones (length m) (length (hd [] m))) (dropout W c) tr
                   (count W) g)) /\
    K.draws g <= K.draws (snd w1) <= K.draws g + 2 * count W /\
    (tr <> Some false -> K.draws g < K.draws (snd w1)).

Lemma rnn_loop_masks_in_place (tr : option bool)
    (xs : list (K.tensor * option (list R))) :
  forall (states cs : list K.tensor) (prev : option K.tensor)
         (outs : list K.tensor) (c : T) (g : K.backend),
    in_place c = true ->
    snd (K.rnn_loop (fun x s => cell_call W x s tr) xs states cs prev outs
                    (c, g))
    = (c, g).
Proof.
  induction xs as [ | [x mk] xs IH ]; intros states cs prev outs c g Hc;
    [ reflexivity | ].
  cbn [K.rnn_loop]. unfold Py.bindM at 1.
  rewrite (call_in_place c g x (states ++ cs) tr Hc).
  destruct (out c x (states ++ cs)) as [ r | e ]; [ | reflexivity ].
  unfold Py.bindM at 1. unfold Py.lift at 1.
  destruct (K.masked mk (fst r) _) as [ o | e ]; [ | reflexivity ].
  unfold Py.bindM at 1. unfold Py.lift at 1.
  destruct (mapM _ _) as [ ns | e ]; [ | reflexivity ].
  apply IH; assumption.
Qed.

Lemma rnn_loop_first_step (tr : option bool) (m : list (list R))
    (mk : option (list R)) (xs : list (K.tensor * option (list R)))
    (s : list K.tensor) (c : T) (g : K.backend) :
  reaches (s ++ []) = true ->
  K.rnn_loop (fun x s => cell_call W x s tr) ((K.Mat m, mk) :: xs)
             s [] None [] (c, g)
  = K.rnn_loop (fun x s => cell_call W x s tr) ((K.Mat m, mk) :: xs)
               s [] None [] (after (K.Mat m) tr (c, g)).
Proof.
  intros Hs. cbn [K.rnn_loop].
  pose proof (after_in_place c g m tr) as Hplace.
  pose proof (call_first c g m (s ++ []) tr Hs) as Hfirst.
  destruct (after (K.Mat m) tr (c, g)) as [c1 g1].
  cbn [fst] in Hplace, Hfirst.
  unfold Py.bindM at 1. rewrite Hfirst.
  symmetry. unfold Py.bindM at 1.
  rewrite (call_in_place c1 g1 (K.Mat m) (s ++ []) tr Hplace).
  reflexivity.
Qed.

(** The scan over the cell: either no step got as far as the masks, and
    the scan raised with the cell and the backend untouched; or the scan is
    the scan started with the masks of its first tick in place, and that
    scan leaves the cell and the backend as they are. *)
Lemma rnn_generates_masks_once (tr : option bool) (inputs : K.tensor)
    (init : list (option K.tensor)) (gb : bool) (mask : option K.tensor)
    (unroll : bool) (il : option nat) (c : T) (g : K.backend) :
  let run := K.rnn (fun x s => cell_call W x s tr) inputs init None gb mask
                   unroll il in
  (is_ok (fst (run (c, g))) = false /\ snd (run (c, g)) = (c, g)) \/
  (exists m,
      run (c, g) = run (after (K.Mat m) tr (c, g)) /\
      snd (run (after (K.Mat m) tr (c, g))) = after (K.Mat m) tr (c, g)).
Proof.
  cbn zeta. unfold K.rnn.
  destruct (K.rnn_prepare inputs init gb mask unroll il)
    as [ [ticks states] | e ] eqn:Eprep; [ | left; split; reflexivity ].
  pose proof (ticks_are_matrices _ _ _ _ _ _ _ _ Eprep) as Hticks.
  destruct ticks as [ | [x mk] ticks ]; [ left; split; reflexivity | ].
  inversion Hticks as [ | ? ? [m Hm] _ ]; subst. cbn [fst] in Hm. subst x.
  destruct (reaches (states ++ [])) eqn:Hs.
  - right. exists m.
    rewrite !PyFacts.bindM_lift_ok. cbn [fst snd].
    unfold Py.bindM at 1 2 3.
    rewrite (rnn_loop_first_step tr m mk ticks states c g Hs).
    split; [ reflexivity | ].
    pose proof (after_in_place c g m tr) as Hplace.
    destruct (after (K.Mat m) tr (c, g)) as [c1 g1].
    cbn [fst] in Hplace.
    pose proof (rnn_loop_masks_in_place tr ((K.Mat m, mk) :: ticks)
                  states [] None [] c1 g1 Hplace) as Hst.
    destruct (K.rnn_loop _ _ _ _ _ _ (c1, g1)) as [[r | e] w'];
      cbn [snd] in Hst; subst w'; reflexivity.
  - left. rewrite !PyFacts.bindM_lift_ok. cbn [fst snd].
    cbn [K.rnn_loop].
    destruct (call_short c g (K.Mat m) (states ++ []) tr Hs) as [e He].
    unfold Py.bindM. rewrite He. split; reflexivity.
Qed.

Lemma call_checks_same_state_size (L : RNN.t T) (c c' : T)
    (inputs : arg ktensor) (mask : option (arg K.tensor))
    (init : option (list K.tensor)) :
  RNN.state_size (cls W) c = RNN.state_size (cls W) c' ->
  RNN.call_checks (cls W) (RNN.set_cell L c) inputs mask init
  = RNN.call_checks (cls W) (RNN.set_cell L c') inputs mask init.
Proof.
  intros Hu. unfold RNN.call_checks, RNN.states, RNN.get_initial_state.
  cbn [RNN.cell RNN.set_cell RNN.stateful RNN._states RNN.unroll].
  rewrite Hu. reflexivity.
Qed.

Lemma rnn_call_unfold (L : RNN.t T) (g : K.backend) (inputs : arg ktensor)
    (mask : option (arg K.tensor)) (training : option bool)
    (init : option (list K.tensor)) :
  RNN.call (cls W) K.rnn inputs mask training init None (L, g)
  = match RNN.call_checks (cls W) L inputs mask init with
    | Raise e => (Raise e, (L, g))
    | Ok (x, st, mk, ts) =>
        let r := K.rnn (fun x s => cell_call W x s training) (value x) st
                   None (RNN.go_backwards L) mk (RNN.unroll L) ts
                   (RNN.cell L, g)
        in
        match fst r with
        | Raise e => (Raise e, (RNN.set_cell L (fst (snd r)), snd (snd r)))
        | Ok res =>
            let o := RNN.call_outputs T (cls W)
                       (RNN.set_cell L (fst (snd r))) res in
            (fst o, (snd o, snd (snd r)))
        end
    end.
Proof.
  unfold RNN.call. cbn [fst snd].
  destruct (RNN.call_checks (cls W) L inputs mask init)
    as [ [[[x st] mk] ts] | e ]; [ | reflexivity ].
  rewrite has_training. cbn [RNN.truthy]. rewrite step_is_call.
  reflexivity.
Qed.

(** One outer call of the wrapper. *)
Lemma wrapper_draws_once (L : RNN.t T) (g : K.backend)
    (inputs : arg ktensor) (mask : option (arg K.tensor))
    (training : option bool) (initial_state : option (list K.tensor)) :
  in_open_unit (dropout W (RNN.cell L)) = true ->
  drawn_once_per_call W L g inputs mask training initial_state.
Proof.
  intros Hd. unfold drawn_once_per_call. cbn zeta.
  remember (call W K.rnn inputs mask training initial_state (L, g))
    as run eqn:Hrun.
  rewrite wrapper_call in Hrun.
  set (c0 := clear (RNN.cell L)) in Hrun.
  destruct (clear_masks (RNN.cell L)) as [Hm0 Hr0]. fold c0 in Hm0, Hr0.
  rewrite rnn_call_unfold in Hrun.
  destruct (RNN.call_checks (cls W) (RNN.set_cell L c0) inputs mask
                            initial_state)
    as [ [[[x st] mk] ts] | e ] eqn:Echk;
    [ | subst run; left; cbn [fst snd RNN.cell RNN.set_cell is_ok];
        repeat split; assumption ].
  cbn [RNN.cell RNN.set_cell RNN.go_backwards RNN.unroll] in Hrun.
  destruct (rnn_generates_masks_once training (value x) st
              (RNN.go_backwards L) mk (RNN.unroll L) ts c0 g)
    as [ [Hbad Hw] | [m [Heq Hstable]] ].
  - left.
    destruct (K.rnn _ _ _ _ _ _ _ _ (c0, g)) as [[res | e] w'];
      cbn [fst snd is_ok] in Hbad, Hw, Hrun; [ discriminate | ].
    subst w' run. cbn [fst snd RNN.cell RNN.set_cell is_ok].
    repeat split; assumption.
  - right. exists m.
    destruct (after_facts (RNN.cell L) g m training Hd)
      as [Hu [Hmask [Hdr Hfresh]]].
    fold c0 in Hu, Hmask, Hdr, Hfresh.
    pose proof (after_in_place c0 g m training) as Hplace.
    rewrite Heq in Hrun.
    destruct (after (K.Mat m) training (c0, g)) as [c1 g1] eqn:Ew.
    cbn [fst snd] in Hu, Hmask, Hdr, Hfresh, Hplace.
    assert (Hcell : RNN.cell (fst (snd run)) = c1 /\ snd (snd run) = g1).
    { destruct (K.rnn _ _ _ _ _ _ _ _ (c1, g1)) as [[res | e] w'];
        cbn [fst snd] in Hstable, Hrun; subst w' run; cbn [fst snd];
        [ | split; reflexivity ].
      unfold RNN.call_outputs.
      destruct (if RNN.stateful _ then _ else _) as [ [u | ] | e ];
        split; reflexivity. }
    destruct Hcell as [-> ->].
    split; [ exact Hmask | ]. split; [ exact Hdr | ].
    split; [ exact Hfresh | ].
    split.
    { intros x0 s tr.
      rewrite (call_in_place c1 g1 x0 s tr Hplace). reflexivity. }
    rewrite rnn_call_unfold.
    rewrite (call_checks_same_state_size L c1 c0 inputs mask initial_state)
      by exact Hu.
    rewrite Echk.
    cbn [RNN.cell RNN.set_cell RNN.go_backwards RNN.unroll].
    rewrite Hrun. reflexivity.
Qed.

End Lazy.

End DropoutMasksFacts.

(** *** [SimpleRNNCell] *)
Module SimpleRNNFacts.

Import SimpleRNNCell.

Lemma simple_rnn_call_in_place (c : t) (g : K.backend) (x : K.tensor)
    (s : list K.tensor) (tr : option bool) :
  masks_in_place c = true ->
  call x s tr (c, g) = (reading c x s, (c, g)).
Proof.
  unfold masks_in_place, reading. intros H.
  apply andb_prop in H. destruct H as [H1 H2].
  apply negb_true_iff in H1. apply negb_true_iff in H2.
  unfold call, Py.bindM, Py.lift, Py.get.
  destruct (getitem s 0) as [ prev | e ]; cbn [Py.bind]; [ | reflexivity ].
  unfold generate_dropout_mask; cbn [fst snd]. rewrite H1.
  unfold generate_recurrent_dropout_mask; cbn [fst snd]. rewrite H2.
  reflexivity.
Qed.

Lemma simple_rnn_generation (c : t) (g : K.backend) (m : list (list R))
    (tr : option bool) :
  (let! _ := generate_dropout_mask (K.Mat m) tr in
   generate_recurrent_dropout_mask (K.Mat m) tr) (c, g)
  = (Ok tt, after_mask_generation (K.Mat m) tr (c, g)) /\
  masks_in_place (fst (after_mask_generation (K.Mat m) tr (c, g))) = true.
Proof.
  unfold after_mask_generation, Py.bindM, generate_dropout_mask,
    generate_recurrent_dropout_mask, masks_in_place.
  cbn [fst snd K.last_dim K.shape rev app Py.bind _generate_dropout_ones
       getitem nth_error].
  destruct (in_open_unit (dropout c) && is_None (_dropout_mask c)) eqn:E1;
    cbn [fst snd set_masks recurrent_dropout _recurrent_dropout_mask
         _dropout_mask dropout units is_None];
    destruct (in_open_unit (recurrent_dropout c)
              && is_None (_recurrent_dropout_mask c)) eqn:E2;
    cbn [fst snd set_masks recurrent_dropout _recurrent_dropout_mask
         _dropout_mask dropout units is_None];
    rewrite ?andb_false_r, ?E1, ?E2; split; reflexivity.
Qed.

Lemma simple_rnn_call_first (c : t) (g : K.backend) (m : list (list R))
    (s : list K.tensor) (tr : option bool) :
  has_state s = true ->
  call (K.Mat m) s tr (c, g)
  = (reading (fst (after_mask_generation (K.Mat m) tr (c, g))) (K.Mat m) s,
     after_mask_generation (K.Mat m) tr (c, g)).
Proof.
  destruct s as [ | prev s ]; [ discriminate | intros _ ].
  destruct (simple_rnn_generation c g m tr) as [Hgen _].
  unfold call, reading. unfold Py.bindM at 1.
  cbn [Py.lift getitem nth_error Py.bind].
  rewrite <- (PyFacts.bindM_assoc (generate_dropout_mask (K.Mat m) tr)
                (fun _ => generate_recurrent_dropout_mask (K.Mat m) tr)).
  unfold Py.bindM at 1. rewrite Hgen.
  reflexivity.
Qed.

Lemma simple_rnn_call_short (c : t) (g : K.backend) (x : K.tensor)
    (s : list K.tensor) (tr : option bool) :
  has_state s = false ->
  exists e, call x s tr (c, g) = (Raise e, (c, g)).
Proof.
  destruct s; [ intros _ | discriminate ].
  eexists. reflexivity.
Qed.

Lemma simple_rnn_after_facts (c : t) (g : K.backend) (m : list (list R))
    (tr : option bool) :
  in_open_unit (dropout c) = true ->
  let w1 := after_mask_generation (K.Mat m) tr (set_masks c None None, g) in
  RNN.state_size cls (fst w1) = RNN.state_size cls (set_masks c None None) /\
  option_map (fun mk => [mk]) (_dropout_mask (fst w1))
  = Some (fst (_generate_dropout_masks
                 (K.ones (length m) (length (hd [] m))) (dropout c) tr 1 g)) /\
  K.draws g <= K.draws (snd w1) <= K.draws g + 2 * 1 /\
  (tr <> Some false -> K.draws g < K.draws (snd w1)).
Proof.
  intros Hd. cbn zeta.
  unfold after_mask_generation, Py.bindM, generate_dropout_mask,
    generate_recurrent_dropout_mask.
  cbn [fst snd K.last_dim K.shape rev app Py.bind _generate_dropout_ones
       getitem nth_error set_masks dropout _dropout_mask is_None].
  rewrite Hd.
  cbn [andb fst snd set_masks recurrent_dropout _recurrent_dropout_mask
       is_None units dropout _dropout_mask].
  destruct (in_open_unit (recurrent_dropout c));
    cbn [andb fst snd set_masks units _dropout_mask cls RNN.state_size
         option_map _generate_dropout_masks];
    rewrite ?DropoutMasksFacts.draws_generate;
    (split; [ reflexivity | ]); (split; [ reflexivity | ]);
    destruct tr as [ [ | ] | ]; split; try lia; congruence.
Qed.

Lemma simple_rnn_draws_once (L : RNN.t t) (g : K.backend)
    (inputs : arg ktensor) (mask : option (arg K.tensor))
    (training : option bool) (initial_state : option (list K.tensor)) :
  in_open_unit (dropout (RNN.cell L)) = true ->
  DropoutMasks.drawn_once_per_call DropoutMasks.simple_rnn L g inputs mask
                                   training initial_state.
Proof.
  apply (DropoutMasksFacts.wrapper_draws_once DropoutMasks.simple_rnn
           masks_in_place after_mask_generation reading has_state
           (fun c => set_masks c None None)).
  - reflexivity.
  - reflexivity.
  - exact simple_rnn_call_in_place.
  - exact simple_rnn_call_first.
  - exact simple_rnn_call_short.
  - intros c g0 m tr. apply simple_rnn_generation.
  - reflexivity.
  - intros c. split; reflexivity.
  - exact simple_rnn_after_facts.
Qed.

End SimpleRNNFacts.

(** *** [GRUCell] *)
Module GRUFacts.

Import GRUCell.

Lemma gru_call_in_place (c : t) (g : K.backend) (x : K.tensor)
    (s : list K.tensor) (tr : option bool) :
  masks_in_place c = true ->
  call x s tr (c, g) = (reading c x s, (c, g)).
Proof.
  unfold masks_in_place, reading. intros H.
  apply andb_prop in H. destruct H as [H1 H2].
  apply negb_true_iff in H1. apply negb_true_iff in H2.
  unfold call, Py.bindM, Py.lift, Py.get.
  destruct (getitem s 0) as [ prev | e ]; cbn [Py.bind]; [ | reflexivity ].
  unfold generate_dropout_mask; cbn [fst snd]. rewrite H1.
  unfold generate_recurrent_dropout_mask; cbn [fst snd]. rewrite H2.
  reflexivity.
Qed.

Lemma gru_generation (c : t) (g : K.backend) (m : list (list R))
    (tr : option bool) :
  (let! _ := generate_dropout_mask (K.Mat m) tr in
   generate_recurrent_dropout_mask (K.Mat m) tr) (c, g)
  = (Ok tt, after_mask_generation (K.Mat m) tr (c, g)) /\
  masks_in_place (fst (after_mask_generation (K.Mat m) tr (c, g))) = true.
Proof.
  unfold after_mask_generation, Py.bindM, generate_dropout_mask,
    generate_recurrent_dropout_mask, masks_in_place.
  cbn [fst snd K.last_dim K.shape rev app Py.bind _generate_dropout_ones
       getitem nth_error].
  destruct (in_open_unit (dropout c) && is_None (_dropout_mask c)) eqn:E1;
    cbn [fst snd set_masks recurrent_dropout _recurrent_dropout_mask
         _dropout_mask dropout units is_None];
    destruct (in_open_unit (recurrent_dropout c)
              && is_None (_recurrent_dropout_mask c)) eqn:E2;
    cbn [fst snd set_masks recurrent_dropout _recurrent_dropout_mask
         _dropout_mask dropout units is_None];
    rewrite ?andb_false_r, ?E1, ?E2; split; reflexivity.
Qed.

Lemma gru_call_first (c : t) (g : K.backend) (m : list (list R))
    (s : list K.tensor) (tr : option bool) :
  has_state s = true ->
  call (K.Mat m) s tr (c, g)
  = (reading (fst (after_mask_generation (K.Mat m) tr (c, g))) (K.Mat m) s,
     after_mask_generation (K.Mat m) tr (c, g)).
Proof.
  destruct s as [ | prev s ]; [ discriminate | intros _ ].
  destruct (gru_generation c g m tr) as [Hgen _].
  unfold call, reading. unfold Py.bindM at 1.
  cbn [Py.lift getitem nth_error Py.bind].
  rewrite <- (PyFacts.bindM_assoc (generate_dropout_mask (K.Mat m) tr)
                (fun _ => generate_recurrent_dropout_mask (K.Mat m) tr)).
  unfold Py.bindM at 1. rewrite Hgen.
  reflexivity.
Qed.

Lemma gru_call_short (c : t) (g : K.backend) (x : K.tensor)
    (s : list K.tensor) (tr : option bool) :
  has_state s = false ->
  exists e, call x s tr (c, g) = (Raise e, (c, g)).
Proof.
  destruct s; [ intros _ | discriminate ].
  eexists. reflexivity.
Qed.

Lemma gru_after_facts (c : t) (g : K.backend) (m : list (list R))
    (tr : option bool) :
  in_open_unit (dropout c) = true ->
  let w1 := after_mask_generation (K.Mat m) tr (set_masks c None None, g) in
  RNN.state_size cls (fst w1) = RNN.state_size cls (set_masks c None None) /\
  _dropout_mask (fst w1)
  = Some (fst (_generate_dropout_masks
                 (K.ones (length m) (length (hd [] m))) (dropout c) tr 3 g)) /\
  K.draws g <= K.draws (snd w1) <= K.draws g + 2 * 3 /\
  (tr <> Some false -> K.draws g < K.draws (snd w1)).
Proof.
  intros Hd. cbn zeta.
  unfold after_mask_generation, Py.bindM, generate_dropout_mask,
    generate_recurrent_dropout_mask.
  cbn [fst snd K.last_dim K.shape rev app Py.bind _generate_dropout_ones
       getitem nth_error set_masks dropout _dropout_mask is_None].
  rewrite Hd.
  cbn [andb fst snd set_masks recurrent_dropout _recurrent_dropout_mask
       is_None units dropout _dropout_mask].
  destruct (in_open_unit (recurrent_dropout c));
    cbn [andb fst snd set_masks units _dropout_mask cls RNN.state_size];
    rewrite ?DropoutMasksFacts.draws_generate_masks;
    (split; [ reflexivity | ]); (split; [ reflexivity | ]);
    destruct tr as [ [ | ] | ]; split; try lia; congruence.
Qed.

Lemma gru_draws_once (L : RNN.t t) (g : K.backend)
    (inputs : arg ktensor) (mask : option (arg K.tensor))
    (training : option bool) (initial_state : option (list K.tensor)) :
  in_open_unit (dropout (RNN.cell L)) = true ->
  DropoutMasks.drawn_once_per_call DropoutMasks.gru L g inputs mask
                                   training initial_state.
Proof.
  apply (DropoutMasksFacts.wrapper_draws_once DropoutMasks.gru
           masks_in_place after_mask_generation reading has_state
           (fun c => set_masks c None None)).
  - reflexivity.
  - reflexivity.
  - exact gru_call_in_place.
  - exact gru_call_first.
  - exact gru_call_short.
  - intros c g0 m tr. apply gru_generation.
  - reflexivity.
  - intros c. split; reflexivity.
  - exact gru_after_facts.
Qed.

End GRUFacts.

(** *** [LSTMCell]

    Its [call] generates the masks before it reads [states]. *)
Module LSTMFacts.

Import LSTMCell.

Lemma lstm_call_in_place (c : t) (g : K.backend) (x : K.tensor)
    (s : list K.tensor) (tr : option bool) :
  masks_in_place c = true ->
  call x s tr (c, g) = (output_of c x s, (c, g)).
Proof.
  unfold masks_in_place. intros H.
  apply andb_prop in H. destruct H as [H1 H2].
  apply negb_true_iff in H1. apply negb_true_iff in H2.
  unfold call, Py.bindM, Py.lift, Py.get.
  unfold generate_dropout_mask; cbn [fst snd]. rewrite H1.
  unfold generate_recurrent_dropout_mask; cbn [fst snd]. rewrite H2.
  reflexivity.
Qed.

Lemma lstm_generation (c : t) (g : K.backend) (m : list (list R))
    (tr : option bool) :
  (let! _ := generate_dropout_mask (K.Mat m) tr in
   generate_recurrent_dropout_mask (K.Mat m) tr) (c, g)
  = (Ok tt, after_mask_generation (K.Mat m) tr (c, g)) /\
  masks_in_place (fst (after_mask_generation (K.Mat m) tr (c, g))) = true.
Proof.
  unfold after_mask_generation, Py.bindM, generate_dropout_mask,
    generate_recurrent_dropout_mask, masks_in_place.
  cbn [fst snd K.last_dim K.shape rev app Py.bind _generate_dropout_ones
       getitem nth_error].
  destruct (in_open_unit (dropout c) && is_None (_dropout_mask c)) eqn:E1;
    cbn [fst snd set_masks recurrent_dropout _recurrent_dropout_mask
         _dropout_mask dropout units is_None];
    destruct (in_open_unit (recurrent_dropout c)
              && is_None (_recurrent_dropout_mask c)) eqn:E2;
    cbn [fst snd set_masks recurrent_dropout _recurrent_dropout_mask
         _dropout_mask dropout units is_None];
    rewrite ?andb_false_r, ?E1, ?E2; split; reflexivity.
Qed.

Lemma lstm_call_first (c : t) (g : K.backend) (m : list (list R))
    (s : list K.tensor) (tr : option bool) :
  true = true ->
  call (K.Mat m) s tr (c, g)
  = (output_of (fst (after_mask_generation (K.Mat m) tr (c, g))) (K.Mat m) s,
     after_mask_generation (K.Mat m) tr (c, g)).
Proof.
  intros _.
  destruct (lstm_generation c g m tr) as [Hgen _].
  unfold call.
  rewrite <- (PyFacts.bindM_assoc (generate_dropout_mask (K.Mat m) tr)
                (fun _ => generate_recurrent_dropout_mask (K.Mat m) tr)).
  unfold Py.bindM at 1. rewrite Hgen.
  reflexivity.
Qed.

Lemma lstm_after_facts (c : t) (g : K.backend) (m : list (list R))
    (tr : option bool) :
  in_open_unit (dropout c) = true ->
  let w1 := after_mask_generation (K.Mat m) tr (set_masks c None None, g) in
  RNN.state_size cls (fst w1) = RNN.state_size cls (set_masks c None None) /\
  _dropout_mask (fst w1)
  = Some (fst (_generate_dropout_masks
                 (K.ones (length m) (length (hd [] m))) (dropout c) tr 4 g)) /\
  K.draws g <= K.draws (snd w1) <= K.draws g + 2 * 4 /\
  (tr <> Some false -> K.draws g < K.draws (snd w1)).
Proof.
  intros Hd. cbn zeta.
  unfold after_mask_generation, Py.bindM, generate_dropout_mask,
    generate_recurrent_dropout_mask.
  cbn [fst snd K.last_dim K.shape rev app Py.bind _generate_dropout_ones
       getitem nth_error set_masks dropout _dropout_mask is_None].
  rewrite Hd.
  cbn [andb fst snd set_masks recurrent_dropout _recurrent_dropout_mask
       is_None units dropout _dropout_mask].
  destruct (in_open_unit (recurrent_dropout c));
    cbn [andb fst snd set_masks units _dropout_mask cls RNN.state_size];
    rewrite ?DropoutMasksFacts.draws_generate_masks;
    (split; [ reflexivity | ]); (split; [ reflexivity | ]);
    destruct tr as [ [ | ] | ]; split; try lia; congruence.
Qed.

Lemma lstm_draws_once (L : RNN.t t) (g : K.backend)
    (inputs : arg ktensor) (mask : option (arg K.tensor))
    (training : option bool) (initial_state : option (list K.tensor)) :
  in_open_unit (dropout (RNN.cell L)) = true ->
  DropoutMasks.drawn_once_per_call DropoutMasks.lstm L g inputs mask
                                   training initial_state.
Proof.
  apply (DropoutMasksFacts.wrapper_draws_once DropoutMasks.lstm
           masks_in_place after_mask_generation output_of (fun _ => true)
           (fun c => set_masks c None None)).
  - reflexivity.
  - reflexivity.
  - exact lstm_call_in_place.
  - exact lstm_call_first.
  - intros c g0 x s tr H. discriminate H.
  - intros c g0 m tr. apply lstm_generation.
  - reflexivity.
  - intros c. split; reflexivity.
  - exact lstm_after_facts.
Qed.

End LSTMFacts.

(** *** The three wrappers *)
Module WrapperFacts.

Import DropoutMasks.

(** C8, as the code has it.  Take a [SimpleRNN], a [GRU] or an [LSTM] whose
    input dropout rate lies strictly between 0 and 1.  A call clears the
    masks of the cell first.  Then either it raises before any timestep has
    got as far as the masks, and the masks are still [None] and nothing was
    drawn; or the first timestep generated the masks: the input masks are
    the ones [_generate_dropout_mask] draws from the backend as it was when
    the call started (new draws unless [training] is false, never the masks
    of an earlier call), every later timestep leaves cell and backend as
    they are, and the call returns what [RNN.call] returns when it starts
    with these masks in place, so every timestep multiplies by the same
    masks. *)
Theorem dropout_mask_is_drawn_once_per_call :
  forall (g : K.backend) (inputs : arg ktensor)
         (mask : option (arg K.tensor)) (training : option bool)
         (initial_state : option (list K.tensor)),
    (forall L : RNN.t SimpleRNNCell.t,
        in_open_unit (SimpleRNNCell.dropout (RNN.cell L)) = true ->
        drawn_once_per_call simple_rnn L g inputs mask training
                            initial_state) /\
    (forall L : RNN.t GRUCell.t,
        in_open_unit (GRUCell.dropout (RNN.cell L)) = true ->
        drawn_once_per_call gru L g inputs mask training initial_state) /\
    (forall L : RNN.t LSTMCell.t,
        in_open_unit (LSTMCell.dropout (RNN.cell L)) = true ->
        drawn_once_per_call lstm L g inputs mask training initial_state).
Proof.
  intros g inputs mask training initial_state. split; [ | split ]; intros L.
  - apply SimpleRNNFacts.simple_rnn_draws_once.
  - apply GRUFacts.gru_draws_once.
  - apply LSTMFacts.lstm_draws_once.
Qed.

(** Calls in training mode on the three example layers, all with rate 1/2:
    each succeeds, so its masks were generated. *)
Lemma dropout_mask_is_drawn_once_per_call_witness :
  let g := SimpleRNN.Example.backend in
  let inputs := One SimpleRNN.Example.inputs in
  (drawn_once_per_call simple_rnn (SimpleRNN.Example.layer (1 # 2)) g
                       inputs None (Some true) None /\
   is_ok (fst (SimpleRNN.call K.rnn inputs None (Some true) None
                              (SimpleRNN.Example.layer (1 # 2), g)))
   = true) /\
  (drawn_once_per_call gru GRU.Example.layer g inputs None (Some true) None /\
   is_ok (fst (GRU.call K.rnn inputs None (Some true) None
                        (GRU.Example.layer, g))) = true) /\
  (drawn_once_per_call lstm LSTM.Example.layer g inputs None (Some true)
                       None /\
   is_ok (fst (LSTM.call K.rnn inputs None (Some true) None
                         (LSTM.Example.layer, g))) = true).
Proof.
  cbn zeta.
  destruct (dropout_mask_is_drawn_once_per_call
              SimpleRNN.Example.backend (One SimpleRNN.Example.inputs)
              None (Some true) None) as [Hs [Hg Hl]].
  split; [ | split ].
  - split; [ apply Hs; reflexivity | vm_compute; reflexivity ].
  - split; [ apply Hg; reflexivity | vm_compute; reflexivity ].
  - split; [ apply Hl; reflexivity | vm_compute; reflexivity ].
Defined.

(** C8 as stated fails for a rate that is positive but not below 1: with
    [dropout = 1] a call of [SimpleRNN] in training mode succeeds without
    generating any mask and without drawing from the backend. *)
Lemma dropout_rate_one_generates_no_mask :
  let run := SimpleRNN.call K.rnn (One SimpleRNN.Example.inputs) None
                            (Some true) None
                            (SimpleRNN.Example.layer 1,
                             SimpleRNN.Example.backend) in
  (0 < SimpleRNNCell.dropout (RNN.cell (SimpleRNN.Example.layer 1)))%Q /\
  is_ok (fst run) = true /\
  SimpleRNNCell._dropout_mask (RNN.cell (fst (snd run))) = None /\
  snd (snd run) = SimpleRNN.Example.backend.
Proof.
  cbn zeta. split; [ reflexivity | ].
  split; [ vm_compute; reflexivity | ].
  split; vm_compute; reflexivity.
Qed.

End WrapperFacts.

(* ------------------------------------------------------------------ *)
(** ** The two implementations of [GRUCell.call] *)
(* ------------------------------------------------------------------ *)

Module GRUCellFacts.

Import GRUCell.

Lemma In_firstn {A} (n : nat) (l : list A) (a : A) :
  In a (firstn n l) -> In a l.
Proof.
  revert l; induction n as [ | n IH ]; intros [ | b l ]; cbn;
    try tauto. intros [-> | H]; [ now left | right; now apply IH ].
Qed.

Lemma In_skipn {A} (n : nat) (l : list A) (a : A) :
  In a (skipn n l) -> In a l.
Proof.
  revert l; induction n as [ | n IH ]; intros [ | b l ]; cbn;
    try tauto. intros H; right; now apply IH.
Qed.

Lemma vec_kernel_ok (W : list (list R)) (r : list R) :
  K.rows W (length r) -> K.vec_kernel W r = Ok (map (K.dotp r) W).
Proof.
  intros HW. unfold K.vec_kernel.
  replace (forallb _ W) with true; [ reflexivity | ].
  symmetry. apply forallb_forall. intros c Hc.
  unfold K.rows in HW. rewrite Forall_forall in HW.
  apply Nat.eqb_eq. now apply HW.
Qed.

Lemma dot_ok (x W : list (list R)) (d : nat) :
  K.rows x d -> K.rows W d -> K.dot (K.Mat x) W = Ok (K.Mat (K.matmul x W)).
Proof.
  intros Hx HW. cbn.
  rewrite (PyFacts.mapM_ok _ (fun r => map (K.dotp r) W)); [ reflexivity | ].
  eapply Forall_impl; [ | exact Hx ]. intros r Hr.
  apply vec_kernel_ok. now rewrite Hr.
Qed.

Lemma rows_slice (W : list (list R)) (d a : nat) (b : option nat) :
  K.rows W d -> K.rows (slice a b W) d.
Proof.
  unfold K.rows. intros HW. rewrite Forall_forall in *.
  intros c Hc. apply HW.
  destruct b as [ b | ]; cbn in Hc.
  - apply In_firstn in Hc. eapply In_skipn; eassumption.
  - eapply In_skipn; eassumption.
Qed.

Lemma slice_map {A B} (f : A -> B) (a : nat) (b : option nat) (l : list A) :
  slice a b (map f l) = map f (slice a b l).
Proof.
  destruct b; cbn; now rewrite ?skipn_map, ?firstn_map.
Qed.

Lemma dot_slice (x W : list (list R)) (d a : nat) (b : option nat) :
  K.rows x d -> K.rows W d ->
  K.dot (K.Mat x) (slice a b W)
  = Ok (K.Mat (map (slice a b) (K.matmul x W))).
Proof.
  intros Hx HW.
  rewrite (dot_ok x (slice a b W) d Hx (rows_slice W d a b HW)).
  unfold K.matmul. rewrite map_map. do 2 f_equal. apply map_ext. intros r.
  now rewrite slice_map.
Qed.

Lemma matmul_rows (x W : list (list R)) :
  K.rows (K.matmul x W) (length W).
Proof.
  apply Forall_forall. intros r Hr. apply in_map_iff in Hr.
  destruct Hr as [r0 [<- _]]. now rewrite length_map.
Qed.

Lemma bias_full (m : list (list R)) (b : list R) :
  K.rows m (length b) ->
  K.bias_add (K.Mat m) b = Ok (K.Mat (K.add_to_rows b m)).
Proof.
  intros Hm. cbn.
  rewrite (PyFacts.mapM_ok _ (fun r => K.map2 Rplus r b)); [ reflexivity | ].
  eapply Forall_impl; [ | exact Hm ]. intros r Hr.
  unfold K.add_bias_row. now rewrite Hr, Nat.eqb_refl.
Qed.

Lemma map2_firstn {A B D} (f : A -> B -> D) (n : nat) (l1 : list A)
    (l2 : list B) :
  firstn n (K.map2 f l1 l2) = K.map2 f (firstn n l1) (firstn n l2).
Proof.
  revert l1 l2; induction n as [ | n IH ]; intros [ | a l1 ] [ | b l2 ];
    cbn; try reflexivity. now rewrite IH.
Qed.

Lemma map2_skipn {A B D} (f : A -> B -> D) (n : nat) (l1 : list A)
    (l2 : list B) :
  length l1 = length l2 ->
  skipn n (K.map2 f l1 l2) = K.map2 f (skipn n l1) (skipn n l2).
Proof.
  revert l1 l2; induction n as [ | n IH ]; intros [ | a l1 ] [ | b l2 ] H;
    cbn in *; try reflexivity; try discriminate. apply IH. lia.
Qed.

Lemma slice_vadd (a : nat) (b : option nat) (r bias : list R) :
  length r = length bias ->
  slice a b (K.vadd r bias) = K.vadd (slice a b r) (slice a b bias).
Proof.
  intros H. unfold K.vadd. destruct b; cbn.
  - now rewrite map2_skipn, map2_firstn.
  - now rewrite map2_skipn.
Qed.

Lemma length_slice {A B} (a : nat) (b : option nat) (l1 : list A)
    (l2 : list B) :
  length l1 = length l2 -> length (slice a b l1) = length (slice a b l2).
Proof.
  intros H. destruct b; cbn; rewrite ?length_firstn, ?length_skipn; lia.
Qed.

Lemma bias_slice (m : list (list R)) (bias : list R) (a : nat)
    (b : option nat) :
  K.rows m (length bias) ->
  K.bias_add (K.Mat (map (slice a b) m)) (slice a b bias)
  = Ok (K.Mat (map (slice a b) (K.add_to_rows bias m))).
Proof.
  unfold K.rows. intros Hm. rewrite bias_full.
  - unfold K.add_to_rows. rewrite !map_map. do 2 f_equal.
    apply map_ext_in. intros r Hr.
    rewrite Forall_forall in Hm. symmetry.
    apply (slice_vadd a b r bias). now apply Hm.
  - apply Forall_forall. intros r Hr. apply in_map_iff in Hr.
    destruct Hr as [r0 [<- Hr0]]. rewrite Forall_forall in Hm.
    apply length_slice. now apply Hm.
Qed.

Lemma slice_slice_z {A} (u : nat) (l : list A) :
  slice 0 (Some u) (slice 0 (Some (2 * u)) l) = slice 0 (Some u) l.
Proof.
  cbn [slice skipn]. rewrite !Nat.sub_0_r, firstn_firstn.
  f_equal. lia.
Qed.

Lemma slice_slice_r {A} (u : nat) (l : list A) :
  slice u (Some (2 * u)) (slice 0 (Some (2 * u)) l)
  = slice u (Some (2 * u)) l.
Proof.
  cbn [slice skipn]. rewrite !Nat.sub_0_r.
  replace (2 * u - u) with u by lia.
  rewrite skipn_firstn_comm. rewrite firstn_firstn.
  f_equal. lia.
Qed.

Lemma zip_ones (r : list R) :
  K.zipB (fun a b : R => Ok (a * b)%R) r (repeat 1%R (length r)) = Ok r.
Proof.
  unfold K.zipB. rewrite repeat_length, Nat.eqb_refl.
  induction r as [ | a r IH ]; cbn; [ reflexivity | ].
  rewrite IH. cbn. now rewrite Rmult_1_r.
Qed.

Lemma mul_ones (x : list (list R)) (d : nat) :
  K.rows x d -> K.mul (K.Mat x) (K.ones (length x) d) = Ok (K.Mat x).
Proof.
  intros Hx. unfold K.mul, K.bop, K.ones, K.full.
  cbn [K.ndim Nat.max K.as2 Py.fmap].
  assert (H : K.zipB (K.zipB (fun a b : R => Ok (a * b)%R)) x
                     (repeat (repeat 1%R d) (length x)) = Ok x).
  { unfold K.zipB at 1. rewrite repeat_length, Nat.eqb_refl.
    unfold K.rows in Hx.
    induction Hx as [ | r x Hr _ IH ]; cbn; [ reflexivity | ].
    rewrite <- Hr at 1. rewrite zip_ones. cbn. now rewrite IH. }
  rewrite H. reflexivity.
Qed.

Lemma ones_of_rows (x : list (list R)) (d : nat) :
  K.rows x d -> K.ones (length x) (length (hd [] x)) = K.ones (length x) d.
Proof.
  intros Hx. destruct Hx as [ | r x Hr _ ]; [ reflexivity | ].
  cbn [hd]. now rewrite Hr.
Qed.

(** Outside training, the masks generated are the tensor of ones itself. *)
Lemma inference_masks (ones : K.tensor) (rate : Q) (tr : option bool)
    (count : nat) :
  forall g : K.backend,
    tr = Some false \/ (tr = None /\ K.learning_phase g = false) ->
    fst (_generate_dropout_masks ones rate tr count g) = repeat ones count.
Proof.
  induction count as [ | n IH ]; intros g Htr; [ reflexivity | ].
  cbn [_generate_dropout_masks fst snd repeat].
  destruct Htr as [-> | [-> Hg]].
  - cbn [K.in_train_phase fst snd]. rewrite IH by now left. reflexivity.
  - cbn [K.in_train_phase fst snd]. rewrite Hg.
    rewrite IH by (right; split; [ reflexivity | exact Hg ]). reflexivity.
Qed.

Lemma learning_phase_generate (ones : K.tensor) (rate : Q) (tr : option bool)
    (count : nat) :
  forall g : K.backend,
    K.learning_phase (snd (_generate_dropout_masks ones rate tr count g))
    = K.learning_phase g.
Proof.
  induction count as [ | n IH ]; intros g; [ reflexivity | ].
  cbn [_generate_dropout_masks snd]. rewrite IH.
  destruct tr as [ [ | ] | ]; reflexivity.
Qed.

(** The two [if]s at the top of [call] set the masks and nothing else, and
    do not read [implementation]. *)
Lemma generation_sets_masks (self : t) (g : K.backend) (x : list (list R))
    (tr : option bool) :
  let fresh := in_open_unit (dropout self) && is_None (_dropout_mask self) in
  let r1 := _generate_dropout_masks (K.ones (length x) (length (hd [] x)))
                                    (dropout self) tr 3 g in
  let g1 := if fresh then snd r1 else g in
  let rec_fresh :=
    in_open_unit (recurrent_dropout self)
    && is_None (_recurrent_dropout_mask self) in
  let r2 := _generate_dropout_masks (K.ones (length x) (units self))
                                    (recurrent_dropout self) tr 3 g1 in
  forall k : nat,
    after_mask_generation (K.Mat x) tr (set_implementation self k, g)
    = (set_implementation
         (set_masks self
            (if fresh then Some (fst r1) else _dropout_mask self)
            (if rec_fresh then Some (fst r2)
             else _recurrent_dropout_mask self)) k,
       if rec_fresh then snd r2 else g1).
Proof.
  cbv zeta. intros k.
  unfold after_mask_generation, Py.bindM, generate_dropout_mask,
    generate_recurrent_dropout_mask.
  cbn [fst snd K.last_dim K.shape rev app Py.bind _generate_dropout_ones
       getitem nth_error set_implementation dropout _dropout_mask].
  destruct (in_open_unit (dropout self) && is_None (_dropout_mask self));
    cbn [fst snd set_masks set_implementation recurrent_dropout
         _recurrent_dropout_mask units];
    destruct (in_open_unit (recurrent_dropout self)
              && is_None (_recurrent_dropout_mask self));
    reflexivity.
Qed.

(** Multiplying by the masks changes nothing when they are tensors of ones
    of the shape of the operand. *)
Lemma masks_of_ones_are_neutral (rate : Q) (mask : option (list K.tensor))
    (x : list (list R)) (d : nat) :
  K.rows x d ->
  in_open_unit rate = false \/
  (exists l, mask = Some l /\
     forall i, i < 3 -> nth_error l i = Some (K.ones (length x) d)) ->
  forall i, i < 3 ->
    (if in_open_unit rate
     then let* m := mask_at mask i in K.mul (K.Mat x) m
     else Ok (K.Mat x)) = Ok (K.Mat x).
Proof.
  intros Hx [-> | [l [-> Hl]]] i Hi; [ reflexivity | ].
  destruct (in_open_unit rate); [ | reflexivity ].
  unfold mask_at, getitem. rewrite (Hl i Hi). cbn [Py.bind].
  now apply mul_ones.
Qed.

Lemma nth_error_repeat_lt {A} (a : A) (n i : nat) :
  i < n -> nth_error (repeat a n) i = Some a.
Proof.
  revert i; induction n as [ | n IH ]; intros [ | i ] Hi; cbn;
    try lia; try reflexivity. apply IH. lia.
Qed.

Lemma gates_agree (self : t) (x h : list (list R)) (d : nat) :
  (forall i, i < 3 ->
     (if in_open_unit (dropout self)
      then let* m := mask_at (_dropout_mask self) i in K.mul (K.Mat x) m
      else Ok (K.Mat x)) = Ok (K.Mat x)) ->
  (forall i, i < 3 ->
     (if in_open_unit (recurrent_dropout self)
      then let* m := mask_at (_recurrent_dropout_mask self) i in
           K.mul (K.Mat h) m
      else Ok (K.Mat h)) = Ok (K.Mat h)) ->
  built self d -> K.rows x d -> K.rows h (units self) ->
  gates_1 self (K.Mat x) (K.Mat h) = gates_2 self (K.Mat x) (K.Mat h).
Proof.
  intros Hd Hrd (Hk & Hkc & Hr & Hrc & Hbi & Hbr) Hx Hh.
  unfold gates_1, gates_2, kernel_z, kernel_r, kernel_h,
    recurrent_kernel_z, recurrent_kernel_r, recurrent_kernel_h,
    input_bias_z, input_bias_r, input_bias_h,
    recurrent_bias_z, recurrent_bias_r, recurrent_bias_h.
  cbv zeta.
  rewrite (Hd 0), (Hd 1), (Hd 2), (Hrd 0), (Hrd 1), (Hrd 2) by lia.
  cbn [Py.bind].
  rewrite !(Nat.mul_comm (units self) 2).
  rewrite !(dot_slice x (kernel self) d _ _ Hx Hkc).
  rewrite (dot_ok x (kernel self) d Hx Hkc).
  rewrite !(dot_slice h (recurrent_kernel self) (units self) _ _ Hh Hrc).
  cbn [Py.bind].
  assert (HX : forall b : list R, length b = 3 * units self ->
                         K.rows (K.matmul x (kernel self)) (length b)).
  { intros b ->. rewrite Nat.mul_comm, <- Hk. apply matmul_rows. }
  assert (HH : forall b : list R, length b = 3 * units self ->
                         K.rows (K.matmul h (recurrent_kernel self))
                                (length b)).
  { intros b ->. rewrite Nat.mul_comm, <- Hr. apply matmul_rows. }
  destruct (use_bias self) eqn:Hub.
  - destruct (Hbi eq_refl) as [bi [-> Hbil]].
    cbn [option_map bias_add].
    rewrite !(bias_slice _ bi _ _ (HX bi Hbil)).
    rewrite (bias_full _ bi (HX bi Hbil)).
    cbn [Py.bind K.cols].
    destruct (reset_after self) eqn:Hra; cbn [andb].
    + destruct (Hbr eq_refl eq_refl) as [br [-> Hbrl]].
      cbn [option_map bias_add].
      rewrite !(bias_slice _ br _ _ (HH br Hbrl)).
      rewrite (dot_ok h (recurrent_kernel self) (units self) Hh Hrc).
      cbn [Py.bind bias_add].
      rewrite (bias_full _ br (HH br Hbrl)).
      cbn [Py.bind K.cols]. reflexivity.
    + cbn [Py.bind K.cols]. rewrite !map_map.
      rewrite (map_ext _ _ (slice_slice_z (units self))).
      rewrite (map_ext _ _ (slice_slice_r (units self))).
      reflexivity.
  - cbn [Py.bind K.cols].
    destruct (reset_after self) eqn:Hra; cbn [andb].
    + rewrite (dot_ok h (recurrent_kernel self) (units self) Hh Hrc).
      cbn [Py.bind K.cols]. reflexivity.
    + cbn [Py.bind K.cols]. rewrite !map_map.
      rewrite (map_ext _ _ (slice_slice_z (units self))).
      rewrite (map_ext _ _ (slice_slice_r (units self))).
      reflexivity.
Qed.

(** C3, as the code has it.  Take a built cell, an input and a previous
    state of the shapes it was built for, and let no dropout act: each of
    the two rates lies outside the open interval (0, 1), or its masks are
    yet to be generated and the call is outside training ([training=False],
    or [training=None] with a learning phase of 0; for the recurrent masks,
    which take their number of rows from the input, the previous state has
    as many rows as the input), or the cell holds masks whose first three
    are tensors of ones of the shape of the tensor they multiply.  Then
    [call] with [implementation = 1] and [call] with any other
    [implementation] (the fused branch, 2 by default) return the same output
    and new state and leave the same cell and backend; with both rates
    outside (0, 1) these are the cell and the backend of before the call. *)
Theorem implementations_agree_without_dropout :
  forall (self : t) (g : K.backend) (x h : list (list R))
         (rest : list K.tensor) (training : option bool) (d n : nat),
    (in_open_unit (dropout self) = false \/
     (_dropout_mask self = None /\
      (training = Some false \/
       (training = None /\ K.learning_phase g = false))) \/
     (exists l, _dropout_mask self = Some l /\
        forall i, i < 3 -> nth_error l i = Some (K.ones (length x) d))) ->
    (in_open_unit (recurrent_dropout self) = false \/
     (_recurrent_dropout_mask self = None /\ length h = length x /\
      (training = Some false \/
       (training = None /\ K.learning_phase g = false))) \/
     (exists l, _recurrent_dropout_mask self = Some l /\
        forall i, i < 3 ->
          nth_error l i = Some (K.ones (length h) (units self)))) ->
    built self d -> K.rows x d -> K.rows h (units self) ->
    n <> 1 ->
    exists r c' g',
      (call (K.Mat x) (K.Mat h :: rest) training
            (set_implementation self 1, g)
       = (r, (set_implementation c' 1, g')) /\
       call (K.Mat x) (K.Mat h :: rest) training
            (set_implementation self n, g)
       = (r, (set_implementation c' n, g'))) /\
      (in_open_unit (dropout self) = false ->
       in_open_unit (recurrent_dropout self) = false ->
       c' = self /\ g' = g).
Proof.
  intros self g x h rest training d n Hd Hrd Hb Hx Hh Hn.
  pose proof (generation_sets_masks self g x training) as Hgen.
  cbv zeta in Hgen.
  set (fresh := in_open_unit (dropout self) && is_None (_dropout_mask self))
    in Hgen.
  set (r1 := _generate_dropout_masks (K.ones (length x) (length (hd [] x)))
                                     (dropout self) training 3 g) in Hgen.
  set (g1 := if fresh then snd r1 else g) in Hgen.
  set (rec_fresh := in_open_unit (recurrent_dropout self)
                    && is_None (_recurrent_dropout_mask self)) in Hgen.
  set (r2 := _generate_dropout_masks (K.ones (length x) (units self))
                                     (recurrent_dropout self) training 3 g1)
    in Hgen.
  set (dm := if fresh then Some (fst r1) else _dropout_mask self) in Hgen.
  set (rm := if rec_fresh then Some (fst r2)
             else _recurrent_dropout_mask self) in Hgen.
  set (g2 := if rec_fresh then snd r2 else g1) in Hgen.
  assert (Hg1 : K.learning_phase g1 = K.learning_phase g).
  { unfold g1. destruct fresh; [ apply learning_phase_generate | reflexivity ]. }
  (* the masks of the input *)
  assert (Hdm : in_open_unit (dropout self) = false \/
                exists l, dm = Some l /\
                  forall i, i < 3 ->
                    nth_error l i = Some (K.ones (length x) d)).
  { destruct Hd as [Hd | [[Hnone Htr] | Hl]]; [ now left | | ].
    - destruct (in_open_unit (dropout self)) eqn:Ho; [ right | now left ].
      unfold dm, fresh. rewrite Hnone. cbn [andb is_None].
      eexists. split; [ reflexivity | ]. intros i Hi.
      unfold r1. rewrite inference_masks by exact Htr.
      rewrite (ones_of_rows x d Hx). now apply nth_error_repeat_lt.
    - right. destruct Hl as [l [Hl Hones]].
      unfold dm, fresh. rewrite Hl. cbn [is_None].
      rewrite andb_false_r. exists l. split; [ reflexivity | exact Hones ]. }
  (* the masks of the previous state *)
  assert (Hrm : in_open_unit (recurrent_dropout self) = false \/
                exists l, rm = Some l /\
                  forall i, i < 3 ->
                    nth_error l i = Some (K.ones (length h) (units self))).
  { destruct Hrd as [Hrd | [[Hnone [Hlen Htr]] | Hl]]; [ now left | | ].
    - destruct (in_open_unit (recurrent_dropout self)) eqn:Ho;
        [ right | now left ].
      unfold rm, rec_fresh. rewrite Hnone. cbn [andb is_None].
      eexists. split; [ reflexivity | ]. intros i Hi.
      unfold r2. rewrite inference_masks.
      + rewrite Hlen. now apply nth_error_repeat_lt.
      + rewrite Hg1. exact Htr.
    - right. destruct Hl as [l [Hl Hones]].
      unfold rm, rec_fresh. rewrite Hl. cbn [is_None].
      rewrite andb_false_r. exists l. split; [ reflexivity | exact Hones ]. }
  assert (Hgates : forall k : nat,
             gates_1 (set_implementation (set_masks self dm rm) k)
                     (K.Mat x) (K.Mat h)
             = gates_2 (set_implementation (set_masks self dm rm) k)
                       (K.Mat x) (K.Mat h)).
  { intros k. apply (gates_agree _ x h d).
    - cbn [set_implementation set_masks dropout _dropout_mask].
      now apply (masks_of_ones_are_neutral (dropout self) dm x d).
    - cbn [set_implementation set_masks recurrent_dropout
           _recurrent_dropout_mask].
      now apply (masks_of_ones_are_neutral (recurrent_dropout self) rm h
                                           (units self)).
    - exact Hb.
    - exact Hx.
    - exact Hh. }
  exists (output_of (set_implementation (set_masks self dm rm) 1)
                    (K.Mat x) (K.Mat h)),
         (set_masks self dm rm), g2.
  split; [ split | ].
  - rewrite GRUFacts.gru_call_first by reflexivity.
    rewrite (Hgen 1). reflexivity.
  - rewrite GRUFacts.gru_call_first by reflexivity.
    rewrite (Hgen n). unfold reading. cbn [fst getitem nth_error Py.bind].
    f_equal. unfold output_of. cbn [implementation set_implementation].
    apply Nat.eqb_neq in Hn. rewrite Hn. cbn [Nat.eqb].
    rewrite <- (Hgates n). reflexivity.
  - intros Ho Hro. unfold g2, rm, rec_fresh, g1, dm, fresh.
    rewrite Ho, Hro. cbn [andb]. split; [ | reflexivity ].
    destruct self; reflexivity.
Qed.

Lemma implementations_agree_without_dropout_witness :
  (exists r c' g',
     (call Example.inputs Example.states (Some false)
           (Example.cell 1, Example.backend)
      = (r, (set_implementation c' 1, g')) /\
      call Example.inputs Example.states (Some false)
           (Example.cell 2, Example.backend)
      = (r, (set_implementation c' 2, g'))) /\
     (in_open_unit (dropout (Example.cell 0)) = false ->
      in_open_unit (recurrent_dropout (Example.cell 0)) = false ->
      c' = Example.cell 0 /\ g' = Example.backend)) /\
  (exists r c' g',
     (call Example.inputs Example.states (Some true)
           (Example.plain_cell 1, Example.backend)
      = (r, (set_implementation c' 1, g')) /\
      call Example.inputs Example.states (Some true)
           (Example.plain_cell 2, Example.backend)
      = (r, (set_implementation c' 2, g'))) /\
     (in_open_unit (dropout (Example.plain_cell 0)) = false ->
      in_open_unit (recurrent_dropout (Example.plain_cell 0)) = false ->
      c' = Example.plain_cell 0 /\ g' = Example.backend)).
Proof.
  split.
  - apply (implementations_agree_without_dropout
             (Example.cell 0) Example.backend [[1%R]] [[1%R]] []
             (Some false) 1 2).
    + left. reflexivity.
    + right. left. split; [ reflexivity | ].
      split; [ reflexivity | left; reflexivity ].
    + unfold built; cbn.
      repeat split; try (repeat constructor); discriminate.
    + repeat constructor.
    + repeat constructor.
    + discriminate.
  - apply (implementations_agree_without_dropout
             (Example.plain_cell 0) Example.backend [[1%R]] [[1%R]] []
             (Some true) 1 2).
    + left. reflexivity.
    + left. reflexivity.
    + unfold built; cbn.
      repeat split; try (repeat constructor); discriminate.
    + repeat constructor.
    + repeat constructor.
    + discriminate.
Defined.

(** C3 as stated fails once a dropout acts.  With a recurrent dropout of
    1/2 in training ([training=True], or [training=None] with a learning
    phase of 1), implementation 1 mixes the previous state itself into the
    new state, implementation 2 the previous state multiplied by the first
    mask; so it is outside training on a cell that holds the masks of an
    earlier call in training.  With an input dropout of 1/2 in training,
    implementation 1 multiplies the input of each gate by a mask of its own,
    implementation 2 the input of all three by the first mask: when the
    first draw keeps the input and the third drops it, the candidate, which
    is the new state here, is 0 in implementation 1 and 2 in
    implementation 2. *)
Lemma implementations_differ_under_dropout_in_training :
  fst (call Example.inputs Example.states (Some true)
            (Example.cell 1, Example.backend))
  <> fst (call Example.inputs Example.states (Some true)
               (Example.cell 2, Example.backend)) /\
  fst (call Example.inputs Example.states None
            (Example.cell 1, Example.backend))
  <> fst (call Example.inputs Example.states None
               (Example.cell 2, Example.backend)) /\
  fst (call Example.inputs Example.states (Some false)
            (Example.cell_after_training 1, Example.backend))
  <> fst (call Example.inputs Example.states (Some false)
               (Example.cell_after_training 2, Example.backend)) /\
  fst (call Example.inputs Example.states (Some true)
            (Example.input_dropout_cell 1, Example.first_draw_kept))
  <> fst (call Example.inputs Example.states (Some true)
               (Example.input_dropout_cell 2, Example.first_draw_kept)).
Proof.
  assert (Hq : (1 / (1 - Q2R (1 # 2)) = 2)%R) by (unfold Q2R; cbn; field).
  repeat split; cbn; intros H; injection H as H _;
    rewrite ?Hq in H; lra.
Qed.

End GRUCellFacts.

(* ------------------------------------------------------------------ *)
(** ** The unit forget bias of [LSTMCell] *)
(* ------------------------------------------------------------------ *)

Module LSTMCellFacts.

Import LSTMCell.





End LSTMCellFacts.

(* ------------------------------------------------------------------ *)
(** ** The derived context mask *)
(* ------------------------------------------------------------------ *)

(** A step of a mutating computation bound in [H : (let! x := m in k) s =
    (Ok r, s')] has succeeded. *)
Ltac bindM_ok H :=
  match type of H with
  | Py.bindM ?m _ ?s = (Ok _, _) =>
      let a := fresh "a" in
      let s1 := fresh "s" in
      let E := fresh "E" in
      unfold Py.bindM at 1 in H;
      destruct (m s) as [[a | ?] s1] eqn:E; [ | discriminate H ]
  end.

(** The [if 0 < rate < 1: ... else: ...] blocks of the [get_constants]
    methods. *)
Module BlockFacts.

Import Py.

Lemma masks_length (ones : K.tensor) (rate : Q) (training : option bool)
    (count : nat) (g : K.backend) :
  length (fst (_generate_dropout_masks ones rate training count g)) = count.
Proof.
  revert g. induction count as [ | count IH ]; intros g; [ reflexivity | ].
  cbn [_generate_dropout_masks fst length]. now rewrite IH.
Qed.

(** A list of masks made by one of the [if 0 < rate < 1: ... else: ...]
    blocks has [count] entries. *)
Lemma masks_block (cond : bool) (ones : result K.tensor) (rate : Q)
    (training : option bool) (count : nat) (g g1 : K.backend)
    (m : list K.tensor) :
  (if cond then
     let! ones := lift ones in dropout_masks ones rate training count
   else ret (repeat K.one count)) g = (Ok m, g1) ->
  length m = count.
Proof.
  destruct cond.
  - unfold Py.bindM, Py.lift. destruct ones as [ o | e ]; [ | discriminate ].
    unfold dropout_masks. intros H. injection H as <- _.
    apply masks_length.
  - unfold Py.ret. intros H. injection H as <- _. apply repeat_length.
Qed.

(** The same block when it appends the masks to the constants. *)
Lemma masks_block_appended (cond : bool) (ones : result K.tensor) (rate : Q)
    (training : option bool) (count : nat) (constants : list entry)
    (g g1 : K.backend) (a : list entry) :
  (if cond then
     let! ones := lift ones in
     let! m := dropout_masks ones rate training count in
     ret (constants ++ [Lst m])
   else ret (constants ++ [Lst (repeat K.one count)])) g = (Ok a, g1) ->
  exists m, a = constants ++ [Lst m] /\ length m = count.
Proof.
  destruct cond.
  - unfold Py.bindM, Py.lift. destruct ones as [ o | e ]; [ | discriminate ].
    unfold dropout_masks, Py.ret. intros H. injection H as <- _.
    eexists. split; [ reflexivity | apply masks_length ].
  - unfold Py.ret. intros H. injection H as <- _.
    eexists. split; [ reflexivity | apply repeat_length ].
Qed.

End BlockFacts.

Module ContextMaskFacts.

Local Open Scope R_scope.
















End ContextMaskFacts.

(* ------------------------------------------------------------------ *)
(** ** The second attention model of [AttLSTMCond2Inputs] *)
(* ------------------------------------------------------------------ *)

Module AttLSTMCond2InputsFacts.

Import AttLSTMCond2Inputs.

Lemma context_is_not_a_module_name :
  load_global module_namespace "context"
  = Raise (NameError "name 'context' is not defined").
Proof. reflexivity. Qed.

(** In the namespace of recurrent.py, [step] returns on no input. *)
Lemma step_never_returns (self : t) (x : K.tensor) (states : list entry) :
  exists e, step module_namespace self x states = Raise e.
Proof.
  unfold step.
  repeat match goal with
         | |- exists e, Py.bind (load_global _ _) _ = Raise e =>
             rewrite context_is_not_a_module_name; cbn [Py.bind]; eauto
         | |- exists e, Py.bind ?m _ = Raise e =>
             destruct m; cbn [Py.bind]; [ | eauto ]
         end.
Qed.

(** One step on the example states. *)
Lemma step_raises_NameError_on_example :
  step module_namespace Example.layer Example.x Example.states
  = Raise (NameError "name 'context' is not defined").
Proof. reflexivity. Qed.

Lemma getitem_replace_other {A} (i j : nat) (a : A) (l : list A) :
  i <> j -> getitem (replace_at i a l) j = getitem l j.
Proof.
  unfold getitem. revert i j; induction l as [ | b l IH ]; intros i j Hij.
  - destruct i; reflexivity.
  - destruct i, j; cbn; try reflexivity; try congruence.
    apply IH. congruence.
Qed.

Lemma getitem_replace_same {A} (i : nat) (a b : A) (l : list A) :
  getitem l i = Ok b -> getitem (replace_at i a l) i = Ok a.
Proof.
  unfold getitem. revert i; induction l as [ | c l IH ]; intros i H.
  - destruct i; discriminate.
  - destruct i; cbn in *; [ reflexivity | now apply IH ].
Qed.

Lemma load_slots_replace (self : t) (states : list entry) (s : slots)
    (c2 p2 : entry) :
  attend_on_both self = true ->
  load_slots self states = Ok s ->
  load_slots self (replace_at 14 c2 (replace_at 16 p2 states))
  = Ok (with_second_context s c2 p2).
Proof.
  intros Hab H. unfold load_slots in *. rewrite Hab in *.
  cbn [Nat.add] in *.
  rewrite (getitem_replace_other 14 10), (getitem_replace_other 16 10),
    (getitem_replace_other 14 11), (getitem_replace_other 16 11),
    (getitem_replace_other 14 12), (getitem_replace_other 16 12),
    (getitem_replace_other 14 13), (getitem_replace_other 16 13),
    (getitem_replace_other 14 15), (getitem_replace_other 16 15),
    (getitem_replace_other 14 16) by discriminate.
  revert H.
  destruct (getitem states 10) as [ a | ]; [ | discriminate ].
  destruct (getitem states 11) as [ c1 | ]; [ | discriminate ].
  destruct (getitem states 12) as [ m1 | ]; [ | discriminate ].
  destruct (getitem states 13) as [ q1 | ]; [ | discriminate ].
  destruct (getitem states 14) as [ c2' | ] eqn:E14; [ | discriminate ].
  destruct (getitem states 15) as [ m2 | ]; [ | discriminate ].
  destruct (getitem states 16) as [ p2' | ] eqn:E16; [ | discriminate ].
  cbn [Py.bind]. intros [= <-].
  rewrite (getitem_replace_same 14 c2 c2')
    by (rewrite getitem_replace_other by discriminate; assumption).
  rewrite (getitem_replace_same 16 p2 p2') by assumption.
  reflexivity.
Qed.

Lemma second_attention_ignores_second_context (ns : namespace) (self : t)
    (h_tm1 p1 : entry) (s : slots) (c2 p2 : entry) (r r' : entry * entry) :
  attend_on_both self = true ->
  second_attention ns self h_tm1 p1 s = Ok r ->
  second_attention ns self h_tm1 p1 (with_second_context s c2 p2) = Ok r' ->
  r = r'.
Proof.
  intros Hab H H'. unfold second_attention in *. rewrite Hab in *.
  destruct s as [a c1 m1 q1 c2' m2 p2'].
  unfold with_second_context in H'.
  cbn [mask_context2 att_dp_mask2 context2 pctx_2] in H, H'.
  bind_ok H. cbn [Py.bind] in H'.
  bind_ok H. bind_ok H'.
  congruence.
Qed.

(** Whatever the namespace, what [step] returns with [attend_on_both] does
    not depend on the second context (state 14) nor on its projection
    (state 16). *)
Lemma step_ignores_second_context (ns : namespace) (self : t)
    (x : K.tensor) (states : list entry) (c2 p2 : entry)
    (r r' : K.tensor * list entry) :
  attend_on_both self = true ->
  step ns self x states = Ok r ->
  step ns self x (replace_at 14 c2 (replace_at 16 p2 states)) = Ok r' ->
  r = r'.
Proof.
  intros Hab H H'.
  unfold step in H, H'.
  rewrite (getitem_replace_other 14 0), (getitem_replace_other 16 0),
    (getitem_replace_other 14 1), (getitem_replace_other 16 1),
    (getitem_replace_other 14 2), (getitem_replace_other 16 2),
    (getitem_replace_other 14 3), (getitem_replace_other 16 3),
    (getitem_replace_other 14 4), (getitem_replace_other 16 4),
    (getitem_replace_other 14 5), (getitem_replace_other 16 5),
    (getitem_replace_other 14 6), (getitem_replace_other 16 6),
    (getitem_replace_other 14 7), (getitem_replace_other 16 7),
    (getitem_replace_other 14 8), (getitem_replace_other 16 8),
    (getitem_replace_other 14 9), (getitem_replace_other 16 9)
    in H' by discriminate.
  revert H H'.
  do 10 (match goal with
         | |- Py.bind ?m _ = Ok _ -> _ =>
             destruct m; cbn [Py.bind]; [ | discriminate ]
         end).
  destruct (load_slots self states) as [ s | ] eqn:Es; [ | discriminate ].
  rewrite (load_slots_replace self states s c2 p2 Hab Es).
  cbn [Py.bind].
  change (mask_context1 (with_second_context s c2 p2))
    with (mask_context1 s).
  change (pctx_1 (with_second_context s c2 p2)) with (pctx_1 s).
  change (context1 (with_second_context s c2 p2)) with (context1 s).
  do 4 (match goal with
        | |- Py.bind ?m _ = Ok _ -> _ =>
            destruct m; cbn [Py.bind]; [ | discriminate ]
        end).
  match goal with
  | |- Py.bind (second_attention ?n ?l ?h ?p ?s1) _ = Ok _ ->
       Py.bind (second_attention _ _ _ _ ?s2) _ = Ok _ -> _ =>
      destruct (second_attention n l h p s1) as [ r2 | ] eqn:E2;
      [ | discriminate ];
      destruct (second_attention n l h p s2) as [ r2' | ] eqn:E2';
      [ | intros _; discriminate ];
      assert (r2 = r2')
        by exact (second_attention_ignores_second_context
                    n l h p s1 c2 p2 r2 r2' Hab E2 E2')
  end.
  subst r2'. cbn [Py.bind]. intros H H'. congruence.
Qed.

(** C1 does not hold of [AttLSTMCond2Inputs.step].  On the example layer
    and states the step raises NameError: the name [context], which both
    calls of [compute_attention] pass as raw context, is bound nowhere in
    recurrent.py, so in the module's namespace the step returns on no input
    at all.  And in whatever namespace the step does return, what it returns
    with [attend_on_both] is the same for every second context [context2]
    (state 14) and every projection [pctx_2] of it (state 16): [ctx_2] and
    [alphas2] are computed from [pctx_1] and [context]. *)
Theorem second_attention_does_not_read_second_context :
  step module_namespace Example.layer Example.x Example.states
  = Raise (NameError "name 'context' is not defined") /\
  (forall (self : t) (x : K.tensor) (states : list entry),
      exists e, step module_namespace self x states = Raise e) /\
  (forall (ns : namespace) (self : t) (x : K.tensor) (states : list entry)
          (c2 p2 : entry) (r r' : K.tensor * list entry),
      attend_on_both self = true ->
      step ns self x states = Ok r ->
      step ns self x (replace_at 14 c2 (replace_at 16 p2 states)) = Ok r' ->
      r = r').
Proof.
  split; [ reflexivity | split ].
  - exact step_never_returns.
  - exact step_ignores_second_context.
Qed.

(** In a namespace that binds [context] and [z_], the step on the example
    states returns, and returns the same for another second context. *)
Lemma second_attention_does_not_read_second_context_witness :
  exists r : K.tensor * list entry,
    step Example.patched_namespace Example.layer Example.x Example.states
    = Ok r /\
    step Example.patched_namespace Example.layer Example.x
         (replace_at 14 (Tns (K.Cube [[[50]; [60]]]%R))
            (replace_at 16 (Tns (K.Cube [[[70]; [80]]]%R)) Example.states))
    = Ok r.
Proof.
  destruct (step Example.patched_namespace Example.layer Example.x
                 Example.states) as [ r | e ] eqn:E;
    [ | vm_compute in E; discriminate ].
  destruct (step Example.patched_namespace Example.layer Example.x
              (replace_at 14 (Tns (K.Cube [[[50]; [60]]]%R))
                 (replace_at 16 (Tns (K.Cube [[[70]; [80]]]%R))
                    Example.states))) as [ r' | e ] eqn:E';
    [ | vm_compute in E'; discriminate ].
  exists r. split; [ reflexivity | ].
  f_equal. symmetry.
  exact (proj2 (proj2 second_attention_does_not_read_second_context)
           Example.patched_namespace Example.layer Example.x Example.states
           _ _ r r' eq_refl E E').
Defined.

End AttLSTMCond2InputsFacts.

(* ================================================================== *)
(** * [RNN.reset_states] on a stateful layer *)
(* ================================================================== *)
Module ResetStatesFacts.

Import Py.

Section Reset.
Context {C : Type} (cls : RNN.CellClass C).

Lemma shape_eqb_true (a b : list nat) : a = b -> RNN.shape_eqb a b = true.
Proof.
  intros ->. unfold RNN.shape_eqb.
  destruct (list_eq_dec Nat.eq_dec b b); congruence.
Qed.

Lemma shape_eqb_false (a b : list nat) : a <> b -> RNN.shape_eqb a b = false.
Proof.
  intros H. unfold RNN.shape_eqb.
  destruct (list_eq_dec Nat.eq_dec a b); congruence.
Qed.

Lemma assign_states_unfold (L : RNN.t C) (b index : nat) (value : K.tensor)
    (values : list K.tensor) (state : option K.tensor)
    (sts : list (option K.tensor)) :
  RNN.assign_states _ cls L b index (value :: values) (state :: sts)
  = match ResetStates.dim_at cls L index with
    | Raise e => (Raise e, state :: sts)
    | Ok dim =>
        if negb (RNN.shape_eqb (K.shape value) [b; dim]) then
          (Raise (ValueError
                    ("State " ++ str index ++
                     " is incompatible with layer " ++ RNN.name L ++
                     ": expected shape=" ++ RNN.str_shape [b; dim] ++
                     ", found shape=" ++ RNN.str_shape (K.shape value))),
           state :: sts)
        else
          match RNN.set_value state value with
          | Raise e => (Raise e, state :: sts)
          | Ok state' =>
              let r := RNN.assign_states _ cls L b (S index) values sts in
              (fst r, state' :: snd r)
          end
    end.
Proof. reflexivity. Qed.

(** The loop over values of the right shapes assigns them all. *)
Lemma assign_states_all (L : RNN.t C) (b : nat) (values : list K.tensor) :
  forall (index : nat) (olds : list K.tensor),
    length values = length olds ->
    (forall i v, nth_error values i = Some v ->
                 exists dim, ResetStates.dim_at cls L (index + i) = Ok dim /\
                             K.shape v = [b; dim]) ->
    RNN.assign_states _ cls L b index values (map Some olds)
    = (Ok tt, map Some values).
Proof.
  induction values as [ | v values IH ]; intros index olds Hlen Hsh.
  - destruct olds; [ reflexivity | discriminate ].
  - destruct olds as [ | o olds ]; [ discriminate | ].
    cbn [map]. rewrite assign_states_unfold.
    destruct (Hsh 0 v eq_refl) as [dim [Hd Hs]].
    rewrite Nat.add_0_r in Hd. rewrite Hd.
    rewrite (shape_eqb_true _ _ Hs). cbn [negb RNN.set_value].
    rewrite (IH (S index) olds).
    + reflexivity.
    + cbn in Hlen. lia.
    + intros i w Hw. destruct (Hsh (S i) w Hw) as [d [H1 H2]].
      exists d. split; [ | exact H2 ].
      rewrite <- H1. f_equal. lia.
Qed.

(** The loop stops at the first value of a wrong shape; the states before
    it have been assigned. *)
Lemma assign_states_stops (L : RNN.t C) (b : nat) :
  forall (k : nat) (values : list K.tensor) (index : nat)
         (olds : list K.tensor) (v : K.tensor) (dim : nat),
    length values = length olds ->
    (forall i w, i < k -> nth_error values i = Some w ->
                 exists d, ResetStates.dim_at cls L (index + i) = Ok d /\
                           K.shape w = [b; d]) ->
    nth_error values k = Some v ->
    ResetStates.dim_at cls L (index + k) = Ok dim ->
    K.shape v <> [b; dim] ->
    RNN.assign_states _ cls L b index values (map Some olds)
    = (Raise (ValueError
                ("State " ++ str (index + k) ++
                 " is incompatible with layer " ++ RNN.name L ++
                 ": expected shape=" ++ RNN.str_shape [b; dim] ++
                 ", found shape=" ++ RNN.str_shape (K.shape v))),
       map Some (firstn k values) ++ skipn k (map Some olds)).
Proof.
  induction k as [ | k IH ]; intros values index olds v dim Hlen Hsh Hv Hd Hbad.
  - destruct values as [ | v0 values ]; [ discriminate | ].
    destruct olds as [ | o olds ]; [ discriminate | ].
    cbn in Hv. injection Hv as ->.
    cbn [map firstn skipn app]. rewrite assign_states_unfold.
    rewrite Nat.add_0_r in Hd |- *. rewrite Hd.
    rewrite (shape_eqb_false _ _ Hbad). reflexivity.
  - destruct values as [ | v0 values ]; [ discriminate | ].
    destruct olds as [ | o olds ]; [ discriminate | ].
    cbn [map firstn skipn app]. rewrite assign_states_unfold.
    destruct (Hsh 0 v0 ltac:(lia) eq_refl) as [d0 [Hd0 Hs0]].
    rewrite Nat.add_0_r in Hd0. rewrite Hd0.
    rewrite (shape_eqb_true _ _ Hs0). cbn [negb RNN.set_value].
    rewrite (IH values (S index) olds v dim).
    + cbn [fst snd]. replace (S index + k) with (index + S k) by lia.
      reflexivity.
    + cbn in Hlen. lia.
    + intros i w Hi Hw. destruct (Hsh (S i) w ltac:(lia) Hw) as [d [H1 H2]].
      exists d. split; [ | exact H2 ]. rewrite <- H1. f_equal. lia.
    + exact Hv.
    + rewrite <- Hd. f_equal. lia.
    + exact Hbad.
Qed.

(** Zeroing existing state variables, one per state dimension. *)
Lemma zero_states_all (b : nat) (dims : list nat) :
  forall olds : list K.tensor,
    length dims = length olds ->
    RNN.zero_states b (map Some olds) dims
    = (Ok tt, map (fun dim => Some (K.zeros b dim)) dims).
Proof.
  induction dims as [ | d dims IH ]; intros olds Hlen.
  - destruct olds; [ reflexivity | discriminate ].
  - destruct olds as [ | o olds ]; [ discriminate | ].
    cbn [map RNN.zero_states RNN.set_value].
    rewrite (IH olds) by (cbn in Hlen; lia). reflexivity.
Qed.

Lemma well_shaped_dim_at (L : RNN.t C) (b : nat) (values : list K.tensor) :
  ResetStates.well_shaped cls L b values ->
  forall i v, nth_error values i = Some v ->
              exists dim, ResetStates.dim_at cls L (0 + i) = Ok dim /\ K.shape v = [b; dim].
Proof.
  unfold ResetStates.well_shaped, ResetStates.dim_at.
  destruct (RNN.state_size cls (RNN.cell L)) as [ n | dims ].
  - intros H i v Hv. exists n. split; [ reflexivity | ].
    rewrite Forall_forall in H. apply H. eapply nth_error_In; eauto.
  - intros H. induction H as [ | v0 d0 values dims H0 H IH ]; intros i v Hv.
    + destruct i; discriminate.
    + destruct i as [ | i ].
      * cbn in Hv. injection Hv as <-. exists d0. split; [ reflexivity | assumption ].
      * cbn in Hv. destruct (IH i v Hv) as [d [H1 H2]].
        exists d. split; [ | exact H2 ].
        cbn [Nat.add] in H1 |- *. unfold getitem in H1 |- *. cbn [nth_error]. exact H1.
Qed.

Lemma set_states_twice (L : RNN.t C) (a b : list (option K.tensor)) :
  RNN.set_states _ (RNN.set_states _ L a) b = RNN.set_states _ L b.
Proof. reflexivity. Qed.

(** The checks in front of the three branches, for a stateful layer that
    knows its batch size. *)
Lemma reset_states_branches (L : RNN.t C) (b : nat)
    (shape : list (option nat)) (states_arg : option (arg K.tensor)) :
  RNN.stateful L = true ->
  RNN.input_spec_shape L = Some (Some (S b) :: shape) ->
  RNN.reset_states cls states_arg L
  = match getitem (RNN.states cls L) 0 with
    | Raise e => (Raise e, L)
    | Ok None =>
        match RNN.state_size cls (RNN.cell L) with
        | SizeSeq dims =>
            (Ok tt,
             RNN.set_states _ L
               (map (fun dim => Some (K.zeros (S b) dim)) dims))
        | SizeInt n =>
            (Ok tt, RNN.set_states _ L [Some (K.zeros (S b) n)])
        end
    | Ok (Some _) =>
        match states_arg with
        | None =>
            match RNN.state_size cls (RNN.cell L) with
            | SizeSeq dims =>
                let r := RNN.zero_states (S b) (RNN.states cls L) dims in
                (fst r, RNN.set_states _ L (snd r))
            | SizeInt n =>
                let r := RNN.zero_states (S b) (RNN.states cls L) [n] in
                (fst r, RNN.set_states _ L (snd r))
            end
        | Some a =>
            let values :=
              match a with
              | Several l => l
              | One v => [v]
              end in
            if negb (length values =? length (RNN.states cls L))%nat then
              (Raise (ValueError
                        ("Layer " ++ RNN.name L ++ " expects " ++
                         str (length (RNN.states cls L)) ++
                         " states, but it received " ++
                         str (length values) ++ " state values.")),
               L)
            else
              let r := RNN.assign_states _ cls L (S b) 0 values
                                         (RNN.states cls L) in
              (fst r, RNN.set_states _ L (snd r))
        end
    end.
Proof.
  intros Hst Hsp. unfold RNN.reset_states. rewrite Hst, Hsp. reflexivity.
Qed.

Lemma states_initialised (L : RNN.t C) (sts : list (option K.tensor)) :
  RNN._states L = Some sts -> RNN.states cls L = sts.
Proof. intros H. unfold RNN.states. rewrite H. reflexivity. Qed.

(** Zeroing the variables of an initialised layer. *)
Lemma reset_states_zeroes (L : RNN.t C) (b : nat) (shape : list (option nat))
    (olds : list K.tensor) :
  RNN.stateful L = true ->
  RNN.input_spec_shape L = Some (Some (S b) :: shape) ->
  RNN._states L = Some (map Some olds) ->
  olds <> [] ->
  length (ResetStates.initial_zeros cls L (S b)) = length olds ->
  RNN.reset_states cls None L
  = (Ok tt, RNN.set_states _ L (ResetStates.initial_zeros cls L (S b))).
Proof.
  intros Hst Hsp Hs Hne Hlen.
  rewrite (reset_states_branches L b shape None Hst Hsp).
  rewrite (states_initialised L _ Hs).
  destruct olds as [ | o olds ]; [ congruence | ].
  cbn [map getitem nth_error].
  unfold ResetStates.initial_zeros in *.
  destruct (RNN.state_size cls (RNN.cell L)) as [ n | dims ].
  - destruct olds; [ reflexivity | discriminate ].
  - change (Some o :: map Some olds) with (map Some (o :: olds)).
    rewrite zero_states_all by (rewrite length_map in Hlen; exact Hlen).
    reflexivity.
Qed.

(** Assigning values of the right shapes to an initialised layer. *)
Lemma reset_states_assigns (L : RNN.t C) (b : nat)
    (shape : list (option nat)) (olds values : list K.tensor) :
  RNN.stateful L = true ->
  RNN.input_spec_shape L = Some (Some (S b) :: shape) ->
  RNN._states L = Some (map Some olds) ->
  values <> [] ->
  length values = length olds ->
  ResetStates.well_shaped cls L (S b) values ->
  RNN.reset_states cls (Some (Several values)) L
  = (Ok tt, RNN.set_states _ L (map Some values)).
Proof.
  intros Hst Hsp Hs Hne Hlen Hsh.
  rewrite (reset_states_branches L b shape _ Hst Hsp).
  rewrite (states_initialised L _ Hs).
  destruct olds as [ | o olds ]; [ destruct values; [ congruence | discriminate ] | ].
  cbn [map getitem nth_error]. cbn zeta.
  change (Some o :: map Some olds) with (map Some (o :: olds)).
  rewrite length_map, Hlen, Nat.eqb_refl. cbn [negb].
  rewrite (assign_states_all L (S b) values 0 (o :: olds) Hlen
             (well_shaped_dim_at L (S b) values Hsh)).
  reflexivity.
Qed.

(** The first reset of a layer. *)
Lemma reset_states_first (L : RNN.t C) (b : nat) (shape : list (option nat))
    (states_arg : option (arg K.tensor)) :
  RNN.stateful L = true ->
  RNN.input_spec_shape L = Some (Some (S b) :: shape) ->
  nth_error (RNN.states cls L) 0 = Some None ->
  RNN.reset_states cls states_arg L
  = (Ok tt, RNN.set_states _ L (ResetStates.initial_zeros cls L (S b))).
Proof.
  intros Hst Hsp H0.
  rewrite (reset_states_branches L b shape states_arg Hst Hsp).
  unfold getitem. rewrite H0. unfold ResetStates.initial_zeros.
  destruct (RNN.state_size cls (RNN.cell L)); reflexivity.
Qed.

(** X1: the first [reset_states] of a stateful layer that knows its batch
    size, the one that finds [self.states[0]] to be [None], creates the
    state variables as [K.zeros((batch_size, dim))], one per state of the
    cell, and succeeds: whatever was passed as [states] is ignored, neither
    counted nor checked for its shapes. *)
Theorem first_reset_states_creates_zeros_whatever_the_values
    (L : RNN.t C) (b : nat) (shape : list (option nat))
    (states_arg : option (arg K.tensor)) :
  RNN.stateful L = true ->
  RNN.input_spec_shape L = Some (Some (S b) :: shape) ->
  nth_error (RNN.states cls L) 0 = Some None ->
  RNN.reset_states cls states_arg L
  = (Ok tt, RNN.set_states _ L (ResetStates.initial_zeros cls L (S b))).
Proof. apply reset_states_first. Qed.

(** X2: on a stateful layer whose state variables exist,
    [reset_states(values)] with as many values as there are states, each of
    shape [(batch_size, dim)] for its state, succeeds and leaves exactly
    these values in the state variables, in the order given. *)
Theorem reset_states_stores_the_given_values (L : RNN.t C) (b : nat)
    (shape : list (option nat)) (olds values : list K.tensor) :
  RNN.stateful L = true ->
  RNN.input_spec_shape L = Some (Some (S b) :: shape) ->
  RNN._states L = Some (map Some olds) ->
  values <> [] ->
  length values = length olds ->
  ResetStates.well_shaped cls L (S b) values ->
  let r := RNN.reset_states cls (Some (Several values)) L in
  fst r = Ok tt /\
  RNN.states cls (snd r) = map Some values /\
  snd r = RNN.set_states _ L (map Some values).
Proof.
  intros Hst Hsp Hs Hne Hlen Hsh. cbn zeta.
  rewrite (reset_states_assigns L b shape olds values Hst Hsp Hs Hne Hlen Hsh).
  repeat split.
Qed.

(** X3: [reset_states(values)] checks and assigns the values one by one.
    When the value at index [k] is the first one whose shape is not
    [(batch_size, dim)], the call raises the [ValueError] that names index
    [k], the layer and both shapes, and it is not undone: the state
    variables before [k] already hold the new values, those from [k] on
    keep the old ones. *)
Theorem reset_states_shape_error_keeps_earlier_assignments
    (L : RNN.t C) (b : nat) (shape : list (option nat))
    (olds values : list K.tensor) (k : nat) (v : K.tensor) (dim : nat) :
  RNN.stateful L = true ->
  RNN.input_spec_shape L = Some (Some (S b) :: shape) ->
  RNN._states L = Some (map Some olds) ->
  length values = length olds ->
  (forall i w, i < k -> nth_error values i = Some w ->
               exists d, ResetStates.dim_at cls L i = Ok d /\
                         K.shape w = [S b; d]) ->
  nth_error values k = Some v ->
  ResetStates.dim_at cls L k = Ok dim ->
  K.shape v <> [S b; dim] ->
  RNN.reset_states cls (Some (Several values)) L
  = (Raise (ValueError
              ("State " ++ str k ++
               " is incompatible with layer " ++ RNN.name L ++
               ": expected shape=" ++ RNN.str_shape [S b; dim] ++
               ", found shape=" ++ RNN.str_shape (K.shape v))),
     RNN.set_states _ L
       (map Some (firstn k values) ++ map Some (skipn k olds))).
Proof.
  intros Hst Hsp Hs Hlen Hsh Hv Hd Hbad.
  rewrite (reset_states_branches L b shape _ Hst Hsp).
  rewrite (states_initialised L _ Hs).
  destruct olds as [ | o olds ].
  { destruct values; [ destruct k; discriminate | discriminate ]. }
  cbn [map getitem nth_error]. cbn zeta.
  change (Some o :: map Some olds) with (map Some (o :: olds)).
  rewrite length_map, Hlen, Nat.eqb_refl. cbn [negb].
  rewrite (assign_states_stops L (S b) k values 0 (o :: olds) v dim
             Hlen Hsh Hv Hd Hbad).
  cbn [fst snd Nat.add]. rewrite skipn_map. reflexivity.
Qed.

(** X4: [reset_states] composes as a reset should.  Take a stateful layer
    that knows its batch size and has no state variables yet, around a cell
    with at least one state.  After [reset_states()], a
    [reset_states(values)] with well-shaped values stores them, and a
    further [reset_states()] succeeds and brings the layer back to exactly
    what the first [reset_states()] had made of it: all states zero. *)
Theorem reset_states_without_values_restores_the_zeros
    (L : RNN.t C) (b : nat) (shape : list (option nat))
    (values : list K.tensor) :
  RNN.stateful L = true ->
  RNN.input_spec_shape L = Some (Some (S b) :: shape) ->
  RNN._states L = None ->
  RNN.state_size cls (RNN.cell L) <> SizeSeq [] ->
  length values = length (RNN.states cls L) ->
  ResetStates.well_shaped cls L (S b) values ->
  let L1 := snd (RNN.reset_states cls None L) in
  let L2 := snd (RNN.reset_states cls (Some (Several values)) L1) in
  RNN.states cls L2 = map Some values /\
  RNN.reset_states cls None L2 = (Ok tt, L1).
Proof.
  intros Hst Hsp Hs Hne Hlen Hsh. cbn zeta.
  assert (H0 : nth_error (RNN.states cls L) 0 = Some None).
  { unfold RNN.states. rewrite Hs.
    destruct (RNN.state_size cls (RNN.cell L)) as [ n | [ | d dims ] ];
      [ reflexivity | congruence | reflexivity ]. }
  assert (Hz : exists zs, zs <> [] /\ length zs = length values /\
                          ResetStates.initial_zeros cls L (S b) = map Some zs).
  { unfold ResetStates.initial_zeros. unfold RNN.states in Hlen.
    rewrite Hs in Hlen. rewrite repeat_length in Hlen.
    destruct (RNN.state_size cls (RNN.cell L)) as [ n | dims ].
    - exists [K.zeros (S b) n]. repeat split; [ discriminate | auto ].
    - exists (map (fun dim => K.zeros (S b) dim) dims).
      rewrite length_map, map_map. repeat split; [ | auto ].
      destruct dims; [ congruence | discriminate ]. }
  destruct Hz as [zs [Hzne [Hzlen Hz]]].
  assert (Hvne : values <> []).
  { destruct values; [ destruct zs; [ congruence | discriminate ] | discriminate ]. }
  rewrite (reset_states_first L b shape None Hst Hsp H0).
  cbn [snd]. rewrite Hz.
  rewrite (reset_states_assigns (RNN.set_states C L (map Some zs)) b shape
             zs values Hst Hsp eq_refl Hvne (eq_sym Hzlen) Hsh).
  cbn [snd]. split; [ reflexivity | ].
  rewrite (reset_states_zeroes
             (RNN.set_states C (RNN.set_states C L (map Some zs))
                             (map Some values))
             b shape values Hst Hsp eq_refl Hvne).
  - change (ResetStates.initial_zeros cls
              (RNN.set_states C (RNN.set_states C L (map Some zs))
                              (map Some values)) (S b))
      with (ResetStates.initial_zeros cls L (S b)).
    rewrite Hz. reflexivity.
  - change (ResetStates.initial_zeros cls
              (RNN.set_states C (RNN.set_states C L (map Some zs))
                              (map Some values)) (S b))
      with (ResetStates.initial_zeros cls L (S b)).
    rewrite Hz, length_map. exact Hzlen.
Qed.

(** X5: a stateful layer whose input spec has no batch size, [None] or 0,
    cannot reset its states: [reset_states] raises a [ValueError], with or
    without values, and the layer is left as it was. *)
Theorem reset_states_needs_the_batch_size (L : RNN.t C)
    (batch_size : option nat) (shape : list (option nat))
    (states_arg : option (arg K.tensor)) :
  RNN.stateful L = true ->
  RNN.input_spec_shape L = Some (batch_size :: shape) ->
  batch_size = None \/ batch_size = Some 0 ->
  exists msg,
    RNN.reset_states cls states_arg L = (Raise (ValueError msg), L).
Proof.
  intros Hst Hsp Hb. unfold RNN.reset_states. rewrite Hst, Hsp.
  cbn [negb getitem nth_error].
  destruct Hb as [ -> | -> ]; eexists; reflexivity.
Qed.

End Reset.

Lemma first_reset_states_creates_zeros_whatever_the_values_witness :
  RNN.reset_states RNN.Stateful.cls
    (Some (Several [K.ones 5 5])) RNN.Stateful.layer
  = (Ok tt,
     RNN.set_states _ RNN.Stateful.layer [Some (K.zeros 2 4); Some (K.zeros 2 3)]).
Proof.
  apply (first_reset_states_creates_zeros_whatever_the_values
           RNN.Stateful.cls RNN.Stateful.layer 1 [None; Some 3]);
    reflexivity.
Defined.

Lemma reset_states_stores_the_given_values_witness :
  let r := RNN.reset_states RNN.Stateful.cls
             (Some (Several [K.full 5 2 4; K.full 7 2 3]))
             RNN.Stateful.initialised in
  fst r = Ok tt /\
  RNN.states RNN.Stateful.cls (snd r)
  = [Some (K.full 5 2 4); Some (K.full 7 2 3)] /\
  snd r = RNN.set_states _ RNN.Stateful.initialised
            [Some (K.full 5 2 4); Some (K.full 7 2 3)].
Proof.
  apply (reset_states_stores_the_given_values
           RNN.Stateful.cls RNN.Stateful.initialised 1 [None; Some 3]
           [K.ones 2 4; K.ones 2 3] [K.full 5 2 4; K.full 7 2 3]).
  - reflexivity.
  - reflexivity.
  - reflexivity.
  - discriminate.
  - reflexivity.
  - repeat constructor.
Defined.

Lemma reset_states_shape_error_keeps_earlier_assignments_witness :
  RNN.reset_states RNN.Stateful.cls
    (Some (Several [K.full 5 2 4; K.full 7 2 4])) RNN.Stateful.initialised
  = (Raise (ValueError
              "State 1 is incompatible with layer rnn_2: expected shape=(2, 3), found shape=(2, 4)"),
     RNN.set_states _ RNN.Stateful.initialised
       [Some (K.full 5 2 4); Some (K.ones 2 3)]).
Proof.
  apply (reset_states_shape_error_keeps_earlier_assignments
           RNN.Stateful.cls RNN.Stateful.initialised 1 [None; Some 3]
           [K.ones 2 4; K.ones 2 3] [K.full 5 2 4; K.full 7 2 4] 1
           (K.full 7 2 4) 3).
  - reflexivity.
  - reflexivity.
  - reflexivity.
  - reflexivity.
  - intros i w Hi Hw. assert (i = 0) as -> by lia.
    injection Hw as <-. exists 4. split; reflexivity.
  - reflexivity.
  - reflexivity.
  - discriminate.
Defined.

Lemma reset_states_without_values_restores_the_zeros_witness :
  let values := [K.full 5 2 4; K.full 7 2 3] in
  let L1 := snd (RNN.reset_states RNN.Stateful.cls None RNN.Stateful.layer) in
  let L2 := snd (RNN.reset_states RNN.Stateful.cls (Some (Several values))
                                  L1) in
  RNN.states RNN.Stateful.cls L2 = map Some values /\
  RNN.reset_states RNN.Stateful.cls None L2 = (Ok tt, L1).
Proof.
  apply (reset_states_without_values_restores_the_zeros
           RNN.Stateful.cls RNN.Stateful.layer 1 [None; Some 3]
           [K.full 5 2 4; K.full 7 2 3]).
  - reflexivity.
  - reflexivity.
  - reflexivity.
  - discriminate.
  - reflexivity.
  - repeat constructor.
Defined.

Lemma reset_states_needs_the_batch_size_witness :
  exists msg,
    RNN.reset_states RNN.Stateful.cls (Some (One (K.ones 2 4)))
      RNN.Stateful.no_batch_size
    = (Raise (ValueError msg), RNN.Stateful.no_batch_size).
Proof.
  apply (reset_states_needs_the_batch_size
           RNN.Stateful.cls RNN.Stateful.no_batch_size None [None; Some 3]).
  - reflexivity.
  - reflexivity.
  - left. reflexivity.
Defined.

End ResetStatesFacts.

(* ================================================================== *)
(** * [RNN.__call__] and [RNN._standardize_args] *)
(* ================================================================== *)
Module RNNArgsFacts.

Import Py.

Section Args.
Context {C T : Type}.

Lemma last_n_app (A : Type) (l cs : list A) :
  cs <> [] -> RNN.last_n (length cs) (l ++ cs) = cs.
Proof.
  intros Hne. unfold RNN.last_n.
  destruct (Nat.eqb_spec (length cs) 0) as [ E | _ ].
  - destruct cs; [ congruence | discriminate ].
  - rewrite length_app.
    replace (length l + length cs - length cs) with (length l + 0) by lia.
    rewrite skipn_app, Nat.add_0_r, skipn_all.
    replace (length l - length l) with 0 by lia. reflexivity.
Qed.

Lemma but_last_n_app (A : Type) (l cs : list A) :
  cs <> [] -> RNN.but_last_n (length cs) (l ++ cs) = l.
Proof.
  intros Hne. unfold RNN.but_last_n.
  destruct (Nat.eqb_spec (length cs) 0) as [ E | _ ].
  - destruct cs; [ congruence | discriminate ].
  - rewrite length_app.
    replace (length l + length cs - length cs) with (length l + 0) by lia.
    rewrite firstn_app, Nat.add_0_r, firstn_all.
    replace (length l - length l) with 0 by lia.
    cbn [firstn]. apply app_nil_r.
Qed.

(** Unpacking the list [x :: st ++ cs] on a layer that counts
    [length cs] constants. *)
Lemma standardize_args_unpacks (L : RNN.t C) (x : T) (st cs : list T) :
  cs <> [] ->
  RNN._num_constants L = Some (length cs) ->
  RNN._standardize_args L (Several (x :: st ++ cs)) None None
  = Ok (x, match st with [] => None | _ => Some st end, Some cs).
Proof.
  intros Hne Hn. unfold RNN._standardize_args. cbn [RNN.is_none andb negb].
  rewrite Hn. cbn [fst snd].
  change (x :: st ++ cs) with ((x :: st) ++ cs).
  rewrite (last_n_app T (x :: st) cs Hne), (but_last_n_app T (x :: st) cs Hne).
  destruct st; reflexivity.
Qed.

(** Unpacking the list [x :: st] on a layer that counts no constants. *)
Lemma standardize_args_states_only (L : RNN.t C) (x : T) (st : list T) :
  RNN._num_constants L = None ->
  RNN._standardize_args L (Several (x :: st)) None None
  = Ok (x, match st with [] => None | _ => Some st end, None).
Proof.
  intros Hn. unfold RNN._standardize_args. cbn [RNN.is_none andb negb].
  rewrite Hn. cbn [fst snd]. destruct st; reflexivity.
Qed.

Lemma all_keras_tensors (is_keras_tensor : T -> bool) (l : list T) :
  forallb is_keras_tensor l = true ->
  existsb (fun tensor => negb (Bool.eqb (is_keras_tensor tensor) true)) l
  = false.
Proof.
  induction l as [ | a l IH ]; [ reflexivity | ].
  cbn [forallb existsb]. intros H. apply andb_prop in H. destruct H as [Ha Hl].
  rewrite Ha, (IH Hl). reflexivity.
Qed.

(** [__call__] on one input tensor and additional inputs that are Keras
    tensors. *)
Lemma call_packs (is_keras_tensor : T -> bool) (L : RNN.t C) (x : T)
    (initial_state constants : option (list T)) (first : T) :
  (initial_state <> None \/ constants <> None) ->
  nth_error (RNN.or_empty initial_state ++ RNN.or_empty constants) 0
  = Some first ->
  forallb is_keras_tensor
          (RNN.or_empty initial_state ++ RNN.or_empty constants) = true ->
  RNN.__call__ is_keras_tensor (One x) (option_map Several initial_state)
               (option_map Several constants) L
  = (Ok (Several (x :: RNN.or_empty initial_state
                       ++ RNN.or_empty constants),
         initial_state, constants),
     match constants with
     | Some l => RNN.set_num_constants L (Some (length l))
     | None => L
     end).
Proof.
  intros Hsome Hfirst Hall. unfold RNN.__call__.
  assert (Hstd : RNN._standardize_args L (One x)
                   (option_map Several initial_state)
                   (option_map Several constants)
                 = Ok (x, initial_state, constants)).
  { destruct initial_state, constants; reflexivity. }
  rewrite Hstd.
  assert (Hnone : RNN.is_none initial_state && RNN.is_none constants = false).
  { destruct initial_state, constants; try reflexivity.
    destruct Hsome; congruence. }
  rewrite Hnone. unfold getitem. rewrite Hfirst.
  assert (Hf : is_keras_tensor first = true).
  { rewrite forallb_forall in Hall. apply Hall.
    eapply nth_error_In. exact Hfirst. }
  cbn zeta. rewrite Hf, (all_keras_tensors is_keras_tensor _ Hall).
  reflexivity.
Qed.

(** X6: what [__call__] packs, [_standardize_args] unpacks.  When
    [__call__] is given one input tensor together with initial states, with
    constants or with both as non-empty lists of Keras tensors, it hands
    [Layer.__call__] the single list [[inputs] + initial_state + constants];
    and on the layer as [__call__] leaves it, [_standardize_args] splits
    this list into the same input, initial states and constants again.
    Without constants this needs a layer that has not counted constants
    before: [__call__] never resets [_num_constants]. *)
Theorem standardize_args_recovers_what_call_packed
    (is_keras_tensor : T -> bool) (L : RNN.t C) (x : T)
    (initial_state constants : option (list T)) :
  initial_state <> Some [] ->
  constants <> Some [] ->
  (initial_state <> None \/ constants <> None) ->
  (constants = None -> RNN._num_constants L = None) ->
  forallb is_keras_tensor
          (RNN.or_empty initial_state ++ RNN.or_empty constants) = true ->
  let packed := x :: RNN.or_empty initial_state ++ RNN.or_empty constants in
  let r := RNN.__call__ is_keras_tensor (One x)
                        (option_map Several initial_state)
                        (option_map Several constants) L in
  fst r = Ok (Several packed, initial_state, constants) /\
  RNN._standardize_args (snd r) (Several packed) None None
  = Ok (x, initial_state, constants).
Proof.
  intros Hst Hcs Hsome Hnum Hall. cbn zeta.
  assert (Hfirst : exists first,
             nth_error (RNN.or_empty initial_state ++ RNN.or_empty constants)
                       0 = Some first).
  { destruct initial_state as [ [ | s st ] | ]; [ congruence | eexists; reflexivity | ].
    destruct constants as [ [ | c cs ] | ]; [ congruence | eexists; reflexivity | ].
    destruct Hsome; congruence. }
  destruct Hfirst as [first Hfirst].
  rewrite (call_packs is_keras_tensor L x initial_state constants first
             Hsome Hfirst Hall).
  cbn [fst snd]. split; [ reflexivity | ].
  destruct constants as [ cs | ].
  - assert (Hne : cs <> []) by congruence.
    cbn [RNN.or_empty].
    rewrite (standardize_args_unpacks
               (RNN.set_num_constants L (Some (length cs))) x
               (RNN.or_empty initial_state) cs Hne eq_refl).
    destruct initial_state as [ [ | s st ] | ]; [ congruence | | ]; reflexivity.
  - cbn [RNN.or_empty]. rewrite app_nil_r.
    rewrite (standardize_args_states_only L x (RNN.or_empty initial_state)
               (Hnum eq_refl)).
    destruct initial_state as [ [ | s st ] | ]; [ congruence | reflexivity | ].
    destruct Hsome; congruence.
Qed.

(** X7: an empty list of constants breaks the round trip.  [__call__] with
    initial states that are Keras tensors and [constants=[]] succeeds, packs
    the input and the states into one list and leaves [_num_constants] at
    0; after that [_standardize_args] raises [IndexError] on every input
    list, the packed one included, because [inputs[:-0]] is empty. *)
Theorem empty_constants_leave_input_lists_unreadable
    (is_keras_tensor : T -> bool) (L : RNN.t C) (x s : T) (st : list T) :
  forallb is_keras_tensor (s :: st) = true ->
  let r := RNN.__call__ is_keras_tensor (One x) (Some (Several (s :: st)))
                        (Some (Several [])) L in
  fst r = Ok (Several (x :: s :: st), Some (s :: st), Some []) /\
  forall l : list T,
    RNN._standardize_args (snd r) (Several l) None None
    = Raise (IndexError "list index out of range").
Proof.
  intros Hall. cbn zeta.
  change (Some (Several (s :: st)))
    with (option_map (@Several T) (Some (s :: st))).
  change (Some (Several (@nil T))) with (option_map (@Several T) (Some [])).
  rewrite (call_packs is_keras_tensor L x (Some (s :: st)) (Some []) s).
  - cbn [fst snd RNN.or_empty]. rewrite app_nil_r.
    split; [ reflexivity | ]. intros l. reflexivity.
  - left. discriminate.
  - reflexivity.
  - cbn [RNN.or_empty]. rewrite app_nil_r. exact Hall.
Qed.

(** X8: [__call__] with an empty list of initial states and no constants,
    or with both lists empty, does not reach [Layer.__call__]: the lookup
    [additional_inputs[0]] raises [IndexError]. *)
Theorem call_with_empty_additional_inputs_raises_IndexError
    (is_keras_tensor : T -> bool) (L : RNN.t C) (x : T)
    (constants : option (list T)) :
  constants = None \/ constants = Some [] ->
  fst (RNN.__call__ is_keras_tensor (One x) (Some (Several []))
                    (option_map Several constants) L)
  = Raise (IndexError "list index out of range").
Proof.
  intros [ -> | -> ]; reflexivity.
Qed.

End Args.

Lemma standardize_args_recovers_what_call_packed_witness :
  let L := RNN.Example.layer in
  let r := RNN.__call__ (fun _ : nat => true) (One 0)
                        (Some (Several [1; 2])) (Some (Several [3])) L in
  fst r = Ok (Several [0; 1; 2; 3], Some [1; 2], Some [3]) /\
  RNN._standardize_args (snd r) (Several [0; 1; 2; 3]) None None
  = Ok (0, Some [1; 2], Some [3]).
Proof.
  apply (standardize_args_recovers_what_call_packed
           (fun _ : nat => true) RNN.Example.layer 0 (Some [1; 2])
           (Some [3])).
  - discriminate.
  - discriminate.
  - left. discriminate.
  - discriminate.
  - reflexivity.
Defined.

Lemma empty_constants_leave_input_lists_unreadable_witness :
  let r := RNN.__call__ (fun _ : nat => true) (One 0)
                        (Some (Several [1; 2])) (Some (Several []))
                        RNN.Example.layer in
  fst r = Ok (Several [0; 1; 2], Some [1; 2], Some []) /\
  forall l : list nat,
    RNN._standardize_args (snd r) (Several l) None None
    = Raise (IndexError "list index out of range").
Proof.
  apply (empty_constants_leave_input_lists_unreadable
           (fun _ : nat => true) RNN.Example.layer 0 1 [2]).
  reflexivity.
Defined.

Lemma call_with_empty_additional_inputs_raises_IndexError_witness :
  fst (RNN.__call__ (fun _ : nat => true) (One 0) (Some (Several []))
                    None RNN.Example.layer)
  = Raise (IndexError "list index out of range").
Proof.
  apply (call_with_empty_additional_inputs_raises_IndexError
           (fun _ : nat => true) RNN.Example.layer 0 None).
  left. reflexivity.
Defined.

End RNNArgsFacts.

(* ================================================================== *)
(** * [RNN.get_initial_state] and the checks of [RNN.call] *)
(* ================================================================== *)
Module RNNCallFacts.

Import Py.

Section Call.
Context {C : Type} (cls : RNN.CellClass C).


Lemma Rsum_zeros (A : Type) (l : list A) :
  K.Rsum (map (fun _ => 0%R) l) = 0%R.
Proof.
  induction l as [ | a l IH ]; [ reflexivity | ].
  cbn [map K.Rsum]. rewrite IH. lra.
Qed.

Lemma Rsum_all_zero (l : list R) :
  Forall (fun x => x = 0%R) l -> K.Rsum l = 0%R.
Proof.
  induction 1 as [ | x l Hx _ IH ]; [ reflexivity | ].
  cbn [K.Rsum]. rewrite Hx, IH. lra.
Qed.

Lemma concat_repeat_singleton (A : Type) (a : A) (n : nat) :
  concat (repeat [a] n) = repeat a n.
Proof.
  induction n as [ | n IH ]; [ reflexivity | ].
  cbn [repeat concat app]. rewrite IH. reflexivity.
Qed.

Lemma map_const_repeat (A B : Type) (b : B) (l : list A) :
  map (fun _ => b) l = repeat b (length l).
Proof.
  induction l as [ | a l IH ]; [ reflexivity | ].
  cbn [map length repeat]. rewrite IH. reflexivity.
Qed.

(** The tile of the summed zeros is the zero matrix. *)
Lemma zero_tile (c : list (list (list R))) (dim : nat) :
  map (fun r => concat (repeat r dim))
      (map (fun x => [x])
           (map (fun m => K.Rsum (map K.Rsum m))
                (map (map (map (fun _ => 0%R))) c)))
  = repeat (repeat 0%R dim) (length c).
Proof.
  rewrite !map_map.
  rewrite <- (map_const_repeat _ _ (repeat 0%R dim) c).
  apply map_ext. intros m.
  rewrite concat_repeat_singleton. f_equal.
  apply Rsum_all_zero. apply Forall_forall. intros x Hx.
  apply in_map_iff in Hx. destruct Hx as [r [<- Hr]].
  apply in_map_iff in Hr. destruct Hr as [r0 [<- _]].
  apply Rsum_zeros.
Qed.

Lemma get_initial_state_zeros (L : RNN.t C) (c : list (list (list R))) :
  fmap (map Some) (RNN.get_initial_state cls L (K.Cube c))
  = Ok (ResetStates.initial_zeros cls L (length c)).
Proof.
  unfold RNN.get_initial_state, ResetStates.initial_zeros.
  cbn [K.zeros_like K.map_elems K.sum_axes_1_2 Py.bind K.expand_dims].
  destruct (RNN.state_size cls (RNN.cell L)) as [ n | dims ].
  - cbn [K.tile_1 Py.bind fmap map]. rewrite zero_tile. reflexivity.
  - rewrite (PyFacts.mapM_ok
               (fun dim => K.tile_1
                   (K.Mat (map (fun x => [x])
                      (map (fun m => K.Rsum (map K.Rsum m))
                         (map (map (map (fun _ => 0%R))) c)))) dim)
               (fun dim => K.zeros (length c) dim) dims).
    + cbn [fmap Py.bind]. rewrite map_map. reflexivity.
    + clear. induction dims as [ | d dims IH ]; constructor; [ | exact IH ].
      cbn [K.tile_1]. rewrite zero_tile. reflexivity.
Qed.

(** X9: on a rank-3 input of [n] samples, [get_initial_state] returns one
    tensor per state of the cell, the one of dimension [dim] being
    [K.zeros((n, dim))], whatever the values of the input are.  These are
    the tensors the first [reset_states] of a stateful layer with batch
    size [n] creates. *)
Theorem get_initial_state_is_zeros_of_samples_by_dim (L : RNN.t C)
    (c : list (list (list R))) :
  exists st,
    RNN.get_initial_state cls L (K.Cube c) = Ok st /\
    st = match RNN.state_size cls (RNN.cell L) with
         | SizeSeq dims => map (fun dim => K.zeros (length c) dim) dims
         | SizeInt n => [K.zeros (length c) n]
         end /\
    map Some st = ResetStates.initial_zeros cls L (length c).
Proof.
  pose proof (get_initial_state_zeros L c) as H.
  destruct (RNN.get_initial_state cls L (K.Cube c)) as [ st | e ];
    [ | discriminate ].
  cbn [fmap Py.bind] in H. injection H as H.
  exists st. split; [ reflexivity | ]. split; [ | exact H ].
  unfold ResetStates.initial_zeros in H.
  destruct (RNN.state_size cls (RNN.cell L)) as [ n | dims ].
  - destruct st as [ | s [ | ] ]; try discriminate. injection H as ->.
    reflexivity.
  - clear -H. revert st H.
    induction dims as [ | d dims IH ]; intros [ | s st ] H;
      try discriminate; [ reflexivity | ].
    cbn [map] in H |- *. injection H as -> H. rewrite (IH st H).
    reflexivity.
Qed.

(** X10: [call] with explicit initial states whose number is not the
    number of states of the layer raises the [ValueError] that names both
    numbers.  It does so before the time loop: the scan driver is not
    invoked, and the layer, its cell and the backend are left as they
    were. *)
Theorem call_rejects_a_wrong_number_of_initial_states
    (rnn : RNN.driver C) (L : RNN.t C) (g : K.backend)
    (inputs : arg ktensor) (mask : option (arg K.tensor))
    (training : option bool) (initial_state : list K.tensor)
    (constants : option (list K.tensor)) :
  inputs <> Several [] ->
  mask <> Some (Several []) ->
  length initial_state <> length (RNN.states cls L) ->
  RNN.call cls rnn inputs mask training (Some initial_state) constants (L, g)
  = (Raise (ValueError
              ("Layer has " ++ str (length (RNN.states cls L)) ++
               " states but was passed " ++
               str (length initial_state) ++ " initial states.")),
     (L, g)).
Proof.
  intros Hin Hmask Hlen. unfold RNN.call, RNN.call_checks. cbn [fst snd].
  assert (E1 : exists x, match inputs with
                         | Several l => getitem l 0
                         | One x => Ok x
                         end = Ok x).
  { destruct inputs as [ x | [ | x l ] ];
      [ eauto | congruence | exists x; reflexivity ]. }
  destruct E1 as [x ->]. cbn [Py.bind].
  assert (E2 : exists mk, match mask with
                          | Some (Several l) => fmap Some (getitem l 0)
                          | Some (One m) => Ok (Some m)
                          | None => Ok None
                          end = Ok mk).
  { destruct mask as [ [ m | [ | m l ] ] | ]; cbn; eauto. congruence. }
  destruct E2 as [mk ->]. cbn [Py.bind].
  rewrite length_map.
  destruct (Nat.eqb_spec (length initial_state) (length (RNN.states cls L)))
    as [ E | _ ]; [ congruence | ].
  reflexivity.
Qed.



End Call.

Lemma call_rejects_a_wrong_number_of_initial_states_witness :
  RNN.call RNN.Stateful.cls K.rnn (One RNN.Example.one_timestep) None None
           (Some [K.zeros 2 4]) None
           (RNN.Stateful.layer, RNN.Example.backend)
  = (Raise (ValueError "Layer has 2 states but was passed 1 initial states."),
     (RNN.Stateful.layer, RNN.Example.backend)).
Proof.
  apply (call_rejects_a_wrong_number_of_initial_states
           RNN.Stateful.cls K.rnn RNN.Stateful.layer RNN.Example.backend
           (One RNN.Example.one_timestep) None None [K.zeros 2 4] None).
  - discriminate.
  - discriminate.
  - cbn. lia.
Defined.


End RNNCallFacts.

(* ================================================================== *)
(** * The stack as a layer: weights, [build], output shape *)
(* ================================================================== *)
Module StackedLayersFacts.

Import Py.
Import StackedRNNCells.

Section Layers.
Context {T KW V W : Type}.

Local Abbreviation LCell := (LayerCell T KW V).

Lemma collect_from (f : LCell -> list V) (cells : list LCell)
    (acc : list V) :
  fold_left (fun weights cell =>
               if isinstance_Layer cell then weights ++ f cell else weights)
            cells acc
  = acc ++ concat (map f (filter isinstance_Layer cells)).
Proof.
  revert acc. induction cells as [ | c cells IH ]; intros acc; cbn.
  - now rewrite app_nil_r.
  - rewrite IH. destruct (isinstance_Layer c); cbn; [ | reflexivity ].
    now rewrite <- app_assoc.
Qed.

Lemma collect_concat (f : LCell -> list V) (cells : list LCell) :
  collect f cells = concat (map f (filter isinstance_Layer cells)).
Proof. unfold collect. now rewrite collect_from. Qed.

Lemma combine_firstn_length (A B : Type) (l : list A) (l' : list B) :
  combine l (firstn (length l) l') = combine l l'.
Proof.
  revert l'. induction l as [ | a l IH ]; intros [ | b l' ]; cbn;
    try reflexivity.
  now rewrite IH.
Qed.

Lemma skipn_firstn_same (A : Type) (n : nat) (l : list A) :
  skipn n (firstn n l) = [].
Proof.
  apply skipn_all2. rewrite length_firstn. lia.
Qed.

(** Once [weights] is empty, the loop appends nothing. *)
Lemma set_weights_loop_empty (cells : list LCell) (tuples : list (V * W)) :
  fold_left set_weights_step cells (tuples, []) = (tuples, []).
Proof.
  revert tuples. induction cells as [ | c cells IH ]; intros tuples;
    [ reflexivity | ].
  cbn [fold_left]. unfold set_weights_step at 2. cbn [fst snd slice].
  destruct (isinstance_Layer c); [ | apply IH ].
  rewrite Nat.sub_0_r. cbn [skipn]. rewrite firstn_nil, skipn_nil.
  replace (combine (cell_weights c) []) with (@nil (V * W))
    by (destruct (cell_weights c); reflexivity).
  rewrite app_nil_r. apply IH.
Qed.

Lemma set_weights_loop_first (cells : list LCell) :
  forall (tuples : list (V * W)) (weights : list W),
    fold_left set_weights_step cells (tuples, weights)
    = match find isinstance_Layer cells with
      | Some cell => (tuples ++ combine (cell_weights cell) weights, [])
      | None => (tuples, weights)
      end.
Proof.
  induction cells as [ | c cells IH ]; intros tuples weights;
    [ reflexivity | ].
  cbn [fold_left find]. unfold set_weights_step at 2. cbn [fst snd slice].
  destruct (isinstance_Layer c); [ | apply IH ].
  rewrite Nat.sub_0_r. cbn [skipn].
  rewrite skipn_firstn_same, combine_firstn_length.
  apply set_weights_loop_empty.
Qed.

(** X12: [set_weights] reaches the first [Layer] cell of the stack only.
    The tuples it hands to [K.batch_set_value] pair the variables of that
    cell with the leading values of the list; the loop cuts the list down
    to this cell's share before it moves on, so no variable of any later
    cell is assigned, whatever the list holds. *)
Theorem set_weights_assigns_only_the_first_layer_cell
    (cells : list LCell) (weights : list W) :
  set_weights cells weights
  = match find isinstance_Layer cells with
    | Some cell => combine (cell_weights cell) weights
    | None => []
    end.
Proof.
  unfold set_weights, set_weights_loop.
  rewrite set_weights_loop_first.
  destruct (find isinstance_Layer cells); reflexivity.
Qed.

(** X13: the weights of a stack are the same list whether the stack is
    trainable or not.  [trainable_weights] followed by
    [non_trainable_weights] is always the trainable weights of the [Layer]
    cells, in cell order, followed by their non-trainable weights; a stack
    that is not trainable reports no trainable weight and all of this list
    as non-trainable. *)
Theorem freezing_the_stack_moves_its_weights_to_non_trainable
    (trainable : bool) (cells : list LCell) :
  trainable_weights trainable cells ++ non_trainable_weights trainable cells
  = concat (map cell_trainable_weights (filter isinstance_Layer cells))
    ++ concat (map cell_non_trainable_weights
                   (filter isinstance_Layer cells)) /\
  trainable_weights false cells = [] /\
  non_trainable_weights false cells
  = trainable_weights true cells ++ non_trainable_weights true cells.
Proof.
  unfold trainable_weights, non_trainable_weights.
  rewrite !collect_concat.
  destruct trainable; cbn [negb app]; repeat split; reflexivity.
Qed.

Lemma output_dim_ok (cell : LCell) :
  sizes_of (base cell) <> [] ->
  match cell_state_size (base cell) with
  | SizeSeq dims => getitem dims 0
  | SizeInt n => Ok n
  end = Ok (output_dim cell).
Proof.
  unfold output_dim, sizes_of.
  destruct (cell_state_size (base cell)) as [ n | [ | d dims ] ];
    [ reflexivity | congruence | reflexivity ].
Qed.

Lemma build_loop_step (c : LCell) (cells : list LCell)
    (cs : option (list (list (option nat)))) (b : option nat)
    (rest : list (option nat)) (built : list (arg (list (option nat)))) :
  builds_without_constants c ->
  build_loop (c :: cells) cs (b :: rest) built
  = build_loop cells cs [b; Some (output_dim c)]
      (if isinstance_Layer c then built ++ [One (b :: rest)] else built).
Proof.
  intros [Hsz Hlayer]. cbn [build_loop].
  destruct (isinstance_Layer c) eqn:Hl.
  - destruct (Hlayer eq_refl) as [Hc Hb]. rewrite Hc.
    cbv [bindM ret lift]. rewrite Hb, (output_dim_ok c Hsz).
    reflexivity.
  - cbv [bindM ret lift]. rewrite (output_dim_ok c Hsz). reflexivity.
Qed.

Lemma build_calls_cons (c : LCell) (cells : list LCell) (b : option nat)
    (rest : list (option nat)) :
  build_calls (b :: rest) (c :: cells)
  = (if isinstance_Layer c then [One (b :: rest)] else [])
    ++ build_calls [b; Some (output_dim c)] cells.
Proof.
  unfold build_calls, input_shapes. cbn [map combine filter fst snd hd].
  destruct (isinstance_Layer c); reflexivity.
Qed.

Lemma build_loop_chain (cells : list LCell) :
  forall (cs : option (list (list (option nat)))) (b : option nat)
         (rest : list (option nat)) (built : list (arg (list (option nat)))),
    Forall builds_without_constants cells ->
    build_loop cells cs (b :: rest) built
    = (Ok tt, built ++ build_calls (b :: rest) cells).
Proof.
  induction cells as [ | c cells IH ]; intros cs b rest built HF.
  - cbn. now rewrite app_nil_r.
  - inversion HF as [ | c0 cells0 Hc HF' ]; subst.
    rewrite (build_loop_step c cells cs b rest built Hc), IH by exact HF'.
    rewrite build_calls_cons.
    destruct (isinstance_Layer c); [ now rewrite <- app_assoc | reflexivity ].
Qed.

(** The loop stops at the first [Layer] cell with constants when
    [constants_shape] is unbound. *)
Lemma build_loop_unbound (cell : LCell) (back : list LCell) :
  isinstance_Layer cell = true ->
  has_arg_constants (base cell) = true ->
  forall (front : list LCell) (b : option nat) (rest : list (option nat))
         (built : list (arg (list (option nat)))),
    Forall builds_without_constants front ->
    build_loop (front ++ cell :: back) None (b :: rest) built
    = (Raise (Exception "UnboundLocalError"
                "local variable 'constants_shape' referenced before assignment"),
       built ++ build_calls (b :: rest) front).
Proof.
  intros Hl Hc. induction front as [ | c front IH ]; intros b rest built HF.
  - cbn [app build_loop]. rewrite Hl, Hc. cbn. now rewrite app_nil_r.
  - inversion HF as [ | c0 cells0 Hc0 HF' ]; subst.
    cbn [app].
    rewrite (build_loop_step c _ None b rest built Hc0), IH by exact HF'.
    rewrite build_calls_cons.
    destruct (isinstance_Layer c); [ now rewrite <- app_assoc | reflexivity ].
Qed.

Lemma build_calls_next (cells : list LCell) :
  forall (x : list (option nat)) (b : option nat) (k : nat) (p c : LCell),
    nth_error cells k = Some p ->
    nth_error cells (S k) = Some c ->
    In (c, [b; Some (output_dim p)])
       (combine cells
                (x :: map (fun c => [b; Some (output_dim c)]) cells)).
Proof.
  induction cells as [ | c0 cells IH ]; intros x b k p c Hp Hc.
  - destruct k; discriminate.
  - cbn [map combine]. destruct k as [ | k ].
    + cbn in Hp. injection Hp as ->. cbn [nth_error] in Hc.
      destruct cells as [ | c1 cells ]; [ discriminate | ].
      cbn in Hc. injection Hc as ->. right. left. reflexivity.
    + right. apply (IH _ b k p c); assumption.
Qed.

(** X14: [build] on a single input shape hands the cells down a chain of
    shapes.  When no [Layer] cell takes constants and no cell's [build]
    raises, [build] succeeds; the [Layer] cells are built in order, the
    first cell with the input shape and every later one with [(batch, d)],
    where [d] is the first state size of the cell before it.  Cells that
    are no [Layer]s are not built but still pass their first state size
    on. *)
Theorem build_hands_each_cell_the_output_dim_of_the_one_before
    (cells : list LCell) (b : option nat) (rest : list (option nat)) :
  Forall builds_without_constants cells ->
  build cells (One (b :: rest)) []
  = (Ok tt, build_calls (b :: rest) cells) /\
  (forall c, hd_error cells = Some c -> isinstance_Layer c = true ->
             hd_error (build_calls (b :: rest) cells)
             = Some (One (b :: rest))) /\
  (forall k p c,
      nth_error cells k = Some p -> nth_error cells (S k) = Some c ->
      isinstance_Layer c = true ->
      In (One [b; Some (output_dim p)]) (build_calls (b :: rest) cells)).
Proof.
  intros HF. split; [ | split ].
  - unfold build.
    rewrite (build_loop_chain cells None b rest [] HF). reflexivity.
  - intros c Hc Hl. destruct cells as [ | c0 cells ]; [ discriminate | ].
    cbn in Hc. injection Hc as ->.
    rewrite build_calls_cons, Hl. reflexivity.
  - intros k p c Hp Hc Hl. unfold build_calls, input_shapes.
    apply (in_map (fun q : LCell * list (option nat) => One (snd q))
                  _ (c, [b; Some (output_dim p)])).
    apply filter_In. split; [ | exact Hl ].
    cbn [hd]. apply (build_calls_next cells (b :: rest) b k p c Hp Hc).
Qed.

(** X15: [build] on a single input shape, not a list, cannot build a
    [Layer] cell whose [call] takes constants: the local variable
    [constants_shape] was never bound, so an [UnboundLocalError] is raised
    when the loop gets to this cell.  The cells in front of it have been
    built by then. *)
Theorem build_without_constants_shape_raises_at_a_cell_with_constants
    (front back : list LCell) (cell : LCell) (b : option nat)
    (rest : list (option nat)) :
  Forall builds_without_constants front ->
  isinstance_Layer cell = true ->
  has_arg_constants (base cell) = true ->
  exists msg,
    build (front ++ cell :: back) (One (b :: rest)) []
    = (Raise (Exception "UnboundLocalError" msg),
       build_calls (b :: rest) front).
Proof.
  intros HF Hl Hc. eexists. unfold build.
  rewrite (build_loop_unbound cell back Hl Hc front b rest [] HF).
  reflexivity.
Qed.

End Layers.

Section OutputShape.
Context {C T KW : Type} (cls : RNN.CellClass C).

Lemma stack_state_size_last (front : list (Cell T KW)) (last : Cell T KW) :
  state_size (front ++ [last])
  = sizes_of last ++ state_size front.
Proof.
  unfold state_size.
  rewrite !StackedRNNCellsFacts.state_size_loop_concat. cbn [app].
  rewrite rev_app_distr. cbn [rev app map concat]. reflexivity.
Qed.

(** X16: the output of an [RNN] layer around a stack of cells has the
    first state size of the last cell as its last dimension, and with
    [return_state] the state shapes follow last cell first.  For an input
    shape [(d0, d1, ...)], [compute_output_shape] is [(d0, d)], or
    [(d0, d1, d)] with [return_sequences], where [d] is the first state
    size of the last cell of the stack. *)
Theorem output_dim_of_a_stack_is_the_first_state_size_of_its_last_cell
    (L : RNN.t C) (front : list (Cell T KW)) (last : Cell T KW) (d : nat)
    (d0 d1 : option nat) (rest : list (option nat)) :
  RNN.state_size cls (RNN.cell L) = SizeSeq (state_size (front ++ [last])) ->
  hd_error (sizes_of last) = Some d ->
  RNN.compute_output_shape cls L (One (d0 :: d1 :: rest))
  = let output_shape :=
      if RNN.return_sequences L then [d0; d1; Some d] else [d0; Some d] in
    Ok (if RNN.return_state L then
          Several (output_shape
                   :: map (fun dim => [d0; Some dim])
                          (sizes_of last ++ state_size front))
        else One output_shape).
Proof.
  intros Hsz Hd. unfold RNN.compute_output_shape. cbn [Py.bind].
  rewrite Hsz, stack_state_size_last.
  destruct (sizes_of last) as [ | d' ds ] eqn:Hs; [ discriminate | ].
  cbn in Hd. injection Hd as ->.
  cbn [app getitem nth_error Py.bind RNN.tuple_getitem].
  assert (Hmap : forall dims : list nat,
             mapM (fun dim : nat =>
                     let* d2 := RNN.tuple_getitem (d0 :: d1 :: rest) 0 in
                     Ok [d2; Some dim]) dims
             = Ok (map (fun dim => [d0; Some dim]) dims)).
  { intros dims. apply PyFacts.mapM_ok. apply Forall_forall.
    intros dim _. reflexivity. }
  destruct (RNN.return_sequences L), (RNN.return_state L); cbn [Py.bind];
    rewrite ?Hmap; reflexivity.
Qed.

(** X17: [compute_mask] and [compute_output_shape] describe the same list
    of outputs.  With [return_state] set, on a layer whose state list has
    one entry per state size of the cell (as it has before the first
    [reset_states]), both return a list with one entry for the output
    followed by one per state, and every state mask is [None]; without
    [return_state] both return a single entry.  The output mask is the
    input mask with [return_sequences] and [None] without. *)
Theorem compute_mask_matches_compute_output_shape
    (M : Type) (L : RNN.t C) (mask : option M) (shape out : arg (list (option nat))) :
  RNN._states L = None ->
  RNN.compute_output_shape cls L shape = Ok out ->
  exists masks,
    RNN.compute_mask cls L (option_map One mask) = Ok masks /\
    match out, masks with
    | Several shapes, Several (output_mask :: state_masks) =>
        RNN.return_state L = true /\
        length shapes = S (length state_masks) /\
        output_mask = (if RNN.return_sequences L then mask else None) /\
        Forall (fun m => m = None) state_masks
    | One _, One output_mask =>
        RNN.return_state L = false /\
        output_mask = (if RNN.return_sequences L then mask else None)
    | _, _ => False
    end.
Proof.
  intros Hst Hout. unfold RNN.compute_mask.
  assert (Hm : match option_map One mask with
               | Some (Several l) => fmap Some (getitem l 0)
               | Some (One m) => Ok (Some m)
               | None => Ok None
               end = Ok mask) by (destruct mask; reflexivity).
  rewrite Hm. cbn [Py.bind].
  unfold RNN.compute_output_shape in Hout.
  destruct (match shape with
            | One s => Ok s
            | Several l => getitem l 0
            end) as [ s | e ]; [ | discriminate ].
  cbn [Py.bind] in Hout.
  unfold RNN.states. rewrite Hst.
  set (dims := match RNN.state_size cls (RNN.cell L) with
               | SizeInt n => [n]
               | SizeSeq dims => dims
               end) in *.
  assert (Hn : match RNN.state_size cls (RNN.cell L) with
               | SizeInt _ => 1
               | SizeSeq dims => length dims
               end = length dims).
  { unfold dims. destruct (RNN.state_size cls (RNN.cell L)); reflexivity. }
  rewrite Hn.
  destruct (getitem dims 0) as [ od | e ]; [ | discriminate ].
  cbn [Py.bind] in Hout.
  destruct (if RNN.return_sequences L
            then
              let* d0 := RNN.tuple_getitem s 0 in
              let* d1 := RNN.tuple_getitem s 1 in Ok [d0; d1; Some od]
            else let* d0 := RNN.tuple_getitem s 0 in Ok [d0; Some od])
    as [ os | e ]; [ | discriminate ].
  cbn [Py.bind] in Hout.
  destruct (RNN.return_state L).
  - destruct (mapM _ dims) as [ ss | e ] eqn:Hss; [ | discriminate ].
    cbn [Py.bind] in Hout. injection Hout as <-.
    eexists. split; [ reflexivity | ].
    split; [ reflexivity | ]. split.
    + cbn [length]. f_equal. rewrite length_map, repeat_length.
      clear -Hss. revert ss Hss.
      induction dims as [ | d dims IH ]; intros ss Hss.
      * cbn in Hss. injection Hss as <-. reflexivity.
      * cbn [mapM] in Hss.
        destruct (RNN.tuple_getitem s 0); [ | discriminate ].
        cbn [Py.bind] in Hss.
        destruct (mapM _ dims) as [ ss' | ]; [ | discriminate ].
        cbn [Py.bind] in Hss. injection Hss as <-.
        cbn [length]. f_equal. apply IH. reflexivity.
    + split; [ reflexivity | ].
      apply Forall_forall. intros m Hin. apply in_map_iff in Hin.
      destruct Hin as [x [Hx _]]. auto.
  - injection Hout as <-. eexists. split; [ reflexivity | ].
    split; reflexivity.
Qed.

End OutputShape.

Lemma build_hands_each_cell_the_output_dim_of_the_one_before_witness :
  let cells := [LayerExample.layer0; LayerExample.layer0] in
  build cells (One [Some 8; Some 5]) []
  = (Ok tt, [One [Some 8; Some 5]; One [Some 8; Some 2]]).
Proof.
  cbn zeta.
  apply (build_hands_each_cell_the_output_dim_of_the_one_before
           [LayerExample.layer0; LayerExample.layer0] (Some 8) [Some 5]).
  repeat constructor; try discriminate; reflexivity.
Defined.

Lemma build_without_constants_shape_raises_at_a_cell_with_constants_witness :
  exists msg,
    build [LayerExample.layer0; LayerExample.layer1] (One [Some 8; Some 5]) []
    = (Raise (Exception "UnboundLocalError" msg), [One [Some 8; Some 5]]).
Proof.
  apply (build_without_constants_shape_raises_at_a_cell_with_constants
           [LayerExample.layer0] [] LayerExample.layer1 (Some 8) [Some 5]).
  - repeat constructor; try discriminate; reflexivity.
  - reflexivity.
  - reflexivity.
Defined.

Lemma output_dim_of_a_stack_is_the_first_state_size_of_its_last_cell_witness :
  RNN.compute_output_shape RNNOverStack.cls RNNOverStack.Example.layer
                           (One [None; Some 7; Some 5])
  = Ok (One [None; Some 3]).
Proof.
  apply (output_dim_of_a_stack_is_the_first_state_size_of_its_last_cell
           RNNOverStack.cls RNNOverStack.Example.layer
           [RNNOverStack.Example.cell2] RNNOverStack.Example.cell3 3
           None (Some 7) [Some 5]);
    reflexivity.
Defined.

Lemma compute_mask_matches_compute_output_shape_witness :
  exists masks,
    RNN.compute_mask RNN.Stateful.cls RNN.Stateful.layer (Some (One true))
    = Ok masks /\
    match One [Some 2; Some 4], masks with
    | Several shapes, Several (output_mask :: state_masks) =>
        RNN.return_state RNN.Stateful.layer = true /\
        length shapes = S (length state_masks) /\
        output_mask = (if RNN.return_sequences RNN.Stateful.layer
                       then Some true else None) /\
        Forall (fun m => m = None) state_masks
    | One _, One output_mask =>
        RNN.return_state RNN.Stateful.layer = false /\
        output_mask = (if RNN.return_sequences RNN.Stateful.layer
                       then Some true else None)
    | _, _ => False
    end.
Proof.
  apply (compute_mask_matches_compute_output_shape
           RNN.Stateful.cls bool RNN.Stateful.layer (Some true)
           (One [Some 2; None; Some 3]) (One [Some 2; Some 4]));
    reflexivity.
Defined.

End StackedLayersFacts.

(* ================================================================== *)
(** * What the cells return *)
(* ================================================================== *)
Module CellOutputFacts.

Import Py.

(** Splits the outcome of the next monadic step of a [call] that is known
    to have succeeded. *)
Ltac step_M H :=
  match type of H with
  | context [ Py.bindM ?m ?k ?w ] =>
      unfold Py.bindM in H at 1;
      let r := fresh "r" in
      let w' := fresh "w" in
      let E := fresh "E" in
      destruct (m w) as [ [ r | ? ] w' ] eqn:E; [ | discriminate H ]
  end.

Ltac step_bind H :=
  match type of H with
  | context [ Py.bind ?r _ ] =>
      let a := fresh "a" in
      destruct r as [ a | ? ]; cbn [Py.bind] in H; [ | discriminate H ]
  end.

Lemma simple_rnn_cell_output (x : K.tensor) (st : list K.tensor)
    (tr : option bool) (w w' : SimpleRNNCell.t * K.backend)
    (out : K.tensor) (new : list K.tensor) :
  SimpleRNNCell.call x st tr w = (Ok (out, new), w') -> new = [out].
Proof.
  unfold SimpleRNNCell.call. intros H.
  do 4 step_M H. unfold Py.lift in H. injection H as H _.
  unfold SimpleRNNCell.output_of in H. cbn zeta in H.
  do 5 step_bind H. injection H as <- <-. reflexivity.
Qed.

Lemma gru_cell_output (x : K.tensor) (st : list K.tensor)
    (tr : option bool) (w w' : GRUCell.t * K.backend)
    (out : K.tensor) (new : list K.tensor) :
  GRUCell.call x st tr w = (Ok (out, new), w') -> new = [out].
Proof.
  unfold GRUCell.call. intros H.
  do 4 step_M H. unfold Py.lift in H. injection H as H _.
  unfold GRUCell.output_of in H.
  do 5 step_bind H. injection H as <- <-. reflexivity.
Qed.

Lemma lstm_cell_output (x : K.tensor) (st : list K.tensor)
    (tr : option bool) (w w' : LSTMCell.t * K.backend)
    (out : K.tensor) (new : list K.tensor) :
  LSTMCell.call x st tr w = (Ok (out, new), w') ->
  exists c, new = [out; c].
Proof.
  unfold LSTMCell.call. intros H.
  do 3 step_M H. unfold Py.lift in H. injection H as H _.
  unfold LSTMCell.output_of in H.
  do 4 step_bind H. injection H as <- <-. eauto.
Qed.

(** X18: the three cells keep the contract that [RNN] relies on when it
    takes [state_size[0]] for the output dimension.  Whenever the [call] of
    a [SimpleRNNCell], a [GRUCell] or an [LSTMCell] returns, as the layer
    invokes it, the output is the first of the new states, and there are as
    many new states as the [state_size] of the cell announces: one, one
    and two. *)
Theorem cells_return_their_output_as_the_first_new_state :
  (forall x st kw w w' out new,
      RNN.cell_call SimpleRNNCell.cls x st None kw w = (Ok (out, new), w') ->
      hd_error new = Some out /\
      length new = announced_states SimpleRNNCell.cls (fst w')) /\
  (forall x st kw w w' out new,
      RNN.cell_call GRUCell.cls x st None kw w = (Ok (out, new), w') ->
      hd_error new = Some out /\
      length new = announced_states GRUCell.cls (fst w')) /\
  (forall x st kw w w' out new,
      RNN.cell_call LSTMCell.cls x st None kw w = (Ok (out, new), w') ->
      hd_error new = Some out /\
      length new = announced_states LSTMCell.cls (fst w')).
Proof.
  split; [ | split ]; intros x st kw w w' out new H; cbn in H.
  - apply simple_rnn_cell_output in H. subst new. split; reflexivity.
  - apply gru_cell_output in H. subst new. split; reflexivity.
  - apply lstm_cell_output in H. destruct H as [c ->]. split; reflexivity.
Qed.

Lemma cells_return_their_output_as_the_first_new_state_witness :
  let r := RNN.cell_call GRUCell.cls GRUCell.Example.inputs
             GRUCell.Example.states None (Some (Some true))
             (GRUCell.Example.plain_cell 1, GRUCell.Example.backend) in
  is_ok (fst r) = true /\
  forall out new,
    fst r = Ok (out, new) ->
    hd_error new = Some out /\
    length new = announced_states GRUCell.cls (fst (snd r)).
Proof.
  cbn zeta. split; [ vm_compute; reflexivity | ].
  intros out new H.
  destruct cells_return_their_output_as_the_first_new_state as [_ [Hg _]].
  apply (Hg GRUCell.Example.inputs GRUCell.Example.states (Some (Some true))
            (GRUCell.Example.plain_cell 1, GRUCell.Example.backend)).
  rewrite <- H. apply surjective_pairing.
Defined.

End CellOutputFacts.

(* ================================================================== *)
(** * [LSTMCell]: the two implementations *)
(* ================================================================== *)
Module LSTMModesFacts.

Import Py.
Import LSTMCell.

Local Abbreviation same_lengths :=
  (Forall2 (fun r s : list R => length r = length s)).

Lemma zipB_rows (f : R -> R -> R) (r s : list R) :
  length r = length s ->
  K.zipB (fun x y => Ok (f x y)) r s = Ok (K.map2 f r s).
Proof.
  intros H. unfold K.zipB. rewrite H, Nat.eqb_refl.
  clear H. revert s. induction r as [ | a r IH ]; intros [ | b s ];
    try reflexivity.
  cbn [combine mapM fst snd Py.bind K.map2]. rewrite IH. reflexivity.
Qed.

Lemma add_matrices (A B : list (list R)) :
  same_lengths A B ->
  K.add (K.Mat A) (K.Mat B) = Ok (K.Mat (K.map2 K.vadd A B)).
Proof.
  intros H. unfold K.add, K.bop. cbn [K.ndim Nat.max K.as2].
  unfold K.zipB at 1.
  rewrite (Forall2_length H), Nat.eqb_refl.
  replace (mapM _ (combine A B)) with (Ok (K.map2 K.vadd A B));
    [ reflexivity | ].
  induction H as [ | r s A B Hrs H IH ]; [ reflexivity | ].
  cbn [combine mapM fst snd K.map2]. rewrite (zipB_rows Rplus r s Hrs).
  cbn [Py.bind]. rewrite <- IH. reflexivity.
Qed.

Lemma same_lengths_rows (A B : list (list R)) (n : nat) :
  length A = length B -> K.rows A n -> K.rows B n -> same_lengths A B.
Proof.
  unfold K.rows. revert B. induction A as [ | r A IH ]; intros [ | s B ] Hl HA HB;
    try discriminate; constructor.
  - inversion HA; inversion HB; subst. congruence.
  - inversion HA; inversion HB; subst. apply IH; auto.
Qed.

Lemma same_lengths_slice (a : nat) (b : option nat) (A B : list (list R)) :
  same_lengths A B -> same_lengths (map (slice a b) A) (map (slice a b) B).
Proof.
  induction 1 as [ | r s A B Hrs H IH ]; constructor; [ | exact IH ].
  apply GRUCellFacts.length_slice. exact Hrs.
Qed.

Lemma slice_sum (a : nat) (b : option nat) (A B : list (list R)) :
  same_lengths A B ->
  K.map2 K.vadd (map (slice a b) A) (map (slice a b) B)
  = map (slice a b) (K.map2 K.vadd A B).
Proof.
  induction 1 as [ | r s A B Hrs H IH ]; [ reflexivity | ].
  cbn [map K.map2]. rewrite IH, (GRUCellFacts.slice_vadd a b r s Hrs).
  reflexivity.
Qed.

Lemma vadd_swap (r s b : list R) :
  length r = length s -> length r = length b ->
  K.vadd (K.vadd r b) s = K.vadd (K.vadd r s) b.
Proof.
  unfold K.vadd. revert s b.
  induction r as [ | x r IH ]; intros [ | y s ] [ | z b ] H1 H2;
    try discriminate; [ reflexivity | ].
  cbn [K.map2]. rewrite IH by (cbn in *; lia). f_equal. lra.
Qed.

Lemma bias_then_sum (b : list R) (A B : list (list R)) :
  same_lengths A B -> K.rows A (length b) ->
  K.map2 K.vadd (K.add_to_rows b A) B
  = K.add_to_rows b (K.map2 K.vadd A B).
Proof.
  unfold K.add_to_rows, K.rows.
  induction 1 as [ | r s A B Hrs H IH ]; intros HA; [ reflexivity | ].
  inversion HA as [ | r0 A0 Hr HA' ]; subst.
  cbn [map K.map2]. rewrite IH by exact HA'.
  f_equal. apply (vadd_swap r s b Hrs Hr).
Qed.

Lemma length_map2 (A B C : Type) (f : A -> B -> C) (l1 : list A)
    (l2 : list B) :
  length l1 = length l2 -> length (K.map2 f l1 l2) = length l1.
Proof.
  revert l2. induction l1 as [ | a l1 IH ]; intros [ | b l2 ] H;
    try discriminate; [ reflexivity | ].
  cbn [K.map2 length]. rewrite IH by (cbn in H; lia). reflexivity.
Qed.

Lemma rows_sum (A B : list (list R)) (n : nat) :
  same_lengths A B -> K.rows A n -> K.rows (K.map2 K.vadd A B) n.
Proof.
  unfold K.rows. induction 1 as [ | r s A B Hrs H IH ]; intros HA;
    [ constructor | ].
  inversion HA as [ | r0 A0 Hr HA' ]; subst. cbn [K.map2]. constructor.
  - unfold K.vadd. rewrite length_map2 by exact Hrs. reflexivity.
  - apply IH. exact HA'.
Qed.

Lemma rows_add_to_rows (b : list R) (A : list (list R)) :
  K.rows A (length b) -> same_lengths (K.add_to_rows b A) A.
Proof.
  unfold K.rows, K.add_to_rows. induction 1 as [ | r A Hr H IH ];
    [ constructor | ].
  cbn [map]. constructor; [ | exact IH ].
  rewrite length_map2 by exact Hr. reflexivity.
Qed.

Lemma same_lengths_trans (A B D : list (list R)) :
  same_lengths A B -> same_lengths B D -> same_lengths A D.
Proof.
  intros H. revert D. induction H as [ | r s A B Hrs H IH ]; intros D HD;
    inversion HD; subst; constructor; [ congruence | auto ].
Qed.

Lemma length_matmul (x W : list (list R)) :
  length (K.matmul x W) = length x.
Proof. unfold K.matmul. apply length_map. Qed.

Lemma lstm_gates_agree (self : t) (x h : list (list R)) (c : K.tensor)
    (d : nat) :
  in_open_unit (dropout self) = false ->
  in_open_unit (recurrent_dropout self) = false ->
  weights_shaped self d ->
  K.rows x d -> K.rows h (units self) -> length x = length h ->
  gates_1 self (K.Mat x) (K.Mat h) c = gates_2 self (K.Mat x) (K.Mat h) c.
Proof.
  intros Hd Hrd [[k [Hk [Hkl Hkr]]] [[r [Hr [Hrl Hrr]]] Hbias]] Hx Hh Hlen.
  set (XA := K.matmul x k). set (HB := K.matmul h r).
  set (S := K.map2 K.vadd XA HB).
  assert (HXA : K.rows XA (units self * 4)).
  { rewrite <- Hkl. apply GRUCellFacts.matmul_rows. }
  assert (HHB : K.rows HB (units self * 4)).
  { rewrite <- Hrl. apply GRUCellFacts.matmul_rows. }
  assert (SL : same_lengths XA HB).
  { apply (same_lengths_rows XA HB (units self * 4)); auto.
    unfold XA, HB. rewrite !length_matmul. exact Hlen. }
  assert (Ex : forall a b, K.dot (K.Mat x) (slice a b k)
                           = Ok (K.Mat (map (slice a b) XA))).
  { intros a b. apply (GRUCellFacts.dot_slice x k d a b Hx Hkr). }
  assert (Eh : forall a b, K.dot (K.Mat h) (slice a b r)
                           = Ok (K.Mat (map (slice a b) HB))).
  { intros a b. apply (GRUCellFacts.dot_slice h r (units self) a b Hh Hrr). }
  assert (Ex0 : K.dot (K.Mat x) k = Ok (K.Mat XA)).
  { apply (GRUCellFacts.dot_ok x k d Hx Hkr). }
  assert (Eh0 : K.dot (K.Mat h) r = Ok (K.Mat HB)).
  { apply (GRUCellFacts.dot_ok h r (units self) Hh Hrr). }
  assert (Es0 : K.add (K.Mat XA) (K.Mat HB) = Ok (K.Mat S)).
  { apply add_matrices. exact SL. }
  assert (Es : forall a b,
             K.add (K.Mat (map (slice a b) XA)) (K.Mat (map (slice a b) HB))
             = Ok (K.Mat (map (slice a b) S))).
  { intros a b. rewrite add_matrices by (apply same_lengths_slice; exact SL).
    rewrite slice_sum by exact SL. reflexivity. }
  unfold gates_1, gates_2, kernel_i, kernel_f, kernel_c, kernel_o,
    recurrent_kernel_i, recurrent_kernel_f, recurrent_kernel_c,
    recurrent_kernel_o, bias_i, bias_f, bias_c, bias_o.
  rewrite Hd, Hrd, Hk, Hr.
  rewrite !(Nat.mul_comm (units self) 2), !(Nat.mul_comm (units self) 3).
  cbn [option_map K.slice_last dot Py.bind].
  rewrite !Ex, Ex0, Eh0. cbn [Py.bind]. rewrite Es0. cbn [Py.bind].
  destruct (use_bias self) eqn:Hub.
  - destruct (Hbias eq_refl) as [bv [Hb Hbl]]. rewrite Hb.
    cbn [option_map K.slice_last bias_add Py.bind].
    assert (HXb : K.rows XA (length bv)) by (rewrite Hbl; exact HXA).
    assert (HSb : K.rows S (length bv)).
    { rewrite Hbl. apply rows_sum; assumption. }
    assert (Eb : forall a b,
               K.bias_add (K.Mat (map (slice a b) XA)) (slice a b bv)
               = Ok (K.Mat (map (slice a b) (K.add_to_rows bv XA)))).
    { intros a b. apply GRUCellFacts.bias_slice. exact HXb. }
    assert (Esb : forall a b,
               K.add (K.Mat (map (slice a b) (K.add_to_rows bv XA)))
                     (K.Mat (map (slice a b) HB))
               = Ok (K.Mat (map (slice a b) (K.add_to_rows bv S)))).
    { intros a b.
      assert (SLb : same_lengths (K.add_to_rows bv XA) HB).
      { eapply same_lengths_trans; [ apply rows_add_to_rows; exact HXb | ].
        exact SL. }
      rewrite add_matrices by (apply same_lengths_slice; exact SLb).
      rewrite slice_sum by exact SLb.
      unfold S. rewrite bias_then_sum by assumption. reflexivity. }
    rewrite !Eb. cbn [Py.bind].
    rewrite (GRUCellFacts.bias_full S bv HSb). cbn [Py.bind K.cols].
    rewrite !Eh. cbn [Py.bind]. rewrite !Esb. cbn [Py.bind].
    destruct (K.mul _ c) as [ fc | e ]; cbn [Py.bind]; reflexivity.
  - cbn [Py.bind K.cols].
    rewrite !Eh. cbn [Py.bind]. rewrite !Es. cbn [Py.bind].
    destruct (K.mul _ c) as [ fc | e ]; cbn [Py.bind]; reflexivity.
Qed.

Lemma lstm_call_without_dropout (self : t) (g : K.backend)
    (inputs : K.tensor) (states : list K.tensor) (training : option bool) :
  in_open_unit (dropout self) = false ->
  in_open_unit (recurrent_dropout self) = false ->
  call inputs states training (self, g)
  = (output_of self inputs states, (self, g)).
Proof.
  intros Hd Hrd.
  unfold call, Py.bindM, Py.lift, Py.get, generate_dropout_mask,
    generate_recurrent_dropout_mask.
  cbn [fst snd]. rewrite Hd. cbn [andb fst snd].
  rewrite Hrd. reflexivity.
Qed.

(** X19: without dropout the two implementations of [LSTMCell] compute the
    same function.  On a cell whose weights have the shapes [build] asks
    for and whose two dropout rates lie outside the open interval (0, 1),
    and on an input and a previous output of the shapes the cell was built
    for, [call] with [implementation = 1] (one product per gate) and [call]
    with any other [implementation] (one fused product, then column slices)
    return the same result, an error of a later operation included, and
    leave the cell and the backend untouched.  The numbers are real
    numbers: the two branches add the same terms in different orders. *)
Theorem lstm_implementations_agree_without_dropout :
  forall (self : t) (g : K.backend) (x h : list (list R)) (c : K.tensor)
         (rest : list K.tensor) (training : option bool) (d n : nat),
    in_open_unit (dropout self) = false ->
    in_open_unit (recurrent_dropout self) = false ->
    weights_shaped self d ->
    K.rows x d -> K.rows h (units self) -> length x = length h ->
    n <> 1 ->
    exists r,
      call (K.Mat x) (K.Mat h :: c :: rest) training
           (set_implementation self 1, g)
      = (r, (set_implementation self 1, g)) /\
      call (K.Mat x) (K.Mat h :: c :: rest) training
           (set_implementation self n, g)
      = (r, (set_implementation self n, g)).
Proof.
  intros self g x h c rest training d n Hd Hrd Hw Hx Hh Hlen Hn.
  exists (output_of (set_implementation self 1) (K.Mat x)
                    (K.Mat h :: c :: rest)).
  split; [ now apply lstm_call_without_dropout | ].
  rewrite lstm_call_without_dropout by assumption. f_equal.
  unfold output_of. cbn [implementation set_implementation getitem nth_error
                         Py.bind].
  apply Nat.eqb_neq in Hn. rewrite Hn. cbn [Nat.eqb].
  rewrite <- (lstm_gates_agree (set_implementation self n) x h c d);
    try assumption.
  reflexivity.
Qed.

Lemma lstm_implementations_agree_without_dropout_witness :
  exists r,
    call (K.Mat [[1%R]]) [K.Mat [[1%R]]; K.Mat [[2%R]]] (Some true)
         (Example.plain_cell 1, Example.backend)
    = (r, (Example.plain_cell 1, Example.backend)) /\
    call (K.Mat [[1%R]]) [K.Mat [[1%R]]; K.Mat [[2%R]]] (Some true)
         (Example.plain_cell 2, Example.backend)
    = (r, (Example.plain_cell 2, Example.backend)).
Proof.
  apply (lstm_implementations_agree_without_dropout
           (Example.plain_cell 0) Example.backend [[1%R]] [[1%R]]
           (K.Mat [[2%R]]) [] (Some true) 1 2).
  - reflexivity.
  - reflexivity.
  - unfold weights_shaped; cbn.
    split; [ eexists; split; [ reflexivity | split; [ reflexivity | ] ] | ].
    { repeat constructor. }
    split; [ eexists; split; [ reflexivity | split; [ reflexivity | ] ] | ].
    { repeat constructor. }
    intros _. eexists. split; reflexivity.
  - repeat constructor.
  - repeat constructor.
  - reflexivity.
  - discriminate.
Defined.

End LSTMModesFacts.

(* ================================================================== *)
(** * [LSTMCell.build] and the weights that [call] reads *)
(* ================================================================== *)
Module LSTMBuildFacts.

Import Py.
Import LSTMCell.

Lemma slices_tile (A : Type) (u : nat) (l : list A) :
  slice 0 (Some u) l ++ slice u (Some (u * 2)) l
  ++ slice (u * 2) (Some (u * 3)) l ++ slice (u * 3) None l = l.
Proof.
  cbn [slice skipn]. rewrite Nat.sub_0_r.
  replace (u * 2 - u) with u by lia.
  replace (u * 3 - u * 2) with u by lia.
  replace (u * 2) with (u + u) by lia.
  replace (u * 3) with (u + (u + u)) by lia.
  rewrite <- !skipn_skipn.
  rewrite (firstn_skipn u (skipn u (skipn u l))).
  rewrite (firstn_skipn u (skipn u l)).
  apply firstn_skipn.
Qed.

(** The state of the cell that [build] leaves alone. *)
Lemma build_weights (self : t) (input_shape : list nat) (d : nat)
    (g : K.backend) :
  last_of input_shape = Ok d ->
  respects_shape_2d (kernel_initializer self) ->
  respects_shape_2d (recurrent_initializer self) ->
  respects_shape (bias_initializer self) ->
  exists (k r : list (list R)) (b : option K.weight) (g' : K.backend),
    build input_shape (self, g)
    = (Ok tt, (set_weights self (Some (K.W2 k)) (Some (K.W2 r)) b, g')) /\
    length k = units self * 4 /\ K.rows k d /\
    length r = units self * 4 /\ K.rows r (units self) /\
    (use_bias self = false -> b = None) /\
    (use_bias self = true ->
     exists v, b = Some (K.W1 v) /\ length v = units self * 4).
Proof.
  intros Hlast Hk Hr Hb. unfold build. cbn [fst snd]. rewrite Hlast.
  destruct (Hk d (units self * 4) g) as [k [gk [Ek [Lk Rk]]]].
  destruct (Hr (units self) (units self * 4) gk) as [r [gr [Er [Lr Rr]]]].
  destruct (use_bias self) eqn:Hub.
  - destruct (unit_forget_bias self) eqn:Hufb.
    + destruct (Hb (units self) gr) as [b1 [g2 [E1 L1]]].
      destruct (Hb (units self * 2) g2) as [b2 [g3 [E2 L2]]].
      exists k, r, (Some (K.W1 (b1 ++ repeat 1%R (units self) ++ b2))), g3.
      split.
      { match goal with
        | |- context [fst (?m g)] =>
            assert (Einner :
              m g = (Ok (K.W2 k, K.W2 r,
                         Some (K.W1 (b1 ++ repeat 1%R (units self) ++ b2))),
                     g3))
        end.
        { unfold add_weight, Py.bindM at 1. rewrite Ek.
          unfold Py.bindM at 1. rewrite Er.
          unfold Py.bindM at 1 2. unfold forget_bias_initializer,
                                    Py.bindM at 1.
          rewrite E1.
          unfold Py.bindM at 1. cbn [Ones Py.ret].
          unfold Py.bindM at 1. rewrite E2.
          cbn [Py.lift K.concatenate mapM Py.bind Py.fmap concat Py.ret
               fst snd].
          now rewrite app_nil_r. }
        rewrite Einner. reflexivity. }
      repeat (split; [ assumption | ]).
      split; [ discriminate | ]. intros _. eexists. split; [ reflexivity | ].
      rewrite !length_app, repeat_length. lia.
    + destruct (Hb (units self * 4) gr) as [b1 [g2 [E1 L1]]].
      exists k, r, (Some (K.W1 b1)), g2.
      split.
      { match goal with
        | |- context [fst (?m g)] =>
            assert (Einner : m g = (Ok (K.W2 k, K.W2 r, Some (K.W1 b1)), g2))
        end.
        { unfold add_weight, Py.bindM at 1. rewrite Ek.
          unfold Py.bindM at 1. rewrite Er.
          unfold Py.bindM at 1 2. rewrite E1. reflexivity. }
        rewrite Einner. reflexivity. }
      repeat (split; [ assumption | ]).
      split; [ discriminate | ]. intros _. eexists. split; [ reflexivity | ].
      exact L1.
  - exists k, r, None, gr.
    split.
    { match goal with
      | |- context [fst (?m g)] =>
          assert (Einner : m g = (Ok (K.W2 k, K.W2 r, None), gr))
      end.
      { unfold add_weight, Py.bindM at 1. rewrite Ek.
        unfold Py.bindM at 1. rewrite Er. reflexivity. }
      rewrite Einner. reflexivity. }
    repeat (split; [ assumption | ]).
    split; [ reflexivity | discriminate ].
Qed.

Lemma gate_slices (A : Type) (u : nat) (l : list A) :
  length l = u * 4 ->
  l = slice 0 (Some u) l ++ slice u (Some (u * 2)) l
      ++ slice (u * 2) (Some (u * 3)) l ++ slice (u * 3) None l /\
  length (slice 0 (Some u) l) = u /\
  length (slice u (Some (u * 2)) l) = u /\
  length (slice (u * 2) (Some (u * 3)) l) = u /\
  length (slice (u * 3) None l) = u.
Proof.
  intros H. split; [ symmetry; apply slices_tile | ].
  cbn [slice]. rewrite !length_firstn, !length_skipn. lia.
Qed.

(** X20: [build] gives the cell the weights [call] expects.  With
    initializers that return weights of the shape they are asked for,
    [build] on an input shape whose last dimension is [d] succeeds, marks
    the cell as built and leaves it with a kernel of shape
    [(d, 4 * units)], a recurrent kernel of shape [(units, 4 * units)]
    and, with [use_bias], a bias of length [4 * units], none without.  The
    four gate slices of the two kernels, in the order input, forget,
    candidate, output, have [units] columns each and put side by side give
    the kernel back: no column is lost and none is used twice. *)
Theorem build_shapes_the_weights_and_the_gate_slices_tile_them
    (self : t) (input_shape : list nat) (d : nat) (g : K.backend) :
  last_of input_shape = Ok d ->
  respects_shape_2d (kernel_initializer self) ->
  respects_shape_2d (recurrent_initializer self) ->
  respects_shape (bias_initializer self) ->
  exists (self' : t) (g' : K.backend),
    build input_shape (self, g) = (Ok tt, (self', g')) /\
    built self' = true /\
    units self' = units self /\
    weights_shaped self' d /\
    (use_bias self = false -> bias self' = None) /\
    (exists ki kf kc ko,
        kernel_i self' = Some (K.W2 ki) /\
        kernel_f self' = Some (K.W2 kf) /\
        kernel_c self' = Some (K.W2 kc) /\
        kernel_o self' = Some (K.W2 ko) /\
        kernel self' = Some (K.W2 (ki ++ kf ++ kc ++ ko)) /\
        length ki = units self /\ length kf = units self /\
        length kc = units self /\ length ko = units self) /\
    (exists ri rf rc ro,
        recurrent_kernel_i self' = Some (K.W2 ri) /\
        recurrent_kernel_f self' = Some (K.W2 rf) /\
        recurrent_kernel_c self' = Some (K.W2 rc) /\
        recurrent_kernel_o self' = Some (K.W2 ro) /\
        recurrent_kernel self' = Some (K.W2 (ri ++ rf ++ rc ++ ro)) /\
        length ri = units self /\ length rf = units self /\
        length rc = units self /\ length ro = units self).
Proof.
  intros Hlast Hk Hr Hb.
  destruct (build_weights self input_shape d g Hlast Hk Hr Hb)
    as (k & r & b & g' & Hbuild & Lk & Rk & Lr & Rr & Hnb & Hyb).
  exists (set_weights self (Some (K.W2 k)) (Some (K.W2 r)) b), g'.
  split; [ exact Hbuild | ]. split; [ reflexivity | ].
  split; [ reflexivity | ].
  split.
  { unfold weights_shaped. cbn [kernel recurrent_kernel bias set_weights
                                units use_bias].
    split; [ exists k; auto | ]. split; [ exists r; auto | ]. exact Hyb. }
  split; [ exact Hnb | ].
  destruct (gate_slices _ (units self) k Lk) as (Tk & K1 & K2 & K3 & K4).
  destruct (gate_slices _ (units self) r Lr) as (Tr & R1 & R2 & R3 & R4).
  split.
  - unfold kernel_i, kernel_f, kernel_c, kernel_o.
    cbn [kernel set_weights units option_map K.slice_last].
    do 4 eexists. do 4 (split; [ reflexivity | ]).
    split; [ rewrite <- Tk; reflexivity | ]. auto.
  - unfold recurrent_kernel_i, recurrent_kernel_f, recurrent_kernel_c,
      recurrent_kernel_o.
    cbn [recurrent_kernel set_weights units option_map K.slice_last].
    do 4 eexists. do 4 (split; [ reflexivity | ]).
    split; [ rewrite <- Tr; reflexivity | ]. auto.
Qed.

Lemma build_shapes_the_weights_and_the_gate_slices_tile_them_witness :
  exists (self' : t) (g' : K.backend),
    build [5; 3] (Example.cell, Example.backend) = (Ok tt, (self', g')) /\
    built self' = true /\
    weights_shaped self' 3.
Proof.
  destruct (build_shapes_the_weights_and_the_gate_slices_tile_them
              Example.cell [5; 3] 3 Example.backend)
    as (self' & g' & Hbuild & Hbuilt & _ & Hw & _).
  - reflexivity.
  - intros d n g. exists (repeat (repeat 0%R d) n), g.
    split; [ reflexivity | ]. split; [ apply repeat_length | ].
    apply Forall_forall. intros c Hc. apply repeat_spec in Hc. subst c.
    apply repeat_length.
  - intros d n g. exists (repeat (repeat 0%R d) n), g.
    split; [ reflexivity | ]. split; [ apply repeat_length | ].
    apply Forall_forall. intros c Hc. apply repeat_spec in Hc. subst c.
    apply repeat_length.
  - intros n g. exists (repeat 0%R n), g. split; [ reflexivity | ].
    apply repeat_length.
  - exists self', g'. auto.
Defined.

End LSTMBuildFacts.

(* ================================================================== *)
(** * The constants of [GRUCond] and [AttLSTMCond] *)
(* ================================================================== *)
Module GetConstantsFacts.

Import Py.
Import BlockFacts.

(** The last block: the mask of the context. *)
Lemma mask_block (context : K.tensor) (mask_value : R)
    (mask_context : option K.tensor) (constants : list entry)
    (g g1 : K.backend) (cs : list entry) :
  (let! mask_context :=
     match mask_context with
     | None => lift (derived_mask context mask_value)
     | Some m => ret m
     end in
   ret (constants ++ [Tns mask_context])) g = (Ok cs, g1) ->
  g1 = g /\
  exists mask, cs = constants ++ [Tns mask] /\
               (forall m, mask_context = Some m -> mask = m).
Proof.
  unfold Py.bindM. destruct mask_context as [ m | ].
  - unfold Py.ret. intros H. injection H as <- <-. split; [ reflexivity | ].
    exists m. split; [ reflexivity | ]. intros m' Hm. congruence.
  - unfold Py.lift, Py.ret.
    destruct (derived_mask context mask_value) as [ mk | e ];
      [ | discriminate ].
    intros H. injection H as <- <-. split; [ reflexivity | ].
    exists mk. split; [ reflexivity | ]. discriminate.
Qed.

(** What the blocks draw from the backend. *)
Lemma masks_block_draws (cond : bool) (ones : result K.tensor) (rate : Q)
    (training : option bool) (count : nat) (g g1 : K.backend)
    (m : list K.tensor) :
  (if cond then
     let! ones := lift ones in dropout_masks ones rate training count
   else ret (repeat K.one count)) g = (Ok m, g1) ->
  K.draws g1
  = K.draws g
    + (if cond then match training with Some false => 0 | _ => count end
       else 0).
Proof.
  destruct cond.
  - unfold Py.bindM, Py.lift. destruct ones as [ o | e ]; [ | discriminate ].
    unfold dropout_masks. intros H. injection H as _ <-.
    rewrite DropoutMasksFacts.draws_generate_masks.
    destruct training as [ [ | ] | ]; lia.
  - unfold Py.ret. intros H. injection H as _ <-. lia.
Qed.

Lemma masks_block_appended_draws (cond : bool) (ones : result K.tensor)
    (rate : Q) (training : option bool) (count : nat)
    (constants : list entry) (g g1 : K.backend) (a : list entry) :
  (if cond then
     let! ones := lift ones in
     let! m := dropout_masks ones rate training count in
     ret (constants ++ [Lst m])
   else ret (constants ++ [Lst (repeat K.one count)])) g = (Ok a, g1) ->
  K.draws g1
  = K.draws g
    + (if cond then match training with Some false => 0 | _ => count end
       else 0).
Proof.
  destruct cond.
  - unfold Py.bindM, Py.lift. destruct ones as [ o | e ]; [ | discriminate ].
    unfold dropout_masks, Py.ret. intros H. injection H as _ <-.
    rewrite DropoutMasksFacts.draws_generate_masks.
    destruct training as [ [ | ] | ]; lia.
  - unfold Py.ret. intros H. injection H as _ <-. lia.
Qed.

(** X21: the constants of [GRUCond] are laid out as the comments of
    [get_constants] say.  Whenever it returns, the list holds the three
    recurrent dropout masks, then the three input dropout masks if the
    layer has a static context and nothing otherwise, then the context and
    last the mask of the context, which is the mask passed in when one was
    passed.  So the context is constant number 2 with [static_ctx] and
    number 1 without. *)
Theorem gru_cond_constants_layout (self : GRUCond.t) (inputs : K.tensor)
    (mask_context : option K.tensor) (training : option bool)
    (g g' : K.backend) (constants : list entry) :
  GRUCond.get_constants self inputs mask_context training g
  = (Ok constants, g') ->
  exists rec_dp_mask dp_mask mask,
    length rec_dp_mask = 3 /\ length dp_mask = 3 /\
    constants
    = Lst rec_dp_mask
      :: (if GRUCond.static_ctx self then [Lst dp_mask] else [])
      ++ [Tns (GRUCond.context self); Tns mask] /\
    (forall m, mask_context = Some m -> mask = m).
Proof.
  intros H. unfold GRUCond.get_constants in H.
  bindM_ok H. apply masks_block_appended in E.
  destruct E as [rec_m [-> Hrec]].
  bindM_ok H. apply masks_block in E.
  apply mask_block in H. destruct H as [_ [mask [-> Hmask]]].
  exists rec_m, a, mask.
  split; [ exact Hrec | ]. split; [ exact E | ]. split; [ | exact Hmask ].
  destruct (GRUCond.static_ctx self); reflexivity.
Qed.

(** X22: [GRUCond] never hands on input dropout masks that it has drawn.
    [get_constants] hands the input masks on only with [static_ctx], but can
    draw them only from a context of rank 3, which a layer has exactly when
    it is built without [static_ctx].  So on a built layer, whenever
    [get_constants] returns: with [static_ctx] the dropout rate lies outside
    (0, 1), the mask of the context was passed in, and the input masks
    handed on are the three scalars 1; without [static_ctx] the constants
    are the recurrent masks, the context and its mask, and none of the input
    masks, although with a rate in (0, 1) they were generated, by three
    draws of the backend unless [training] is false. *)
Theorem gru_cond_hands_on_no_drawn_input_masks
    (self : GRUCond.t) (inputs : K.tensor) (mask_context : option K.tensor)
    (training : option bool) (g g' : K.backend) (constants : list entry) :
  K.ndim (GRUCond.context self)
  = (if GRUCond.static_ctx self then 2 else 3) ->
  GRUCond.get_constants self inputs mask_context training g
  = (Ok constants, g') ->
  let drawn (rate : Q) :=
    if in_open_unit rate
    then match training with Some false => 0 | _ => 3 end
    else 0 in
  exists rec_dp_mask mask,
    K.draws g'
    = K.draws g + drawn (GRUCond.recurrent_dropout self)
      + drawn (GRUCond.dropout self) /\
    if GRUCond.static_ctx self then
      in_open_unit (GRUCond.dropout self) = false /\
      mask_context = Some mask /\
      constants
      = [Lst rec_dp_mask; Lst [K.one; K.one; K.one];
         Tns (GRUCond.context self); Tns mask]
    else
      constants = [Lst rec_dp_mask; Tns (GRUCond.context self); Tns mask].
Proof.
  intros Hrank H. cbv zeta. unfold GRUCond.get_constants in H.
  bindM_ok H. pose proof E as D1. apply masks_block_appended_draws in D1.
  apply masks_block_appended in E. destruct E as [rec_m [-> _]].
  bindM_ok H. pose proof E as D2. apply masks_block_draws in D2.
  destruct (GRUCond.static_ctx self).
  - (* a context of rank 2 *)
    destruct (GRUCond.context self) as [ v | v | m | c ];
      try discriminate Hrank.
    destruct (in_open_unit (GRUCond.dropout self)); [ discriminate E | ].
    unfold Py.ret in E. injection E as <- <-.
    destruct mask_context as [ mk | ]; [ | discriminate H ].
    unfold Py.bindM, Py.ret in H. injection H as <- <-.
    exists rec_m, mk. split; [ lia | ].
    split; [ reflexivity | ]. split; reflexivity.
  - apply mask_block in H. destruct H as [-> [mask [-> _]]].
    exists rec_m, mask. split; [ lia | reflexivity ].
Qed.

(** X23: the constants of [AttLSTMCond] are laid out as the comments of
    [get_constants] say.  Whenever it returns, the list has six entries:
    four input dropout masks, four recurrent dropout masks, one attention
    dropout mask, the projected context, the context itself, and the mask
    of the context, which is the mask passed in when one was passed. *)
Theorem att_lstm_cond_constants_layout (self : AttLSTMCond.t)
    (inputs : K.tensor) (mask_context : option K.tensor)
    (training : option bool) (g g' : K.backend) (constants : list entry) :
  AttLSTMCond.get_constants self inputs mask_context training g
  = (Ok constants, g') ->
  exists dp_mask rec_dp_mask att_dp_mask pctx mask,
    length dp_mask = 4 /\ length rec_dp_mask = 4 /\
    length att_dp_mask = 1 /\
    constants
    = [Lst dp_mask; Lst rec_dp_mask; Lst att_dp_mask; Tns pctx;
       Tns (AttLSTMCond.context self); Tns mask] /\
    (forall m, mask_context = Some m -> mask = m).
Proof.
  intros H. unfold AttLSTMCond.get_constants in H.
  bindM_ok H. apply masks_block_appended in E.
  destruct E as [m1 [-> H1]].
  bindM_ok H. apply masks_block_appended in E.
  destruct E as [m2 [-> H2]].
  bindM_ok H.
  apply (masks_block_appended _ _ _ _ 1) in E.
  destruct E as [m3 [-> H3]].
  bindM_ok H. bindM_ok H.
  apply mask_block in H. destruct H as [_ [mask [-> Hmask]]].
  exists m1, m2, m3, a0, mask. repeat (split; [ assumption | ]).
  split; [ reflexivity | exact Hmask ].
Qed.

(** X24: the attention dropout mask of [AttLSTMCond] does not depend on
    the attention dropout rate.  Once [attention_dropout] lies in (0, 1),
    the mask on the attention input is drawn with [recurrent_dropout] as
    its rate: two layers that differ only in their [attention_dropout], both
    in (0, 1), get the same three lists of dropout masks from
    [get_constants] on the same backend. *)
Theorem attention_dropout_mask_ignores_the_attention_dropout_rate
    (self : AttLSTMCond.t) (q1 q2 : Q) (inputs : K.tensor)
    (mask_context : option K.tensor) (training : option bool)
    (g : K.backend) :
  let r1 := AttLSTMCond.get_constants
              (AttLSTMCond.set_attention_dropout self q1) inputs
              mask_context training g in
  let r2 := AttLSTMCond.get_constants
              (AttLSTMCond.set_attention_dropout self q2) inputs
              mask_context training g in
  in_open_unit q1 = true -> in_open_unit q2 = true ->
  is_ok (fst r1) = true -> is_ok (fst r2) = true ->
  fmap (firstn 3) (fst r1) = fmap (firstn 3) (fst r2).
Proof.
  cbn zeta. intros Hq1 Hq2.
  assert (Hgen : forall q, in_open_unit q = true ->
             forall cs g',
               AttLSTMCond.get_constants
                 (AttLSTMCond.set_attention_dropout self q) inputs
                 mask_context training g = (Ok cs, g') ->
               exists m1 m2 ones g2,
                 firstn 3 cs
                 = [Lst m1; Lst m2;
                    Lst (fst (_generate_dropout_masks
                                ones (AttLSTMCond.recurrent_dropout self)
                                training 1 g2))] /\
                 (let! c1 :=
                    (if in_open_unit (AttLSTMCond.dropout self) then
                       let! ones :=
                         lift (let* x := K.steps 0 (Some 1)
                                                 (AttLSTMCond.context self) in
                               let* x := K.squeeze_1 x in
                               Ok (K.ones_like x)) in
                       let! dp_mask :=
                         dropout_masks ones (AttLSTMCond.dropout self)
                                       training 4 in
                       ret ([] ++ [Lst dp_mask])
                     else ret ([] ++ [Lst (repeat K.one 4)])) in
                  if in_open_unit (AttLSTMCond.recurrent_dropout self) then
                    let! ones :=
                      lift (let* x := K.index_0_0 inputs in
                            let* x := K.reshape_column x in
                            K.tile_1 (K.ones_like x)
                                     (AttLSTMCond.units self)) in
                    let! rec_dp_mask :=
                      dropout_masks ones (AttLSTMCond.recurrent_dropout self)
                                    training 4 in
                    ret (c1 ++ [Lst rec_dp_mask])
                  else ret (c1 ++ [Lst (repeat K.one 4)])) g
                 = (Ok [Lst m1; Lst m2], g2) /\
                 (let* x := K.index_0_0 inputs in
                  let* x := K.reshape_column x in
                  K.concatenate_copies (K.ones_like x)
                                       (AttLSTMCond.units self)) = Ok ones).
  { intros q Hq cs g' H. unfold AttLSTMCond.get_constants in H.
    cbn [AttLSTMCond.set_attention_dropout AttLSTMCond.dropout
         AttLSTMCond.recurrent_dropout AttLSTMCond.attention_dropout
         AttLSTMCond.units AttLSTMCond.context AttLSTMCond.context_dim
         AttLSTMCond.use_bias AttLSTMCond.mask_value
         AttLSTMCond.attention_context_kernel AttLSTMCond.bias_ba] in H.
    rewrite Hq in H.
    bindM_ok H. pose proof E as E1. apply masks_block_appended in E.
    destruct E as [m1 [-> _]].
    bindM_ok H. pose proof E as E2. apply masks_block_appended in E.
    destruct E as [m2 [-> _]].
    bindM_ok H.
    unfold Py.bindM at 1 in E. unfold Py.lift at 1 in E.
    destruct (let* x := K.index_0_0 inputs in
              let* x0 := K.reshape_column x in
              K.concatenate_copies (K.ones_like x0) (AttLSTMCond.units self))
      as [ ones | e ] eqn:Eones; [ | discriminate E ].
    unfold Py.bindM, dropout_masks, Py.ret in E. injection E as <- <-.
    bindM_ok H. bindM_ok H.
    apply mask_block in H. destruct H as [_ [mask [-> _]]].
    exists m1, m2, ones, s0. split; [ reflexivity | ].
    split; [ | reflexivity ].
    unfold Py.bindM at 1. rewrite E1. exact E2. }
  intros Hok1 Hok2.
  destruct (AttLSTMCond.get_constants
              (AttLSTMCond.set_attention_dropout self q1) inputs
              mask_context training g) as [ [ cs1 | e1 ] g1 ] eqn:R1;
    [ | discriminate Hok1 ].
  destruct (AttLSTMCond.get_constants
              (AttLSTMCond.set_attention_dropout self q2) inputs
              mask_context training g) as [ [ cs2 | e2 ] g2 ] eqn:R2;
    [ | discriminate Hok2 ].
  destruct (Hgen q1 Hq1 cs1 g1 R1) as (m1 & m2 & ones & gx & F1 & P1 & O1).
  destruct (Hgen q2 Hq2 cs2 g2 R2) as (m1' & m2' & ones' & gx' & F2 & P2 & O2).
  cbn [fst fmap Py.bind]. rewrite F1, F2.
  rewrite P1 in P2. injection P2 as <- <- <-.
  rewrite O1 in O2. injection O2 as <-.
  reflexivity.
Qed.

Lemma gru_cond_constants_layout_witness :
  (exists rec_dp_mask dp_mask mask,
     length rec_dp_mask = 3 /\ length dp_mask = 3 /\
     [Lst [K.one; K.one; K.one]; Lst [K.one; K.one; K.one];
      Tns MaskExample.static_context; Tns (K.Vec [1]%R)]
     = Lst rec_dp_mask
       :: (if GRUCond.static_ctx MaskExample.gru_cond_static
           then [Lst dp_mask] else [])
       ++ [Tns (GRUCond.context MaskExample.gru_cond_static); Tns mask] /\
     (forall m, Some (K.Vec [1]%R) = Some m -> mask = m)) /\
  (exists rec_dp_mask dp_mask mask,
     length rec_dp_mask = 3 /\ length dp_mask = 3 /\
     [Lst [K.one; K.one; K.one]; Tns MaskExample.context;
      Tns (K.Mat [[1; 1]]%R)]
     = Lst rec_dp_mask
       :: (if GRUCond.static_ctx MaskExample.gru_cond
           then [Lst dp_mask] else [])
       ++ [Tns (GRUCond.context MaskExample.gru_cond); Tns mask] /\
     (forall m, Some (K.Mat [[1; 1]]%R) = Some m -> mask = m)).
Proof.
  split.
  - apply (gru_cond_constants_layout MaskExample.gru_cond_static
             MaskExample.inputs (Some (K.Vec [1]%R)) None
             MaskExample.backend MaskExample.backend).
    reflexivity.
  - apply (gru_cond_constants_layout MaskExample.gru_cond MaskExample.inputs
             (Some (K.Mat [[1; 1]]%R)) None MaskExample.backend
             MaskExample.backend).
    reflexivity.
Defined.

Lemma gru_cond_hands_on_no_drawn_input_masks_witness :
  (let r := GRUCond.get_constants MaskExample.gru_cond_dropout
              MaskExample.inputs None (Some true) MaskExample.backend in
   exists rec_dp_mask mask,
     K.draws (snd r) = 3 /\
     fst r = Ok [Lst rec_dp_mask; Tns MaskExample.context; Tns mask]) /\
  (let r := GRUCond.get_constants MaskExample.gru_cond_static
              MaskExample.inputs (Some (K.Vec [1]%R)) None
              MaskExample.backend in
   exists rec_dp_mask mask,
     K.draws (snd r) = 0 /\
     in_open_unit (GRUCond.dropout MaskExample.gru_cond_static) = false /\
     Some (K.Vec [1]%R) = Some mask /\
     fst r
     = Ok [Lst rec_dp_mask; Lst [K.one; K.one; K.one];
           Tns MaskExample.static_context; Tns mask]).
Proof.
  split; cbv zeta.
  - destruct (GRUCond.get_constants MaskExample.gru_cond_dropout
                MaskExample.inputs None (Some true) MaskExample.backend)
      as [ [ cs | e ] g' ] eqn:R.
    + destruct (gru_cond_hands_on_no_drawn_input_masks
                  MaskExample.gru_cond_dropout MaskExample.inputs None
                  (Some true) MaskExample.backend g' cs eq_refl R)
        as (rec_m & mask & Hdraws & Hcs).
      exists rec_m, mask. cbn [fst snd]. split; [ exact Hdraws | ].
      cbn in Hcs. now rewrite Hcs.
    + exfalso. apply (f_equal (fun r => is_ok (fst r))) in R.
      vm_compute in R. discriminate R.
  - destruct (gru_cond_hands_on_no_drawn_input_masks
                MaskExample.gru_cond_static MaskExample.inputs
                (Some (K.Vec [1]%R)) None MaskExample.backend
                MaskExample.backend
                [Lst [K.one; K.one; K.one]; Lst [K.one; K.one; K.one];
                 Tns MaskExample.static_context; Tns (K.Vec [1]%R)]
                eq_refl eq_refl)
      as (rec_m & mask & Hdraws & Hrate & Hmask & Hcs).
    exists rec_m, mask. split; [ reflexivity | ].
    split; [ exact Hrate | ]. split; [ exact Hmask | ].
    cbn in Hcs. injection Hcs as <- <-. reflexivity.
Defined.

Lemma att_lstm_cond_constants_layout_witness :
  exists dp_mask rec_dp_mask att_dp_mask pctx mask,
    length dp_mask = 4 /\ length rec_dp_mask = 4 /\
    length att_dp_mask = 1 /\
    fst (AttLSTMCond.get_constants MaskExample.att_lstm_cond
           MaskExample.inputs (Some (K.Mat [[1; 1]]%R)) None
           MaskExample.backend)
    = Ok [Lst dp_mask; Lst rec_dp_mask; Lst att_dp_mask; Tns pctx;
          Tns (AttLSTMCond.context MaskExample.att_lstm_cond); Tns mask] /\
    (forall m, Some (K.Mat [[1; 1]]%R) = Some m -> mask = m).
Proof.
  destruct (AttLSTMCond.get_constants MaskExample.att_lstm_cond
              MaskExample.inputs (Some (K.Mat [[1; 1]]%R)) None
              MaskExample.backend) as [ [ cs | e ] g' ] eqn:R.
  - destruct (att_lstm_cond_constants_layout MaskExample.att_lstm_cond
                MaskExample.inputs (Some (K.Mat [[1; 1]]%R)) None
                MaskExample.backend g' cs R)
      as (m1 & m2 & m3 & pctx & mask & H1 & H2 & H3 & -> & Hm).
    exists m1, m2, m3, pctx, mask. cbn [fst]. auto.
  - exfalso. vm_compute in R. discriminate R.
Defined.

Lemma attention_dropout_mask_ignores_the_attention_dropout_rate_witness :
  let r1 := AttLSTMCond.get_constants
              (AttLSTMCond.set_attention_dropout MaskExample.att_lstm_cond
                                                 (1 # 2))
              MaskExample.inputs None (Some true) MaskExample.backend in
  let r2 := AttLSTMCond.get_constants
              (AttLSTMCond.set_attention_dropout MaskExample.att_lstm_cond
                                                 (1 # 4))
              MaskExample.inputs None (Some true) MaskExample.backend in
  is_ok (fst r1) = true /\ is_ok (fst r2) = true /\
  fmap (firstn 3) (fst r1) = fmap (firstn 3) (fst r2).
Proof.
  cbn zeta.
  assert (H1 : is_ok (fst (AttLSTMCond.get_constants
                             (AttLSTMCond.set_attention_dropout
                                MaskExample.att_lstm_cond (1 # 2))
                             MaskExample.inputs None (Some true)
                             MaskExample.backend)) = true)
    by (vm_compute; reflexivity).
  assert (H2 : is_ok (fst (AttLSTMCond.get_constants
                             (AttLSTMCond.set_attention_dropout
                                MaskExample.att_lstm_cond (1 # 4))
                             MaskExample.inputs None (Some true)
                             MaskExample.backend)) = true)
    by (vm_compute; reflexivity).
  split; [ exact H1 | ]. split; [ exact H2 | ].
  apply (attention_dropout_mask_ignores_the_attention_dropout_rate
           MaskExample.att_lstm_cond (1 # 2) (1 # 4) MaskExample.inputs None
           (Some true) MaskExample.backend);
    [ reflexivity | reflexivity | exact H1 | exact H2 ].
Defined.

End GetConstantsFacts.

(* ================================================================== *)
(** * [RNN.build] *)
(* ================================================================== *)
Module RNNBuildFacts.

Import Py.

Section Build.
Context {C : Type} (cls : RNN.CellClass C).
Variable isinstance_Layer : bool.
Variable cell_build : arg (list (option nat)) -> M C unit.

Local Abbreviation build := (RNN.build cls isinstance_Layer cell_build).
Local Abbreviation build_cell := (RNN.build_cell isinstance_Layer cell_build).

(** The sizes of the states of a cell, as a list. *)
Local Abbreviation sizes c :=
  (match RNN.state_size cls c with
   | SizeSeq dims => dims
   | SizeInt n => [n]
   end).

(** [build] on one input shape of a layer that counts no constants and has
    no state spec yet, up to the call of [reset_states]. *)
Lemma build_unfold (L : RNN.t C) (d0 d1 : option nat)
    (rest : list (option nat)) (input_dim : option nat) (c' : C) :
  RNN._num_constants L = None ->
  RNN.tuple_last (d0 :: d1 :: rest) = Ok input_dim ->
  build_cell None (d0 :: d1 :: rest) (RNN.cell L) = (Ok tt, c') ->
  let L1 :=
    RNN.set_cell
      (RNN.set_input_spec_shape
         L (Some [if RNN.stateful L then d0 else None; None; input_dim]))
      c' in
  let specs := map (fun dim => [None; Some dim]) (sizes c') in
  build (One (d0 :: d1 :: rest)) (L, None)
  = if RNN.stateful L then
      (fst (RNN.reset_states cls None L1),
       (snd (RNN.reset_states cls None L1), Some specs))
    else (Ok tt, (L1, Some specs)).
Proof.
  intros Hn Hlast Hcell. cbn zeta. unfold RNN.build. cbn [fst snd].
  rewrite Hn.
  destruct (RNN.stateful L) eqn:Hst;
    cbn [RNN.tuple_getitem nth_error Py.bind];
    rewrite Hlast;
    cbn [Py.bind RNN.set_input_spec_shape RNN.cell];
    rewrite Hcell; cbn [fst snd RNN.check_state_spec RNN.set_cell RNN.cell
                        RNN.stateful];
    change (RNN.stateful (RNN.set_input_spec_shape
                            L (Some [d0; None; input_dim])))
      with (RNN.stateful L) ||
    change (RNN.stateful (RNN.set_input_spec_shape
                            L (Some [None; None; input_dim])))
      with (RNN.stateful L);
    rewrite Hst; reflexivity.
Qed.

(** X25: building a stateful layer creates its states.  [build] on an
    input shape with batch size [b > 0], on a stateful layer that counts no
    constants and has neither state variables nor a state spec yet,
    succeeds once the cell is built; it records the input spec
    [(b, None, input_dim)], sets one state spec [(None, dim)] per state of
    the built cell and ends with [reset_states()], which leaves one state
    variable [K.zeros((b, dim))] per state. *)
Theorem build_of_a_stateful_layer_creates_zero_states
    (L : RNN.t C) (b : nat) (d1 : option nat) (rest : list (option nat))
    (input_dim : option nat) (c' : C) :
  RNN.stateful L = true ->
  RNN._num_constants L = None ->
  RNN._states L = None ->
  RNN.tuple_last (Some (S b) :: d1 :: rest) = Ok input_dim ->
  build_cell None (Some (S b) :: d1 :: rest) (RNN.cell L) = (Ok tt, c') ->
  RNN.state_size cls c' <> SizeSeq [] ->
  exists L',
    build (One (Some (S b) :: d1 :: rest)) (L, None)
    = (Ok tt, (L', Some (map (fun dim => [None; Some dim]) (sizes c')))) /\
    RNN.cell L' = c' /\
    RNN.input_spec_shape L' = Some [Some (S b); None; input_dim] /\
    RNN.states cls L'
    = map (fun dim => Some (K.zeros (S b) dim)) (sizes c').
Proof.
  intros Hst Hn Hs Hlast Hcell Hne.
  rewrite (build_unfold L (Some (S b)) d1 rest input_dim c' Hn Hlast Hcell).
  rewrite Hst.
  set (L1 := RNN.set_cell
               (RNN.set_input_spec_shape
                  L (Some [Some (S b); None; input_dim])) c').
  assert (H0 : nth_error (RNN.states cls L1) 0 = Some None).
  { unfold RNN.states. cbn [L1 RNN._states RNN.set_cell
                            RNN.set_input_spec_shape RNN.cell].
    rewrite Hs.
    destruct (RNN.state_size cls c') as [ n | [ | d dims ] ];
      [ reflexivity | congruence | reflexivity ]. }
  rewrite (ResetStatesFacts.reset_states_first cls L1 b [None; input_dim]
             None Hst eq_refl H0).
  cbn [fst snd]. eexists. split; [ reflexivity | ].
  split; [ reflexivity | ]. split; [ reflexivity | ].
  unfold RNN.states, ResetStates.initial_zeros.
  cbn [RNN._states RNN.set_states L1 RNN.cell RNN.set_cell].
  destruct (RNN.state_size cls c'); reflexivity.
Qed.

(** X26: a stateful layer cannot be built on an input shape without a
    batch size, and finds out late.  [build] raises the [ValueError] of
    [reset_states] only at its end: by then the cell has been built, and
    the input spec [(None, None, input_dim)] and the state specs have been
    set; no state variable has been created. *)
Theorem build_of_a_stateful_layer_without_batch_size_fails_at_the_end
    (L : RNN.t C) (d1 : option nat) (rest : list (option nat))
    (input_dim : option nat) (c' : C) :
  RNN.stateful L = true ->
  RNN._num_constants L = None ->
  RNN.tuple_last (None :: d1 :: rest) = Ok input_dim ->
  build_cell None (None :: d1 :: rest) (RNN.cell L) = (Ok tt, c') ->
  exists msg L',
    build (One (None :: d1 :: rest)) (L, None)
    = (Raise (ValueError msg),
       (L', Some (map (fun dim => [None; Some dim]) (sizes c')))) /\
    RNN.cell L' = c' /\
    RNN.input_spec_shape L' = Some [None; None; input_dim] /\
    RNN._states L' = RNN._states L.
Proof.
  intros Hst Hn Hlast Hcell.
  rewrite (build_unfold L None d1 rest input_dim c' Hn Hlast Hcell).
  rewrite Hst. unfold RNN.reset_states.
  cbn [RNN.stateful RNN.set_cell RNN.set_input_spec_shape
       RNN.input_spec_shape]. rewrite Hst.
  cbn [negb getitem nth_error fst snd].
  do 2 eexists. split; [ reflexivity | ].
  split; [ reflexivity | ]. split; reflexivity.
Qed.

End Build.

Lemma build_of_a_stateful_layer_creates_zero_states_witness :
  exists L',
    RNN.build RNN.Stateful.cls true (fun _ c => (Ok tt, c))
              (One [Some 2; Some 7; Some 3]) (RNN.Stateful.layer, None)
    = (Ok tt, (L', Some [[None; Some 4]; [None; Some 3]])) /\
    RNN.cell L' = tt /\
    RNN.input_spec_shape L' = Some [Some 2; None; Some 3] /\
    RNN.states RNN.Stateful.cls L'
    = [Some (K.zeros 2 4); Some (K.zeros 2 3)].
Proof.
  apply (build_of_a_stateful_layer_creates_zero_states
           RNN.Stateful.cls true (fun _ c => (Ok tt, c))
           RNN.Stateful.layer 1 (Some 7) [Some 3] (Some 3) tt).
  - reflexivity.
  - reflexivity.
  - reflexivity.
  - reflexivity.
  - reflexivity.
  - discriminate.
Defined.

Lemma build_of_a_stateful_layer_without_batch_size_fails_at_the_end_witness :
  exists msg L',
    RNN.build RNN.Stateful.cls true (fun _ c => (Ok tt, c))
              (One [None; Some 7; Some 3]) (RNN.Stateful.layer, None)
    = (Raise (ValueError msg),
       (L', Some [[None; Some 4]; [None; Some 3]])) /\
    RNN.cell L' = tt /\
    RNN.input_spec_shape L' = Some [None; None; Some 3] /\
    RNN._states L' = RNN._states RNN.Stateful.layer.
Proof.
  apply (build_of_a_stateful_layer_without_batch_size_fails_at_the_end
           RNN.Stateful.cls true (fun _ c => (Ok tt, c))
           RNN.Stateful.layer (Some 7) [Some 3] (Some 3) tt);
    reflexivity.
Defined.

End RNNBuildFacts.

(* ================================================================== *)
(** * [StackedRNNCells.call] and the number of states *)
(* ================================================================== *)
Module StackedStatesFacts.

Import Py.
Import StackedRNNCells.

(** X27: [StackedRNNCells.call] does not count its states.  It cuts the
    states of the cells off the front of the list, last cell first, and
    never looks at what is left: on a list that holds the states of all
    cells followed by any further entries, it returns what it returns
    without them, and the further entries are not part of the new
    states. *)
Theorem stack_call_ignores_surplus_states {T KW : Type}
    (cells : list (Cell T KW)) (chunks : list (list T)) (surplus : list T)
    (inputs : T) (constants : option (list T)) (kwargs : KW) :
  Forall2 (fun cell chunk => length chunk = num_states cell) cells chunks ->
  call cells inputs (reversed_layout chunks ++ surplus) constants kwargs
  = call cells inputs (reversed_layout chunks) constants kwargs.
Proof.
  intros HF. unfold call, reversed_layout.
  apply PyFacts.Forall2_rev in HF.
  rewrite (StackedRNNCellsFacts.recover_states_chunks
             (rev cells) (rev chunks) surplus [] HF).
  rewrite <- (app_nil_r (concat (rev chunks))) at 1.
  rewrite (StackedRNNCellsFacts.recover_states_chunks
             (rev cells) (rev chunks) [] [] HF).
  reflexivity.
Qed.

Lemma stack_call_ignores_surplus_states_witness :
  call [Example.cell0; Example.cell1] 1%Z [30; 10; 77; 88]%Z None tt
  = call [Example.cell0; Example.cell1] 1%Z [30; 10]%Z None tt.
Proof.
  apply (stack_call_ignores_surplus_states
           [Example.cell0; Example.cell1] [[10]; [30]]%Z [77; 88]%Z
           1%Z None tt).
  repeat constructor.
Defined.

End StackedStatesFacts.
